(** * Vafrum Core client: device sessions, telemetry merge, camera frames

    A shallow embedding of the gateway's main process.  The desktop and
    the headless variant agree on the modelled functions up to the lines
    they log; the desktop variant is followed.

    - [decodeTemp], the packed temperature decoder;
    - the telemetry merge performed by the MQTT [message] handler;
    - the connection manager ([connectPrinter], [scheduleReconnect],
      [resetReconnectCounter], [executeCommand] with the callbacks and
      timers it leaves, and the cloud-channel handlers), as handlers
      over an explicit state;
    - [processJpegBuffer], the JPEG frame extractor;
    - the camera of the A1 and P1 series: the authentication packet, the
      stream objects with their sockets, reconnect timers, watchdogs and
      viewers ([startJpegStream], [connectJpegStream], [stopJpegStream]);
    - the routing of camera streams ([addCameraStream], the queue of the
      relay, the camera URLs behind the tunnel);
    - the supervisor of the relay ([startGo2rtc],
      [restartGo2rtcWithAllStreams], [startGo2rtcWithConfig]);
    - [disconnectApi];
    - of the window: [addLog] and the buttons of a printer card. *)

From Stdlib Require Import ZArith Lia List Bool Ascii String.
From Stdlib Require Import Floats.SpecFloat.
From stdpp Require Import gmap strings list fin_maps.

Local Open Scope Z_scope.

(** ** JavaScript values *)

(** A JavaScript number is an IEEE binary64 value.  [spec_float] describes
    it by sign, mantissa and exponent: [S754_finite s m e] denotes
    [(-1)^s * m * 2^e]; every binary64 value has this form. *)
Abbreviation jsnum := spec_float.

(** The primitive values a parsed JSON report can hold in a scalar field.
    [JUndef] is an absent key. *)
Inductive jsval :=
| JUndef
| JNull
| JBool (b : bool)
| JNum (x : jsnum)
| JStr (s : string).

(** Built-ins of the language whose result depends on decimal parsing of
    strings.  They are pure functions; the development is parametric in
    them. *)
Class JsBuiltins := {
  parseInt : jsval -> jsnum;
  parseFloat : jsval -> jsnum;
  StringToNumber : string -> jsnum
}.

(** An integer as a JavaScript number. *)
Definition num_of_Z (z : Z) : jsnum :=
  match z with
  | Z0 => S754_zero false
  | Zpos p => S754_finite false p 0
  | Zneg p => S754_finite true p 0
  end.

(** [x === 0]: both zeros compare equal to [0]. *)
Definition is_zero (x : jsnum) : bool :=
  match x with S754_zero _ => true | _ => false end.

Definition is_nan (x : jsnum) : bool :=
  match x with S754_nan => true | _ => false end.

(** [x > 0]. *)
Definition is_positive (x : jsnum) : bool :=
  match x with
  | S754_finite false _ _ | S754_infinity false => true
  | _ => false
  end.

(** ToBoolean. *)
Definition truthy (v : jsval) : bool :=
  match v with
  | JUndef | JNull => false
  | JBool b => b
  | JNum x => negb (is_zero x || is_nan x)
  | JStr s => negb (String.eqb s "")
  end.

(** [a ?? b] *)
Definition nullish (v : jsval) : bool :=
  match v with JUndef | JNull => true | _ => false end.

Definition coalesce (a b : jsval) : jsval := if nullish a then b else a.

(** [a || b] *)
Definition js_or (a b : jsval) : jsval := if truthy a then a else b.

(** [x || 0] on a number. *)
Definition num_or_zero (x : jsnum) : jsnum :=
  if truthy (JNum x) then x else S754_zero false.

(** [v === 'lit'] *)
Definition is_str (lit : string) (v : jsval) : bool :=
  match v with JStr s => String.eqb s lit | _ => false end.

Infix "??" := coalesce (at level 61, left associativity).

(** *** ToInt32 and the bitwise operators *)

(** The integer part of a number, truncated towards zero; NaN, the zeros
    and the infinities give [0].  A negative exponent shifts right. *)
Definition trunc (x : jsnum) : Z :=
  match x with
  | S754_finite s m e =>
      let a := Z.shiftl (Zpos m) e in if s then - a else a
  | _ => 0
  end.

(** Reduction modulo [2^32] into the signed range. *)
Definition wrap32 (z : Z) : Z :=
  let u := z mod 2 ^ 32 in
  if 2 ^ 31 <=? u then u - 2 ^ 32 else u.

Definition ToInt32 (x : jsnum) : Z := wrap32 (trunc x).

Section Builtins.
Context `{!JsBuiltins}.

Definition ToNumber (v : jsval) : jsnum :=
  match v with
  | JUndef => S754_nan
  | JNull => S754_zero false
  | JBool b => if b then num_of_Z 1 else S754_zero false
  | JNum x => x
  | JStr s => StringToNumber s
  end.

(** [a & mask] for a non-negative 16-bit [mask]: on two's complement
    integers [Z.land] is the 32-bit and. *)
Definition js_and (v : jsval) (mask : Z) : Z := Z.land (ToInt32 (ToNumber v)) mask.

(** [a >> n] for [0 <= n < 32]: arithmetic shift of the 32-bit value. *)
Definition js_shr (v : jsval) (n : Z) : Z := Z.shiftr (ToInt32 (ToNumber v)) n.

(** ** Packed temperatures *)

Record Temp := { current : Z; target : Z }.

(** <<
  const decodeTemp = (encoded) => {
    if (encoded === undefined || encoded === null || encoded === 0)
      return { current: 0, target: 0 };
    return { current: encoded & 0xFFFF, target: (encoded >> 16) & 0xFFFF };
  };
>> *)
Definition decodeTemp (encoded : jsval) : Temp :=
  match encoded with
  | JUndef | JNull => {| current := 0; target := 0 |}
  | JNum (S754_zero _) => {| current := 0; target := 0 |}
  | _ => {| current := js_and encoded 0xFFFF;
            target := Z.land (js_shr encoded 16) 0xFFFF |}
  end.

End Builtins.

(** The packing named by the comment above [decodeTemp]:
    [(target << 16) | current], as an unsigned 32-bit value ... *)
Definition encodeTemp (cur tgt : Z) : Z := Z.lor (Z.shiftl tgt 16) cur.

(** ... and as the signed 32-bit value JavaScript's [|] produces. *)
Definition encodeTemp_int32 (cur tgt : Z) : Z := wrap32 (encodeTemp cur tgt).

(** A model of the string built-ins on unsigned decimal literals and on
    integers held with exponent zero (below [10^21]), used to run the model
    on concrete inputs; every other argument is NaN. *)
Fixpoint decimal_digits (s : string) (acc : Z) : option Z :=
  match s with
  | EmptyString => Some acc
  | String c r =>
      let n := Z.of_nat (nat_of_ascii c) in
      if (48 <=? n) && (n <=? 57) then decimal_digits r (10 * acc + (n - 48))
      else None
  end.

Definition decimal_literal (s : string) : jsnum :=
  match s with
  | EmptyString => S754_nan
  | _ => match decimal_digits s 0 with Some z => num_of_Z z | None => S754_nan end
  end.

Definition decimal_builtins : JsBuiltins :=
  {| parseInt := fun v => match v with
                          | JStr s => decimal_literal s
                          | JNum (S754_finite s m 0) => S754_finite s m 0
                          | JNum (S754_zero _) => S754_zero false
                          | _ => S754_nan
                          end;
     parseFloat := fun v => match v with
                            | JStr s => decimal_literal s
                            | JNum x => x
                            | _ => S754_nan
                            end;
     StringToNumber := fun s => match s with
                                | EmptyString => S754_zero false
                                | _ => decimal_literal s
                                end |}.

(** *** Strings *)

(** [toUpperCase] on ASCII text. *)
Definition upper_ascii (c : ascii) : ascii :=
  let n := nat_of_ascii c in
  if ((97 <=? n) && (n <=? 122))%nat then ascii_of_nat (n - 32) else c.

Fixpoint toUpperCase (s : string) : string :=
  match s with
  | EmptyString => EmptyString
  | String c r => String (upper_ascii c) (toUpperCase r)
  end.

(** [hay.includes(needle)] *)
Fixpoint includes (needle hay : string) : bool :=
  String.prefix needle hay ||
  match hay with
  | EmptyString => false
  | String _ r => includes needle r
  end.

(** ** Telemetry: the report and the snapshot *)

Definition JZero : jsval := JNum (S754_zero false).
Definition JEmpty : jsval := JStr "".

(** The printer descriptor announced by the control plane. *)
Record Descriptor := {
  printerId : jsval;
  serialNumber : string;
  name : string;
  model : option string;
  ipAddress : string;
  accessCode : string
}.

(** A feeder tray, an external spool ([vt_tray]) or a virtual slot
    ([vir_slot], which also carries [id]) as reported. *)
Record Tray := {
  tray_id : jsval;
  tray_type : jsval;
  tray_color : jsval;
  tray_sub_brands : jsval;
  tray_remain : jsval;
  tray_k : jsval;
  nozzle_temp_min : jsval;
  nozzle_temp_max : jsval;
  tray_info_idx : jsval;
  tag_uid : jsval;
  tray_uuid : jsval;
  tray_weight : jsval;
  drying_temp : jsval;
  drying_time : jsval
}.

(** One feeder unit of [print.ams.ams]; [unit_tray] is [None] when
    [unit.tray] is not an array, and holds [None] for a null entry. *)
Record AmsUnit := {
  humidity_raw : jsval;
  unit_humidity : jsval;
  unit_temp : jsval;
  unit_tray : option (list (option Tray))
}.

(** [print.ams]; [ams_units] is [None] when [print.ams.ams] is not an
    array. *)
Record AmsReport := {
  ams_humidity : jsval;
  tray_now : jsval;
  ams_units : option (list AmsUnit)
}.

Record Light := { light_node : jsval; light_mode : jsval }.

(** [data.print].  Scalar fields are [JUndef] when absent; array and
    object fields are [None] when absent (or not of that shape).  The
    extruder arrays hold each entry's [?.temp]. *)
Record PrintReport := {
  gcode_state : jsval;
  mc_percent : jsval;
  mc_remaining_time : jsval;
  gcode_file : jsval;
  subtask_name : jsval;
  layer_num : jsval;
  total_layer_num : jsval;
  nozzle_temper : jsval;
  nozzle_target_temper : jsval;
  nozzle_temper_2 : jsval;
  nozzle_target_temper_2 : jsval;
  bed_temper : jsval;
  bed_target_temper : jsval;
  chamber_temper : jsval;
  cooling_fan_speed : jsval;
  big_fan1_speed : jsval;
  big_fan2_speed : jsval;
  lights_report : option (list Light);
  spd_lvl : jsval;
  spd_mag : jsval;
  p_ams : option AmsReport;
  vir_slot : option (list Tray);
  vt_tray : option Tray;
  wifi_signal : jsval;
  print_type : jsval;
  print_error : jsval;
  mc_print_error_code : jsval;
  mc_print_stage : jsval;
  p_hms : option (list (jsval * jsval));
  device_extruder_info : option (list jsval);
  extruder_info : option (list jsval);
  device_ctc_info_temp : jsval;
  info_temp : jsval
}.

(** A parsed MQTT message: [data.print] and [data.system]. *)
Record Message := {
  print : option PrintReport;
  system : jsval
}.

Record UnitData := {
  ud_id : nat;
  ud_temp : jsnum;
  ud_humidity : option jsnum;
  ud_humidityIndex : option jsnum
}.

Record TrayData := {
  td_id : nat;
  td_unitId : nat;
  td_slot : nat;
  td_type : jsval;
  td_color : jsval;
  td_name : jsval;
  td_remain : jsnum;
  td_k : jsval;
  td_nozzleTempMin : jsval;
  td_nozzleTempMax : jsval;
  td_trayInfoIdx : jsval;
  td_tagUid : jsval;
  td_trayUuid : jsval;
  td_trayWeight : jsnum;
  td_dryingTemp : jsnum;
  td_dryingTime : jsnum
}.

(** An external spool; [sp_id] is absent for the legacy [vt_tray] shape. *)
Record SpoolData := {
  sp_id : option jsnum;
  sp_type : jsval;
  sp_color : jsval;
  sp_name : jsval;
  sp_remain : jsnum;
  sp_k : jsval;
  sp_nozzleTempMin : jsval;
  sp_nozzleTempMax : jsval;
  sp_trayInfoIdx : jsval;
  sp_tagUid : jsval;
  sp_trayWeight : jsnum
}.

Record AmsState := {
  humidity : jsval;
  trayNow : jsval;
  units : list UnitData;
  trays : list TrayData
}.

(** The registry entry of a printer: the descriptor keys spread into it by
    the [connect] handler ([descr], [None] for an entry created empty) and
    the keys of the status object.  A key holding [JUndef] or [None] is
    absent or undefined.  [h2debug] stands for the diagnostic strings,
    which are rendered from the message alone. *)
Record Snapshot := {
  descr : option Descriptor;
  online : jsval;
  gcodeState : jsval;
  printProgress : jsval;
  remainingTime : jsval;
  currentFile : jsval;
  layer : jsval;
  totalLayers : jsval;
  nozzleTemp : jsval;
  nozzleTargetTemp : jsval;
  nozzleTemp2 : jsval;
  nozzleTargetTemp2 : jsval;
  bedTemp : jsval;
  bedTargetTemp : jsval;
  chamberTemp : jsval;
  partFan : jsval;
  auxFan : jsval;
  chamberFan : jsval;
  chamberLight : jsval;
  workLight : jsval;
  speedLevel : jsval;
  speedMagnitude : jsval;
  ams : option AmsState;
  externalSpool : option SpoolData;
  externalSpools : option (list SpoolData);
  wifiSignal : jsval;
  printType : jsval;
  printError : jsval;
  printErrorCode : jsval;
  printStage : jsval;
  hms : option (list (jsval * jsval));
  h2debug : option Message
}.

(** [{}] *)
Definition emptySnapshot : Snapshot :=
  {| descr := None; online := JUndef; gcodeState := JUndef;
     printProgress := JUndef; remainingTime := JUndef; currentFile := JUndef;
     layer := JUndef; totalLayers := JUndef; nozzleTemp := JUndef;
     nozzleTargetTemp := JUndef; nozzleTemp2 := JUndef;
     nozzleTargetTemp2 := JUndef; bedTemp := JUndef; bedTargetTemp := JUndef;
     chamberTemp := JUndef; partFan := JUndef; auxFan := JUndef;
     chamberFan := JUndef; chamberLight := JUndef; workLight := JUndef;
     speedLevel := JUndef; speedMagnitude := JUndef; ams := None;
     externalSpool := None; externalSpools := None; wifiSignal := JUndef;
     printType := JUndef; printError := JUndef; printErrorCode := JUndef;
     printStage := JUndef; hms := None; h2debug := None |}.

(** [{ ...printer, online: true }] *)
Definition connectedSnapshot (printer : Descriptor) : Snapshot :=
  {| descr := Some printer; online := JBool true; gcodeState := JUndef;
     printProgress := JUndef; remainingTime := JUndef; currentFile := JUndef;
     layer := JUndef; totalLayers := JUndef; nozzleTemp := JUndef;
     nozzleTargetTemp := JUndef; nozzleTemp2 := JUndef;
     nozzleTargetTemp2 := JUndef; bedTemp := JUndef; bedTargetTemp := JUndef;
     chamberTemp := JUndef; partFan := JUndef; auxFan := JUndef;
     chamberFan := JUndef; chamberLight := JUndef; workLight := JUndef;
     speedLevel := JUndef; speedMagnitude := JUndef; ams := None;
     externalSpool := None; externalSpools := None; wifiSignal := JUndef;
     printType := JUndef; printError := JUndef; printErrorCode := JUndef;
     printStage := JUndef; hms := None; h2debug := None |}.

(** ** Telemetry: the merge of the [message] handler *)

Section Telemetry.
Context `{!JsBuiltins}.

(** [printers.get(serial)?.model?.toUpperCase()?.includes('H2')] *)
Definition isH2 (s : Snapshot) : bool :=
  match descr s with
  | Some d =>
      match model d with
      | Some m => includes "H2" (toUpperCase m)
      | None => false
      end
  | None => false
  end.

(** Chamber temperature of the CTC module:
    [prev.chamberTemp = ctcTemp & 0xFFFF] when [ctcTemp] is neither
    undefined nor null.  The entry is updated in place. *)
Definition ctcUpdate (p : PrintReport) (s : Snapshot) : Snapshot :=
  let ctcTemp := device_ctc_info_temp p in
  if nullish ctcTemp then s
  else
    {| descr := descr s; online := online s; gcodeState := gcodeState s;
       printProgress := printProgress s; remainingTime := remainingTime s;
       currentFile := currentFile s; layer := layer s;
       totalLayers := totalLayers s; nozzleTemp := nozzleTemp s;
       nozzleTargetTemp := nozzleTargetTemp s; nozzleTemp2 := nozzleTemp2 s;
       nozzleTargetTemp2 := nozzleTargetTemp2 s; bedTemp := bedTemp s;
       bedTargetTemp := bedTargetTemp s;
       chamberTemp := JNum (num_of_Z (js_and ctcTemp 0xFFFF));
       partFan := partFan s; auxFan := auxFan s; chamberFan := chamberFan s;
       chamberLight := chamberLight s; workLight := workLight s;
       speedLevel := speedLevel s; speedMagnitude := speedMagnitude s;
       ams := ams s; externalSpool := externalSpool s;
       externalSpools := externalSpools s; wifiSignal := wifiSignal s;
       printType := printType s; printError := printError s;
       printErrorCode := printErrorCode s; printStage := printStage s;
       hms := hms s; h2debug := h2debug s |}.

(** *** Filament system *)

Definition is_undef (v : jsval) : bool :=
  match v with JUndef => true | _ => false end.

Definition unitData (unitIdx : nat) (u : AmsUnit) : UnitData :=
  let hasHumidityRaw :=
    negb (is_undef (humidity_raw u)) && negb (is_str "" (humidity_raw u)) in
  let hasHumidityIndex :=
    negb (is_undef (unit_humidity u)) && negb (is_str "" (unit_humidity u))
    && is_positive (parseInt (unit_humidity u)) in
  {| ud_id := unitIdx;
     ud_temp := num_or_zero (parseFloat (unit_temp u));
     ud_humidity :=
       if hasHumidityRaw then Some (parseInt (humidity_raw u))
       else if hasHumidityIndex then Some (parseInt (unit_humidity u))
       else None;
     ud_humidityIndex :=
       if hasHumidityRaw then Some (num_or_zero (parseInt (unit_humidity u)))
       else if hasHumidityIndex then Some (parseInt (unit_humidity u))
       else None |}.

(** [tray.tray_type || (tray.tray_color && tray.tray_color !== '00000000')] *)
Definition hasData (t : Tray) : bool :=
  truthy (tray_type t)
  || (truthy (tray_color t) && negb (is_str "00000000" (tray_color t))).

Definition trayData (unitIdx trayIdx : nat) (t : Tray) : TrayData :=
  {| td_id := unitIdx * 4 + trayIdx;
     td_unitId := unitIdx;
     td_slot := trayIdx;
     td_type := js_or (tray_type t) JEmpty;
     td_color := js_or (tray_color t) JEmpty;
     td_name := js_or (js_or (tray_sub_brands t) (tray_type t)) JEmpty;
     td_remain := if nullish (tray_remain t) then num_of_Z (-1)
                  else parseInt (tray_remain t);
     td_k := js_or (tray_k t) JZero;
     td_nozzleTempMin := js_or (nozzle_temp_min t) JZero;
     td_nozzleTempMax := js_or (nozzle_temp_max t) JZero;
     td_trayInfoIdx := js_or (tray_info_idx t) JEmpty;
     td_tagUid := js_or (tag_uid t) JEmpty;
     td_trayUuid := js_or (tray_uuid t) JEmpty;
     td_trayWeight := if truthy (tray_weight t) then parseInt (tray_weight t)
                      else S754_zero false;
     td_dryingTemp := if truthy (drying_temp t) then parseInt (drying_temp t)
                      else S754_zero false;
     td_dryingTime := if truthy (drying_time t) then parseInt (drying_time t)
                      else S754_zero false |}.

(** The trays of one unit that carry data, in slot order. *)
Definition unitTrays (unitIdx : nat) (u : AmsUnit) : list TrayData :=
  match unit_tray u with
  | Some ts =>
      omap (fun x => x)
        (imap (fun trayIdx t =>
                 match t with
                 | Some tr => if hasData tr then Some (trayData unitIdx trayIdx tr)
                              else None
                 | None => None
                 end) ts)
  | None => []
  end.

(** [let ams = null; if (p.ams) { ... }] *)
Definition parseAms (prevStatus : Snapshot) (p : PrintReport) : option AmsState :=
  match p_ams p with
  | None => None
  | Some a =>
      let prevAms :=
        default {| humidity := JUndef; trayNow := JUndef; units := []; trays := [] |}
                (ams prevStatus) in
      Some {| humidity := ams_humidity a ?? humidity prevAms;
              trayNow := tray_now a ?? trayNow prevAms;
              units := match ams_units a with
                       | Some us => imap unitData us
                       | None => units prevAms
                       end;
              trays := match ams_units a with
                       | Some us => concat (imap unitTrays us)
                       | None => trays prevAms
                       end |}
  end.

(** [vtType || (vtColor && vtColor !== '00000000')] with
    [vtType = slot.tray_type || ''] and [vtColor = slot.tray_color || '']. *)
Definition spoolHasData (t : Tray) : bool :=
  let vtType := js_or (tray_type t) JEmpty in
  let vtColor := js_or (tray_color t) JEmpty in
  truthy vtType || (truthy vtColor && negb (is_str "00000000" vtColor)).

Definition spoolData (withId : bool) (t : Tray) : SpoolData :=
  {| sp_id := if withId
              then Some (if nullish (tray_id t) then num_of_Z 254
                         else parseInt (tray_id t))
              else None;
     sp_type := js_or (tray_type t) JEmpty;
     sp_color := js_or (tray_color t) JEmpty;
     sp_name := js_or (tray_sub_brands t) JEmpty;
     sp_remain := if nullish (tray_remain t) then num_of_Z (-1)
                  else parseInt (tray_remain t);
     sp_k := js_or (tray_k t) JZero;
     sp_nozzleTempMin := js_or (nozzle_temp_min t) JZero;
     sp_nozzleTempMax := js_or (nozzle_temp_max t) JZero;
     sp_trayInfoIdx := js_or (tray_info_idx t) JEmpty;
     sp_tagUid := js_or (tag_uid t) JEmpty;
     sp_trayWeight := if truthy (tray_weight t) then parseInt (tray_weight t)
                      else S754_zero false |}.

(** The list [externalSpools] built from [vir_slot] (non-empty array) or
    else from [vt_tray]; [externalSpool] is its first element. *)
Definition parseExternalSpools (p : PrintReport) : list SpoolData :=
  match vir_slot p with
  | Some (slot :: slots) =>
      map (spoolData true) (filter (fun t => spoolHasData t = true) (slot :: slots))
  | _ =>
      match vt_tray p with
      | Some t => if spoolHasData t then [spoolData false t] else []
      | None => []
      end
  end.

(** *** Stale data and the printing-to-idle transition *)

Definition isIdle (state : jsval) : bool :=
  is_str "IDLE" state || is_str "FINISH" state.

Definition isPrinting (state : jsval) : bool :=
  is_str "RUNNING" state || is_str "PAUSE" state || is_str "PREPARE" state.

(** [p.print_error === undefined || p.print_error === null || p.print_error === 0] *)
Definition noActiveError (p : PrintReport) : bool :=
  match print_error p with
  | JUndef | JNull => true
  | JNum x => is_zero x
  | _ => false
  end.

(** The assignments to [prevStatus] under
    [currentState === 'IDLE' || currentState === 'FINISH']. *)
Definition staleFix (p : PrintReport) (s : Snapshot) : Snapshot :=
  {| descr := descr s; online := online s; gcodeState := gcodeState s;
     printProgress := JZero; remainingTime := JZero;
     currentFile := currentFile s; layer := layer s;
     totalLayers := totalLayers s; nozzleTemp := nozzleTemp s;
     nozzleTargetTemp := JZero; nozzleTemp2 := nozzleTemp2 s;
     nozzleTargetTemp2 := JZero; bedTemp := bedTemp s;
     bedTargetTemp := JZero; chamberTemp := chamberTemp s;
     partFan := partFan s; auxFan := auxFan s; chamberFan := chamberFan s;
     chamberLight := chamberLight s; workLight := workLight s;
     speedLevel := speedLevel s; speedMagnitude := speedMagnitude s;
     ams := ams s; externalSpool := externalSpool s;
     externalSpools := externalSpools s; wifiSignal := wifiSignal s;
     printType := printType s;
     printError := if noActiveError p then JZero else printError s;
     printErrorCode := if noActiveError p then JEmpty else printErrorCode s;
     printStage := printStage s; hms := Some []; h2debug := h2debug s |}.

(** The assignments to [prevStatus] under [wasPrinting && nowIdle]. *)
Definition transitionReset (s : Snapshot) : Snapshot :=
  {| descr := descr s; online := online s; gcodeState := gcodeState s;
     printProgress := printProgress s; remainingTime := remainingTime s;
     currentFile := currentFile s; layer := layer s;
     totalLayers := totalLayers s; nozzleTemp := JZero;
     nozzleTargetTemp := nozzleTargetTemp s; nozzleTemp2 := JUndef;
     nozzleTargetTemp2 := nozzleTargetTemp2 s; bedTemp := JZero;
     bedTargetTemp := bedTargetTemp s; chamberTemp := JZero;
     partFan := partFan s; auxFan := auxFan s; chamberFan := chamberFan s;
     chamberLight := chamberLight s; workLight := workLight s;
     speedLevel := speedLevel s; speedMagnitude := speedMagnitude s;
     ams := ams s; externalSpool := externalSpool s;
     externalSpools := externalSpools s; wifiSignal := wifiSignal s;
     printType := printType s; printError := printError s;
     printErrorCode := printErrorCode s; printStage := printStage s;
     hms := hms s; h2debug := h2debug s |}.

(** *** Nozzle temperatures *)

Record Nozzles := {
  nozzle1Temp : jsval;
  nozzle1Target : jsval;
  nozzle2Temp : jsval;
  nozzle2Target : jsval
}.

Definition JInt (z : Z) : jsval := JNum (num_of_Z z).

(** H2 models ignore the legacy fields; a packed extruder array
    ([p.device.extruder.info] with at least one entry, else
    [p.extruder.info] with at least two) overrides both. *)
Definition nozzles (isH2Model : bool) (prevStatus : Snapshot) (p : PrintReport)
  : Nozzles :=
  let n1Temp := if isH2Model then nozzleTemp prevStatus ?? JZero
                else nozzle_temper p ?? nozzleTemp prevStatus ?? JZero in
  let n1Target := if isH2Model then nozzleTargetTemp prevStatus ?? JZero
                  else nozzle_target_temper p ?? nozzleTargetTemp prevStatus ?? JZero in
  let n2Temp := if isH2Model then nozzleTemp2 prevStatus
                else nozzle_temper_2 p ?? nozzleTemp2 prevStatus in
  let n2Target := if isH2Model then nozzleTargetTemp2 prevStatus
                  else nozzle_target_temper_2 p ?? nozzleTargetTemp2 prevStatus in
  match device_extruder_info p with
  | Some (e0 :: rest) =>
      let left := decodeTemp e0 in
      match rest with
      | e1 :: _ =>
          let right := decodeTemp e1 in
          {| nozzle1Temp := JInt (current left); nozzle1Target := JInt (target left);
             nozzle2Temp := JInt (current right); nozzle2Target := JInt (target right) |}
      | [] =>
          {| nozzle1Temp := JInt (current left); nozzle1Target := JInt (target left);
             nozzle2Temp := n2Temp; nozzle2Target := n2Target |}
      end
  | _ =>
      match extruder_info p with
      | Some (e0 :: e1 :: _) =>
          let left := decodeTemp e0 in
          let right := decodeTemp e1 in
          {| nozzle1Temp := JInt (current left); nozzle1Target := JInt (target left);
             nozzle2Temp := JInt (current right); nozzle2Target := JInt (target right) |}
      | _ =>
          {| nozzle1Temp := n1Temp; nozzle1Target := n1Target;
             nozzle2Temp := n2Temp; nozzle2Target := n2Target |}
      end
  end.

(** [p.lights_report.find(l => l.node === node)?.mode === 'on'] *)
Definition lightOn (node : string) (l : list Light) : bool :=
  match List.find (fun x => is_str node (light_node x)) l with
  | Some x => is_str "on" (light_mode x)
  | None => false
  end.

(** *** The status object and the stored entry *)

(** [{ ...printers.get(serial), ...status }]: the status keys, computed
    from the report and the (already cleaned) [prevStatus], over the
    descriptor keys of the entry. *)
Definition status (data : Message) (p : PrintReport) (isH2Model : bool)
    (amsParsed : option AmsState) (spools : list SpoolData)
    (prevStatus : Snapshot) : Snapshot :=
  let n := nozzles isH2Model prevStatus p in
  let chamberTempValue :=
    chamber_temper p ?? (if isH2Model then info_temp p else JUndef) in
  {| descr := descr prevStatus;
     online := JBool true;
     gcodeState := gcode_state p ?? gcodeState prevStatus ?? JStr "IDLE";
     printProgress := mc_percent p ?? printProgress prevStatus ?? JZero;
     remainingTime := mc_remaining_time p ?? remainingTime prevStatus ?? JZero;
     currentFile :=
       js_or (js_or (js_or (gcode_file p) (subtask_name p)) (currentFile prevStatus))
             JEmpty;
     layer := layer_num p ?? layer prevStatus ?? JZero;
     totalLayers := total_layer_num p ?? totalLayers prevStatus ?? JZero;
     nozzleTemp := nozzle1Temp n;
     nozzleTargetTemp := nozzle1Target n;
     nozzleTemp2 := nozzle2Temp n;
     nozzleTargetTemp2 := nozzle2Target n;
     bedTemp := bed_temper p ?? bedTemp prevStatus ?? JZero;
     bedTargetTemp := bed_target_temper p ?? bedTargetTemp prevStatus ?? JZero;
     chamberTemp := chamberTempValue ?? chamberTemp prevStatus ?? JZero;
     partFan := cooling_fan_speed p ?? partFan prevStatus;
     auxFan := big_fan1_speed p ?? auxFan prevStatus;
     chamberFan := big_fan2_speed p ?? chamberFan prevStatus;
     chamberLight :=
       match lights_report p with
       | Some l => JBool (lightOn "chamber_light" l)
       | None => chamberLight prevStatus
       end;
     workLight :=
       match lights_report p with
       | Some l => JBool (lightOn "chamber_light" l || lightOn "chamber_light2" l
                          || lightOn "work_light" l)
       | None => workLight prevStatus
       end;
     speedLevel := spd_lvl p ?? speedLevel prevStatus;
     speedMagnitude := spd_mag p ?? speedMagnitude prevStatus;
     ams := match amsParsed with Some a => Some a | None => ams prevStatus end;
     externalSpool :=
       match spools with sp :: _ => Some sp | [] => externalSpool prevStatus end;
     externalSpools :=
       match spools with _ :: _ => Some spools | [] => externalSpools prevStatus end;
     wifiSignal := wifi_signal p ?? wifiSignal prevStatus;
     printType := print_type p ?? printType prevStatus;
     printError := print_error p ?? printError prevStatus ?? JZero;
     printErrorCode := mc_print_error_code p ?? printErrorCode prevStatus ?? JEmpty;
     printStage := mc_print_stage p ?? printStage prevStatus;
     hms := Some (match p_hms p with
                  | Some h => h
                  | None => default [] (hms prevStatus)
                  end);
     h2debug := if isH2Model then Some data else None |}.

(** The telemetry merge: the body of the [message] handler from the CTC
    update to [printers.set], on the registry entry of the printer
    ([emptySnapshot] when there is none).  A message without [print]
    leaves the entry as it is.  [prevStatus] is the entry itself, so the
    assignments to it are updates of the entry; the entry is replaced by
    the result before the handler returns.  A report whose arrays hold
    something else than objects makes the handler throw; the exception is
    caught and the message dropped, and such reports are outside the typed
    [PrintReport]. *)
Definition merge (entry : Snapshot) (data : Message) : Snapshot :=
  match print data with
  | None => entry
  | Some p =>
      let prevStatus := ctcUpdate p entry in
      let isH2Model := isH2 prevStatus in
      let amsParsed := parseAms prevStatus p in
      let spools := parseExternalSpools p in
      let currentState := gcode_state p ?? gcodeState prevStatus in
      let prevStatus :=
        if isIdle currentState then staleFix p prevStatus else prevStatus in
      let prevState := gcodeState prevStatus in
      let wasPrinting := isPrinting prevState in
      let nowIdle := isIdle currentState in
      let prevStatus :=
        if wasPrinting && nowIdle then transitionReset prevStatus else prevStatus in
      status data p isH2Model amsParsed spools prevStatus
  end.

End Telemetry.

(** A report that carries nothing. *)
Definition emptyReport : PrintReport :=
  {| gcode_state := JUndef; mc_percent := JUndef; mc_remaining_time := JUndef;
     gcode_file := JUndef; subtask_name := JUndef; layer_num := JUndef;
     total_layer_num := JUndef; nozzle_temper := JUndef;
     nozzle_target_temper := JUndef; nozzle_temper_2 := JUndef;
     nozzle_target_temper_2 := JUndef; bed_temper := JUndef;
     bed_target_temper := JUndef; chamber_temper := JUndef;
     cooling_fan_speed := JUndef; big_fan1_speed := JUndef;
     big_fan2_speed := JUndef; lights_report := None; spd_lvl := JUndef;
     spd_mag := JUndef; p_ams := None; vir_slot := None; vt_tray := None;
     wifi_signal := JUndef; print_type := JUndef; print_error := JUndef;
     mc_print_error_code := JUndef; mc_print_stage := JUndef; p_hms := None;
     device_extruder_info := None; extruder_info := None;
     device_ctc_info_temp := JUndef; info_temp := JUndef |}.

(** [{ print: p }] *)
Definition printMessage (p : PrintReport) : Message :=
  {| print := Some p; system := JUndef |}.

(** ** Commands *)

(** A command object; a command given as a bare string [c] is
    [{ type: c }].  Absent keys are [JUndef]. *)
Record Command := {
  cmd_type : jsval;
  cmd_on : jsval;
  cmd_temp : jsval;
  cmd_speed : jsval;
  cmd_level : jsval;
  cmd_slot : jsval;
  cmd_trayId : jsval;
  cmd_gcode : jsval;
  cmd_calibrationType : jsval;
  cmd_distance : jsval;
  cmd_axis : jsval;
  cmd_amsId : jsval;
  cmd_trayType : jsval;
  cmd_trayColor : jsval;
  cmd_trayInfoIdx : jsval;
  cmd_nozzleTempMin : jsval;
  cmd_nozzleTempMax : jsval
}.

(** A piece of a G-code line built by string concatenation: a literal, the
    text of a value, or the text of [Math.round(v * 2.55)]. *)
Inductive Piece :=
| Lit (s : string)
| Val (v : jsval)
| Pwm (v : jsval).

(** What a property read on an object literal gives: a primitive value
    (an entry of the literal, or [undefined]), a method inherited from
    [Object.prototype], or [Object.prototype] itself (the key
    [__proto__]).  [JSON.stringify] leaves out a key whose value is a
    function and writes [Object.prototype] as an empty object. *)
Inductive Looked :=
| Plain (v : jsval)
| Method (name : string)
| ProtoObject.

(** The JSON payloads published to [device/<serial>/request].
    [PPushAll] is the request for a full report the [connect] handler
    sends, with [sequence_id: '0']; [PPushAllPlain] is the one sent after
    a filament setting, [{ pushing: { command: 'pushall' } }]. *)
Inductive Payload :=
| PGetVersion
| PPushAll
| PPushAllPlain
| PPrint (command : string)
| PLedCtrl (led_node : string) (led_on : bool) (user_id : bool)
| PGcodeLine (param : list Piece)
| PPrintSpeed (level : jsval)
| PAmsChangeFilament (tgt : jsval)
| PAmsFilamentSetting (ams_id tray_id : jsval) (tray_info_idx : Looked)
                      (tray_color nozzle_min nozzle_max tray_type_ : jsval).

(** The lines written by [sendLog], by the data they are built from. *)
Inductive LogMsg :=
| LogListReceived (n : nat)
| LogListEntry (p : Descriptor)
| LogPrinterAdded (p : Descriptor)
| LogPrinterRemoved (serial : string)
| LogConnecting (printerName : string)
| LogConnected (printerName : string)
| LogReconnect (printerName : string) (delaySec : Z) (attempt : nat)
| LogError (printerName : string)
| LogSystemResponse (printerName : string) (v : jsval)
| LogApiCommand (serial : string) (c : Command)
| LogExecuteCommand (serial : string) (c : Command)
| LogNoClient (serial : string) (available : gset string)
| LogWorkLight (serial : string) (note : string)
| LogMove (axis dist : jsval)
| LogGcode (note : string)
| LogAmsPrinter (serial : string)
| LogAmsTray (c : Command)
| LogAmsSetting (serial : string) (c : Command)
| LogPublish (topic : string)
| LogPublishResult (ty : jsval) (ok : bool)
| LogAmsResult (ok : bool)
| LogPushAllSent
| LogDebugEnd
| LogDebugMqtt (data : Message).

(** The names of the methods every object inherits from
    [Object.prototype]. *)
Definition objectPrototypeMethods : list string :=
  ["constructor"; "__defineGetter__"; "__defineSetter__"; "hasOwnProperty";
   "__lookupGetter__"; "__lookupSetter__"; "isPrototypeOf";
   "propertyIsEnumerable"; "toString"; "valueOf"; "toLocaleString"]%string.

(** [filamentCodeMap[trayType]] on the object literal of the thirteen
    filament codes.  The key of a value that is not a string is its text
    ([undefined], [null], [true], the digits of a number), which names no
    property. *)
Definition filamentCodeMap (trayType : jsval) : Looked :=
  match trayType with
  | JStr t =>
      if String.eqb t "PLA" then Plain (JStr "GFL99")
      else if String.eqb t "PLA-S" then Plain (JStr "GFL96")
      else if String.eqb t "PLA-CF" then Plain (JStr "GFL98")
      else if String.eqb t "PETG" then Plain (JStr "GFG99")
      else if String.eqb t "PETG-CF" then Plain (JStr "GFG98")
      else if String.eqb t "ABS" then Plain (JStr "GFB99")
      else if String.eqb t "ASA" then Plain (JStr "GFB98")
      else if String.eqb t "TPU" then Plain (JStr "GFU99")
      else if String.eqb t "PA" then Plain (JStr "GFN99")
      else if String.eqb t "PA-CF" then Plain (JStr "GFN98")
      else if String.eqb t "PC" then Plain (JStr "GFC99")
      else if String.eqb t "PVA" then Plain (JStr "GFS99")
      else if String.eqb t "HIPS" then Plain (JStr "GFS98")
      else if String.eqb t "__proto__" then ProtoObject
      else if existsb (String.eqb t) objectPrototypeMethods then Method t
      else Plain JUndef
  | _ => Plain JUndef
  end.

(** [cmd.trayInfoIdx || filamentCodeMap[cmd.trayType] || 'GFL99']; a
    function and an object are truthy. *)
Definition filamentCode (cmd : Command) : Looked :=
  if truthy (cmd_trayInfoIdx cmd) then Plain (cmd_trayInfoIdx cmd)
  else match filamentCodeMap (cmd_trayType cmd) with
       | Plain v => Plain (js_or v (JStr "GFL99"))
       | inherited => inherited
       end.

(** The line feed that ends a G-code line. *)
Definition LF : string := String (ascii_of_nat 10) EmptyString.

Definition gcodeLine (param : list Piece) : Payload := PGcodeLine param.

(** What [executeCommand] leaves for later: the callback of a [publish]
    (of the last message of a command of type [ty], or of the
    [ams_filament_setting] message), the timer that ends the debug mode
    after ten seconds, and the timer that asks for a full report two
    seconds after the [ams_filament_setting] message was sent. *)
Inductive DeferredKind :=
| PublishAck (ty : jsval)
| AmsAck
| DebugEnd
| PushAllLater.

(** The steps of [executeCommand] for a live session: a line logged, a
    message published (with its callback, if it has one), the debug flag
    of the client set, a timer set. *)
Inductive Effect :=
| ELog (m : LogMsg)
| EPublish (pl : Payload) (callback : option DeferredKind)
| ESetDebug
| ESetTimeout (k : DeferredKind).

(** The [switch (cmd.type)] of [executeCommand] for a live session and the
    [publish] that follows it: the steps taken, in order.  [modelUpper] is
    [printers.get(serial)?.model?.toUpperCase() || '']. *)
Definition translate (serial : string) (modelUpper : string) (cmd : Command)
  : list Effect :=
  let topic := ("device/" ++ serial ++ "/request")%string in
  let ty := cmd_type cmd in
  let single (pl : Payload) :=
    [ELog (LogPublish topic); EPublish pl (Some (PublishAck ty))] in
  if is_str "pause" ty then single (PPrint "pause")
  else if is_str "resume" ty then single (PPrint "resume")
  else if is_str "stop" ty then single (PPrint "stop")
  else if is_str "chamberLight" ty || is_str "light" ty then
    single (PLedCtrl "chamber_light" (truthy (cmd_on cmd)) true)
  else if is_str "workLight" ty then
    let ledModeWL := truthy (cmd_on cmd) in
    if includes "A1" modelUpper then
      [ELog (LogWorkLight serial modelUpper); ELog (LogWorkLight serial "A1");
       EPublish (PLedCtrl "chamber_light" ledModeWL false) None;
       ELog (LogWorkLight serial "chamber_light");
       EPublish (PLedCtrl "work_light" ledModeWL false) None;
       ELog (LogWorkLight serial "work_light")]
    else if includes "H2D" modelUpper || includes "H2S" modelUpper
            || includes "H2C" modelUpper || includes "X1" modelUpper then
      ELog (LogWorkLight serial modelUpper)
      :: ELog (LogWorkLight serial "chamber_light2")
      :: single (PLedCtrl "chamber_light2" ledModeWL false)
    else
      ELog (LogWorkLight serial modelUpper)
      :: ELog (LogWorkLight serial "work_light")
      :: single (PLedCtrl "work_light" ledModeWL false)
  else if is_str "nozzleTemp" ty then
    single (gcodeLine [Lit "M104 S"; Val (cmd_temp cmd); Lit LF])
  else if is_str "nozzle2Temp" ty then
    single (gcodeLine [Lit "M104 T1 S"; Val (cmd_temp cmd); Lit LF])
  else if is_str "bedTemp" ty then
    single (gcodeLine [Lit "M140 S"; Val (cmd_temp cmd); Lit LF])
  else if is_str "partFan" ty then
    single (gcodeLine [Lit "M106 P1 S"; Pwm (js_or (cmd_speed cmd) JZero); Lit LF])
  else if is_str "auxFan" ty then
    single (gcodeLine [Lit "M106 P2 S"; Pwm (js_or (cmd_speed cmd) JZero); Lit LF])
  else if is_str "chamberFan" ty then
    single (gcodeLine [Lit "M106 P3 S"; Pwm (js_or (cmd_speed cmd) JZero); Lit LF])
  else if is_str "speedLevel" ty then single (PPrintSpeed (cmd_level cmd))
  else if is_str "amsUnload" ty || is_str "unloadFilament" ty then
    single (PAmsChangeFilament (JInt 255))
  else if is_str "amsLoad" ty || is_str "loadFilament" ty then
    single (PAmsChangeFilament (cmd_slot cmd ?? cmd_trayId cmd ?? JZero))
  else if is_str "gcode" ty then
    single (gcodeLine [Val (cmd_gcode cmd); Lit LF])
  else if is_str "home" ty then single (gcodeLine [Lit "G28"; Lit LF])
  else if is_str "calibration" ty then
    if is_str "home" (cmd_calibrationType cmd) then single (gcodeLine [Lit "G28"; Lit LF])
    else if is_str "bed_level" (cmd_calibrationType cmd)
    then single (gcodeLine [Lit "G29"; Lit LF])
    else []
  else if is_str "move" ty then
    let dist := js_or (cmd_distance cmd) (JInt 10) in
    let axis := js_or (cmd_axis cmd) (JStr "X") in
    ELog (LogMove axis dist)
    :: ELog (LogGcode "G91")
    :: EPublish (gcodeLine [Lit "G91"; Lit LF]) None
    :: ELog (LogGcode "G0")
    :: EPublish (gcodeLine [Lit "G0 "; Val axis; Val dist; Lit " F3000"; Lit LF]) None
    :: ELog (LogGcode "G90")
    :: single (gcodeLine [Lit "G90"; Lit LF])
  else if is_str "amsFilamentSetting" ty then
    [ELog (LogAmsPrinter serial); ELog (LogAmsTray cmd);
     ESetDebug; ESetTimeout DebugEnd;
     ELog (LogAmsSetting serial cmd);
     EPublish (PAmsFilamentSetting (cmd_amsId cmd) (cmd_trayId cmd) (filamentCode cmd)
                 (cmd_trayColor cmd) (cmd_nozzleTempMin cmd) (cmd_nozzleTempMax cmd)
                 (cmd_trayType cmd))
              (Some AmsAck)]
  else [].

(** The messages a list of steps publishes, and the lines it logs. *)
Definition published (effs : list Effect) : list Payload :=
  omap (fun e => match e with EPublish pl _ => Some pl | _ => None end) effs.

Definition logged (effs : list Effect) : list LogMsg :=
  omap (fun e => match e with ELog m => Some m | _ => None end) effs.

(** ** Connection manager *)

(** The life of one MQTT client object created by [mqtt.connect] with
    [reconnectPeriod: 0]: it connects at most once, [end()] starts its
    shutdown, and [close] is its last event. *)
Inductive Phase := Connecting | Connected | Ending | Closed.

(** A client object and the [printer] its handlers close over. *)
Record Client := { c_printer : Descriptor; c_phase : Phase }.

Inductive TimerStatus := Pending | Cleared | Fired.

(** A timer created by [setTimeout] in [scheduleReconnect], with the
    [serialNumber] and [cached] its callback closes over. *)
Record Timer := {
  t_serial : string;
  t_cached : Descriptor;
  t_delay : Z;
  t_status : TimerStatus
}.

(** A callback or timer left by [executeCommand], with the [client] and
    the [topic] it closes over. *)
Record Deferred := {
  d_kind : DeferredKind;
  d_client : nat;
  d_topic : string;
  d_status : TimerStatus
}.

(** The module-level maps, the objects the runtime holds (clients, timers
    and the callbacks left by commands, named by their index of
    creation), and what has been published and logged.  [debugAmsCmd]
    holds the clients whose [_debugAmsCmd] property is true.  The camera
    maps and the window are not modelled. *)
Record State := {
  mqttClients : gmap string nat;
  printers : gmap string Snapshot;
  printerDataCache : gmap string Descriptor;
  printerReconnectTimers : gmap string nat;
  reconnectAttempts : gmap string nat;
  mqttErrorThrottle : gmap string Z;
  clients : list Client;
  timers : list Timer;
  outbox : list (nat * string * Payload);
  log : list LogMsg;
  debugAmsCmd : gset nat;
  deferred : list Deferred
}.

Definition init : State :=
  {| mqttClients := ∅; printers := ∅; printerDataCache := ∅;
     printerReconnectTimers := ∅; reconnectAttempts := ∅;
     mqttErrorThrottle := ∅; clients := []; timers := []; outbox := [];
     log := []; debugAmsCmd := ∅; deferred := [] |}.

Definition sendLog (m : LogMsg) (st : State) : State :=
  {| mqttClients := mqttClients st; printers := printers st;
     printerDataCache := printerDataCache st;
     printerReconnectTimers := printerReconnectTimers st;
     reconnectAttempts := reconnectAttempts st;
     mqttErrorThrottle := mqttErrorThrottle st; clients := clients st;
     timers := timers st; outbox := outbox st; log := log st ++ [m];
     debugAmsCmd := debugAmsCmd st; deferred := deferred st |}.

Definition sendLogs (ms : list LogMsg) (st : State) : State :=
  fold_left (fun st m => sendLog m st) ms st.

(** [client.publish(topic, JSON.stringify(payload))] *)
Definition publish (c : nat) (topic : string) (pl : Payload) (st : State) : State :=
  {| mqttClients := mqttClients st; printers := printers st;
     printerDataCache := printerDataCache st;
     printerReconnectTimers := printerReconnectTimers st;
     reconnectAttempts := reconnectAttempts st;
     mqttErrorThrottle := mqttErrorThrottle st; clients := clients st;
     timers := timers st; outbox := outbox st ++ [(c, topic, pl)];
     log := log st;
     debugAmsCmd := debugAmsCmd st; deferred := deferred st |}.

Definition setPhase (c : nat) (ph : Phase) (st : State) : State :=
  {| mqttClients := mqttClients st; printers := printers st;
     printerDataCache := printerDataCache st;
     printerReconnectTimers := printerReconnectTimers st;
     reconnectAttempts := reconnectAttempts st;
     mqttErrorThrottle := mqttErrorThrottle st;
     clients := alter (fun cl => {| c_printer := c_printer cl; c_phase := ph |})
                      c (clients st);
     timers := timers st; outbox := outbox st; log := log st;
     debugAmsCmd := debugAmsCmd st; deferred := deferred st |}.

Definition setTimerStatus (t : nat) (ts : TimerStatus) (st : State) : State :=
  {| mqttClients := mqttClients st; printers := printers st;
     printerDataCache := printerDataCache st;
     printerReconnectTimers := printerReconnectTimers st;
     reconnectAttempts := reconnectAttempts st;
     mqttErrorThrottle := mqttErrorThrottle st; clients := clients st;
     timers := alter (fun tm => {| t_serial := t_serial tm; t_cached := t_cached tm;
                                   t_delay := t_delay tm; t_status := ts |})
                     t (timers st);
     outbox := outbox st; log := log st;
     debugAmsCmd := debugAmsCmd st; deferred := deferred st |}.

(** [clearTimeout(t)]: a pending timer will not fire; otherwise nothing. *)
Definition clearTimeout (t : nat) (st : State) : State :=
  match timers st !! t with
  | Some tm => match t_status tm with
               | Pending => setTimerStatus t Cleared st
               | _ => st
               end
  | None => st
  end.

(** <<
  function connectPrinter(printer) {
    if (mqttClients.has(printer.serialNumber)) return;
    printerDataCache.set(printer.serialNumber, printer);
    if (printerReconnectTimers.has(printer.serialNumber)) {
      clearTimeout(printerReconnectTimers.get(printer.serialNumber));
      printerReconnectTimers.delete(printer.serialNumber);
    }
    sendLog('Verbinde: ' + printer.name);
    const client = mqtt.connect(...);
    client.on('connect', ...); client.on('message', ...);
    client.on('error', ...); client.on('close', ...);
  }
>>
    The new client is the connection attempt. *)
Definition connectPrinter (printer : Descriptor) (st : State) : State :=
  let serial := serialNumber printer in
  match mqttClients st !! serial with
  | Some _ => st
  | None =>
      let st :=
        match printerReconnectTimers st !! serial with
        | Some t => clearTimeout t st
        | None => st
        end in
      let st := sendLog (LogConnecting (name printer)) st in
      {| mqttClients := mqttClients st; printers := printers st;
         printerDataCache := <[serial := printer]> (printerDataCache st);
         printerReconnectTimers := delete serial (printerReconnectTimers st);
         reconnectAttempts := reconnectAttempts st;
         mqttErrorThrottle := mqttErrorThrottle st;
         clients := clients st ++ [{| c_printer := printer; c_phase := Connecting |}];
         timers := timers st; outbox := outbox st; log := log st;
     debugAmsCmd := debugAmsCmd st; deferred := deferred st |}
  end.

(** [Math.min(5000 * Math.pow(2, attempts), 120000)], in milliseconds. *)
Definition reconnectDelay (attempts : nat) : Z :=
  Z.min (5000 * 2 ^ Z.of_nat attempts) 120000.

(** <<
  function scheduleReconnect(serialNumber) {
    const cached = printerDataCache.get(serialNumber);
    if (!cached) return;
    if (mqttClients.has(serialNumber)) return;
    const attempts = reconnectAttempts.get(serialNumber) || 0;
    const delay = Math.min(5000 * Math.pow(2, attempts), 120000);
    const delaySec = Math.round(delay / 1000);
    reconnectAttempts.set(serialNumber, attempts + 1);
    if (attempts === 0 || attempts % 5 === 0) sendLog(...);
    const timer = setTimeout(() => { ... }, delay);
    printerReconnectTimers.set(serialNumber, timer);
  }
>> *)
Definition scheduleReconnect (serial : string) (st : State) : State :=
  match printerDataCache st !! serial with
  | None => st
  | Some cached =>
      match mqttClients st !! serial with
      | Some _ => st
      | None =>
          let attempts := default 0%nat (reconnectAttempts st !! serial) in
          let delay := reconnectDelay attempts in
          let delaySec := delay / 1000 in
          let st :=
            if ((attempts =? 0) || (attempts mod 5 =? 0))%nat
            then sendLog (LogReconnect (name cached) delaySec (attempts + 1)) st
            else st in
          {| mqttClients := mqttClients st; printers := printers st;
             printerDataCache := printerDataCache st;
             printerReconnectTimers :=
               <[serial := length (timers st)]> (printerReconnectTimers st);
             reconnectAttempts := <[serial := (attempts + 1)%nat]> (reconnectAttempts st);
             mqttErrorThrottle := mqttErrorThrottle st; clients := clients st;
             timers := timers st ++ [{| t_serial := serial; t_cached := cached;
                                        t_delay := delay; t_status := Pending |}];
             outbox := outbox st; log := log st;
     debugAmsCmd := debugAmsCmd st; deferred := deferred st |}
      end
  end.

(** <<
  function resetReconnectCounter(serialNumber) {
    reconnectAttempts.delete(serialNumber);
    mqttErrorThrottle.delete(serialNumber);
  }
>> *)
Definition resetReconnectCounter (serial : string) (st : State) : State :=
  {| mqttClients := mqttClients st; printers := printers st;
     printerDataCache := printerDataCache st;
     printerReconnectTimers := printerReconnectTimers st;
     reconnectAttempts := delete serial (reconnectAttempts st);
     mqttErrorThrottle := delete serial (mqttErrorThrottle st);
     clients := clients st; timers := timers st; outbox := outbox st;
     log := log st;
     debugAmsCmd := debugAmsCmd st; deferred := deferred st |}.

Definition setMqttClients (m : gmap string nat) (st : State) : State :=
  {| mqttClients := m; printers := printers st;
     printerDataCache := printerDataCache st;
     printerReconnectTimers := printerReconnectTimers st;
     reconnectAttempts := reconnectAttempts st;
     mqttErrorThrottle := mqttErrorThrottle st; clients := clients st;
     timers := timers st; outbox := outbox st; log := log st;
     debugAmsCmd := debugAmsCmd st; deferred := deferred st |}.

Definition setPrinters (m : gmap string Snapshot) (st : State) : State :=
  {| mqttClients := mqttClients st; printers := m;
     printerDataCache := printerDataCache st;
     printerReconnectTimers := printerReconnectTimers st;
     reconnectAttempts := reconnectAttempts st;
     mqttErrorThrottle := mqttErrorThrottle st; clients := clients st;
     timers := timers st; outbox := outbox st; log := log st;
     debugAmsCmd := debugAmsCmd st; deferred := deferred st |}.

Definition setReconnectTimers (m : gmap string nat) (st : State) : State :=
  {| mqttClients := mqttClients st; printers := printers st;
     printerDataCache := printerDataCache st;
     printerReconnectTimers := m;
     reconnectAttempts := reconnectAttempts st;
     mqttErrorThrottle := mqttErrorThrottle st; clients := clients st;
     timers := timers st; outbox := outbox st; log := log st;
     debugAmsCmd := debugAmsCmd st; deferred := deferred st |}.

Definition setErrorThrottle (m : gmap string Z) (st : State) : State :=
  {| mqttClients := mqttClients st; printers := printers st;
     printerDataCache := printerDataCache st;
     printerReconnectTimers := printerReconnectTimers st;
     reconnectAttempts := reconnectAttempts st;
     mqttErrorThrottle := m; clients := clients st;
     timers := timers st; outbox := outbox st; log := log st;
     debugAmsCmd := debugAmsCmd st; deferred := deferred st |}.

(** [{ ...pr, online: v }] *)
Definition withOnline (v : jsval) (s : Snapshot) : Snapshot :=
  {| descr := descr s; online := v; gcodeState := gcodeState s;
     printProgress := printProgress s; remainingTime := remainingTime s;
     currentFile := currentFile s; layer := layer s;
     totalLayers := totalLayers s; nozzleTemp := nozzleTemp s;
     nozzleTargetTemp := nozzleTargetTemp s; nozzleTemp2 := nozzleTemp2 s;
     nozzleTargetTemp2 := nozzleTargetTemp2 s; bedTemp := bedTemp s;
     bedTargetTemp := bedTargetTemp s; chamberTemp := chamberTemp s;
     partFan := partFan s; auxFan := auxFan s; chamberFan := chamberFan s;
     chamberLight := chamberLight s; workLight := workLight s;
     speedLevel := speedLevel s; speedMagnitude := speedMagnitude s;
     ams := ams s; externalSpool := externalSpool s;
     externalSpools := externalSpools s; wifiSignal := wifiSignal s;
     printType := printType s; printError := printError s;
     printErrorCode := printErrorCode s; printStage := printStage s;
     hms := hms s; h2debug := h2debug s |}.

Definition requestTopic (serial : string) : string :=
  ("device/" ++ serial ++ "/request")%string.

(** [client.end()] *)
Definition endClient (c : nat) (st : State) : State :=
  match clients st !! c with
  | Some cl => match c_phase cl with
               | Closed => st
               | _ => setPhase c Ending st
               end
  | None => st
  end.

Definition setDebugAmsCmd (d : gset nat) (st : State) : State :=
  {| mqttClients := mqttClients st; printers := printers st;
     printerDataCache := printerDataCache st;
     printerReconnectTimers := printerReconnectTimers st;
     reconnectAttempts := reconnectAttempts st;
     mqttErrorThrottle := mqttErrorThrottle st; clients := clients st;
     timers := timers st; outbox := outbox st; log := log st;
     debugAmsCmd := d; deferred := deferred st |}.

Definition setDeferred (l : list Deferred) (st : State) : State :=
  {| mqttClients := mqttClients st; printers := printers st;
     printerDataCache := printerDataCache st;
     printerReconnectTimers := printerReconnectTimers st;
     reconnectAttempts := reconnectAttempts st;
     mqttErrorThrottle := mqttErrorThrottle st; clients := clients st;
     timers := timers st; outbox := outbox st; log := log st;
     debugAmsCmd := debugAmsCmd st; deferred := l |}.

(** A callback or timer is left for later; it is the last of [deferred]. *)
Definition defer (kind : DeferredKind) (client : nat) (topic : string) (st : State)
  : State :=
  setDeferred (deferred st ++ [{| d_kind := kind; d_client := client;
                                  d_topic := topic; d_status := Pending |}]) st.

(** [printers.get(serialNumber)?.model?.toUpperCase() || ''] *)
Definition modelUpperOf (serial : string) (st : State) : string :=
  match printers st !! serial with
  | Some pr =>
      match descr pr with
      | Some d => match model d with
                  | Some m => toUpperCase m
                  | None => ""%string
                  end
      | None => ""%string
      end
  | None => ""%string
  end.

(** The callbacks and timers a list of steps leaves on [client] and
    [topic], and whether it sets the debug flag. *)
Definition leftBy (client : nat) (topic : string) (effs : list Effect) : list Deferred :=
  omap (fun e => match e with
                 | EPublish _ (Some kind) | ESetTimeout kind =>
                     Some {| d_kind := kind; d_client := client; d_topic := topic;
                             d_status := Pending |}
                 | _ => None
                 end) effs.

Definition setsDebug (effs : list Effect) : bool :=
  existsb (fun e => match e with ESetDebug => true | _ => false end) effs.

(** One step of [executeCommand] on [client] and [topic]. *)
Definition perform (client : nat) (topic : string) (e : Effect) (st : State)
  : State :=
  match e with
  | ELog m => sendLog m st
  | EPublish pl callback =>
      let st := publish client topic pl st in
      match callback with
      | Some kind => defer kind client topic st
      | None => st
      end
  | ESetDebug => setDebugAmsCmd ({[client]} ∪ debugAmsCmd st) st
  | ESetTimeout kind => defer kind client topic st
  end.

(** <<
  function executeCommand(serialNumber, command) {
    sendLog('executeCommand aufgerufen: ' + ...);
    const client = mqttClients.get(serialNumber);
    if (!client) {
      sendLog('FEHLER: Kein MQTT Client für ' + serialNumber + ...);
      return;
    }
    const topic = 'device/' + serialNumber + '/request';
    const cmd = typeof command === 'string' ? { type: command } : command;
    switch (cmd.type) { ... }
    sendLog('MQTT Publish an Topic: ' + topic);
    client.publish(topic, JSON.stringify(payload), (err) => { ... });
  }
>> *)
Definition executeCommand (serial : string) (command : Command) (st : State)
  : State :=
  let st := sendLog (LogExecuteCommand serial command) st in
  match mqttClients st !! serial with
  | None => sendLog (LogNoClient serial (dom (mqttClients st))) st
  | Some client =>
      fold_left (fun st e => perform client (requestTopic serial) e st)
                (translate serial (modelUpperOf serial st) command) st
  end.

(** A callback or timer of a command comes due; [ok] tells whether the
    [publish] it belongs to succeeded.
<<
    (err) => { if (err) sendLog('MQTT Publish FEHLER: ' + err.message);
               else sendLog('MQTT Publish ERFOLG für: ' + cmd.type); }

    (err) => { if (err) sendLog('AMS Filament Setting FEHLER: ' + err.message);
               else { sendLog('AMS Filament Setting ERFOLG gesendet');
                      setTimeout(() => {
                        client.publish(topic, JSON.stringify({ pushing: { command: 'pushall' } }));
                        sendLog('pushall gesendet nach filament setting');
                      }, 2000); } }

    () => { client._debugAmsCmd = false; sendLog('DEBUG: AMS Debug-Modus Ende'); }
>> *)
Definition onDeferred (k : nat) (ok : bool) (st : State) : State :=
  match deferred st !! k with
  | Some d =>
      match d_status d with
      | Pending =>
          let st := setDeferred (<[k := {| d_kind := d_kind d; d_client := d_client d;
                                          d_topic := d_topic d; d_status := Fired |}]>
                                   (deferred st)) st in
          match d_kind d with
          | PublishAck ty => sendLog (LogPublishResult ty ok) st
          | AmsAck =>
              let st := sendLog (LogAmsResult ok) st in
              if ok then defer PushAllLater (d_client d) (d_topic d) st else st
          | DebugEnd =>
              sendLog LogDebugEnd
                (setDebugAmsCmd (debugAmsCmd st ∖ {[d_client d]}) st)
          | PushAllLater =>
              sendLog LogPushAllSent (publish (d_client d) (d_topic d) PPushAllPlain st)
          end
      | _ => st
      end
  | None => st
  end.

(** *** Event handlers *)

Section Handlers.
Context `{!JsBuiltins}.

(** [client.on('connect', ...)]; the subscription and the start of the
    camera stream are not modelled. *)
Definition onConnect (c : nat) (st : State) : State :=
  match clients st !! c with
  | Some cl =>
      match c_phase cl with
      | Connecting =>
          let printer := c_printer cl in
          let serial := serialNumber printer in
          let st := sendLog (LogConnected (name printer)) st in
          let st := setMqttClients (<[serial := c]> (mqttClients st)) st in
          let st := setPrinters (<[serial := connectedSnapshot printer]> (printers st)) st in
          let st := resetReconnectCounter serial st in
          let st := publish c (requestTopic serial) PGetVersion st in
          let st := publish c (requestTopic serial) PPushAll st in
          setPhase c Connected st
      | _ => st
      end
  | None => st
  end.

(** [client.on('message', ...)] on a parsed message.  In the debug mode
    of the client one line is logged for every message, whatever it
    holds.  The lines a client logs once for diagnosis ([CTC],
    [H2-DUMP], [H2-NONPRINT], [LED-Nodes], [H2-EXTRUDER]) and the flags
    that guard them are left out of [log]; the file of raw messages, the
    update of the window and the status sent to the cloud are outside
    the state. *)
Definition onMessage (c : nat) (data : Message) (st : State) : State :=
  match clients st !! c with
  | Some cl =>
      match c_phase cl with
      | Connected =>
          let printer := c_printer cl in
          let serial := serialNumber printer in
          let st := if decide (c ∈ debugAmsCmd st)
                    then sendLog (LogDebugMqtt data) st
                    else st in
          let st := if truthy (system data)
                    then sendLog (LogSystemResponse (name printer) (system data)) st
                    else st in
          match print data with
          | Some _ =>
              let entry := default emptySnapshot (printers st !! serial) in
              setPrinters (<[serial := merge entry data]> (printers st)) st
          | None => st
          end
      | _ => st
      end
  | None => st
  end.

(** [client.on('error', ...)] at time [now]. *)
Definition onError (c : nat) (now : Z) (st : State) : State :=
  match clients st !! c with
  | Some cl =>
      let printer := c_printer cl in
      let serial := serialNumber printer in
      let lastLog := default 0 (mqttErrorThrottle st !! serial) in
      if 60000 <? now - lastLog
      then setErrorThrottle (<[serial := now]> (mqttErrorThrottle st))
             (sendLog (LogError (name printer)) st)
      else st
  | None => st
  end.

(** [client.on('close', ...)] *)
Definition onClose (c : nat) (st : State) : State :=
  match clients st !! c with
  | Some cl =>
      match c_phase cl with
      | Closed => st
      | _ =>
          let serial := serialNumber (c_printer cl) in
          let st := setPhase c Closed st in
          let st := setMqttClients (delete serial (mqttClients st)) st in
          let st :=
            match printers st !! serial with
            | Some pr => setPrinters (<[serial := withOnline (JBool false) pr]> (printers st)) st
            | None => st
            end in
          scheduleReconnect serial st
      end
  | None => st
  end.

(** The callback of the timer set by [scheduleReconnect]:
<<
    printerReconnectTimers.delete(serialNumber);
    if (!mqttClients.has(serialNumber)) connectPrinter(cached);
>> *)
Definition onTimer (t : nat) (st : State) : State :=
  match timers st !! t with
  | Some tm =>
      match t_status tm with
      | Pending =>
          let serial := t_serial tm in
          let st := setTimerStatus t Fired st in
          let st := setReconnectTimers (delete serial (printerReconnectTimers st)) st in
          match mqttClients st !! serial with
          | None => connectPrinter (t_cached tm) st
          | Some _ => st
          end
      | _ => st
      end
  | None => st
  end.

(** [p.serialNumber && p.ipAddress && p.accessCode] *)
Definition connectable (p : Descriptor) : bool :=
  negb (String.eqb (serialNumber p) "") && negb (String.eqb (ipAddress p) "")
  && negb (String.eqb (accessCode p) "").

(** [apiSocket.on('printers:list', ...)] *)
Definition onPrintersList (l : list Descriptor) (st : State) : State :=
  fold_left (fun st p =>
               let st := sendLog (LogListEntry p) st in
               if connectable p then connectPrinter p st else st)
            l (sendLog (LogListReceived (length l)) st).

(** [apiSocket.on('printer:add', ...)] *)
Definition onPrinterAdd (p : Descriptor) (st : State) : State :=
  let st := sendLog (LogPrinterAdded p) st in
  if connectable p then connectPrinter p st else st.

(** <<
  apiSocket.on('printer:remove', (data) => {
    sendLog('Drucker entfernt: ' + data.serialNumber);
    const client = mqttClients.get(data.serialNumber);
    if (client) {
      client.end();
      mqttClients.delete(data.serialNumber);
      printers.delete(data.serialNumber);
      cameraUrls.delete(...); cameraStreams.delete(...); stopJpegStream(...);
      updatePrinters();
    }
  });
>> *)
Definition onPrinterRemove (serial : string) (st : State) : State :=
  let st := sendLog (LogPrinterRemoved serial) st in
  match mqttClients st !! serial with
  | Some client =>
      let st := endClient client st in
      let st := setMqttClients (delete serial (mqttClients st)) st in
      setPrinters (delete serial (printers st)) st
  | None => st
  end.

(** [apiSocket.on('printer:command', ...)] *)
Definition onPrinterCommand (serial : string) (command : Command) (st : State)
  : State :=
  executeCommand serial command (sendLog (LogApiCommand serial command) st).

(** The events the main process reacts to; the last one is a callback or
    a timer left by a command. *)
Inductive Event :=
| PrintersList (l : list Descriptor)
| PrinterAdd (p : Descriptor)
| PrinterRemove (serial : string)
| PrinterCommand (serial : string) (command : Command)
| ClientConnect (c : nat)
| ClientMessage (c : nat) (data : Message)
| ClientError (c : nat) (now : Z)
| ClientClose (c : nat)
| TimerFire (t : nat)
| CommandDeferred (k : nat) (ok : bool).

(** An event the runtime cannot deliver (a [connect] of a client that is
    not connecting, a cleared timer, ...) leaves the state as it is. *)
Definition handle (e : Event) (st : State) : State :=
  match e with
  | PrintersList l => onPrintersList l st
  | PrinterAdd p => onPrinterAdd p st
  | PrinterRemove serial => onPrinterRemove serial st
  | PrinterCommand serial command => onPrinterCommand serial command st
  | ClientConnect c => onConnect c st
  | ClientMessage c data => onMessage c data st
  | ClientError c now => onError c now st
  | ClientClose c => onClose c st
  | TimerFire t => onTimer t st
  | CommandDeferred k ok => onDeferred k ok st
  end.

Definition run (es : list Event) (st : State) : State :=
  fold_left (fun st e => handle e st) es st.

End Handlers.

(** ** JPEG frame extraction *)

Abbreviation bytes := (list Byte.byte).

Definition JPEG_START : bytes := [Byte.xff; Byte.xd8].
Definition JPEG_END : bytes := [Byte.xff; Byte.xd9].

(** Whether [pat] occurs at the head of [buf]. *)
Fixpoint startsWith (pat buf : bytes) : bool :=
  match pat, buf with
  | [], _ => true
  | _ :: _, [] => false
  | a :: pat', b :: buf' => Byte.eqb a b && startsWith pat' buf'
  end.

(** [buf.indexOf(pat)]: the index of the first occurrence, [None] for -1. *)
Fixpoint indexOf (pat buf : bytes) : option nat :=
  if startsWith pat buf then Some 0%nat
  else match buf with
       | [] => None
       | _ :: buf' => S <$> indexOf pat buf'
       end.

(** [buf.indexOf(pat, byteOffset)] *)
Definition indexOfFrom (pat buf : bytes) (byteOffset : nat) : option nat :=
  (fun i => (byteOffset + i)%nat) <$> indexOf pat (drop byteOffset buf).

(** The fields of [streamData] the extractor touches; [sent] lists, in
    order, the frames handed to [sendJpegFrame] for the attached viewers. *)
Record StreamData := {
  buffer : bytes;
  lastFrame : option bytes;
  frameCount : nat;
  sent : list bytes
}.

(** One pass of the [while (true)] loop of [processJpegBuffer] per unit of
    fuel; [None] when the fuel runs out before the loop returns. *)
Fixpoint processLoop (fuel : nat) (sd : StreamData) : option StreamData :=
  match fuel with
  | O => None
  | S fuel' =>
      match indexOf JPEG_START (buffer sd) with
      | None =>
          Some {| buffer := []; lastFrame := lastFrame sd;
                  frameCount := frameCount sd; sent := sent sd |}
      | Some startIdx =>
          let buf := drop startIdx (buffer sd) in
          match indexOfFrom JPEG_END buf 2 with
          | None =>
              Some {| buffer := buf; lastFrame := lastFrame sd;
                      frameCount := frameCount sd; sent := sent sd |}
          | Some endIdx =>
              let jpegData := take (endIdx + 2) buf in
              let rest := drop (endIdx + 2) buf in
              if (100 <? length jpegData)%nat
              then processLoop fuel'
                     {| buffer := rest; lastFrame := Some jpegData;
                        frameCount := (frameCount sd + 1)%nat;
                        sent := sent sd ++ [jpegData] |}
              else processLoop fuel'
                     {| buffer := rest; lastFrame := lastFrame sd;
                        frameCount := frameCount sd; sent := sent sd |}
          end
      end
  end.

(** Every pass that does not return consumes at least four bytes, so the
    length of the buffer (plus one) is enough fuel. *)
Definition processJpegBuffer (sd : StreamData) : option StreamData :=
  processLoop (S (length (buffer sd))) sd.

(** [streamData.buffer = Buffer.concat([streamData.buffer, data])] followed
    by [processJpegBuffer]: the [data] handler of the camera socket. *)
Definition onJpegData (data : bytes) (sd : StreamData) : option StreamData :=
  processJpegBuffer {| buffer := buffer sd ++ data; lastFrame := lastFrame sd;
                       frameCount := frameCount sd; sent := sent sd |}.

(** [streamData.buffer = b] *)
Definition withBuffer (b : bytes) (sd : StreamData) : StreamData :=
  {| buffer := b; lastFrame := lastFrame sd; frameCount := frameCount sd;
     sent := sent sd |}.

(** A frame is cached as [lastFrame], counted, and written to the viewers. *)
Definition deliver (frame : bytes) (sd : StreamData) : StreamData :=
  {| buffer := buffer sd; lastFrame := Some frame;
     frameCount := (frameCount sd + 1)%nat; sent := sent sd ++ [frame] |}.

(** A span from a start marker to the next end marker. *)
Definition jpegSpan (body : bytes) : bytes := JPEG_START ++ body ++ JPEG_END.

(** ** Auxiliary notions and sample data *)

(** Whether a packed extruder array decides the nozzle temperatures. *)
Definition hasPackedNozzles (p : PrintReport) : bool :=
  match device_extruder_info p with
  | Some (_ :: _) => true
  | _ => match extruder_info p with
         | Some (_ :: _ :: _) => true
         | _ => false
         end
  end.

(** The packed value that decides the first nozzle, if there is one: the
    first entry of [p.device.extruder.info], or else the first entry of
    a [p.extruder.info] of at least two entries. *)
Definition packedFirst (p : PrintReport) : option jsval :=
  match device_extruder_info p with
  | Some (e0 :: _) => Some e0
  | _ => match extruder_info p with
         | Some (e0 :: _ :: _) => Some e0
         | _ => None
         end
  end.

(** The packed value that decides the second nozzle, if there is one:
    the second entry of [p.device.extruder.info], or, when that array is
    absent or empty, the second entry of [p.extruder.info]. *)
Definition packedSecond (p : PrintReport) : option jsval :=
  match device_extruder_info p with
  | Some (_ :: rest) => match rest with
                        | e1 :: _ => Some e1
                        | [] => None
                        end
  | _ => match extruder_info p with
         | Some (_ :: e1 :: _) => Some e1
         | _ => None
         end
  end.

(** The entry handed to [status] when the report leaves the lifecycle
    state as it is (the transition reset cannot fire then). *)
Definition cleaned `{!JsBuiltins} (p : PrintReport) (s : Snapshot) : Snapshot :=
  if isIdle (gcodeState s) then staleFix p (ctcUpdate p s) else ctcUpdate p s.

Definition demoPrinter : Descriptor :=
  {| printerId := JStr "p-1"; serialNumber := "01P00A123456789";
     name := "Werkstatt P1S"; model := Some "P1S";
     ipAddress := "192.168.1.50"; accessCode := "12345678" |}.

(** A printer in the middle of a job. *)
Definition printingSnapshot : Snapshot :=
  {| descr := Some demoPrinter; online := JBool true;
     gcodeState := JStr "RUNNING"; printProgress := JInt 57;
     remainingTime := JInt 42; currentFile := JUndef; layer := JUndef;
     totalLayers := JUndef; nozzleTemp := JInt 220;
     nozzleTargetTemp := JInt 220; nozzleTemp2 := JUndef;
     nozzleTargetTemp2 := JUndef; bedTemp := JInt 60;
     bedTargetTemp := JInt 60; chamberTemp := JInt 35; partFan := JUndef;
     auxFan := JUndef; chamberFan := JUndef; chamberLight := JUndef;
     workLight := JUndef; speedLevel := JUndef; speedMagnitude := JUndef;
     ams := None; externalSpool := None; externalSpools := None;
     wifiSignal := JUndef; printType := JUndef; printError := JInt 0;
     printErrorCode := JStr ""; printStage := JUndef; hms := Some [];
     h2debug := None |}.

(** A progress report during the job. *)
Definition runningReport : PrintReport :=
  {| gcode_state := JStr "RUNNING"; mc_percent := JInt 58;
     mc_remaining_time := JInt 41; gcode_file := JUndef;
     subtask_name := JUndef; layer_num := JUndef; total_layer_num := JUndef;
     nozzle_temper := JInt 219; nozzle_target_temper := JUndef;
     nozzle_temper_2 := JUndef; nozzle_target_temper_2 := JUndef;
     bed_temper := JUndef; bed_target_temper := JUndef;
     chamber_temper := JUndef; cooling_fan_speed := JUndef;
     big_fan1_speed := JUndef; big_fan2_speed := JUndef;
     lights_report := None; spd_lvl := JUndef; spd_mag := JUndef;
     p_ams := None; vir_slot := None; vt_tray := None; wifi_signal := JUndef;
     print_type := JUndef; print_error := JUndef;
     mc_print_error_code := JUndef; mc_print_stage := JUndef; p_hms := None;
     device_extruder_info := None; extruder_info := None;
     device_ctc_info_temp := JUndef; info_temp := JUndef |}.

(** The full report a printer pushes when the job has finished. *)
Definition finishReport : PrintReport :=
  {| gcode_state := JStr "FINISH"; mc_percent := JInt 100;
     mc_remaining_time := JInt 0; gcode_file := JUndef;
     subtask_name := JUndef; layer_num := JUndef; total_layer_num := JUndef;
     nozzle_temper := JInt 215; nozzle_target_temper := JInt 0;
     nozzle_temper_2 := JUndef; nozzle_target_temper_2 := JUndef;
     bed_temper := JInt 58; bed_target_temper := JInt 0;
     chamber_temper := JInt 34; cooling_fan_speed := JUndef;
     big_fan1_speed := JUndef; big_fan2_speed := JUndef;
     lights_report := None; spd_lvl := JUndef; spd_mag := JUndef;
     p_ams := None; vir_slot := None; vt_tray := None; wifi_signal := JUndef;
     print_type := JUndef; print_error := JInt 0;
     mc_print_error_code := JUndef; mc_print_stage := JUndef; p_hms := None;
     device_extruder_info := None; extruder_info := None;
     device_ctc_info_temp := JUndef; info_temp := JUndef |}.

(** A report that only announces the end of the job. *)
Definition finishOnlyReport : PrintReport :=
  {| gcode_state := JStr "FINISH"; mc_percent := JUndef;
     mc_remaining_time := JUndef; gcode_file := JUndef;
     subtask_name := JUndef; layer_num := JUndef; total_layer_num := JUndef;
     nozzle_temper := JUndef; nozzle_target_temper := JUndef;
     nozzle_temper_2 := JUndef; nozzle_target_temper_2 := JUndef;
     bed_temper := JUndef; bed_target_temper := JUndef;
     chamber_temper := JUndef; cooling_fan_speed := JUndef;
     big_fan1_speed := JUndef; big_fan2_speed := JUndef;
     lights_report := None; spd_lvl := JUndef; spd_mag := JUndef;
     p_ams := None; vir_slot := None; vt_tray := None; wifi_signal := JUndef;
     print_type := JUndef; print_error := JUndef;
     mc_print_error_code := JUndef; mc_print_stage := JUndef; p_hms := None;
     device_extruder_info := None; extruder_info := None;
     device_ctc_info_temp := JUndef; info_temp := JUndef |}.

(** *** Sessions as the runtime sees them *)

Definition isConnected (ph : Phase) : bool :=
  match ph with Connected => true | _ => false end.

(** Whether some client object of [serial] is connected to its printer. *)
Definition hasLiveSession (serial : string) (st : State) : bool :=
  existsb (fun cl => String.eqb (serialNumber (c_printer cl)) serial
                     && isConnected (c_phase cl))
          (clients st).

Definition isPending (ts : TimerStatus) : bool :=
  match ts with Pending => true | _ => false end.

(** The sessions of [serial] that are connected at once. *)
Definition liveSessions (serial : string) (st : State) : nat :=
  length (List.filter (fun cl => String.eqb (serialNumber (c_printer cl)) serial
                                 && isConnected (c_phase cl)) (clients st)).

(** The reconnect timers of [serial] that are pending at once. *)
Definition pendingTimers (serial : string) (st : State) : nat :=
  length (List.filter (fun tm => String.eqb (t_serial tm) serial
                                 && isPending (t_status tm)) (timers st)).

(** Every registered session is a connected client of that serial. *)
Definition registeredLive (st : State) : Prop :=
  forall serial c, mqttClients st !! serial = Some c ->
    exists cl, clients st !! c = Some cl /\ c_phase cl = Connected
               /\ serialNumber (c_printer cl) = serial.

(** [st'] has the same registered sessions as [st] and every client object
    of [st], unchanged. *)
Definition sameSessions (st st' : State) : Prop :=
  mqttClients st' = mqttClients st /\
  forall c cl, clients st !! c = Some cl -> clients st' !! c = Some cl.

(** [typeof command === 'string' ? { type: command } : command] for a
    command given as a string. *)
Definition stringCommand (ty : string) : Command :=
  {| cmd_type := JStr ty; cmd_on := JUndef; cmd_temp := JUndef;
     cmd_speed := JUndef; cmd_level := JUndef; cmd_slot := JUndef;
     cmd_trayId := JUndef; cmd_gcode := JUndef; cmd_calibrationType := JUndef;
     cmd_distance := JUndef; cmd_axis := JUndef; cmd_amsId := JUndef;
     cmd_trayType := JUndef; cmd_trayColor := JUndef;
     cmd_trayInfoIdx := JUndef; cmd_nozzleTempMin := JUndef;
     cmd_nozzleTempMax := JUndef |}.

(** A session that never gets through: every attempt is closed, every
    reconnect timer fires. *)
Definition failingSession : list Event :=
  [PrinterAdd demoPrinter;
   ClientClose 0; TimerFire 0; ClientClose 1; TimerFire 1;
   ClientClose 2; TimerFire 2; ClientClose 3; TimerFire 3;
   ClientClose 4; TimerFire 4; ClientClose 5; TimerFire 5;
   ClientClose 6]%nat.

(** The same, followed by a successful connection and its loss. *)
Definition recoveredSession : list Event :=
  (failingSession ++ [TimerFire 6; ClientConnect 7; ClientClose 7])%nat.

(** The roster arrives a second time while the first client of the
    printer is still connecting; both clients then connect. *)
Definition doubleRoster : list Event :=
  [PrintersList [demoPrinter]; PrintersList [demoPrinter];
   ClientConnect 0; ClientConnect 1]%nat.

(** The same roster, but both clients fail. *)
Definition doubleRosterLost : list Event :=
  [PrintersList [demoPrinter]; PrintersList [demoPrinter];
   ClientClose 0; ClientClose 1]%nat.

(** Cached descriptors and reconnect timers belong to the serial they are
    filed under. *)
Definition keyed (st : State) : Prop :=
  (forall serial d, printerDataCache st !! serial = Some d -> serialNumber d = serial)
  /\ (forall t tm, timers st !! t = Some tm -> serialNumber (t_cached tm) = t_serial tm).


(** The packed extruder array of the H2D scenario:
    [[{temp: 0x00E10096}, {temp: 0x00C80087}]]. *)
Definition h2dReport : PrintReport :=
  {| gcode_state := JUndef; mc_percent := JUndef;
     mc_remaining_time := JUndef; gcode_file := JUndef;
     subtask_name := JUndef; layer_num := JUndef; total_layer_num := JUndef;
     nozzle_temper := JUndef; nozzle_target_temper := JUndef;
     nozzle_temper_2 := JUndef; nozzle_target_temper_2 := JUndef;
     bed_temper := JUndef; bed_target_temper := JUndef;
     chamber_temper := JUndef; cooling_fan_speed := JUndef;
     big_fan1_speed := JUndef; big_fan2_speed := JUndef;
     lights_report := None; spd_lvl := JUndef; spd_mag := JUndef;
     p_ams := None; vir_slot := None; vt_tray := None; wifi_signal := JUndef;
     print_type := JUndef; print_error := JUndef;
     mc_print_error_code := JUndef; mc_print_stage := JUndef; p_hms := None;
     device_extruder_info := Some [JInt 0x00E10096; JInt 0x00C80087];
     extruder_info := None; device_ctc_info_temp := JUndef;
     info_temp := JUndef |}.

(** A camera buffer: three bytes of noise (the last one [0xFF]), a span of
    103 bytes and a span of 124 bytes. *)
Definition sampleNoise : bytes := [Byte.x01; Byte.x02; Byte.xff].
Definition sampleBody1 : bytes := repeat Byte.x11 99.
Definition sampleBody2 : bytes := repeat Byte.x22 120.

(** Noise only, and noise followed by a span of 44 bytes. *)
Definition noiseStream : StreamData :=
  {| buffer := sampleNoise; lastFrame := None; frameCount := 0; sent := [] |}.

Definition shortStream : StreamData :=
  {| buffer := sampleNoise ++ jpegSpan (repeat Byte.x33 40) ++ [];
     lastFrame := None; frameCount := 0; sent := [] |}.

Definition sampleStream : StreamData :=
  {| buffer := sampleNoise ++ jpegSpan sampleBody1 ++ jpegSpan sampleBody2;
     lastFrame := None; frameCount := 0; sent := [] |}.

(** ** Further notions used by the properties of the modelled code *)

(** The keys the status object always defines: they fall back to the
    previous value and then to a default. *)
Definition complete (s : Snapshot) : Prop :=
  online s = JBool true
  /\ nullish (gcodeState s) = false
  /\ nullish (printProgress s) = false
  /\ nullish (remainingTime s) = false
  /\ js_or (currentFile s) JEmpty = currentFile s
  /\ nullish (layer s) = false
  /\ nullish (totalLayers s) = false
  /\ nullish (nozzleTemp s) = false
  /\ nullish (nozzleTargetTemp s) = false
  /\ nullish (bedTemp s) = false
  /\ nullish (bedTargetTemp s) = false
  /\ nullish (chamberTemp s) = false
  /\ nullish (printError s) = false
  /\ nullish (printErrorCode s) = false
  /\ is_Some (hms s).

(** The entry without the diagnostic strings. *)
Definition withoutDebug (s : Snapshot) : Snapshot :=
  {| descr := descr s; online := online s; gcodeState := gcodeState s;
     printProgress := printProgress s; remainingTime := remainingTime s;
     currentFile := currentFile s; layer := layer s;
     totalLayers := totalLayers s; nozzleTemp := nozzleTemp s;
     nozzleTargetTemp := nozzleTargetTemp s; nozzleTemp2 := nozzleTemp2 s;
     nozzleTargetTemp2 := nozzleTargetTemp2 s; bedTemp := bedTemp s;
     bedTargetTemp := bedTargetTemp s; chamberTemp := chamberTemp s;
     partFan := partFan s; auxFan := auxFan s; chamberFan := chamberFan s;
     chamberLight := chamberLight s; workLight := workLight s;
     speedLevel := speedLevel s; speedMagnitude := speedMagnitude s;
     ams := ams s; externalSpool := externalSpool s;
     externalSpools := externalSpools s; wifiSignal := wifiSignal s;
     printType := printType s; printError := printError s;
     printErrorCode := printErrorCode s; printStage := printStage s;
     hms := hms s; h2debug := None |}.

(** A listed tray or spool carries a material type, or a colour other
    than the empty sentinel. *)
Definition carriesData (type color : jsval) : Prop :=
  truthy type = true
  \/ (truthy color = true /\ is_str "00000000" color = false).


(** A unit with at most four slots, as the identifier [unitIdx * 4 +
    trayIdx] supposes. *)
Definition fourSlots (u : AmsUnit) : Prop :=
  match unit_tray u with
  | Some ts => (length ts <= 4)%nat
  | None => True
  end.

(** Sample filament data. *)
Definition blankTray : Tray :=
  {| tray_id := JUndef; tray_type := JUndef; tray_color := JStr "00000000";
     tray_sub_brands := JUndef; tray_remain := JUndef; tray_k := JUndef;
     nozzle_temp_min := JUndef; nozzle_temp_max := JUndef;
     tray_info_idx := JUndef; tag_uid := JUndef; tray_uuid := JUndef;
     tray_weight := JUndef; drying_temp := JUndef; drying_time := JUndef |}.

Definition plaTray : Tray :=
  {| tray_id := JStr "254"; tray_type := JStr "PLA"; tray_color := JStr "FF0000FF";
     tray_sub_brands := JStr "PLA Basic"; tray_remain := JInt 80; tray_k := JUndef;
     nozzle_temp_min := JStr "190"; nozzle_temp_max := JStr "230";
     tray_info_idx := JStr "GFA00"; tag_uid := JUndef; tray_uuid := JUndef;
     tray_weight := JStr "1000"; drying_temp := JUndef; drying_time := JUndef |}.

Definition colourTray : Tray :=
  {| tray_id := JStr "253"; tray_type := JUndef; tray_color := JStr "00FF00FF";
     tray_sub_brands := JUndef; tray_remain := JUndef; tray_k := JUndef;
     nozzle_temp_min := JUndef; nozzle_temp_max := JUndef;
     tray_info_idx := JUndef; tag_uid := JUndef; tray_uuid := JUndef;
     tray_weight := JUndef; drying_temp := JUndef; drying_time := JUndef |}.

Definition sampleUnits : list AmsUnit :=
  [ {| humidity_raw := JStr "41"; unit_humidity := JStr "4"; unit_temp := JStr "27";
       unit_tray := Some [Some plaTray; None; Some blankTray; Some colourTray] |};
    {| humidity_raw := JUndef; unit_humidity := JUndef; unit_temp := JUndef;
       unit_tray := Some [Some blankTray; Some plaTray] |} ].

Definition sampleAms : AmsReport :=
  {| ams_humidity := JStr "4"; tray_now := JStr "0"; ams_units := Some sampleUnits |}.

Definition amsReport : PrintReport :=
  {| gcode_state := JUndef; mc_percent := JUndef; mc_remaining_time := JUndef;
     gcode_file := JUndef; subtask_name := JUndef; layer_num := JUndef;
     total_layer_num := JUndef; nozzle_temper := JUndef;
     nozzle_target_temper := JUndef; nozzle_temper_2 := JUndef;
     nozzle_target_temper_2 := JUndef; bed_temper := JUndef;
     bed_target_temper := JUndef; chamber_temper := JUndef;
     cooling_fan_speed := JUndef; big_fan1_speed := JUndef;
     big_fan2_speed := JUndef; lights_report := None; spd_lvl := JUndef;
     spd_mag := JUndef; p_ams := Some sampleAms;
     vir_slot := Some [blankTray; plaTray; colourTray]; vt_tray := Some plaTray;
     wifi_signal := JUndef; print_type := JUndef; print_error := JUndef;
     mc_print_error_code := JUndef; mc_print_stage := JUndef; p_hms := None;
     device_extruder_info := None; extruder_info := None;
     device_ctc_info_temp := JUndef; info_temp := JUndef |}.

(** The same report with every virtual slot empty. *)
Definition unloadedReport : PrintReport :=
  {| gcode_state := JUndef; mc_percent := JUndef; mc_remaining_time := JUndef;
     gcode_file := JUndef; subtask_name := JUndef; layer_num := JUndef;
     total_layer_num := JUndef; nozzle_temper := JUndef;
     nozzle_target_temper := JUndef; nozzle_temper_2 := JUndef;
     nozzle_target_temper_2 := JUndef; bed_temper := JUndef;
     bed_target_temper := JUndef; chamber_temper := JUndef;
     cooling_fan_speed := JUndef; big_fan1_speed := JUndef;
     big_fan2_speed := JUndef; lights_report := None; spd_lvl := JUndef;
     spd_mag := JUndef; p_ams := None;
     vir_slot := Some [blankTray; blankTray]; vt_tray := Some plaTray;
     wifi_signal := JUndef; print_type := JUndef; print_error := JUndef;
     mc_print_error_code := JUndef; mc_print_stage := JUndef; p_hms := None;
     device_extruder_info := None; extruder_info := None;
     device_ctc_info_temp := JUndef; info_temp := JUndef |}.

(** *** Notions for the connection manager *)

(** [st'] differs from [st] at most in what has been published and
    logged. *)
Definition sameButTraffic (st st' : State) : Prop :=
  mqttClients st' = mqttClients st /\ printers st' = printers st
  /\ printerDataCache st' = printerDataCache st
  /\ printerReconnectTimers st' = printerReconnectTimers st
  /\ reconnectAttempts st' = reconnectAttempts st
  /\ mqttErrorThrottle st' = mqttErrorThrottle st
  /\ clients st' = clients st /\ timers st' = timers st.

(** A G-code payload whose line ends with a line feed. *)
Definition lineTerminated (pl : Payload) : Prop :=
  match pl with
  | PGcodeLine param => last param = Some (Lit LF)
  | _ => True
  end.

(** Everything published went through a client object of the printer
    whose request topic it was published on. *)
Definition addressed (st : State) : Prop :=
  forall c topic pl, (c, topic, pl) ∈ outbox st ->
    exists cl, clients st !! c = Some cl
               /\ topic = requestTopic (serialNumber (c_printer cl)).

(** Every callback and timer left by a command belongs to a client and a
    topic on which something was published. *)
Definition deferredPublished (st : State) : Prop :=
  forall k d, deferred st !! k = Some d ->
    exists pl, (d_client d, d_topic d, pl) ∈ outbox st.

(** The descriptor of every client object is cached under its serial. *)
Definition clientsCached (st : State) : Prop :=
  forall c cl, clients st !! c = Some cl ->
    is_Some (printerDataCache st !! serialNumber (c_printer cl)).

(** The timer filed for a serial is a pending timer of that serial. *)
Definition timersRegistered (st : State) : Prop :=
  forall serial t, printerReconnectTimers st !! serial = Some t ->
    exists tm, timers st !! t = Some tm /\ t_status tm = Pending
               /\ t_serial tm = serial.

(** A camera stream between two frames. *)
Definition idleStream : StreamData :=
  {| buffer := []; lastFrame := None; frameCount := 0; sent := [] |}.

(** ** The camera of the A1 and P1 series *)

(** *** The authentication packet *)

(** The byte [z mod 256]. *)
Definition byteOfZ (z : Z) : Byte.byte :=
  default Byte.x00 (Byte.of_N (Z.to_N (z mod 256))).

(** [Buffer.alloc(n)] *)
Definition alloc (n : nat) : bytes := replicate n Byte.x00.

(** [buf.writeUInt32LE(value, offset)]; [None] stands for the
    [RangeError] thrown when the value is no unsigned 32-bit integer or
    the four bytes do not fit. *)
Definition writeUInt32LE (value : Z) (offset : nat) (buf : bytes) : option bytes :=
  if (0 <=? value) && (value <? 2 ^ 32) && (offset + 4 <=? length buf)%nat
  then Some (list_inserts offset
               [byteOfZ value; byteOfZ (Z.shiftr value 8);
                byteOfZ (Z.shiftr value 16); byteOfZ (Z.shiftr value 24)] buf)
  else None.

(** [src.copy(target, targetStart)]: the bytes of [src] that fit. *)
Definition copy (src : bytes) (targetStart : nat) (target : bytes) : bytes :=
  list_inserts targetStart src target.

(** The packet written when the TLS connection stands.  A string is the
    sequence of its UTF-8 bytes, which is what [Buffer.from] yields.
<<
    const authPacket = Buffer.alloc(80);
    authPacket.writeUInt32LE(0x40, 0);
    authPacket.writeUInt32LE(0x3000, 4);
    authPacket.writeUInt32LE(0, 8);
    authPacket.writeUInt32LE(0, 12);
    Buffer.from('bblp').copy(authPacket, 16);
    Buffer.from(accessCode).copy(authPacket, 48);
>> *)
Definition authPacket (accessCode : string) : option bytes :=
  b ← writeUInt32LE 0x40 0 (alloc 80);
  b ← writeUInt32LE 0x3000 4 b;
  b ← writeUInt32LE 0 8 b;
  b ← writeUInt32LE 0 12 b;
  let b := copy (list_byte_of_string "bblp") 16 b in
  Some (copy (list_byte_of_string accessCode) 48 b).

(** The first 48 bytes of every packet: [0x40] and [0x3000] as
    little-endian words, two zero words, the user name, zero padding. *)
Definition authHeader : bytes :=
  [Byte.x40; Byte.x00; Byte.x00; Byte.x00; Byte.x00; Byte.x30; Byte.x00; Byte.x00]
  ++ replicate 8 Byte.x00 ++ list_byte_of_string "bblp" ++ replicate 28 Byte.x00.

(** *** Reconnect delay of the camera socket *)

(** [Math.min(5000 * Math.pow(1.5, Math.min(attempts - 1, 6)), 30000)] for
    the counter after its increment ([attempts >= 1]), in microseconds:
    the powers of 1.5 up to the sixth times 5000 ms are whole numbers of
    microseconds, and binary64 holds them exactly. *)
Definition cameraDelay (attempts : nat) : Z :=
  let k := Z.of_nat (Nat.min (attempts - 1) 6) in
  Z.min (5000000 * 3 ^ k / 2 ^ k) 30000000.

(** *** The stream objects, their sockets and timers *)

(** A TLS socket: open, destroyed by [destroy()] with its [close] event
    still to come, or closed. *)
Inductive SockStatus := SockOpen | SockDestroyed | SockClosed.

(** A socket made by [connectJpegStream], with the arguments its handlers
    close over ([so_stream] names the [streamData] object), whether the
    TLS handshake is done, and the packets written to it. *)
Record Socket := {
  so_serial : string;
  so_accessCode : string;
  so_ip : string;
  so_stream : nat;
  so_status : SockStatus;
  so_secure : bool;
  so_written : list bytes
}.

(** A [streamData] object.  [cs_data] holds the fields the frame
    extractor works on; [cs_clients] is the set of attached responses;
    [connectTime] and [receivedData] are assigned by [connectJpegStream]
    before they are first read.  The fields [accessCode] and [ip] are
    never read and are left out. *)
Record CamStream := {
  cs_data : StreamData;
  cs_socket : option nat;
  cs_lastFrameTime : Z;
  cs_clients : list nat;
  cs_reconnectAttempts : nat;
  cs_watchdogTimer : option nat;
  cs_connectTime : Z;
  cs_receivedData : bool
}.

(** A timeout set by the [close] handler of a socket. *)
Record CamTimer := {
  ct_serial : string;
  ct_accessCode : string;
  ct_ip : string;
  ct_stream : nat;
  ct_delay : Z;
  ct_fired : bool
}.

(** The interval set by [startJpegStream]. *)
Record Watchdog := {
  wd_serial : string;
  wd_accessCode : string;
  wd_ip : string;
  wd_stream : nat;
  wd_cleared : bool
}.

(** A response of [GET /stream/:serial]: the stream object it was
    attached to, whether [end()] was called on it, and the frames written
    to it by [sendJpegFrame] (the multipart headers are not modelled). *)
Record Viewer := {
  v_stream : nat;
  v_ended : bool;
  v_frames : list bytes
}.

(** An entry of [pendingStreams]. *)
Record PendingStream := {
  ps_serial : string;
  ps_accessCode : string;
  ps_ip : string;
  ps_model : option string
}.

(** The camera state of the main process: the module-level maps and
    flags, and the objects the runtime holds, named by their index of
    creation.  [relayPuts] lists the [PUT /api/streams] requests sent to
    the relay ([name], [src]).  Log lines are not modelled. *)
Record Cam := {
  jpegStreams : gmap string nat;
  streamObjs : list CamStream;
  sockets : list Socket;
  camTimers : list CamTimer;
  watchdogs : list Watchdog;
  viewers : list Viewer;
  cameraUrls : gmap string string;
  cameraStreams : gmap string string;
  pendingStreams : list PendingStream;
  go2rtcReady : bool;
  tunnelUrl : string;
  localIp : string;
  relayPuts : list (string * string)
}.

Definition initCam (ip : string) : Cam :=
  {| jpegStreams := ∅; streamObjs := []; sockets := []; camTimers := [];
     watchdogs := []; viewers := []; cameraUrls := ∅; cameraStreams := ∅;
     pendingStreams := []; go2rtcReady := false; tunnelUrl := "";
     localIp := ip; relayPuts := [] |}.

Definition setJpegStreams (m : gmap string nat) (st : Cam) : Cam :=
  {| jpegStreams := m; streamObjs := streamObjs st; sockets := sockets st;
     camTimers := camTimers st; watchdogs := watchdogs st; viewers := viewers st;
     cameraUrls := cameraUrls st; cameraStreams := cameraStreams st;
     pendingStreams := pendingStreams st; go2rtcReady := go2rtcReady st;
     tunnelUrl := tunnelUrl st; localIp := localIp st; relayPuts := relayPuts st |}.

Definition setStreamObjs (l : list CamStream) (st : Cam) : Cam :=
  {| jpegStreams := jpegStreams st; streamObjs := l; sockets := sockets st;
     camTimers := camTimers st; watchdogs := watchdogs st; viewers := viewers st;
     cameraUrls := cameraUrls st; cameraStreams := cameraStreams st;
     pendingStreams := pendingStreams st; go2rtcReady := go2rtcReady st;
     tunnelUrl := tunnelUrl st; localIp := localIp st; relayPuts := relayPuts st |}.

Definition setSockets (l : list Socket) (st : Cam) : Cam :=
  {| jpegStreams := jpegStreams st; streamObjs := streamObjs st; sockets := l;
     camTimers := camTimers st; watchdogs := watchdogs st; viewers := viewers st;
     cameraUrls := cameraUrls st; cameraStreams := cameraStreams st;
     pendingStreams := pendingStreams st; go2rtcReady := go2rtcReady st;
     tunnelUrl := tunnelUrl st; localIp := localIp st; relayPuts := relayPuts st |}.

Definition setCamTimers (l : list CamTimer) (st : Cam) : Cam :=
  {| jpegStreams := jpegStreams st; streamObjs := streamObjs st;
     sockets := sockets st; camTimers := l; watchdogs := watchdogs st;
     viewers := viewers st; cameraUrls := cameraUrls st;
     cameraStreams := cameraStreams st; pendingStreams := pendingStreams st;
     go2rtcReady := go2rtcReady st; tunnelUrl := tunnelUrl st;
     localIp := localIp st; relayPuts := relayPuts st |}.

Definition setWatchdogs (l : list Watchdog) (st : Cam) : Cam :=
  {| jpegStreams := jpegStreams st; streamObjs := streamObjs st;
     sockets := sockets st; camTimers := camTimers st; watchdogs := l;
     viewers := viewers st; cameraUrls := cameraUrls st;
     cameraStreams := cameraStreams st; pendingStreams := pendingStreams st;
     go2rtcReady := go2rtcReady st; tunnelUrl := tunnelUrl st;
     localIp := localIp st; relayPuts := relayPuts st |}.

Definition setViewers (l : list Viewer) (st : Cam) : Cam :=
  {| jpegStreams := jpegStreams st; streamObjs := streamObjs st;
     sockets := sockets st; camTimers := camTimers st; watchdogs := watchdogs st;
     viewers := l; cameraUrls := cameraUrls st;
     cameraStreams := cameraStreams st; pendingStreams := pendingStreams st;
     go2rtcReady := go2rtcReady st; tunnelUrl := tunnelUrl st;
     localIp := localIp st; relayPuts := relayPuts st |}.

Definition setCameraUrls (m : gmap string string) (st : Cam) : Cam :=
  {| jpegStreams := jpegStreams st; streamObjs := streamObjs st;
     sockets := sockets st; camTimers := camTimers st; watchdogs := watchdogs st;
     viewers := viewers st; cameraUrls := m;
     cameraStreams := cameraStreams st; pendingStreams := pendingStreams st;
     go2rtcReady := go2rtcReady st; tunnelUrl := tunnelUrl st;
     localIp := localIp st; relayPuts := relayPuts st |}.

Definition setCameraStreams (m : gmap string string) (st : Cam) : Cam :=
  {| jpegStreams := jpegStreams st; streamObjs := streamObjs st;
     sockets := sockets st; camTimers := camTimers st; watchdogs := watchdogs st;
     viewers := viewers st; cameraUrls := cameraUrls st;
     cameraStreams := m; pendingStreams := pendingStreams st;
     go2rtcReady := go2rtcReady st; tunnelUrl := tunnelUrl st;
     localIp := localIp st; relayPuts := relayPuts st |}.

Definition setPendingStreams (l : list PendingStream) (st : Cam) : Cam :=
  {| jpegStreams := jpegStreams st; streamObjs := streamObjs st;
     sockets := sockets st; camTimers := camTimers st; watchdogs := watchdogs st;
     viewers := viewers st; cameraUrls := cameraUrls st;
     cameraStreams := cameraStreams st; pendingStreams := l;
     go2rtcReady := go2rtcReady st; tunnelUrl := tunnelUrl st;
     localIp := localIp st; relayPuts := relayPuts st |}.

Definition setGo2rtcReady (b : bool) (st : Cam) : Cam :=
  {| jpegStreams := jpegStreams st; streamObjs := streamObjs st;
     sockets := sockets st; camTimers := camTimers st; watchdogs := watchdogs st;
     viewers := viewers st; cameraUrls := cameraUrls st;
     cameraStreams := cameraStreams st; pendingStreams := pendingStreams st;
     go2rtcReady := b; tunnelUrl := tunnelUrl st;
     localIp := localIp st; relayPuts := relayPuts st |}.

Definition setTunnelUrl (u : string) (st : Cam) : Cam :=
  {| jpegStreams := jpegStreams st; streamObjs := streamObjs st;
     sockets := sockets st; camTimers := camTimers st; watchdogs := watchdogs st;
     viewers := viewers st; cameraUrls := cameraUrls st;
     cameraStreams := cameraStreams st; pendingStreams := pendingStreams st;
     go2rtcReady := go2rtcReady st; tunnelUrl := u;
     localIp := localIp st; relayPuts := relayPuts st |}.

Definition setRelayPuts (l : list (string * string)) (st : Cam) : Cam :=
  {| jpegStreams := jpegStreams st; streamObjs := streamObjs st;
     sockets := sockets st; camTimers := camTimers st; watchdogs := watchdogs st;
     viewers := viewers st; cameraUrls := cameraUrls st;
     cameraStreams := cameraStreams st; pendingStreams := pendingStreams st;
     go2rtcReady := go2rtcReady st; tunnelUrl := tunnelUrl st;
     localIp := localIp st; relayPuts := l |}.

(** Assignments to the fields of a stream object. *)
Definition withData (d : StreamData) (s : CamStream) : CamStream :=
  {| cs_data := d; cs_socket := cs_socket s;
     cs_lastFrameTime := cs_lastFrameTime s; cs_clients := cs_clients s;
     cs_reconnectAttempts := cs_reconnectAttempts s;
     cs_watchdogTimer := cs_watchdogTimer s; cs_connectTime := cs_connectTime s;
     cs_receivedData := cs_receivedData s |}.

Definition withSocket (k : option nat) (s : CamStream) : CamStream :=
  {| cs_data := cs_data s; cs_socket := k;
     cs_lastFrameTime := cs_lastFrameTime s; cs_clients := cs_clients s;
     cs_reconnectAttempts := cs_reconnectAttempts s;
     cs_watchdogTimer := cs_watchdogTimer s; cs_connectTime := cs_connectTime s;
     cs_receivedData := cs_receivedData s |}.

Definition withLastFrameTime (t : Z) (s : CamStream) : CamStream :=
  {| cs_data := cs_data s; cs_socket := cs_socket s;
     cs_lastFrameTime := t; cs_clients := cs_clients s;
     cs_reconnectAttempts := cs_reconnectAttempts s;
     cs_watchdogTimer := cs_watchdogTimer s; cs_connectTime := cs_connectTime s;
     cs_receivedData := cs_receivedData s |}.

Definition withClients (l : list nat) (s : CamStream) : CamStream :=
  {| cs_data := cs_data s; cs_socket := cs_socket s;
     cs_lastFrameTime := cs_lastFrameTime s; cs_clients := l;
     cs_reconnectAttempts := cs_reconnectAttempts s;
     cs_watchdogTimer := cs_watchdogTimer s; cs_connectTime := cs_connectTime s;
     cs_receivedData := cs_receivedData s |}.

Definition withReconnectAttempts (n : nat) (s : CamStream) : CamStream :=
  {| cs_data := cs_data s; cs_socket := cs_socket s;
     cs_lastFrameTime := cs_lastFrameTime s; cs_clients := cs_clients s;
     cs_reconnectAttempts := n;
     cs_watchdogTimer := cs_watchdogTimer s; cs_connectTime := cs_connectTime s;
     cs_receivedData := cs_receivedData s |}.

Definition withWatchdogTimer (w : option nat) (s : CamStream) : CamStream :=
  {| cs_data := cs_data s; cs_socket := cs_socket s;
     cs_lastFrameTime := cs_lastFrameTime s; cs_clients := cs_clients s;
     cs_reconnectAttempts := cs_reconnectAttempts s;
     cs_watchdogTimer := w; cs_connectTime := cs_connectTime s;
     cs_receivedData := cs_receivedData s |}.

Definition withConnectTime (t : Z) (s : CamStream) : CamStream :=
  {| cs_data := cs_data s; cs_socket := cs_socket s;
     cs_lastFrameTime := cs_lastFrameTime s; cs_clients := cs_clients s;
     cs_reconnectAttempts := cs_reconnectAttempts s;
     cs_watchdogTimer := cs_watchdogTimer s; cs_connectTime := t;
     cs_receivedData := cs_receivedData s |}.

Definition withReceivedData (b : bool) (s : CamStream) : CamStream :=
  {| cs_data := cs_data s; cs_socket := cs_socket s;
     cs_lastFrameTime := cs_lastFrameTime s; cs_clients := cs_clients s;
     cs_reconnectAttempts := cs_reconnectAttempts s;
     cs_watchdogTimer := cs_watchdogTimer s; cs_connectTime := cs_connectTime s;
     cs_receivedData := b |}.

(** An assignment to a field of the stream object [sid]. *)
Definition updStream (sid : nat) (f : CamStream -> CamStream) (st : Cam) : Cam :=
  setStreamObjs (alter f sid (streamObjs st)) st.

(** [socket.destroy()]: an open socket is torn down and will emit
    [close]; on a socket already destroyed or closed nothing happens. *)
Definition destroy (k : nat) (st : Cam) : Cam :=
  setSockets
    (alter (fun so =>
              match so_status so with
              | SockOpen =>
                  {| so_serial := so_serial so; so_accessCode := so_accessCode so;
                     so_ip := so_ip so; so_stream := so_stream so;
                     so_status := SockDestroyed; so_secure := so_secure so;
                     so_written := so_written so |}
              | _ => so
              end) k (sockets st)) st.

(** [clearInterval(w)] *)
Definition clearInterval (w : nat) (st : Cam) : Cam :=
  setWatchdogs
    (alter (fun wd => {| wd_serial := wd_serial wd;
                         wd_accessCode := wd_accessCode wd; wd_ip := wd_ip wd;
                         wd_stream := wd_stream wd; wd_cleared := true |})
           w (watchdogs st)) st.

(** [config.tunnelUrl || ('http://' + localIp + ':' + MJPEG_PORT)] *)
Definition baseUrl (st : Cam) : string :=
  if String.eqb (tunnelUrl st) "" then ("http://" ++ localIp st ++ ":8765")%string
  else tunnelUrl st.

(** <<
  function connectJpegStream(serial, accessCode, ip, streamData) {
    streamData.connectTime = Date.now();
    streamData.receivedData = false;
    const socket = tls.connect(options, () => { ... });
    socket.on('data', ...); socket.on('error', ...); socket.on('close', ...);
    streamData.socket = socket;
  }
>> *)
Definition connectJpegStream (serial accessCode ip : string) (sid : nat) (now : Z)
    (st : Cam) : Cam :=
  let st := updStream sid (fun s => withReceivedData false (withConnectTime now s)) st in
  let k := length (sockets st) in
  let st := setSockets (sockets st ++
                        [{| so_serial := serial; so_accessCode := accessCode;
                            so_ip := ip; so_stream := sid; so_status := SockOpen;
                            so_secure := false; so_written := [] |}]) st in
  updStream sid (withSocket (Some k)) st.

(** <<
  function startJpegStream(serial, accessCode, ip) {
    if (jpegStreams.has(serial)) { sendLog(...); return; }
    const streamData = { socket: null, lastFrame: null, lastFrameTime: 0,
      clients: new Set(), reconnectAttempts: 0, buffer: Buffer.alloc(0),
      watchdogTimer: null, accessCode: accessCode, ip: ip };
    jpegStreams.set(serial, streamData);
    streamData.watchdogTimer = setInterval(() => { ... }, 30000);
    connectJpegStream(serial, accessCode, ip, streamData);
    const baseUrl = config.tunnelUrl || ('http://' + localIp + ':' + MJPEG_PORT);
    cameraUrls.set(serial, baseUrl + '/stream/' + serial);
  }
>> *)
Definition startJpegStream (serial accessCode ip : string) (now : Z) (st : Cam)
  : Cam :=
  match jpegStreams st !! serial with
  | Some _ => st
  | None =>
      let sid := length (streamObjs st) in
      let w := length (watchdogs st) in
      let streamData :=
        {| cs_data := {| buffer := []; lastFrame := None; frameCount := 0;
                         sent := [] |};
           cs_socket := None; cs_lastFrameTime := 0; cs_clients := [];
           cs_reconnectAttempts := 0; cs_watchdogTimer := Some w;
           cs_connectTime := 0; cs_receivedData := false |} in
      let st := setStreamObjs (streamObjs st ++ [streamData]) st in
      let st := setJpegStreams (<[serial := sid]> (jpegStreams st)) st in
      let st := setWatchdogs (watchdogs st ++
                              [{| wd_serial := serial; wd_accessCode := accessCode;
                                  wd_ip := ip; wd_stream := sid;
                                  wd_cleared := false |}]) st in
      let st := connectJpegStream serial accessCode ip sid now st in
      setCameraUrls (<[serial := (baseUrl st ++ "/stream/" ++ serial)%string]>
                       (cameraUrls st)) st
  end.

(** [client.end()] on a response. *)
Definition endViewer (v : nat) (st : Cam) : Cam :=
  setViewers (alter (fun vw => {| v_stream := v_stream vw; v_ended := true;
                                  v_frames := v_frames vw |}) v (viewers st)) st.

(** <<
  function stopJpegStream(serial) {
    const stream = jpegStreams.get(serial);
    if (stream) {
      if (stream.watchdogTimer) {
        clearInterval(stream.watchdogTimer); stream.watchdogTimer = null;
      }
      if (stream.socket) stream.socket.destroy();
      stream.clients.forEach(client => { try { client.end(); } catch (e) {} });
      jpegStreams.delete(serial);
    }
  }
>>
    The map holds references to stream objects; an index without an
    object does not occur, and only the entry is deleted then. *)
Definition stopJpegStream (serial : string) (st : Cam) : Cam :=
  match jpegStreams st !! serial with
  | None => st
  | Some sid =>
      let st :=
        match streamObjs st !! sid with
        | Some stream =>
            let st := match cs_watchdogTimer stream with
                      | Some w => updStream sid (withWatchdogTimer None)
                                    (clearInterval w st)
                      | None => st
                      end in
            let st := match cs_socket stream with
                      | Some k => destroy k st
                      | None => st
                      end in
            fold_left (fun st v => endViewer v st) (cs_clients stream) st
        | None => st
        end in
      setJpegStreams (delete serial (jpegStreams st)) st
  end.

(** [sendJpegFrame(res, frameData)]; a response that was ended takes no
    more data. *)
Definition sendJpegFrame (v : nat) (frame : bytes) (st : Cam) : Cam :=
  setViewers (alter (fun vw => if v_ended vw then vw
                               else {| v_stream := v_stream vw; v_ended := false;
                                       v_frames := v_frames vw ++ [frame] |})
                    v (viewers st)) st.

(** The TLS handshake callback of socket [k]: the attempt counter is
    reset and the authentication packet written. *)
Definition onSecure (k : nat) (st : Cam) : Cam :=
  match sockets st !! k with
  | Some so =>
      match so_status so, so_secure so with
      | SockOpen, false =>
          let st := updStream (so_stream so) (withReconnectAttempts 0) st in
          setSockets
            (alter (fun so =>
                      {| so_serial := so_serial so; so_accessCode := so_accessCode so;
                         so_ip := so_ip so; so_stream := so_stream so;
                         so_status := so_status so; so_secure := true;
                         so_written :=
                           match authPacket (so_accessCode so) with
                           | Some pkt => so_written so ++ [pkt]
                           | None => so_written so
                           end |}) k (sockets st)) st
      | _, _ => st
      end
  | None => st
  end.

(** The [data] handler of socket [k] at time [now]: the chunk is appended
    to the buffer of the stream object and the frames are extracted; each
    frame is written to the attached responses and stamps
    [lastFrameTime]. *)
Definition onData (k : nat) (data : bytes) (now : Z) (st : Cam) : Cam :=
  match sockets st !! k with
  | Some so =>
      match so_status so, so_secure so with
      | SockOpen, true =>
          let sid := so_stream so in
          match streamObjs st !! sid with
          | Some stream =>
              match onJpegData data (cs_data stream) with
              | Some sd' =>
                  let frames := drop (length (sent (cs_data stream))) (sent sd') in
                  let st := updStream sid
                              (fun s =>
                                 withData sd'
                                   (withReceivedData true
                                      (match frames with
                                       | [] => s
                                       | _ :: _ => withLastFrameTime now s
                                       end))) st in
                  fold_left (fun st frame =>
                               fold_left (fun st v => sendJpegFrame v frame st)
                                         (cs_clients stream) st)
                            frames st
              | None => st
              end
          | None => st
          end
      | _, _ => st
      end
  | None => st
  end.

(** The [close] handler of socket [k]:
<<
    streamData.socket = null;
    if (jpegStreams.has(serial)) {
      streamData.reconnectAttempts++;
      const delay = Math.min(5000 * Math.pow(1.5,
                      Math.min(streamData.reconnectAttempts - 1, 6)), 30000);
      setTimeout(() => {
        if (jpegStreams.has(serial)) connectJpegStream(serial, accessCode, ip, streamData);
      }, delay);
    }
>> *)
Definition onSockClose (k : nat) (st : Cam) : Cam :=
  match sockets st !! k with
  | Some so =>
      match so_status so with
      | SockClosed => st
      | _ =>
          let sid := so_stream so in
          let st := setSockets
                      (alter (fun so =>
                                {| so_serial := so_serial so;
                                   so_accessCode := so_accessCode so;
                                   so_ip := so_ip so; so_stream := so_stream so;
                                   so_status := SockClosed;
                                   so_secure := so_secure so;
                                   so_written := so_written so |}) k (sockets st))
                      st in
          let st := updStream sid (withSocket None) st in
          match jpegStreams st !! so_serial so with
          | Some _ =>
              let attempts :=
                S (from_option cs_reconnectAttempts 0%nat (streamObjs st !! sid)) in
              let st := updStream sid (withReconnectAttempts attempts) st in
              setCamTimers (camTimers st ++
                            [{| ct_serial := so_serial so;
                                ct_accessCode := so_accessCode so;
                                ct_ip := so_ip so; ct_stream := sid;
                                ct_delay := cameraDelay attempts;
                                ct_fired := false |}]) st
          | None => st
          end
      end
  | None => st
  end.

(** The callback of the timeout set by the [close] handler. *)
Definition onCamTimer (t : nat) (now : Z) (st : Cam) : Cam :=
  match camTimers st !! t with
  | Some tm =>
      if ct_fired tm then st
      else
        let st := setCamTimers
                    (alter (fun tm => {| ct_serial := ct_serial tm;
                                         ct_accessCode := ct_accessCode tm;
                                         ct_ip := ct_ip tm;
                                         ct_stream := ct_stream tm;
                                         ct_delay := ct_delay tm;
                                         ct_fired := true |}) t (camTimers st))
                    st in
        match jpegStreams st !! ct_serial tm with
        | Some _ => connectJpegStream (ct_serial tm) (ct_accessCode tm) (ct_ip tm)
                      (ct_stream tm) now st
        | None => st
        end
  | None => st
  end.

(** The restart performed by the watchdog:
<<
      streamData.socket.destroy();
      streamData.socket = null;
      streamData.buffer = Buffer.alloc(0);
      streamData.receivedData = false;
      streamData.reconnectAttempts = 0;
      connectJpegStream(serial, accessCode, ip, streamData);
>> *)
Definition watchdogRestart (wd : Watchdog) (k : nat) (now : Z) (st : Cam) : Cam :=
  let sid := wd_stream wd in
  let st := destroy k st in
  let st := updStream sid
              (fun s => withReconnectAttempts 0
                          (withReceivedData false
                             (withData (withBuffer [] (cs_data s))
                                (withSocket None s)))) st in
  connectJpegStream (wd_serial wd) (wd_accessCode wd) (wd_ip wd) sid now st.

(** A tick of the interval set by [startJpegStream], at time [now]:
<<
    if (!jpegStreams.has(serial)) { clearInterval(streamData.watchdogTimer); return; }
    const silent = now - streamData.lastFrameTime;
    if (streamData.lastFrameTime > 0 && silent > 60000 && streamData.socket) {
      ... restart ...
    } else if (streamData.lastFrameTime === 0 && streamData.socket
               && streamData.receivedData === false) {
      const socketAge = now - (streamData.connectTime || now);
      if (socketAge > 30000) { ... restart ... }
    }
>> *)
Definition onWatchdog (w : nat) (now : Z) (st : Cam) : Cam :=
  match watchdogs st !! w with
  | Some wd =>
      if wd_cleared wd then st
      else
        match streamObjs st !! wd_stream wd with
        | Some stream =>
            match jpegStreams st !! wd_serial wd with
            | None =>
                match cs_watchdogTimer stream with
                | Some w' => clearInterval w' st
                | None => st
                end
            | Some _ =>
                let silent := now - cs_lastFrameTime stream in
                match cs_socket stream with
                | Some k =>
                    if (0 <? cs_lastFrameTime stream) && (60000 <? silent)
                    then watchdogRestart wd k now st
                    else if (cs_lastFrameTime stream =? 0)
                            && negb (cs_receivedData stream)
                    then
                      let socketAge :=
                        now - (if cs_connectTime stream =? 0 then now
                               else cs_connectTime stream) in
                      if 30000 <? socketAge then watchdogRestart wd k now st
                      else st
                    else st
                | None => st
                end
            end
        | None => st
        end
  | None => st
  end.

(** [GET /stream/:serial]: the response is attached to the stream object
    of the serial and gets the cached frame; without a stream the answer
    is 404. *)
Definition onViewerOpen (serial : string) (st : Cam) : Cam :=
  match jpegStreams st !! serial with
  | Some sid =>
      match streamObjs st !! sid with
      | Some stream =>
          let v := length (viewers st) in
          let st := setViewers (viewers st ++
                                [{| v_stream := sid; v_ended := false;
                                    v_frames := [] |}]) st in
          let st := updStream sid (withClients (cs_clients stream ++ [v])) st in
          match lastFrame (cs_data stream) with
          | Some frame => sendJpegFrame v frame st
          | None => st
          end
      | None => st
      end
  | None => st
  end.

(** The [close] event of the request of response [v]:
    [stream.clients.delete(res)]. *)
Definition onViewerClose (v : nat) (st : Cam) : Cam :=
  match viewers st !! v with
  | Some vw =>
      updStream (v_stream vw)
        (fun s => withClients (List.filter (fun x => negb (x =? v)%nat) (cs_clients s)) s)
        st
  | None => st
  end.

(** The events of the camera sockets, their timers and the viewers. *)
Inductive CamEvent :=
| CamStart (serial accessCode ip : string) (now : Z)
| CamStop (serial : string)
| SockSecure (k : nat)
| SockData (k : nat) (data : bytes) (now : Z)
| SockError (k : nat)
| SockClose (k : nat)
| CamTimerFire (t : nat) (now : Z)
| WatchdogTick (w : nat) (now : Z)
| ViewerOpen (serial : string)
| ViewerClose (v : nat).

(** An event the runtime cannot deliver (data on a socket that is not
    open, a timer that has fired, ...) leaves the state as it is; the
    [error] handler of a socket only logs. *)
Definition camHandle (e : CamEvent) (st : Cam) : Cam :=
  match e with
  | CamStart serial accessCode ip now => startJpegStream serial accessCode ip now st
  | CamStop serial => stopJpegStream serial st
  | SockSecure k => onSecure k st
  | SockData k data now => onData k data now st
  | SockError k => st
  | SockClose k => onSockClose k st
  | CamTimerFire t now => onCamTimer t now st
  | WatchdogTick w now => onWatchdog w now st
  | ViewerOpen serial => onViewerOpen serial st
  | ViewerClose v => onViewerClose v st
  end.

Definition camRun (es : list CamEvent) (st : Cam) : Cam :=
  fold_left (fun st e => camHandle e st) es st.

(** *** Routing of camera streams *)

(** <<
  function isA1P1Model(model) {
    if (!model) return false;
    const m = model.toUpperCase();
    return m.includes('A1') || m.includes('P1');
  }
>> *)
Definition isA1P1Model (model : option string) : bool :=
  match model with
  | None => false
  | Some model =>
      if String.eqb model "" then false
      else
        let m := toUpperCase model in
        includes "A1" m || includes "P1" m
  end.

Definition streamName (serial : string) : string := ("cam_" ++ serial)%string.

(** ['rtspx://bblp:' + accessCode + '@' + ip + ':322/streaming/live/1'] *)
Definition rtspUrl (accessCode ip : string) : string :=
  ("rtspx://bblp:" ++ accessCode ++ "@" ++ ip ++ ":322/streaming/live/1")%string.

(** <<
  function addCameraStream(serial, accessCode, ip, model) {
    if (isA1P1Model(model)) { startJpegStream(serial, accessCode, ip); return; }
    if (!go2rtcReady) { pendingStreams.push({ serial, accessCode, ip, model }); return; }
    const streamName = 'cam_' + serial;
    const streamUrl = 'rtspx://bblp:' + accessCode + '@' + ip + ':322/streaming/live/1';
    cameraStreams.set(streamName, streamUrl);
    const baseUrl = config.tunnelUrl || ('http://' + localIp + ':' + MJPEG_PORT);
    cameraUrls.set(serial, baseUrl + '/api/stream.mjpeg?src=' + streamName);
    http.request(go2rtcApiUrl, { method: 'PUT' }, ...).end();
  }
>>
    The answer of the relay to the request is not modelled. *)
Definition addCameraStream (serial accessCode ip : string) (model : option string)
    (now : Z) (st : Cam) : Cam :=
  if isA1P1Model model then startJpegStream serial accessCode ip now st
  else if negb (go2rtcReady st) then
    setPendingStreams (pendingStreams st ++
                       [{| ps_serial := serial; ps_accessCode := accessCode;
                           ps_ip := ip; ps_model := model |}]) st
  else
    let st := setCameraStreams (<[streamName serial := rtspUrl accessCode ip]>
                                  (cameraStreams st)) st in
    let st := setCameraUrls
                (<[serial := (baseUrl st ++ "/api/stream.mjpeg?src="
                              ++ streamName serial)%string]> (cameraUrls st)) st in
    setRelayPuts (relayPuts st ++ [(streamName serial, rtspUrl accessCode ip)]) st.

(** The timer set by [startGo2rtc] two seconds after the relay was
    spawned (the entries of [pendingStreams] carry no [mjpegUrl]; the
    start of the tunnel that follows is not modelled):
<<
    go2rtcReady = true;
    if (pendingStreams.length > 0) {
      pendingStreams.forEach(s => {
        if (s.mjpegUrl) addMjpegToGo2rtc('cam_' + s.serial, s.mjpegUrl);
        else addCameraStream(s.serial, s.accessCode, s.ip, s.model);
      });
      pendingStreams = [];
    }
>> *)
Definition onRelayReady (now : Z) (st : Cam) : Cam :=
  let st := setGo2rtcReady true st in
  match pendingStreams st with
  | [] => st
  | pending =>
      setPendingStreams []
        (fold_left (fun st s => addCameraStream (ps_serial s) (ps_accessCode s)
                                  (ps_ip s) (ps_model s) now st)
                   pending st)
  end.

(** The camera part of the [printer:remove] handler:
<<
    cameraUrls.delete(data.serialNumber);
    cameraStreams.delete('cam_' + data.serialNumber);
    stopJpegStream(data.serialNumber);
>> *)
Definition removeCamera (serial : string) (st : Cam) : Cam :=
  let st := setCameraUrls (delete serial (cameraUrls st)) st in
  let st := setCameraStreams (delete (streamName serial) (cameraStreams st)) st in
  stopJpegStream serial st.

(** The camera URL of a printer behind the tunnel. *)
Definition tunnelCameraUrl (url serial : string) (model : option string) : string :=
  if isA1P1Model model then (url ++ "/stream/" ++ serial)%string
  else (url ++ "/api/stream.mjpeg?src=cam_" ++ serial)%string.

(** The tunnel reports its address:
<<
    config.tunnelUrl = match[0];
    printers.forEach((printer, serial) => {
      const isA1 = isA1P1Model(printer.model);
      const mjpegUrl = isA1 ? config.tunnelUrl + '/stream/' + serial
                            : config.tunnelUrl + '/api/stream.mjpeg?src=cam_' + serial;
      cameraUrls.set(serial, mjpegUrl);
    });
>>
    on the registry [prs] of the connection manager.  The reset of the
    restart counter and the status messages to the cloud are not
    modelled. *)
Definition onTunnelUrl (url : string) (prs : gmap string Snapshot) (st : Cam) : Cam :=
  let st := setTunnelUrl url st in
  setCameraUrls
    (map_imap (fun serial pr =>
                 Some (tunnelCameraUrl url serial
                         (match descr pr with
                          | Some d => model d
                          | None => None
                          end))) prs
     ∪ cameraUrls st) st.

(** *** Notions for the camera properties *)

(** The serial of every socket created so far, in order of creation. *)
Definition socketSerials (st : Cam) : list string := so_serial <$> sockets st.

(** [st'] has the same registered streams as [st], and the same sockets
    up to their status and what was written to them. *)
Definition sameNet (st st' : Cam) : Prop :=
  jpegStreams st' = jpegStreams st /\ socketSerials st' = socketSerials st.

(** A camera whose stream was started and whose socket is connected. *)
Definition demoCam : Cam :=
  camRun [CamStart (serialNumber demoPrinter) (accessCode demoPrinter)
            (ipAddress demoPrinter) 1000;
          SockSecure 0%nat]
         (initCam "192.168.1.2").

(** The same after a frame of 103 bytes was received at time 2000. *)
Definition streamingCam : Cam :=
  camHandle (SockData 0%nat (jpegSpan sampleBody1) 2000) demoCam.

(** Every response attached to a stream object belongs to it and, unless
    it was ended, has the cached frame of the stream as the last frame
    written to it. *)
Definition viewersServed (st : Cam) : Prop :=
  forall sid stream v,
    streamObjs st !! sid = Some stream -> v ∈ cs_clients stream ->
    exists vw, viewers st !! v = Some vw
               /\ v_stream vw = sid
               /\ (v_ended vw = false ->
                   forall f, lastFrame (cs_data stream) = Some f ->
                             last (v_frames vw) = Some f).

(** No response is attached twice to a stream object ([clients] is a
    [Set]). *)
Definition clientsOnce (st : Cam) : Prop :=
  forall sid stream, streamObjs st !! sid = Some stream -> NoDup (cs_clients stream).

(** No response was attached on the way from [st] to [st']: a stream
    object of [st'] is new and has no client, or has clients it had in
    [st], in their order. *)
Definition thinned (st st' : Cam) : Prop :=
  forall sid s', streamObjs st' !! sid = Some s' ->
    cs_clients s' = []
    \/ exists s, streamObjs st !! sid = Some s
                 /\ cs_clients s' `sublist_of` cs_clients s.

(** The frames a chunk completes on a stream: what [processJpegBuffer]
    delivers after the chunk was appended to the buffer. *)
Definition extracted (data : bytes) (sd : StreamData) : list bytes :=
  match onJpegData data sd with
  | Some sd' => drop (length (sent sd)) (sent sd')
  | None => []
  end.

(** [st'] differs from [st] in nothing the viewers can see: no frame was
    written or cached, and no response attached. *)
Definition calm (st st' : Cam) : Prop :=
  (forall v vw', viewers st' !! v = Some vw' ->
     exists vw, viewers st !! v = Some vw /\ v_stream vw' = v_stream vw
                /\ v_frames vw' = v_frames vw
                /\ (v_ended vw' = false -> v_ended vw = false))
  /\ (forall v, is_Some (viewers st !! v) -> is_Some (viewers st' !! v))
  /\ (forall sid s' v, streamObjs st' !! sid = Some s' -> v ∈ cs_clients s' ->
        exists s, streamObjs st !! sid = Some s /\ v ∈ cs_clients s
                  /\ lastFrame (cs_data s') = lastFrame (cs_data s)).

(** The frames of a chunk written to the attached responses. *)
Definition sendAll (frames : list bytes) (cls : list nat) (st : Cam) : Cam :=
  fold_left (fun st frame =>
               fold_left (fun st v => sendJpegFrame v frame st) cls st)
            frames st.

(** The request sent to the relay for a queued stream. *)
Definition relayPut (s : PendingStream) : string * string :=
  (streamName (ps_serial s), rtspUrl (ps_accessCode s) (ps_ip s)).

(** A call of [addCameraStream] with the arguments held by [s]. *)
Definition addCamera (now : Z) (st : Cam) (s : PendingStream) : Cam :=
  addCameraStream (ps_serial s) (ps_accessCode s) (ps_ip s) (ps_model s) now st.

Definition viaRelay (s : PendingStream) : bool := negb (isA1P1Model (ps_model s)).

Definition x1Camera : PendingStream :=
  {| ps_serial := "00M00A000000001"; ps_accessCode := "87654321";
     ps_ip := "192.168.1.51"; ps_model := Some "X1C" |}.


(** ** The window *)

(** A line of the log area: the time of day, the message and the style
    class. *)
Record LogEntry := {
  le_time : string;
  le_msg : string;
  le_type : string
}.

(** The loop of [addLog], one pass per unit of fuel:
<<
  while (logArea.children.length > 100) {
    logArea.removeChild(logArea.firstChild);
  }
>> *)
Fixpoint trimLog (fuel : nat) (l : list LogEntry) : option (list LogEntry) :=
  match fuel with
  | O => None
  | S fuel' =>
      if (100 <? length l)%nat then trimLog fuel' (tail l) else Some l
  end.

(** [addLog(msg, type)] at the time of day [time], on the children of the
    log area.  Every pass of the loop removes a child, so one unit of
    fuel more than there are children is enough. *)
Definition addLog (time msg type : string) (logArea : list LogEntry)
  : option (list LogEntry) :=
  let logArea := logArea ++ [{| le_time := time; le_msg := msg; le_type := type |}] in
  trimLog (S (length logArea)) logArea.

(** The buttons [renderPrinters] puts on the card of a printer, by their
    [data-cmd]:
<<
    const isOnline = p.online;
    const isPrinting = p.gcodeState === 'RUNNING';
    const isPaused = p.gcodeState === 'PAUSE';
    if (isPrinting || isPaused) {
      if (isPrinting) controls.appendChild(createCtrlBtn('Pause', ..., 'pause', 'pause'));
      if (isPaused) controls.appendChild(createCtrlBtn('Fortsetzen', ..., 'resume', 'resume'));
      controls.appendChild(createCtrlBtn('Stop', ..., 'stop', 'stop'));
    }
    if (isOnline) {
      controls2.appendChild(createCtrlBtn('Licht', ..., 'light'));
      controls2.appendChild(createCtrlBtn('Home', ..., 'home'));
    }
>> *)
Definition shownButtons (p : Snapshot) : list string :=
  let isOnline := truthy (online p) in
  let isPrinting := is_str "RUNNING" (gcodeState p) in
  let isPaused := is_str "PAUSE" (gcodeState p) in
  (if isPrinting || isPaused
   then (if isPrinting then ["pause"%string] else [])
        ++ (if isPaused then ["resume"%string] else []) ++ ["stop"%string]
   else [])
  ++ (if isOnline then ["light"%string; "home"%string] else []).

(** A command object with the given type and the other keys absent. *)
Definition typedCommand (ty : jsval) (on gcode : jsval) : Command :=
  {| cmd_type := ty; cmd_on := on; cmd_temp := JUndef;
     cmd_speed := JUndef; cmd_level := JUndef; cmd_slot := JUndef;
     cmd_trayId := JUndef; cmd_gcode := gcode; cmd_calibrationType := JUndef;
     cmd_distance := JUndef; cmd_axis := JUndef; cmd_amsId := JUndef;
     cmd_trayType := JUndef; cmd_trayColor := JUndef;
     cmd_trayInfoIdx := JUndef; cmd_nozzleTempMin := JUndef;
     cmd_nozzleTempMax := JUndef |}.

(** The command a click on a button sends to the main process, if any;
    [lit] tells whether [lightState[serial]] was truthy before the click:
<<
  switch (cmd) {
    case 'pause': case 'resume': case 'stop':
      window.bridge.sendCommand(serial, { type: cmd }); break;
    case 'light':
      lightState[serial] = !lightState[serial];
      window.bridge.sendCommand(serial, { type: 'light', on: lightState[serial] });
      break;
    case 'home':
      window.bridge.sendCommand(serial, { type: 'gcode', gcode: 'G28' }); break;
  }
>> *)
Definition buttonCommand (cmd : string) (lit : bool) : option Command :=
  if String.eqb cmd "pause" || String.eqb cmd "resume" || String.eqb cmd "stop"
  then Some (typedCommand (JStr cmd) JUndef JUndef)
  else if String.eqb cmd "light"
  then Some (typedCommand (JStr "light") (JBool (negb lit)) JUndef)
  else if String.eqb cmd "home"
  then Some (typedCommand (JStr "gcode") JUndef (JStr "G28"))
  else None.

(** ** Leaving the cloud *)

(** <<
  function disconnectApi() {
    if (apiSocket) { apiSocket.disconnect(); apiSocket = null; }
    mqttClients.forEach(c => c.end());
    mqttClients.clear();
    printers.clear();
    ...
  }
>>
    The cloud socket and the messages to the window are not modelled. *)
Definition disconnectApi (st : State) : State :=
  let st := map_fold (fun _ c st => endClient c st) st (mqttClients st) in
  setPrinters ∅ (setMqttClients ∅ st).

(** [st'] is [st] up to client objects on which [end()] was called. *)
Definition endedOnly (st st' : State) : Prop :=
  mqttClients st' = mqttClients st /\ printers st' = printers st
  /\ printerDataCache st' = printerDataCache st
  /\ printerReconnectTimers st' = printerReconnectTimers st
  /\ reconnectAttempts st' = reconnectAttempts st
  /\ mqttErrorThrottle st' = mqttErrorThrottle st
  /\ timers st' = timers st /\ outbox st' = outbox st /\ log st' = log st
  /\ length (clients st') = length (clients st).

(** *** Restart of the tunnel *)

(** [Math.min(5000 * Math.pow(2, tunnelRestartAttempts), 300000)], in
    milliseconds, for the counter before its increment. *)
Definition tunnelDelay (tunnelRestartAttempts : nat) : Z :=
  Z.min (5000 * 2 ^ Z.of_nat tunnelRestartAttempts) 300000.

(** The [close] handler of the tunnel process: the delay of the restart
    timer and the counter after it.
<<
    const delay = Math.min(5000 * Math.pow(2, tunnelRestartAttempts), 300000);
    tunnelRestartAttempts++;
    tunnelRestartTimer = setTimeout(() => { ...; startTunnel(); }, delay);
>> *)
Definition onTunnelClose (tunnelRestartAttempts : nat) : Z * nat :=
  (tunnelDelay tunnelRestartAttempts, S tunnelRestartAttempts).

(** The delays of [n] closes in a row, starting with the counter at
    [tunnelRestartAttempts]. *)
Fixpoint tunnelCloses (n : nat) (tunnelRestartAttempts : nat) : list Z :=
  match n with
  | O => []
  | S n' =>
      let '(delay, attempts) := onTunnelClose tunnelRestartAttempts in
      delay :: tunnelCloses n' attempts
  end.

(** ** The supervisor of the relay *)

(** A child process: running, sent a signal by [kill()], or closed (its
    [close] event was delivered). *)
Inductive ProcStatus := ProcRunning | ProcKilled | ProcClosed.

(** A relay process.  [pr_supervised] tells whether it was spawned by
    [startGo2rtc], which attaches the [close] handler, or by
    [startGo2rtcWithConfig], which attaches none. *)
Record RelayProc := {
  pr_supervised : bool;
  pr_status : ProcStatus
}.

(** The timers of the supervisor, by their callback: the relay is taken
    to be ready ([startGo2rtc], 2 s), the relay is started again after a
    crash (its [close] handler, 3 s), the relay is restarted with all
    streams in its configuration (after a failed request, 2 s), and the
    new process of that restart is spawned (500 ms). *)
Inductive RelayTimerKind := ReadyTimer | WatchdogTimer | RestartTimer | SpawnTimer.

Record RelayTimer := {
  rt_kind : RelayTimerKind;
  rt_status : TimerStatus
}.

(** The camera state together with the variables of the supervisor and
    the processes and timers it created, named by their index of
    creation. *)
Record Relay := {
  rl_cam : Cam;
  go2rtcProcess : option nat;
  go2rtcIntentionalKill : bool;
  go2rtcWatchdogTimer : option nat;
  go2rtcRestartTimer : option nat;
  isQuitting : bool;
  relayProcs : list RelayProc;
  relayTimers : list RelayTimer
}.

Definition initRelay (ip : string) : Relay :=
  {| rl_cam := initCam ip; go2rtcProcess := None; go2rtcIntentionalKill := false;
     go2rtcWatchdogTimer := None; go2rtcRestartTimer := None; isQuitting := false;
     relayProcs := []; relayTimers := [] |}.

Definition setRlCam (c : Cam) (st : Relay) : Relay :=
  {| rl_cam := c; go2rtcProcess := go2rtcProcess st;
     go2rtcIntentionalKill := go2rtcIntentionalKill st;
     go2rtcWatchdogTimer := go2rtcWatchdogTimer st;
     go2rtcRestartTimer := go2rtcRestartTimer st; isQuitting := isQuitting st;
     relayProcs := relayProcs st; relayTimers := relayTimers st |}.

Definition setGo2rtcProcess (p : option nat) (st : Relay) : Relay :=
  {| rl_cam := rl_cam st; go2rtcProcess := p;
     go2rtcIntentionalKill := go2rtcIntentionalKill st;
     go2rtcWatchdogTimer := go2rtcWatchdogTimer st;
     go2rtcRestartTimer := go2rtcRestartTimer st; isQuitting := isQuitting st;
     relayProcs := relayProcs st; relayTimers := relayTimers st |}.

Definition setGo2rtcIntentionalKill (b : bool) (st : Relay) : Relay :=
  {| rl_cam := rl_cam st; go2rtcProcess := go2rtcProcess st;
     go2rtcIntentionalKill := b;
     go2rtcWatchdogTimer := go2rtcWatchdogTimer st;
     go2rtcRestartTimer := go2rtcRestartTimer st; isQuitting := isQuitting st;
     relayProcs := relayProcs st; relayTimers := relayTimers st |}.

Definition setGo2rtcWatchdogTimer (w : option nat) (st : Relay) : Relay :=
  {| rl_cam := rl_cam st; go2rtcProcess := go2rtcProcess st;
     go2rtcIntentionalKill := go2rtcIntentionalKill st;
     go2rtcWatchdogTimer := w;
     go2rtcRestartTimer := go2rtcRestartTimer st; isQuitting := isQuitting st;
     relayProcs := relayProcs st; relayTimers := relayTimers st |}.

Definition setGo2rtcRestartTimer (i : option nat) (st : Relay) : Relay :=
  {| rl_cam := rl_cam st; go2rtcProcess := go2rtcProcess st;
     go2rtcIntentionalKill := go2rtcIntentionalKill st;
     go2rtcWatchdogTimer := go2rtcWatchdogTimer st;
     go2rtcRestartTimer := i; isQuitting := isQuitting st;
     relayProcs := relayProcs st; relayTimers := relayTimers st |}.

Definition setIsQuitting (b : bool) (st : Relay) : Relay :=
  {| rl_cam := rl_cam st; go2rtcProcess := go2rtcProcess st;
     go2rtcIntentionalKill := go2rtcIntentionalKill st;
     go2rtcWatchdogTimer := go2rtcWatchdogTimer st;
     go2rtcRestartTimer := go2rtcRestartTimer st; isQuitting := b;
     relayProcs := relayProcs st; relayTimers := relayTimers st |}.

Definition setRelayProcs (l : list RelayProc) (st : Relay) : Relay :=
  {| rl_cam := rl_cam st; go2rtcProcess := go2rtcProcess st;
     go2rtcIntentionalKill := go2rtcIntentionalKill st;
     go2rtcWatchdogTimer := go2rtcWatchdogTimer st;
     go2rtcRestartTimer := go2rtcRestartTimer st; isQuitting := isQuitting st;
     relayProcs := l; relayTimers := relayTimers st |}.

Definition setRelayTimers (l : list RelayTimer) (st : Relay) : Relay :=
  {| rl_cam := rl_cam st; go2rtcProcess := go2rtcProcess st;
     go2rtcIntentionalKill := go2rtcIntentionalKill st;
     go2rtcWatchdogTimer := go2rtcWatchdogTimer st;
     go2rtcRestartTimer := go2rtcRestartTimer st; isQuitting := isQuitting st;
     relayProcs := relayProcs st; relayTimers := l |}.

Definition withProcStatus (s : ProcStatus) (pr : RelayProc) : RelayProc :=
  {| pr_supervised := pr_supervised pr; pr_status := s |}.

Definition withTimerStatus (s : TimerStatus) (t : RelayTimer) : RelayTimer :=
  {| rt_kind := rt_kind t; rt_status := s |}.

(** [spawn(...)]: the new process is the last of [relayProcs]. *)
Definition spawn (supervised : bool) (st : Relay) : Relay :=
  setRelayProcs (relayProcs st ++ [{| pr_supervised := supervised;
                                      pr_status := ProcRunning |}]) st.

(** [process.kill()] signals a running process and does nothing to one
    that has ended. *)
Definition kill (p : nat) (st : Relay) : Relay :=
  setRelayProcs
    (alter (fun pr => match pr_status pr with
                      | ProcRunning => withProcStatus ProcKilled pr
                      | _ => pr
                      end) p (relayProcs st)) st.

(** [setTimeout(...)]: the new timer is the last of [relayTimers]. *)
Definition relaySetTimeout (kind : RelayTimerKind) (st : Relay) : Relay :=
  setRelayTimers (relayTimers st ++ [{| rt_kind := kind; rt_status := Pending |}]) st.

(** [clearTimeout(...)] does nothing to a timer that has fired. *)
Definition relayClearTimeout (i : nat) (st : Relay) : Relay :=
  setRelayTimers
    (alter (fun t => match rt_status t with
                     | Pending => withTimerStatus Cleared t
                     | _ => t
                     end) i (relayTimers st)) st.

(** <<
  function startGo2rtc() {
    ...
    if (!go2rtcPath) { setTimeout(() => sendLog(...), 2000); return; }
    fs.writeFileSync(configFile, '...streams: {}\n');
    go2rtcProcess = spawn(go2rtcPath, ['-c', configFile], ...);
    go2rtcProcess.on('error', ...);
    go2rtcProcess.on('close', (code) => { ... });
    setTimeout(() => { go2rtcReady = true; ... }, 2000);
  }
>>
    [found] tells whether the binary of the relay exists in one of the
    places searched.  The write of the configuration is taken to
    succeed; the timer that only logs is not modelled. *)
Definition startGo2rtc (found : bool) (st : Relay) : Relay :=
  if negb found then st
  else
    let p := length (relayProcs st) in
    let st := setGo2rtcProcess (Some p) (spawn true st) in
    relaySetTimeout ReadyTimer st.

(** <<
  function startGo2rtcWithConfig(go2rtcConfigPath) {
    ...
    if (!go2rtcPath) return;
    go2rtcProcess = spawn(go2rtcPath, ['-c', go2rtcConfigPath], ...);
    go2rtcProcess.stdout.on('data', ...);
    go2rtcProcess.stderr.on('data', ...);
    go2rtcProcess.on('error', ...);
  }
>> *)
Definition startGo2rtcWithConfig (found : bool) (st : Relay) : Relay :=
  if negb found then st
  else
    let p := length (relayProcs st) in
    setGo2rtcProcess (Some p) (spawn false st).

(** <<
  function restartGo2rtcWithAllStreams() {
    ...
    try {
      fs.writeFileSync(go2rtcConfigPath, configContent);
      go2rtcIntentionalKill = true;
      if (go2rtcProcess) { go2rtcProcess.kill(); go2rtcProcess = null; }
      setTimeout(() => { startGo2rtcWithConfig(go2rtcConfigPath); ... }, 500);
    } catch (e) { sendLog(...); }
  }
>>
    [writeOk] tells whether the write of the configuration succeeds. *)
Definition restartGo2rtcWithAllStreams (writeOk : bool) (st : Relay) : Relay :=
  if negb writeOk then st
  else
    let st := setGo2rtcIntentionalKill true st in
    let st := match go2rtcProcess st with
              | Some p => setGo2rtcProcess None (kill p st)
              | None => st
              end in
    relaySetTimeout SpawnTimer st.

(** A request to the relay failed (an answer other than 200, or an
    error of the request):
<<
    if (go2rtcRestartTimer) clearTimeout(go2rtcRestartTimer);
    go2rtcRestartTimer = setTimeout(() => restartGo2rtcWithAllStreams(), 2000);
>> *)
Definition onPutFailed (st : Relay) : Relay :=
  let st := match go2rtcRestartTimer st with
            | Some i => relayClearTimeout i st
            | None => st
            end in
  let i := length (relayTimers st) in
  setGo2rtcRestartTimer (Some i) (relaySetTimeout RestartTimer st).

(** The [close] event of process [p].  Only a process spawned by
    [startGo2rtc] has a handler:
<<
    go2rtcProcess = null;
    go2rtcReady = false;
    if (go2rtcIntentionalKill) { go2rtcIntentionalKill = false; return; }
    if (!app.isQuitting) {
      go2rtcWatchdogTimer = setTimeout(() => {
        go2rtcWatchdogTimer = null;
        startGo2rtc();
      }, 3000);
    }
>> *)
Definition onRelayClose (p : nat) (st : Relay) : Relay :=
  match relayProcs st !! p with
  | Some pr =>
      match pr_status pr with
      | ProcClosed => st
      | _ =>
          let st := setRelayProcs (<[p := withProcStatus ProcClosed pr]> (relayProcs st)) st in
          if negb (pr_supervised pr) then st
          else
            let st := setGo2rtcProcess None st in
            let st := setRlCam (setGo2rtcReady false (rl_cam st)) st in
            if go2rtcIntentionalKill st then setGo2rtcIntentionalKill false st
            else if isQuitting st then st
            else
              let w := length (relayTimers st) in
              setGo2rtcWatchdogTimer (Some w) (relaySetTimeout WatchdogTimer st)
      end
  | None => st
  end.

(** Timer [i] fires.  Of the callback of the spawn timer the update of
    the camera URLs is not modelled, of the ready timer the start of the
    tunnel. *)
Definition onRelayTimer (i : nat) (found writeOk : bool) (now : Z) (st : Relay) : Relay :=
  match relayTimers st !! i with
  | Some t =>
      match rt_status t with
      | Pending =>
          let st := setRelayTimers (<[i := withTimerStatus Fired t]> (relayTimers st)) st in
          match rt_kind t with
          | ReadyTimer => setRlCam (onRelayReady now (rl_cam st)) st
          | WatchdogTimer => startGo2rtc found (setGo2rtcWatchdogTimer None st)
          | RestartTimer => restartGo2rtcWithAllStreams writeOk st
          | SpawnTimer => startGo2rtcWithConfig found st
          end
      | _ => st
      end
  | None => st
  end.

(** The part of the [window-all-closed] handler that concerns the relay:
<<
    app.isQuitting = true;
    if (go2rtcWatchdogTimer) { clearTimeout(go2rtcWatchdogTimer); go2rtcWatchdogTimer = null; }
    if (go2rtcProcess) { go2rtcProcess.kill(); }
>> *)
Definition onRelayQuit (st : Relay) : Relay :=
  let st := setIsQuitting true st in
  let st := match go2rtcWatchdogTimer st with
            | Some w => setGo2rtcWatchdogTimer None (relayClearTimeout w st)
            | None => st
            end in
  match go2rtcProcess st with
  | Some p => kill p st
  | None => st
  end.

(** The events of the supervisor: a process closes, a timer fires, a
    request to the relay fails, a stream is asked for or removed, the
    last window closes.  [startGo2rtc] itself is called once, when the
    application is ready, and by the watchdog timer. *)
Inductive RelayEvent :=
| RelayClose (p : nat)
| RelayTimerFire (i : nat) (found writeOk : bool) (now : Z)
| RelayPutFailed
| RelayAddCamera (s : PendingStream) (now : Z)
| RelayRemoveCamera (serial : string)
| RelayQuit.

Definition relayHandle (e : RelayEvent) (st : Relay) : Relay :=
  match e with
  | RelayClose p => onRelayClose p st
  | RelayTimerFire i found writeOk now => onRelayTimer i found writeOk now st
  | RelayPutFailed => onPutFailed st
  | RelayAddCamera s now => setRlCam (addCamera now (rl_cam st) s) st
  | RelayRemoveCamera serial => setRlCam (removeCamera serial (rl_cam st)) st
  | RelayQuit => onRelayQuit st
  end.

Definition relayRun (es : list RelayEvent) (st : Relay) : Relay :=
  fold_left (fun st e => relayHandle e st) es st.

(** The streams asked for in a run of events, in order. *)
Definition asked (es : list RelayEvent) : list PendingStream :=
  omap (fun e => match e with
                 | RelayAddCamera s _ => Some s
                 | _ => None
                 end) es.

(** No pending timer would start a supervised relay or announce the
    relay as ready. *)
Definition quietTimers (l : list RelayTimer) : Prop :=
  Forall (fun t => rt_status t = Pending ->
                   rt_kind t = RestartTimer \/ rt_kind t = SpawnTimer) l.

Definition noStart (st : Relay) : Prop := quietTimers (relayTimers st).

(** Every process with a [close] handler that has not closed yet is
    process [p]. *)
Definition supervisedAt (p : option nat) (l : list RelayProc) : Prop :=
  forall q pr, l !! q = Some pr ->
               pr_supervised pr = true -> pr_status pr <> ProcClosed -> p = Some q.

Definition onlySupervised (p : option nat) (st : Relay) : Prop :=
  supervisedAt p (relayProcs st).

(** The relay is marked as not ready and nothing is left that would mark
    it as ready again. *)
Definition abandoned (st : Relay) : Prop :=
  go2rtcReady (rl_cam st) = false /\ noStart st /\ onlySupervised None st.

(** Process [p] is the one supervised process left, and its close will
    be taken for an intended one. *)
Definition doomed (p : nat) (st : Relay) : Prop :=
  go2rtcIntentionalKill st = true /\ noStart st /\ onlySupervised (Some p) st
  /\ exists pr, relayProcs st !! p = Some pr /\ pr_supervised pr = true
                /\ pr_status pr <> ProcClosed.

(** The state two seconds after the application started, with one
    stream of the X1 series configured and the request for it failed. *)
Definition failedPutRelay : Relay :=
  relayRun [RelayTimerFire 0 true true 2000; RelayAddCamera x1Camera 2500; RelayPutFailed]
           (startGo2rtc true (initRelay "192.168.1.2")).

(** * Properties *)

(** ** Packed temperatures *)

Lemma trunc_num_of_Z z : trunc (num_of_Z z) = z.
Proof. destruct z; reflexivity. Qed.

Lemma land_mask16 a : Z.land a 0xFFFF = a mod 65536.
Proof. change 0xFFFF with (Z.ones 16). now rewrite Z.land_ones. Qed.

Lemma land_mask16_bounds a : 0 <= Z.land a 0xFFFF <= 65535.
Proof. rewrite land_mask16. pose proof (Z.mod_pos_bound a 65536). lia. Qed.

Lemma wrap32_cases z :
  0 <= z < 4294967296 ->
  wrap32 z = z \/ wrap32 z = z - 4294967296.
Proof.
  intros Hz. unfold wrap32. change (2 ^ 32) with 4294967296.
  rewrite Z.mod_small by lia. destruct (_ <=? _); auto.
Qed.

Lemma encodeTemp_sum c t :
  0 <= c <= 65535 -> 0 <= t <= 65535 -> encodeTemp c t = t * 65536 + c.
Proof.
  intros Hc Ht. unfold encodeTemp. rewrite Z.shiftl_mul_pow2 by lia.
  change (2 ^ 16) with 65536. symmetry. apply Z.add_nocarry_lor.
  apply Z.bits_inj'. intros n Hn. rewrite Z.land_spec, Z.bits_0.
  destruct (Z.lt_ge_cases n 16) as [Hlt | Hge].
  - change 65536 with (2 ^ 16). rewrite Z.mul_pow2_bits_low by lia. reflexivity.
  - assert (Hb : Z.testbit c n = false).
    { destruct (Z.eq_dec c 0) as [-> | Hne]; [apply Z.bits_0 |].
      apply Z.bits_above_log2; [lia |].
      apply Z.lt_le_trans with 16; [| lia].
      apply Z.log2_lt_pow2; lia. }
    rewrite Hb. apply andb_false_r.
Qed.

Lemma wrap32_shift z : exists q, wrap32 z = z + q * 4294967296.
Proof.
  unfold wrap32. change (2 ^ 32) with 4294967296. change (2 ^ 31) with 2147483648.
  pose proof (Z.div_mod z 4294967296 ltac:(lia)) as Hdm.
  destruct (_ <=? _).
  - exists (- (z / 4294967296) - 1). lia.
  - exists (- (z / 4294967296)). lia.
Qed.

(** The low and the high half-word of the 32-bit pattern of [z]. *)
Lemma halfwords_wrap32 z :
  Z.land (wrap32 z) 0xFFFF = z mod 65536 /\
  Z.land (Z.shiftr (wrap32 z) 16) 0xFFFF = (z / 65536) mod 65536.
Proof.
  destruct (wrap32_shift z) as [q Hq]. rewrite Hq, !land_mask16.
  rewrite Z.shiftr_div_pow2 by lia. change (2 ^ 16) with 65536.
  replace (z + q * 4294967296) with (z + (q * 65536) * 65536) by lia.
  split.
  - apply Z_mod_plus_full.
  - rewrite Z_div_plus_full by lia. apply Z_mod_plus_full.
Qed.

Section DecodeFacts.
Context `{!JsBuiltins}.

Lemma decodeTemp_num (x : jsnum) :
  decodeTemp (JNum x) =
  if is_zero x then {| current := 0; target := 0 |}
  else {| current := Z.land (ToInt32 x) 0xFFFF;
          target := Z.land (Z.shiftr (ToInt32 x) 16) 0xFFFF |}.
Proof. destruct x; reflexivity. Qed.

Lemma decodeTemp_num_of_Z z :
  decodeTemp (JNum (num_of_Z z)) =
  {| current := z mod 65536; target := (z / 65536) mod 65536 |}.
Proof.
  rewrite decodeTemp_num. destruct (is_zero (num_of_Z z)) eqn:Hz.
  - destruct z; try discriminate. reflexivity.
  - unfold ToInt32. rewrite trunc_num_of_Z.
    destruct (halfwords_wrap32 z) as [-> ->]. reflexivity.
Qed.

Lemma decodeTemp_bounds (v : jsval) :
  0 <= current (decodeTemp v) <= 65535 /\ 0 <= target (decodeTemp v) <= 65535.
Proof.
  assert (Hz : 0 <= 0 <= 65535) by lia.
  destruct v as [| | b | x | s]; cbn [decodeTemp current target]; auto;
    try (split; apply land_mask16_bounds).
  destruct x; cbn [current target]; auto; split; apply land_mask16_bounds.
Qed.

(** The four nozzle values of the status object: the decoded halves of
    the packed value that decides the nozzle, or else the legacy fields
    over the previous values. *)
Lemma nozzles_spec (h : bool) (s : Snapshot) (p : PrintReport) :
  nozzle1Temp (nozzles h s p)
  = match packedFirst p with
    | Some e => JInt (current (decodeTemp e))
    | None => if h then nozzleTemp s ?? JZero
              else nozzle_temper p ?? nozzleTemp s ?? JZero
    end
  /\ nozzle1Target (nozzles h s p)
     = match packedFirst p with
       | Some e => JInt (target (decodeTemp e))
       | None => if h then nozzleTargetTemp s ?? JZero
                 else nozzle_target_temper p ?? nozzleTargetTemp s ?? JZero
       end
  /\ nozzle2Temp (nozzles h s p)
     = match packedSecond p with
       | Some e => JInt (current (decodeTemp e))
       | None => if h then nozzleTemp2 s else nozzle_temper_2 p ?? nozzleTemp2 s
       end
  /\ nozzle2Target (nozzles h s p)
     = match packedSecond p with
       | Some e => JInt (target (decodeTemp e))
       | None => if h then nozzleTargetTemp2 s
                 else nozzle_target_temper_2 p ?? nozzleTargetTemp2 s
       end.
Proof.
  unfold nozzles, packedFirst, packedSecond.
  destruct (device_extruder_info p) as [[| e0 [| e1 rest]] |];
    destruct (extruder_info p) as [[| f0 [| f1 rest']] |]; repeat split.
Qed.

End DecodeFacts.

(** C5.  [decodeTemp] maps a number [x] to [current = x & 0xFFFF] and
    [target = (x >> 16) & 0xFFFF], and maps [0], [undefined] and [null] to
    [{current: 0, target: 0}]; for [cur] and [tgt] in [0, 65535], decoding
    [(tgt << 16) | cur], read as an unsigned or as a signed 32-bit value,
    gives back [(cur, tgt)]. *)
Theorem decodeTemp_roundtrip `{!JsBuiltins} (x : jsnum) (cur tgt : Z) :
  0 <= cur <= 65535 ->
  0 <= tgt <= 65535 ->
  decodeTemp (JNum x) =
    (if is_zero x then {| current := 0; target := 0 |}
     else {| current := Z.land (ToInt32 x) 0xFFFF;
             target := Z.land (Z.shiftr (ToInt32 x) 16) 0xFFFF |})
  /\ decodeTemp JUndef = {| current := 0; target := 0 |}
  /\ decodeTemp JNull = {| current := 0; target := 0 |}
  /\ decodeTemp (JInt 0) = {| current := 0; target := 0 |}
  /\ decodeTemp (JInt (encodeTemp cur tgt)) = {| current := cur; target := tgt |}
  /\ decodeTemp (JInt (encodeTemp_int32 cur tgt)) = {| current := cur; target := tgt |}.
Proof.
  intros Hc Ht. split; [apply decodeTemp_num |]. repeat split.
  - unfold JInt. rewrite decodeTemp_num_of_Z, encodeTemp_sum by assumption.
    f_equal.
    + rewrite Z.add_comm, Z_mod_plus_full. apply Z.mod_small. lia.
    + rewrite Z.add_comm, Z_div_plus_full by lia.
      rewrite Z.div_small by lia. apply Z.mod_small. lia.
  - unfold JInt, encodeTemp_int32. rewrite decodeTemp_num_of_Z.
    destruct (wrap32_shift (encodeTemp cur tgt)) as [q ->].
    rewrite encodeTemp_sum by assumption.
    replace (tgt * 65536 + cur + q * 4294967296)
      with (cur + (tgt + q * 65536) * 65536) by lia.
    f_equal.
    + rewrite Z_mod_plus_full. apply Z.mod_small. lia.
    + rewrite Z_div_plus_full by lia. rewrite Z.div_small by lia.
      rewrite Z.add_0_l, Z_mod_plus_full. apply Z.mod_small. lia.
Qed.

(** The H2D scenario of the specification: [0x00E10096] decodes to
    current 150 and target 225. *)
Lemma decodeTemp_roundtrip_witness :
  (0 <= 150 <= 65535) /\ (0 <= 225 <= 65535) /\
  @decodeTemp decimal_builtins (JInt (encodeTemp 150 225))
  = {| current := 150; target := 225 |}.
Proof.
  split; [lia |]. split; [lia |].
  apply (@decodeTemp_roundtrip decimal_builtins (S754_zero false) 150 225); lia.
Defined.

(** C10.  Whatever number [decodeTemp] receives (negative, fractional,
    NaN, infinite, at or above [2^32]) and indeed whatever value, both
    components are integers in [0, 65535]; hence every nozzle temperature
    a packed extruder array puts into the snapshot, measured or target,
    of the first or of the second nozzle, from [device.extruder.info] or
    from [extruder.info], is the decoded half of the packed value and
    lies in that range. *)
Theorem decodeTemp_range `{!JsBuiltins} :
  (forall x : jsnum,
      0 <= current (decodeTemp (JNum x)) <= 65535 /\
      0 <= target (decodeTemp (JNum x)) <= 65535)
  /\ (forall v : jsval,
      0 <= current (decodeTemp v) <= 65535 /\
      0 <= target (decodeTemp v) <= 65535)
  /\ (forall (s : Snapshot) (p : PrintReport) (e0 : jsval) (rest : list jsval),
      device_extruder_info p = Some (e0 :: rest) ->
      exists c t, 0 <= c <= 65535 /\ 0 <= t <= 65535 /\
        nozzleTemp (merge s (printMessage p)) = JInt c /\
        nozzleTargetTemp (merge s (printMessage p)) = JInt t)
  /\ (forall (s : Snapshot) (p : PrintReport) (e : jsval),
      packedFirst p = Some e ->
      nozzleTemp (merge s (printMessage p)) = JInt (current (decodeTemp e))
      /\ nozzleTargetTemp (merge s (printMessage p)) = JInt (target (decodeTemp e))
      /\ 0 <= current (decodeTemp e) <= 65535
      /\ 0 <= target (decodeTemp e) <= 65535)
  /\ (forall (s : Snapshot) (p : PrintReport) (e : jsval),
      packedSecond p = Some e ->
      nozzleTemp2 (merge s (printMessage p)) = JInt (current (decodeTemp e))
      /\ nozzleTargetTemp2 (merge s (printMessage p)) = JInt (target (decodeTemp e))
      /\ 0 <= current (decodeTemp e) <= 65535
      /\ 0 <= target (decodeTemp e) <= 65535).
Proof.
  split; [intros x; apply decodeTemp_bounds |].
  split; [apply decodeTemp_bounds |].
  split.
  { intros s p e0 rest He.
    exists (current (decodeTemp e0)), (target (decodeTemp e0)).
    destruct (decodeTemp_bounds e0) as [Hc Ht].
    split; [exact Hc |]. split; [exact Ht |].
    unfold merge, printMessage, print, status, nozzles.
    cbn [nozzleTemp nozzleTargetTemp]. rewrite He.
    destruct rest; split; reflexivity. }
  split.
  - intros s p e He. destruct (decodeTemp_bounds e) as [Hc Ht].
    unfold merge, printMessage, print, status. cbv zeta.
    cbn [nozzleTemp nozzleTargetTemp].
    match goal with
    | |- nozzle1Temp (nozzles ?h ?X ?q) = _ /\ _ =>
        destruct (nozzles_spec h X q) as (-> & -> & _)
    end.
    rewrite He. auto.
  - intros s p e He. destruct (decodeTemp_bounds e) as [Hc Ht].
    unfold merge, printMessage, print, status. cbv zeta.
    cbn [nozzleTemp2 nozzleTargetTemp2].
    match goal with
    | |- nozzle2Temp (nozzles ?h ?X ?q) = _ /\ _ =>
        destruct (nozzles_spec h X q) as (_ & _ & -> & ->)
    end.
    rewrite He. auto.
Qed.

Lemma decodeTemp_range_witness :
  device_extruder_info h2dReport = Some [JInt 0x00E10096; JInt 0x00C80087]
  /\ packedSecond h2dReport = Some (JInt 0x00C80087)
  /\ (exists c t, 0 <= c <= 65535 /\ 0 <= t <= 65535 /\
       nozzleTemp (@merge decimal_builtins emptySnapshot (printMessage h2dReport))
       = JInt c /\
       nozzleTargetTemp (@merge decimal_builtins emptySnapshot (printMessage h2dReport))
       = JInt t)
  /\ nozzleTemp2 (@merge decimal_builtins emptySnapshot (printMessage h2dReport))
     = JInt (current (@decodeTemp decimal_builtins (JInt 0x00C80087))).
Proof.
  split; [reflexivity |]. split; [reflexivity |]. split.
  - exact (proj1 (proj2 (proj2 (@decodeTemp_range decimal_builtins))) emptySnapshot
             h2dReport _ _ eq_refl).
  - exact (proj1 (proj2 (proj2 (proj2 (proj2 (@decodeTemp_range decimal_builtins))))
                    emptySnapshot h2dReport _ eq_refl)).
Defined.

(** The H2D scenario of the specification. *)
Example h2d_scenario :
  let r := @merge decimal_builtins emptySnapshot (printMessage h2dReport) in
  nozzleTemp r = JInt 150 /\ nozzleTargetTemp r = JInt 225
  /\ nozzleTemp2 r = JInt 135 /\ nozzleTargetTemp2 r = JInt 200.
Proof. repeat split; reflexivity. Qed.

(** ** Telemetry merge *)

Lemma coalesce_idem a b : a ?? (a ?? b) = a ?? b.
Proof. destruct a; reflexivity. Qed.

Lemma coalesce_assoc a b c : a ?? b ?? c = a ?? (b ?? c).
Proof. destruct a; reflexivity. Qed.

Lemma coalesce_absorb a b c : a ?? (a ?? b ?? c) ?? c = a ?? b ?? c.
Proof. destruct a, b, c; reflexivity. Qed.

Lemma coalesce_same a c : a ?? c ?? c = a ?? c.
Proof. destruct a, c; reflexivity. Qed.

Lemma js_or_idem a b : js_or a (js_or a b) = js_or a b.
Proof. unfold js_or. destruct (truthy a) eqn:E; rewrite ?E; reflexivity. Qed.

Lemma js_or_absorb x c e :
  js_or (js_or x (js_or (js_or x c) e)) e = js_or (js_or x c) e.
Proof.
  unfold js_or. destruct (truthy x) eqn:Hx; rewrite ?Hx; [reflexivity |].
  destruct (truthy c) eqn:Hc; rewrite ?Hc; [reflexivity |].
  destruct (truthy e) eqn:He; rewrite ?He; reflexivity.
Qed.

Lemma isPrinting_not_idle g : isPrinting g && isIdle g = false.
Proof.
  destruct g as [| | | | s]; try reflexivity.
  unfold isPrinting, isIdle, is_str.
  destruct (String.eqb_spec s "RUNNING") as [-> | _]; [reflexivity |].
  destruct (String.eqb_spec s "PAUSE") as [-> | _]; [reflexivity |].
  destruct (String.eqb_spec s "PREPARE") as [-> | _]; [reflexivity |].
  reflexivity.
Qed.

Lemma snapshot_ext (a b : Snapshot) :
  descr a = descr b -> online a = online b -> gcodeState a = gcodeState b ->
  printProgress a = printProgress b -> remainingTime a = remainingTime b ->
  currentFile a = currentFile b -> layer a = layer b ->
  totalLayers a = totalLayers b -> nozzleTemp a = nozzleTemp b ->
  nozzleTargetTemp a = nozzleTargetTemp b -> nozzleTemp2 a = nozzleTemp2 b ->
  nozzleTargetTemp2 a = nozzleTargetTemp2 b -> bedTemp a = bedTemp b ->
  bedTargetTemp a = bedTargetTemp b -> chamberTemp a = chamberTemp b ->
  partFan a = partFan b -> auxFan a = auxFan b -> chamberFan a = chamberFan b ->
  chamberLight a = chamberLight b -> workLight a = workLight b ->
  speedLevel a = speedLevel b -> speedMagnitude a = speedMagnitude b ->
  ams a = ams b -> externalSpool a = externalSpool b ->
  externalSpools a = externalSpools b -> wifiSignal a = wifiSignal b ->
  printType a = printType b -> printError a = printError b ->
  printErrorCode a = printErrorCode b -> printStage a = printStage b ->
  hms a = hms b -> h2debug a = h2debug b -> a = b.
Proof. destruct a, b; cbn; intros; subst; reflexivity. Qed.

Ltac snapshot_simpl :=
  cbn [status staleFix transitionReset descr online gcodeState printProgress remainingTime currentFile layer
       totalLayers nozzleTemp nozzleTargetTemp nozzleTemp2 nozzleTargetTemp2
       bedTemp bedTargetTemp chamberTemp partFan auxFan chamberFan chamberLight
       workLight speedLevel speedMagnitude ams externalSpool externalSpools
       wifiSignal printType printError printErrorCode printStage hms h2debug].

Section MergeFacts.
Context `{!JsBuiltins}.

Lemma gcodeState_ctcUpdate p s : gcodeState (ctcUpdate p s) = gcodeState s.
Proof. unfold ctcUpdate. destruct (nullish _); reflexivity. Qed.

Lemma gcodeState_merge s data p :
  print data = Some p ->
  gcodeState (merge s data) = gcode_state p ?? gcodeState s ?? JStr "IDLE".
Proof.
  intros Hp. unfold merge. rewrite Hp. cbn zeta.
  rewrite !gcodeState_ctcUpdate.
  destruct (isIdle _); cbn [status gcodeState staleFix];
    rewrite ?gcodeState_ctcUpdate;
    destruct (_ && _); cbn [gcodeState transitionReset staleFix];
    rewrite ?gcodeState_ctcUpdate; reflexivity.
Qed.

Lemma descr_ctcUpdate p s : descr (ctcUpdate p s) = descr s.
Proof. unfold ctcUpdate. destruct (nullish _); reflexivity. Qed.

Lemma ams_ctcUpdate p s : ams (ctcUpdate p s) = ams s.
Proof. unfold ctcUpdate. destruct (nullish _); reflexivity. Qed.

Lemma isH2_ctcUpdate p s : isH2 (ctcUpdate p s) = isH2 s.
Proof. unfold isH2. now rewrite descr_ctcUpdate. Qed.

Lemma parseAms_ctcUpdate p s : parseAms (ctcUpdate p s) p = parseAms s p.
Proof. unfold parseAms. now rewrite ams_ctcUpdate. Qed.

Lemma gcodeState_cleaned p s : gcodeState (cleaned p s) = gcodeState s.
Proof.
  unfold cleaned. destruct (isIdle _); cbn [gcodeState staleFix];
    apply gcodeState_ctcUpdate.
Qed.

Lemma descr_cleaned p s : descr (cleaned p s) = descr s.
Proof.
  unfold cleaned. destruct (isIdle _); cbn [descr staleFix];
    apply descr_ctcUpdate.
Qed.

Lemma merge_stable s data p :
  print data = Some p ->
  gcode_state p ?? gcodeState s = gcodeState s ->
  merge s data =
  status data p (isH2 s) (parseAms s p) (parseExternalSpools p) (cleaned p s).
Proof.
  intros Hp Hcs. unfold merge, cleaned. rewrite Hp. cbn zeta.
  rewrite isH2_ctcUpdate, parseAms_ctcUpdate, !gcodeState_ctcUpdate, Hcs.
  replace (gcodeState (if isIdle (gcodeState s) then staleFix p (ctcUpdate p s)
                       else ctcUpdate p s)) with (gcodeState s).
  2:{ destruct (isIdle _); cbn [gcodeState staleFix];
      now rewrite gcodeState_ctcUpdate. }
  now rewrite isPrinting_not_idle.
Qed.

Lemma parseAms_idem p s a :
  parseAms s p = Some a ->
  forall s', ams s' = Some a -> parseAms s' p = Some a.
Proof.
  unfold parseAms. destruct (p_ams p) as [r |]; [| discriminate].
  cbv zeta. intros Ha s' Hs'. rewrite Hs'. injection Ha as <-.
  cbn [default from_option id humidity trayNow units trays].
  rewrite !coalesce_idem. destruct (ams_units r); reflexivity.
Qed.

Lemma nozzles_stable h p (a b : Snapshot) :
  nozzleTemp b = nozzle1Temp (nozzles h a p) ->
  nozzleTemp2 b = nozzle2Temp (nozzles h a p) ->
  (nozzleTargetTemp b = nozzle1Target (nozzles h a p) \/
   nozzleTargetTemp b = nozzleTargetTemp a) ->
  (nozzleTargetTemp2 b = nozzle2Target (nozzles h a p) \/
   nozzleTargetTemp2 b = nozzleTargetTemp2 a) ->
  nozzles h b p = nozzles h a p.
Proof.
  unfold nozzles.
  destruct (device_extruder_info p) as [[| ? [| ? ?]] |];
    destruct (extruder_info p) as [[| ? [| ? ?]] |]; destruct h;
    cbn [nozzle1Temp nozzle1Target nozzle2Temp nozzle2Target];
    intros H1 H2 [H3 | H3] [H4 | H4]; rewrite ?H1, ?H2, ?H3, ?H4;
    rewrite ?coalesce_absorb, ?coalesce_idem, ?coalesce_same; reflexivity.
Qed.

Lemma merge_idempotent_aux s data :
  gcodeState (merge s data) = gcodeState s ->
  merge (merge s data) data = merge s data.
Proof.
  destruct (print data) as [p |] eqn:Hp.
  2:{ intros _. unfold merge. rewrite Hp. reflexivity. }
  rewrite (gcodeState_merge _ _ _ Hp). intros Hg.
  assert (Hcs : gcode_state p ?? gcodeState s = gcodeState s).
  { revert Hg. destruct (gcode_state p), (gcodeState s); cbn; congruence. }
  rewrite (merge_stable s data p Hp Hcs).
  set (m := status _ _ _ _ _ _).
  assert (Hgm : gcodeState m = gcodeState s).
  { subst m. cbn [gcodeState status]. now rewrite gcodeState_cleaned. }
  assert (Hcm : gcode_state p ?? gcodeState m = gcodeState m) by now rewrite Hgm.
  rewrite (merge_stable m data p Hp Hcm).
  assert (Hh : isH2 m = isH2 s).
  { subst m. unfold isH2. cbn [descr status]. now rewrite descr_cleaned. }
  assert (Ha : parseAms m p = parseAms s p).
  { destruct (parseAms s p) as [a |] eqn:Ea.
    - apply (parseAms_idem p s a Ea). reflexivity.
    - revert Ea. unfold parseAms. destruct (p_ams p); [discriminate | reflexivity]. }
  rewrite Hh, Ha. unfold cleaned. rewrite Hgm.
  subst m. unfold cleaned, ctcUpdate.
  destruct (isIdle (gcodeState s)), (nullish (device_ctc_info_temp p)) eqn:Hctc;
    apply snapshot_ext; snapshot_simpl.
  all: rewrite ?coalesce_absorb, ?coalesce_idem, ?js_or_absorb.
  all: try reflexivity.
  all: try (destruct (lights_report p); reflexivity).
  all: try (destruct (parseAms s p); reflexivity).
  all: try (destruct (parseExternalSpools p); reflexivity).
  all: try (destruct (p_hms p); reflexivity).
  all: try (f_equal; apply nozzles_stable; snapshot_simpl; auto; fail).
  all: try (destruct (noActiveError p);
            rewrite ?coalesce_absorb, ?coalesce_idem; reflexivity).
Qed.

(** The entry handed to [status] when the state becomes idle: the stale
    data are cleared, and so are the measured temperatures when the
    printer was printing before. *)
Lemma merge_idle s p :
  isIdle (gcode_state p ?? gcodeState s) = true ->
  merge s (printMessage p) =
  status (printMessage p) p (isH2 s) (parseAms s p) (parseExternalSpools p)
    (if isPrinting (gcodeState s)
     then transitionReset (staleFix p (ctcUpdate p s))
     else staleFix p (ctcUpdate p s)).
Proof.
  intros Hidle. unfold merge, printMessage. cbn [print]. cbv zeta.
  rewrite isH2_ctcUpdate, parseAms_ctcUpdate, !gcodeState_ctcUpdate, Hidle.
  cbn [gcodeState staleFix]. rewrite gcodeState_ctcUpdate, andb_true_r.
  reflexivity.
Qed.

End MergeFacts.




(** C4 (as the code has it).  When the previous state was running, paused
    or preparing and the resolved state is idle or finished, the previous
    measured nozzle, bed and chamber temperatures are cleared before the
    report is applied: bed and chamber are zero in the result unless the
    report carries them.  The measured temperature of a nozzle is the
    decoded current half of the packed value that decides the nozzle, if
    the report has one, and else the legacy field of the report (not on
    an H2 model) or, without it, zero for the first nozzle and undefined
    for the second. *)
Theorem transition_reset `{!JsBuiltins} (s : Snapshot) (p : PrintReport) :
  isPrinting (gcodeState s) = true ->
  isIdle (gcode_state p ?? gcodeState s) = true ->
  let r := merge s (printMessage p) in
  bedTemp r = bed_temper p ?? JZero
  /\ chamberTemp r
     = chamber_temper p ?? (if isH2 s then info_temp p else JUndef) ?? JZero
  /\ (hasPackedNozzles p = false ->
      nozzleTemp r = (if isH2 s then JZero else nozzle_temper p ?? JZero)
      /\ nozzleTemp2 r = (if isH2 s then JUndef else nozzle_temper_2 p ?? JUndef))
  /\ nozzleTemp r
     = match packedFirst p with
       | Some e => JInt (current (decodeTemp e))
       | None => if isH2 s then JZero else nozzle_temper p ?? JZero
       end
  /\ nozzleTemp2 r
     = match packedSecond p with
       | Some e => JInt (current (decodeTemp e))
       | None => if isH2 s then JUndef else nozzle_temper_2 p ?? JUndef
       end.
Proof.
  intros Hprint Hidle r. subst r. rewrite (merge_idle s p Hidle), Hprint.
  snapshot_simpl. rewrite ?coalesce_same.
  repeat split; try reflexivity.
  all: try match goal with
       | Hn : hasPackedNozzles _ = false |- _ =>
           unfold hasPackedNozzles in Hn; unfold nozzles;
           destruct (device_extruder_info p) as [[| ? ?] |]; try discriminate;
           destruct (extruder_info p) as [[| ? [| ? ?]] |]; try discriminate;
           destruct (isH2 s); cbn [nozzle1Temp nozzle2Temp]; snapshot_simpl;
           rewrite ?coalesce_same; reflexivity
       end.
  all: match goal with
       | |- nozzle1Temp (nozzles ?h ?X ?q) = _ =>
           destruct (nozzles_spec h X q) as (-> & _ & _ & _);
           destruct (packedFirst p); [reflexivity |]
       | |- nozzle2Temp (nozzles ?h ?X ?q) = _ =>
           destruct (nozzles_spec h X q) as (_ & _ & -> & _);
           destruct (packedSecond p); [reflexivity |]
       end;
       destruct (isH2 s); snapshot_simpl; rewrite ?coalesce_same; reflexivity.
Qed.

Lemma transition_reset_witness :
  let r := @merge decimal_builtins printingSnapshot (printMessage finishOnlyReport) in
  isPrinting (gcodeState printingSnapshot) = true
  /\ isIdle (gcode_state finishOnlyReport ?? gcodeState printingSnapshot) = true
  /\ hasPackedNozzles finishOnlyReport = false
  /\ bedTemp r = JZero
  /\ chamberTemp r = JZero
  /\ nozzleTemp r = JZero
  /\ nozzleTemp2 r = JUndef.
Proof.
  intros r.
  destruct (@transition_reset decimal_builtins printingSnapshot finishOnlyReport
              eq_refl eq_refl) as (Hbed & Hchamber & Hnoz & _).
  do 3 (split; [reflexivity |]).
  split; [exact Hbed |]. split; [exact Hchamber |]. exact (Hnoz eq_refl).
Defined.

(** C4 as stated fails: the finishing report carries the temperatures the
    printer measures, and the snapshot stores them. *)
Lemma transition_reset_counterexample :
  isPrinting (gcodeState printingSnapshot) = true
  /\ isIdle (gcode_state finishReport ?? gcodeState printingSnapshot) = true
  /\ nozzleTemp (@merge decimal_builtins printingSnapshot
                   (printMessage finishReport)) = JInt 215
  /\ bedTemp (@merge decimal_builtins printingSnapshot
                (printMessage finishReport)) = JInt 58
  /\ chamberTemp (@merge decimal_builtins printingSnapshot
                    (printMessage finishReport)) = JInt 34
  /\ JInt 215 <> JZero.
Proof. repeat split; try reflexivity. discriminate. Qed.

(** C6.  A report whose application leaves the lifecycle state as it was
    is absorbed: applying it a second time changes nothing. *)
Theorem merge_idempotent `{!JsBuiltins} (s : Snapshot) (data : Message) :
  gcodeState (merge s data) = gcodeState s ->
  merge (merge s data) data = merge s data.
Proof. apply merge_idempotent_aux. Qed.

Lemma merge_idempotent_witness :
  gcodeState (@merge decimal_builtins printingSnapshot (printMessage runningReport))
  = gcodeState printingSnapshot
  /\ @merge decimal_builtins
       (@merge decimal_builtins printingSnapshot (printMessage runningReport))
       (printMessage runningReport)
     = @merge decimal_builtins printingSnapshot (printMessage runningReport).
Proof.
  split; [reflexivity |].
  apply (@merge_idempotent decimal_builtins). reflexivity.
Defined.

(** ** Connection manager *)

Lemma sameSessions_refl st : sameSessions st st.
Proof. split; auto. Qed.

Lemma sameSessions_trans a b c :
  sameSessions a b -> sameSessions b c -> sameSessions a c.
Proof. intros [H1 H2] [H3 H4]. split; [congruence | auto]. Qed.

Lemma registeredLive_sameSessions st st' :
  sameSessions st st' -> registeredLive st -> registeredLive st'.
Proof.
  intros [Hm Hc] Hinv serial c Hreg. rewrite Hm in Hreg.
  destruct (Hinv serial c Hreg) as (cl & Hcl & Hrest). eauto.
Qed.

Lemma sameSessions_sendLog m st : sameSessions st (sendLog m st).
Proof. split; auto. Qed.

Lemma sameSessions_sendLogs ms st : sameSessions st (sendLogs ms st).
Proof.
  unfold sendLogs. revert st. induction ms as [| m ms IH]; intros st; cbn.
  - apply sameSessions_refl.
  - eapply sameSessions_trans; [apply (sameSessions_sendLog m) | apply IH].
Qed.

Lemma sameSessions_clearTimeout t st : sameSessions st (clearTimeout t st).
Proof.
  unfold clearTimeout. destruct (timers st !! t) as [tm |]; [| apply sameSessions_refl].
  destruct (t_status tm); split; auto.
Qed.

Lemma connectPrinter_registered p st c :
  mqttClients st !! serialNumber p = Some c -> connectPrinter p st = st.
Proof. unfold connectPrinter. cbv zeta. now intros ->. Qed.

Lemma scheduleReconnect_registered serial st c :
  mqttClients st !! serial = Some c -> scheduleReconnect serial st = st.
Proof.
  unfold scheduleReconnect. intros ->.
  now destruct (printerDataCache st !! serial).
Qed.

Lemma clients_clearTimeout t st : clients (clearTimeout t st) = clients st.
Proof.
  unfold clearTimeout. destruct (timers st !! t) as [tm |]; [| reflexivity].
  now destruct (t_status tm).
Qed.

Lemma mqttClients_clearTimeout t st :
  mqttClients (clearTimeout t st) = mqttClients st.
Proof.
  unfold clearTimeout. destruct (timers st !! t) as [tm |]; [| reflexivity].
  now destruct (t_status tm).
Qed.

Lemma clients_connectPrinter p st :
  clients (connectPrinter p st) =
  match mqttClients st !! serialNumber p with
  | Some _ => clients st
  | None => clients st ++ [{| c_printer := p; c_phase := Connecting |}]
  end.
Proof.
  unfold connectPrinter. cbv zeta.
  destruct (mqttClients st !! serialNumber p); [reflexivity |].
  cbn [clients sendLog]. f_equal.
  destruct (printerReconnectTimers st !! serialNumber p); [| reflexivity].
  apply clients_clearTimeout.
Qed.

Lemma mqttClients_connectPrinter p st :
  mqttClients (connectPrinter p st) = mqttClients st.
Proof.
  unfold connectPrinter. cbv zeta.
  destruct (mqttClients st !! serialNumber p); [reflexivity |].
  cbn [mqttClients sendLog].
  destruct (printerReconnectTimers st !! serialNumber p); [| reflexivity].
  apply mqttClients_clearTimeout.
Qed.

Lemma sameSessions_connectPrinter p st : sameSessions st (connectPrinter p st).
Proof.
  split; [apply mqttClients_connectPrinter |].
  intros c cl Hc. rewrite clients_connectPrinter.
  destruct (mqttClients st !! serialNumber p); [exact Hc |].
  now apply lookup_app_l_Some.
Qed.

Lemma sameSessions_scheduleReconnect serial st :
  sameSessions st (scheduleReconnect serial st).
Proof.
  unfold scheduleReconnect.
  destruct (printerDataCache st !! serial); [| apply sameSessions_refl].
  destruct (mqttClients st !! serial); [apply sameSessions_refl |].
  cbv zeta. destruct (_ || _)%bool; split; auto.
Qed.

Lemma sameButTraffic_refl st : sameButTraffic st st.
Proof. repeat split. Qed.

Lemma sameButTraffic_trans a b c :
  sameButTraffic a b -> sameButTraffic b c -> sameButTraffic a c.
Proof.
  intros (A1 & A2 & A3 & A4 & A5 & A6 & A7 & A8) (B1 & B2 & B3 & B4 & B5 & B6 & B7 & B8).
  repeat split; congruence.
Qed.

Lemma sameButTraffic_sameSessions st st' :
  sameButTraffic st st' -> sameSessions st st'.
Proof.
  intros (H1 & _ & _ & _ & _ & _ & H7 & _). split; [exact H1 |].
  intros c cl. now rewrite H7.
Qed.

(** One step of a command: the maps, the clients and the reconnect timers
    stay; the step adds what it publishes, logs and leaves for later. *)
Lemma perform_traffic c topic e st :
  let st' := perform c topic e st in
  sameButTraffic st st'
  /\ outbox st' = outbox st ++ ((fun pl => (c, topic, pl)) <$> published [e])
  /\ log st' = log st ++ logged [e]
  /\ deferred st' = deferred st ++ leftBy c topic [e]
  /\ debugAmsCmd st' = (if setsDebug [e] then {[c]} ∪ debugAmsCmd st
                        else debugAmsCmd st).
Proof.
  destruct e as [m | pl [kind |] | | kind]; cbn;
    rewrite ?app_nil_r; repeat split.
Qed.

Lemma performs_traffic c topic effs :
  forall st,
    let st' := fold_left (fun st e => perform c topic e st) effs st in
    sameButTraffic st st'
    /\ outbox st' = outbox st ++ ((fun pl => (c, topic, pl)) <$> published effs)
    /\ log st' = log st ++ logged effs
    /\ deferred st' = deferred st ++ leftBy c topic effs
    /\ debugAmsCmd st' = (if setsDebug effs then {[c]} ∪ debugAmsCmd st
                          else debugAmsCmd st).
Proof.
  induction effs as [| e effs IH]; intros st; cbn [fold_left].
  - cbn. rewrite !app_nil_r. repeat split.
  - destruct (perform_traffic c topic e st) as (Hs & Ho & Hl & Hd & Hg).
    destruct (IH (perform c topic e st)) as (Hs' & Ho' & Hl' & Hd' & Hg').
    split; [eapply sameButTraffic_trans; eassumption |].
    change (e :: effs) with ([e] ++ effs).
    unfold published, logged, leftBy in *. rewrite !omap_app, fmap_app.
    split; [rewrite Ho', Ho; now rewrite <- app_assoc |].
    split; [rewrite Hl', Hl; now rewrite <- app_assoc |].
    split; [rewrite Hd', Hd; now rewrite <- app_assoc |].
    rewrite Hg', Hg. unfold setsDebug. rewrite existsb_app.
    destruct (existsb _ [e]), (existsb _ effs); cbn [orb]; try reflexivity.
    now rewrite (assoc_L (∪)), (idemp_L (∪)).
Qed.

(** A callback or timer of a command that comes due leaves the maps, the
    clients and the reconnect timers as they are. *)
Lemma onDeferred_traffic k ok st : sameButTraffic st (onDeferred k ok st).
Proof.
  unfold onDeferred. destruct (deferred st !! k) as [d |]; [| apply sameButTraffic_refl].
  destruct (d_status d); try apply sameButTraffic_refl.
  cbv zeta. destruct (d_kind d); [| destruct ok | |]; repeat split.
Qed.

Lemma sameSessions_publishes c topic pls st :
  sameSessions st (fold_left (fun st pl => publish c topic pl st) pls st).
Proof.
  revert st. induction pls as [| pl pls IH]; intros st; cbn [fold_left].
  - apply sameSessions_refl.
  - eapply sameSessions_trans; [| apply IH]. split; auto.
Qed.

Lemma sameSessions_executeCommand serial command st :
  sameSessions st (executeCommand serial command st).
Proof.
  unfold executeCommand. cbv zeta. cbn [mqttClients sendLog].
  destruct (mqttClients st !! serial) as [c |].
  - eapply sameSessions_trans;
      [apply (sameSessions_sendLog (LogExecuteCommand serial command)) |].
    apply sameButTraffic_sameSessions, performs_traffic.
  - split; auto.
Qed.

Section ManagerFacts.
Context `{!JsBuiltins}.

Lemma sameSessions_onPrintersList l st : sameSessions st (onPrintersList l st).
Proof.
  unfold onPrintersList.
  eapply sameSessions_trans; [apply (sameSessions_sendLog (LogListReceived (length l))) |].
  generalize (sendLog (LogListReceived (length l)) st). clear st.
  induction l as [| p l IH]; intros st; cbn [fold_left].
  - apply sameSessions_refl.
  - eapply sameSessions_trans; [| apply IH].
    eapply sameSessions_trans; [apply (sameSessions_sendLog (LogListEntry p)) |].
    destruct (connectable p);
      [apply sameSessions_connectPrinter | apply sameSessions_refl].
Qed.

Lemma sameSessions_onPrinterAdd p st : sameSessions st (onPrinterAdd p st).
Proof.
  unfold onPrinterAdd. cbv zeta.
  eapply sameSessions_trans; [apply (sameSessions_sendLog (LogPrinterAdded p)) |].
  destruct (connectable p);
    [apply sameSessions_connectPrinter | apply sameSessions_refl].
Qed.

Lemma sameSessions_onTimer t st : sameSessions st (onTimer t st).
Proof.
  unfold onTimer. destruct (timers st !! t) as [tm |]; [| apply sameSessions_refl].
  destruct (t_status tm); try apply sameSessions_refl.
  cbv zeta. cbn [mqttClients setReconnectTimers setTimerStatus].
  destruct (mqttClients st !! t_serial tm).
  - split; auto.
  - eapply sameSessions_trans; [| apply sameSessions_connectPrinter]. split; auto.
Qed.

Lemma sameSessions_onMessage c data st : sameSessions st (onMessage c data st).
Proof.
  unfold onMessage. destruct (clients st !! c) as [cl |]; [| apply sameSessions_refl].
  destruct (c_phase cl); try apply sameSessions_refl.
  cbv zeta.
  destruct (decide (c ∈ debugAmsCmd st)), (truthy (system data)), (print data);
    split; auto.
Qed.

Lemma sameSessions_onError c now st : sameSessions st (onError c now st).
Proof.
  unfold onError. destruct (clients st !! c) as [cl |]; [| apply sameSessions_refl].
  cbv zeta. destruct (_ <? _); split; auto.
Qed.

Lemma registeredLive_onConnect c st :
  registeredLive st -> registeredLive (onConnect c st).
Proof.
  intros Hinv. unfold onConnect.
  destruct (clients st !! c) as [cl |] eqn:Hc; [| exact Hinv].
  destruct (c_phase cl) eqn:Hph; try exact Hinv.
  cbv zeta. intros serial c'.
  cbn [mqttClients clients setPhase publish resetReconnectCounter setPrinters
       setMqttClients sendLog].
  intros Hreg. destruct (decide (c' = c)) as [-> | Hne].
  - exists {| c_printer := c_printer cl; c_phase := Connected |}.
    rewrite list_lookup_alter_eq, Hc. split; [reflexivity |].
    split; [reflexivity |]. cbn [c_printer].
    destruct (decide (serialNumber (c_printer cl) = serial)) as [He | He]; [exact He |].
    rewrite lookup_insert_ne in Hreg by exact He.
    destruct (Hinv serial c Hreg) as (cl' & Hcl' & _ & Hs). congruence.
  - rewrite list_lookup_alter_ne by congruence.
    apply (Hinv serial c').
    destruct (decide (serialNumber (c_printer cl) = serial)) as [He | He].
    + subst serial. rewrite lookup_insert_eq in Hreg. congruence.
    + now rewrite lookup_insert_ne in Hreg.
Qed.

Lemma registeredLive_onClose c st :
  registeredLive st -> registeredLive (onClose c st).
Proof.
  intros Hinv. unfold onClose.
  destruct (clients st !! c) as [cl |] eqn:Hc; [| exact Hinv].
  assert (Hgoal : registeredLive
            (setMqttClients (delete (serialNumber (c_printer cl)) (mqttClients st))
               (setPhase c Closed st))).
  { intros serial c'. cbn [mqttClients clients setPhase setMqttClients].
    intros Hreg. apply lookup_delete_Some in Hreg as [Hne Hreg].
    destruct (Hinv serial c' Hreg) as (cl' & Hcl' & Hph & Hs).
    exists cl'. split; [| auto].
    rewrite list_lookup_alter_ne; [exact Hcl' |]. intros ->. congruence. }
  destruct (c_phase cl); try exact Hinv; cbv zeta.
  all: eapply registeredLive_sameSessions; [apply sameSessions_scheduleReconnect |].
  all: match goal with
       | |- context [printers ?X !! ?k] => destruct (printers X !! k)
       end.
  all: try exact Hgoal.
  all: eapply registeredLive_sameSessions; [| exact Hgoal]; split; auto.
Qed.

Lemma registeredLive_onPrinterRemove serial st :
  registeredLive st -> registeredLive (onPrinterRemove serial st).
Proof.
  intros Hinv. unfold onPrinterRemove. cbv zeta. cbn [mqttClients sendLog].
  destruct (mqttClients st !! serial) as [c |] eqn:Hreg.
  2:{ eapply registeredLive_sameSessions; [apply sameSessions_sendLog | exact Hinv]. }
  destruct (Hinv serial c Hreg) as (cl & Hcl & Hph & Hs).
  intros serial' c'. unfold endClient. cbn [clients sendLog]. rewrite Hcl, Hph.
  cbn [mqttClients clients setPhase setMqttClients setPrinters sendLog].
  intros Hreg'. apply lookup_delete_Some in Hreg' as [Hne Hreg'].
  destruct (Hinv serial' c' Hreg') as (cl' & Hcl' & Hph' & Hs').
  exists cl'. split; [| auto].
  rewrite list_lookup_alter_ne; [exact Hcl' |]. intros ->. congruence.
Qed.

Lemma registeredLive_handle e st :
  registeredLive st -> registeredLive (handle e st).
Proof.
  intros Hinv. destruct e; cbn [handle].
  - eapply registeredLive_sameSessions; [apply sameSessions_onPrintersList | exact Hinv].
  - eapply registeredLive_sameSessions; [apply sameSessions_onPrinterAdd | exact Hinv].
  - now apply registeredLive_onPrinterRemove.
  - unfold onPrinterCommand.
    eapply registeredLive_sameSessions; [| exact Hinv].
    eapply sameSessions_trans; [apply (sameSessions_sendLog (LogApiCommand serial command)) |].
    apply sameSessions_executeCommand.
  - now apply registeredLive_onConnect.
  - eapply registeredLive_sameSessions; [apply sameSessions_onMessage | exact Hinv].
  - eapply registeredLive_sameSessions; [apply sameSessions_onError | exact Hinv].
  - now apply registeredLive_onClose.
  - eapply registeredLive_sameSessions; [apply sameSessions_onTimer | exact Hinv].
  - eapply registeredLive_sameSessions; [| exact Hinv].
    apply sameButTraffic_sameSessions, onDeferred_traffic.
Qed.

Lemma registeredLive_run es st :
  registeredLive st -> registeredLive (run es st).
Proof.
  unfold run. revert st. induction es as [| e es IH]; intros st Hinv; cbn [fold_left].
  - exact Hinv.
  - apply IH. now apply registeredLive_handle.
Qed.

Lemma registeredLive_init : registeredLive init.
Proof. intros serial c Hreg. cbn in Hreg. now rewrite lookup_empty in Hreg. Qed.

(** A serial without a connected client object is not registered. *)
Lemma no_live_session_unregistered serial st :
  registeredLive st -> hasLiveSession serial st = false ->
  mqttClients st !! serial = None.
Proof.
  intros Hinv Hlive. destruct (mqttClients st !! serial) as [c |] eqn:Hreg; [| reflexivity].
  destruct (Hinv serial c Hreg) as (cl & Hcl & Hph & Hs).
  exfalso. unfold hasLiveSession in Hlive.
  assert (Hex : existsb (fun cl => String.eqb (serialNumber (c_printer cl)) serial
                                   && isConnected (c_phase cl)) (clients st) = true).
  { apply existsb_exists. exists cl. split.
    - apply list_elem_of_In. eapply list_elem_of_lookup_2. exact Hcl.
    - rewrite Hph, Hs, String.eqb_refl. reflexivity. }
  congruence.
Qed.

End ManagerFacts.


(** *** Cached descriptors and timers stay filed under their serial *)

Lemma keyed_same st st' :
  printerDataCache st' = printerDataCache st -> timers st' = timers st ->
  keyed st -> keyed st'.
Proof. intros Hc Ht [H1 H2]. split; rewrite ?Hc, ?Ht; assumption. Qed.

Lemma keyed_setTimerStatus t ts st : keyed st -> keyed (setTimerStatus t ts st).
Proof.
  intros [H1 H2]. split; [exact H1 |]. intros t' tm. cbn [timers setTimerStatus].
  destruct (decide (t' = t)) as [-> | Hne].
  - rewrite list_lookup_alter_eq. destruct (timers st !! t) as [tm0 |] eqn:E;
      [| discriminate].
    cbn. intros [= <-]. cbn. eauto.
  - rewrite list_lookup_alter_ne by congruence. apply H2.
Qed.

Lemma keyed_clearTimeout t st : keyed st -> keyed (clearTimeout t st).
Proof.
  intros Hk. unfold clearTimeout. destruct (timers st !! t) as [tm |]; [| exact Hk].
  destruct (t_status tm); try exact Hk. now apply keyed_setTimerStatus.
Qed.

Lemma keyed_connectPrinter p st : keyed st -> keyed (connectPrinter p st).
Proof.
  intros Hk. unfold connectPrinter. cbv zeta.
  destruct (mqttClients st !! serialNumber p); [exact Hk |].
  assert (Hk' : keyed (match printerReconnectTimers st !! serialNumber p with
                       | Some t => clearTimeout t st
                       | None => st
                       end)).
  { destruct (printerReconnectTimers st !! serialNumber p);
      [now apply keyed_clearTimeout | exact Hk]. }
  destruct Hk' as [H1 H2]. split.
  - intros serial d. cbn [printerDataCache sendLog].
    destruct (decide (serialNumber p = serial)) as [<- | Hne].
    + rewrite lookup_insert_eq. now intros [= <-].
    + rewrite lookup_insert_ne by exact Hne. apply H1.
  - exact H2.
Qed.

Lemma keyed_scheduleReconnect serial st : keyed st -> keyed (scheduleReconnect serial st).
Proof.
  intros Hk. unfold scheduleReconnect.
  destruct (printerDataCache st !! serial) as [cached |] eqn:Hc; [| exact Hk].
  destruct (mqttClients st !! serial); [exact Hk |]. cbv zeta.
  destruct Hk as [H1 H2]. split.
  - destruct (_ || _)%bool; exact H1.
  - intros t tm. cbn [timers].
    replace (timers (if ((default 0%nat (reconnectAttempts st !! serial) =? 0)%nat
                         || (default 0%nat (reconnectAttempts st !! serial) mod 5 =? 0)%nat)%bool
                     then sendLog _ st else st)) with (timers st)
      by (destruct (_ || _)%bool; reflexivity).
    intros Hl. apply lookup_app_Some in Hl as [Hl | [_ Hl]]; [exact (H2 _ _ Hl) |].
    apply list_lookup_singleton_Some in Hl as [_ <-]. cbn. exact (H1 _ _ Hc).
Qed.

Lemma keyed_sendLogs ms st : keyed st -> keyed (sendLogs ms st).
Proof.
  unfold sendLogs. revert st. induction ms as [| m ms IH]; intros st Hk; cbn [fold_left].
  - exact Hk.
  - apply IH. revert Hk. now apply keyed_same.
Qed.

Lemma keyed_publishes c topic pls st :
  keyed st -> keyed (fold_left (fun st pl => publish c topic pl st) pls st).
Proof.
  revert st. induction pls as [| pl pls IH]; intros st Hk; cbn [fold_left].
  - exact Hk.
  - apply IH. revert Hk. now apply keyed_same.
Qed.

Lemma keyed_executeCommand serial command st :
  keyed st -> keyed (executeCommand serial command st).
Proof.
  intros Hk. unfold executeCommand. cbv zeta. cbn [mqttClients sendLog].
  destruct (mqttClients st !! serial) as [c |].
  - match goal with
    | |- keyed (fold_left _ ?effs ?st0) =>
        destruct (performs_traffic c (requestTopic serial) effs st0)
          as ((_ & _ & H3 & _ & _ & _ & _ & H8) & _)
    end.
    eapply keyed_same; [exact H3 | exact H8 |]. revert Hk. now apply keyed_same.
  - revert Hk. now apply keyed_same.
Qed.

Section KeyedFacts.
Context `{!JsBuiltins}.

Lemma keyed_handle e st : keyed st -> keyed (handle e st).
Proof.
  intros Hk. destruct e; cbn [handle].
  - unfold onPrintersList.
    assert (Hk' : keyed (sendLog (LogListReceived (length l)) st))
      by (revert Hk; now apply keyed_same).
    revert Hk'. generalize (sendLog (LogListReceived (length l)) st). clear.
    induction l as [| p l IH]; intros st Hk; cbn [fold_left]; [exact Hk |].
    apply IH. destruct (connectable p).
    + apply keyed_connectPrinter. revert Hk. now apply keyed_same.
    + revert Hk. now apply keyed_same.
  - unfold onPrinterAdd. cbv zeta. destruct (connectable p).
    + apply keyed_connectPrinter. revert Hk. now apply keyed_same.
    + revert Hk. now apply keyed_same.
  - unfold onPrinterRemove. cbv zeta. cbn [mqttClients sendLog].
    destruct (mqttClients st !! serial) as [c |]; [| revert Hk; now apply keyed_same].
    unfold endClient. cbn [clients sendLog].
    destruct (clients st !! c) as [cl |]; [destruct (c_phase cl) |];
      revert Hk; now apply keyed_same.
  - unfold onPrinterCommand. apply keyed_executeCommand.
    revert Hk. now apply keyed_same.
  - unfold onConnect. destruct (clients st !! c) as [cl |]; [| exact Hk].
    destruct (c_phase cl); exact Hk.
  - unfold onMessage. destruct (clients st !! c) as [cl |]; [| exact Hk].
    destruct (c_phase cl); try exact Hk. cbv zeta.
    destruct (decide (c ∈ debugAmsCmd st)), (truthy (system data)), (print data); revert Hk; now apply keyed_same.
  - unfold onError. destruct (clients st !! c) as [cl |]; [| exact Hk].
    cbv zeta. destruct (_ <? _); [| exact Hk]. revert Hk. now apply keyed_same.
  - unfold onClose. destruct (clients st !! c) as [cl |]; [| exact Hk].
    destruct (c_phase cl); try exact Hk; cbv zeta; apply keyed_scheduleReconnect.
    all: match goal with
         | |- context [printers ?X !! ?k] => destruct (printers X !! k)
         end; revert Hk; now apply keyed_same.
  - unfold onTimer. destruct (timers st !! t) as [tm |]; [| exact Hk].
    destruct (t_status tm); try exact Hk. cbv zeta.
    assert (Hk' : keyed (setReconnectTimers
                           (delete (t_serial tm)
                              (printerReconnectTimers (setTimerStatus t Fired st)))
                           (setTimerStatus t Fired st))).
    { apply (keyed_same (setTimerStatus t Fired st)); try reflexivity.
      now apply keyed_setTimerStatus. }
    destruct (mqttClients _ !! t_serial tm); [exact Hk' |].
    now apply keyed_connectPrinter.
  - destruct (onDeferred_traffic k ok st) as (_ & _ & H3 & _ & _ & _ & _ & H8).
    revert Hk. now apply keyed_same.
Qed.

Lemma keyed_run es st : keyed st -> keyed (run es st).
Proof.
  unfold run. revert st. induction es as [| e es IH]; intros st Hk; cbn [fold_left].
  - exact Hk.
  - apply IH. now apply keyed_handle.
Qed.

Lemma keyed_init : keyed init.
Proof.
  split; intros ? ? Hl; cbn in Hl; [now rewrite lookup_empty in Hl | discriminate].
Qed.

End KeyedFacts.

(** *** Claims about the connection manager *)

(** C1, on the code.  The handler of [printer:remove], announced as
    "Printer removed - disconnect", ends and unregisters a registered
    session only: it never cancels a reconnect timer and never discards
    the cached descriptor, which [scheduleReconnect] tests for and
    nothing ever deletes.  When the event arrives while a reconnect timer
    of the serial is pending and no session is registered, it changes
    nothing but the log, and when that timer fires a new connection
    attempt is made for the removed printer. *)
Theorem remove_keeps_reconnect `{!JsBuiltins} (es : list Event) (t : nat) (tm : Timer) :
  let st := run es init in
  timers st !! t = Some tm ->
  t_status tm = Pending ->
  mqttClients st !! t_serial tm = None ->
  let st' := handle (PrinterRemove (t_serial tm)) st in
  st' = sendLog (LogPrinterRemoved (t_serial tm)) st
  /\ timers st' !! t = Some tm
  /\ printerDataCache st' = printerDataCache st
  /\ printerReconnectTimers st' = printerReconnectTimers st
  /\ clients (handle (TimerFire t) st')
     = clients st ++ [{| c_printer := t_cached tm; c_phase := Connecting |}]
  /\ (forall (s0 : State) (serial : string),
        timers (handle (PrinterRemove serial) s0) = timers s0
        /\ printerDataCache (handle (PrinterRemove serial) s0) = printerDataCache s0
        /\ printerReconnectTimers (handle (PrinterRemove serial) s0)
           = printerReconnectTimers s0).
Proof.
  intros st Ht Hpend Hreg st'.
  assert (Hkey : serialNumber (t_cached tm) = t_serial tm).
  { destruct (keyed_run es init keyed_init) as [_ Hk]. exact (Hk _ _ Ht). }
  assert (Hst' : st' = sendLog (LogPrinterRemoved (t_serial tm)) st).
  { subst st'. cbn [handle]. unfold onPrinterRemove. cbv zeta.
    cbn [mqttClients sendLog]. now rewrite Hreg. }
  split; [exact Hst' |]. rewrite Hst'.
  cbn [timers printerDataCache printerReconnectTimers sendLog].
  split; [exact Ht |]. split; [reflexivity |]. split; [reflexivity |]. split.
  - cbn [handle]. unfold onTimer. cbn [timers sendLog]. rewrite Ht, Hpend.
    cbv zeta. cbn [mqttClients setReconnectTimers setTimerStatus sendLog].
    rewrite Hreg, clients_connectPrinter.
    cbn [mqttClients setReconnectTimers setTimerStatus sendLog clients].
    now rewrite Hkey, Hreg.
  - intros s0 serial. cbn [handle]. unfold onPrinterRemove. cbv zeta.
    cbn [mqttClients sendLog]. destruct (mqttClients s0 !! serial) as [c |];
      [| repeat split; reflexivity].
    unfold endClient. cbn [clients sendLog].
    destruct (clients s0 !! c) as [cl |]; [destruct (c_phase cl) |];
      repeat split; reflexivity.
Qed.

Lemma remove_keeps_reconnect_witness :
  let st := @run decimal_builtins [PrinterAdd demoPrinter; ClientClose 0%nat] init in
  let tm := {| t_serial := serialNumber demoPrinter; t_cached := demoPrinter;
               t_delay := 5000; t_status := Pending |} in
  timers st !! 0%nat = Some tm
  /\ t_status tm = Pending
  /\ mqttClients st !! t_serial tm = None
  /\ @handle decimal_builtins (PrinterRemove (t_serial tm)) st
     = sendLog (LogPrinterRemoved (t_serial tm)) st.
Proof.
  intros st tm. split; [reflexivity |]. split; [reflexivity |].
  split; [reflexivity |].
  exact (proj1 (@remove_keeps_reconnect decimal_builtins
                  [PrinterAdd demoPrinter; ClientClose 0%nat] 0%nat tm
                  eq_refl eq_refl eq_refl)).
Defined.

(** The failing run of C1: the connection is lost, the printer is removed
    while the reconnect timer is pending, the timer stays pending, and
    when it fires a new client is created for the removed printer. *)
Lemma remove_keeps_reconnect_counterexample :
  let serial := serialNumber demoPrinter in
  let lost := @run decimal_builtins [PrinterAdd demoPrinter; ClientClose 0%nat] init in
  let removed := @handle decimal_builtins (PrinterRemove serial) lost in
  let fired := @handle decimal_builtins (TimerFire 0%nat) removed in
  pendingTimers serial lost = 1%nat
  /\ pendingTimers serial removed = 1%nat
  /\ length (clients removed) = 1%nat
  /\ clients fired !! 1%nat
     = Some {| c_printer := demoPrinter; c_phase := Connecting |}.
Proof. vm_compute. repeat split; reflexivity. Qed.

(** C2, on the code: the fifth delay of a session that keeps failing is
    80 s, not the 60 s of the comment above the formula; the cap of 120 s
    is reached with the sixth.  A successful connection resets the counter
    and the next delay is 5 s again. *)
Theorem reconnect_delays :
  map reconnectDelay [0; 1; 2; 3; 4; 5]%nat
  = [5000; 10000; 20000; 40000; 80000; 120000]
  /\ (forall n : nat, reconnectDelay (5 + n) = 120000)
  /\ map t_delay (timers (@run decimal_builtins failingSession init))
     = [5000; 10000; 20000; 40000; 80000; 120000; 120000]
  /\ reconnectAttempts (@run decimal_builtins failingSession init)
       !! serialNumber demoPrinter = Some 7%nat
  /\ t_delay <$> last (timers (@run decimal_builtins recoveredSession init))
     = Some 5000
  /\ reconnectAttempts (@run decimal_builtins recoveredSession init)
       !! serialNumber demoPrinter = Some 1%nat.
Proof.
  split; [reflexivity |]. split.
  - intros n. unfold reconnectDelay. apply Z.min_r.
    rewrite Nat2Z.inj_add, Z.pow_add_r by lia.
    change (2 ^ Z.of_nat 5) with 32.
    assert (1 <= 2 ^ Z.of_nat n) by (apply (Z.pow_le_mono_r 2 0); lia). nia.
  - vm_compute. repeat split; reflexivity.
Qed.

(** C7, on the code.  The guard of [connectPrinter] and of
    [scheduleReconnect] is the session registry: connecting a printer
    whose serial has a registered session is a no-op, no reconnect is
    scheduled while a session is registered, and in every reachable state
    the session registered for a serial is a connected client of that
    serial.  A client is registered only when its [connect] event
    arrives, so the guard misses the clients that are still connecting:
    whenever no session is registered for the serial, [connectPrinter]
    creates one more client for it, whatever clients of that serial
    exist already. *)
Theorem registered_session_guard `{!JsBuiltins}
    (st : State) (es : list Event) (serial : string) (c : nat) :
  (mqttClients st !! serial = Some c ->
     (forall p, serialNumber p = serial -> connectPrinter p st = st)
     /\ scheduleReconnect serial st = st)
  /\ (mqttClients (run es init) !! serial = Some c ->
      exists cl, clients (run es init) !! c = Some cl
                 /\ c_phase cl = Connected
                 /\ serialNumber (c_printer cl) = serial)
  /\ (mqttClients st !! serial = None ->
      forall p, serialNumber p = serial ->
        clients (connectPrinter p st)
        = clients st ++ [{| c_printer := p; c_phase := Connecting |}]).
Proof.
  split; [| split].
  - intros Hreg. split.
    + intros p <-. now apply (connectPrinter_registered p st c).
    + now apply (scheduleReconnect_registered serial st c).
  - intros Hreg.
    exact (registeredLive_run es init registeredLive_init serial c Hreg).
  - intros Hreg p <-. now rewrite clients_connectPrinter, Hreg.
Qed.

Lemma registered_session_guard_witness :
  let es := [PrinterAdd demoPrinter; ClientConnect 0%nat] in
  let st := @run decimal_builtins es init in
  mqttClients st !! serialNumber demoPrinter = Some 0%nat
  /\ connectPrinter demoPrinter st = st
  /\ scheduleReconnect (serialNumber demoPrinter) st = st
  /\ exists cl, clients st !! 0%nat = Some cl /\ c_phase cl = Connected
                /\ serialNumber (c_printer cl) = serialNumber demoPrinter.
Proof.
  intros es st. split; [reflexivity |].
  destruct (@registered_session_guard decimal_builtins st es
              (serialNumber demoPrinter) 0%nat) as (Hguard & Hreach & _).
  destruct (Hguard eq_refl) as [Hc Hs].
  split; [exact (Hc demoPrinter eq_refl) |]. split; [exact Hs |].
  exact (Hreach eq_refl).
Defined.

(** The failing run of C7: when the roster arrives again before the
    first client has connected, a second client is created; both connect,
    or both fail and leave two pending reconnect timers. *)
Lemma registered_session_guard_counterexample :
  liveSessions (serialNumber demoPrinter) (@run decimal_builtins doubleRoster init)
  = 2%nat
  /\ pendingTimers (serialNumber demoPrinter)
       (@run decimal_builtins doubleRosterLost init) = 2%nat.
Proof. vm_compute. split; reflexivity. Qed.

(** C9.  A command for a serial without a registered session only writes
    the two log lines: nothing is published, nothing is queued, and no
    map, client or timer changes.  In every reachable state a serial
    without a live session has no registered session. *)
Theorem executeCommand_no_session `{!JsBuiltins}
    (st : State) (es : list Event) (serial : string) (command : Command) :
  (mqttClients st !! serial = None ->
   let st' := executeCommand serial command st in
   st' = sendLog (LogNoClient serial (dom (mqttClients st)))
           (sendLog (LogExecuteCommand serial command) st)
   /\ log st' = log st ++ [LogExecuteCommand serial command;
                           LogNoClient serial (dom (mqttClients st))]
   /\ outbox st' = outbox st
   /\ mqttClients st' = mqttClients st
   /\ printers st' = printers st
   /\ printerDataCache st' = printerDataCache st
   /\ printerReconnectTimers st' = printerReconnectTimers st
   /\ reconnectAttempts st' = reconnectAttempts st
   /\ clients st' = clients st
   /\ timers st' = timers st)
  /\ (hasLiveSession serial (run es init) = false ->
      mqttClients (run es init) !! serial = None).
Proof.
  split.
  - intros Hreg st'.
    assert (Hst' : st' = sendLog (LogNoClient serial (dom (mqttClients st)))
                           (sendLog (LogExecuteCommand serial command) st)).
    { subst st'. unfold executeCommand. cbv zeta. cbn [mqttClients sendLog].
      now rewrite Hreg. }
    split; [exact Hst' |]. rewrite Hst'. cbn. rewrite <- app_assoc.
    repeat split; reflexivity.
  - apply no_live_session_unregistered, registeredLive_run, registeredLive_init.
Qed.

Lemma executeCommand_no_session_witness :
  let es := [PrinterAdd demoPrinter] in
  let st := @run decimal_builtins es init in
  let serial := serialNumber demoPrinter in
  hasLiveSession serial st = false
  /\ mqttClients st !! serial = None
  /\ outbox (executeCommand serial (stringCommand "pause") st) = outbox st
  /\ log (executeCommand serial (stringCommand "pause") st)
     = log st ++ [LogExecuteCommand serial (stringCommand "pause");
                  LogNoClient serial (dom (mqttClients st))].
Proof.
  intros es st serial. split; [reflexivity |].
  destruct (@executeCommand_no_session decimal_builtins st es serial
              (stringCommand "pause")) as [Hnoop Hunreg].
  split; [exact (Hunreg eq_refl) |].
  destruct (Hnoop (Hunreg eq_refl)) as (_ & Hlog & Hout & _).
  split; [exact Hout | exact Hlog].
Defined.

(** ** JPEG frame extraction *)

Lemma indexOf_pair_app (a b : Byte.byte) (pre rest : bytes) :
  a <> b ->
  indexOf [a; b] pre = None ->
  indexOf [a; b] (pre ++ a :: b :: rest) = Some (length pre).
Proof.
  intros Hab. induction pre as [| x pre IH]; intros Hnone.
  - cbn. now rewrite !(Byte.byte_dec_lb eq_refl).
  - cbn [indexOf] in Hnone.
    destruct (startsWith [a; b] (x :: pre)) eqn:Hs; [discriminate |].
    destruct (indexOf [a; b] pre) eqn:Hi; [discriminate |].
    cbn [app indexOf length].
    assert (Hs' : startsWith [a; b] (x :: pre ++ a :: b :: rest) = false).
    { destruct pre as [| y pre'].
      - cbn. destruct (Byte.eqb a x); [| reflexivity]. cbn.
        destruct (Byte.eqb b a) eqn:E; [| reflexivity].
        apply Byte.byte_dec_bl in E. congruence.
      - exact Hs. }
    rewrite Hs', (IH eq_refl). reflexivity.
Qed.

Lemma start_ne : Byte.xff <> Byte.xd8.
Proof. discriminate. Qed.

Lemma end_ne : Byte.xff <> Byte.xd9.
Proof. discriminate. Qed.

Lemma indexOf_nonempty pat buf i :
  pat <> [] -> indexOf pat buf = Some i -> buf <> [].
Proof. intros Hp Hi ->. destruct pat; [congruence |]. discriminate. Qed.

(** The start marker is found right after noise that holds none. *)
Lemma indexOf_start noise rest :
  indexOf JPEG_START noise = None ->
  indexOf JPEG_START (noise ++ JPEG_START ++ rest) = Some (length noise).
Proof. apply indexOf_pair_app, start_ne. Qed.

(** From offset 2, the end marker is found right after a body that holds
    none. *)
Lemma indexOfFrom_end body rest :
  indexOf JPEG_END body = None ->
  indexOfFrom JPEG_END (JPEG_START ++ body ++ JPEG_END ++ rest) 2
  = Some (length body + 2)%nat.
Proof.
  intros Hnone. unfold indexOfFrom.
  change (drop 2 (JPEG_START ++ body ++ JPEG_END ++ rest))
    with (body ++ Byte.xff :: Byte.xd9 :: rest).
  change JPEG_END with [Byte.xff; Byte.xd9].
  rewrite (indexOf_pair_app _ _ _ _ end_ne Hnone). cbn. f_equal. lia.
Qed.

Lemma processLoop_no_start fuel sd :
  indexOf JPEG_START (buffer sd) = None ->
  processLoop (S fuel) sd = Some (withBuffer [] sd).
Proof. intros Hnone. cbn [processLoop]. now rewrite Hnone. Qed.

(** One pass over [noise ++ span ++ rest]: the noise is dropped, the span
    is delivered when it is longer than 100 bytes and dropped otherwise,
    and the loop goes on with [rest]. *)
Lemma processLoop_span fuel sd noise body rest :
  indexOf JPEG_START noise = None ->
  indexOf JPEG_END body = None ->
  buffer sd = noise ++ jpegSpan body ++ rest ->
  processLoop (S fuel) sd =
  processLoop fuel
    (withBuffer rest
       (if (100 <? length (jpegSpan body))%nat then deliver (jpegSpan body) sd
        else sd)).
Proof.
  intros Hn Hb Hbuf. cbn [processLoop]. rewrite Hbuf. unfold jpegSpan.
  rewrite <- !app_assoc, (indexOf_start noise _ Hn).
  rewrite drop_app_length, (indexOfFrom_end body rest Hb).
  replace (length body + 2 + 2)%nat with (length (JPEG_START ++ body ++ JPEG_END))
    by (rewrite !length_app; cbn; lia).
  rewrite !app_assoc, take_app_length, drop_app_length.
  destruct (100 <? _)%nat; reflexivity.
Qed.

(** With the buffer length as fuel the loop returns, whatever the bytes. *)
Lemma processLoop_total fuel :
  forall sd, (length (buffer sd) < fuel)%nat -> exists r, processLoop fuel sd = Some r.
Proof.
  induction fuel as [| fuel IH]; intros sd Hlen; [lia |].
  cbn [processLoop].
  destruct (indexOf JPEG_START (buffer sd)) as [startIdx |] eqn:Hs; [| eauto].
  destruct (indexOfFrom JPEG_END (drop startIdx (buffer sd)) 2) as [endIdx |];
    [| eauto].
  assert (Hne : buffer sd <> []) by (eapply indexOf_nonempty; [| exact Hs]; discriminate).
  assert (Hrest : (length (drop (endIdx + 2) (drop startIdx (buffer sd))) < fuel)%nat).
  { rewrite !length_drop. destruct (buffer sd); [congruence |]. cbn in *. lia. }
  destruct (100 <? _)%nat; apply IH; exact Hrest.
Qed.

(** More fuel than the buffer is long changes nothing. *)
Lemma processLoop_fuel n :
  forall m sd, (length (buffer sd) < n)%nat -> (length (buffer sd) < m)%nat ->
               processLoop n sd = processLoop m sd.
Proof.
  induction n as [| n IH]; intros m sd Hn Hm; [lia |].
  destruct m as [| m]; [lia |]. cbn [processLoop].
  destruct (indexOf JPEG_START (buffer sd)) as [startIdx |] eqn:Hs; [| reflexivity].
  destruct (indexOfFrom JPEG_END (drop startIdx (buffer sd)) 2) as [endIdx |];
    [| reflexivity].
  assert (Hne : buffer sd <> []) by (eapply indexOf_nonempty; [| exact Hs]; discriminate).
  assert (Hrest : (length (drop (endIdx + 2) (drop startIdx (buffer sd)))
                   < length (buffer sd))%nat).
  { rewrite !length_drop. destruct (buffer sd); [congruence |]. cbn. lia. }
  destruct (100 <? _)%nat; apply IH; cbn [buffer]; lia.
Qed.

Lemma processJpegBuffer_span sd noise body rest :
  indexOf JPEG_START noise = None ->
  indexOf JPEG_END body = None ->
  buffer sd = noise ++ jpegSpan body ++ rest ->
  processJpegBuffer sd =
  processJpegBuffer
    (withBuffer rest
       (if (100 <? length (jpegSpan body))%nat then deliver (jpegSpan body) sd
        else sd)).
Proof.
  intros Hn Hb Hbuf. unfold processJpegBuffer.
  rewrite (processLoop_span _ sd noise body rest Hn Hb Hbuf).
  apply processLoop_fuel; cbn [buffer withBuffer]; [| lia].
  rewrite Hbuf, !length_app. unfold jpegSpan. rewrite !length_app. cbn. lia.
Qed.

(** C8.  [processJpegBuffer] always returns.  Without a start marker the
    buffer is emptied and nothing is delivered.  Bytes before the first
    start marker are discarded; the span from the start marker to the next
    end marker is delivered (cached and sent) when it is longer than 100
    bytes and dropped otherwise, and extraction goes on behind it.  For a
    buffer [noise ++ span1 ++ span2] with both spans longer than 100 bytes
    exactly the two spans are delivered, in order, and the buffer is left
    empty. *)
Theorem processJpegBuffer_frames (sd : StreamData) (noise body1 body2 rest : bytes) :
  indexOf JPEG_START noise = None ->
  indexOf JPEG_END body1 = None ->
  indexOf JPEG_END body2 = None ->
  (exists r, processJpegBuffer sd = Some r)
  /\ (indexOf JPEG_START (buffer sd) = None ->
      processJpegBuffer sd = Some (withBuffer [] sd))
  /\ (buffer sd = noise ++ jpegSpan body1 ++ rest ->
      processJpegBuffer sd
      = processJpegBuffer
          (withBuffer rest
             (if (100 <? length (jpegSpan body1))%nat
              then deliver (jpegSpan body1) sd else sd)))
  /\ (buffer sd = noise ++ jpegSpan body1 ++ jpegSpan body2 ->
      (100 < length (jpegSpan body1))%nat ->
      (100 < length (jpegSpan body2))%nat ->
      processJpegBuffer sd
      = Some {| buffer := [];
                lastFrame := Some (jpegSpan body2);
                frameCount := (frameCount sd + 2)%nat;
                sent := sent sd ++ [jpegSpan body1; jpegSpan body2] |}).
Proof.
  intros Hn Hb1 Hb2. split; [apply processLoop_total; lia |].
  split; [apply processLoop_no_start |]. split.
  - now apply processJpegBuffer_span.
  - intros Hbuf Hl1 Hl2.
    rewrite (processJpegBuffer_span sd noise body1 (jpegSpan body2) Hn Hb1 Hbuf).
    apply Nat.ltb_lt in Hl1, Hl2. rewrite Hl1.
    rewrite (processJpegBuffer_span _ [] body2 [] eq_refl Hb2)
      by (cbn [buffer withBuffer app]; now rewrite app_nil_r).
    rewrite Hl2. unfold processJpegBuffer. cbn [buffer withBuffer length].
    rewrite processLoop_no_start by reflexivity.
    unfold withBuffer, deliver. cbn [buffer lastFrame frameCount sent].
    rewrite <- app_assoc, <- Nat.add_assoc. reflexivity.
Qed.

Lemma processJpegBuffer_frames_witness :
  indexOf JPEG_START sampleNoise = None
  /\ indexOf JPEG_END sampleBody1 = None
  /\ indexOf JPEG_END sampleBody2 = None
  /\ indexOf JPEG_END (repeat Byte.x33 40) = None
  /\ indexOf JPEG_START (buffer noiseStream) = None
  /\ processJpegBuffer noiseStream = Some (withBuffer [] noiseStream)
  /\ processJpegBuffer shortStream = processJpegBuffer (withBuffer [] shortStream)
  /\ processJpegBuffer sampleStream
     = Some {| buffer := [];
               lastFrame := Some (jpegSpan sampleBody2);
               frameCount := 2;
               sent := [jpegSpan sampleBody1; jpegSpan sampleBody2] |}.
Proof.
  do 5 (split; [reflexivity |]).
  split; [| split].
  - exact (proj1 (proj2 (processJpegBuffer_frames noiseStream sampleNoise
                           sampleBody1 sampleBody2 [] eq_refl eq_refl eq_refl))
             eq_refl).
  - exact (proj1 (proj2 (proj2 (processJpegBuffer_frames shortStream sampleNoise
                                  (repeat Byte.x33 40) sampleBody2 []
                                  eq_refl eq_refl eq_refl)))
             eq_refl).
  - refine (proj2 (proj2 (proj2
              (processJpegBuffer_frames sampleStream sampleNoise sampleBody1
                 sampleBody2 [] eq_refl eq_refl eq_refl))) eq_refl _ _);
      vm_compute; lia.
Defined.

(** ** Scenarios *)

(** Numbers outside the unsigned 32-bit range: [-1] has all bits set,
    [2^32 + 5] wraps to [5], NaN and the infinities have no bits set. *)
Example decodeTemp_wraps :
  @decodeTemp decimal_builtins (JInt (-1)) = {| current := 65535; target := 65535 |}
  /\ @decodeTemp decimal_builtins (JInt (2 ^ 32 + 5)) = {| current := 5; target := 0 |}
  /\ @decodeTemp decimal_builtins (JNum S754_nan) = {| current := 0; target := 0 |}
  /\ @decodeTemp decimal_builtins (JNum (S754_infinity true))
     = {| current := 0; target := 0 |}
  /\ @decodeTemp decimal_builtins (JNum (S754_finite true 5 (-1)))
     = {| current := 65534; target := 65535 |}.
Proof. repeat split; reflexivity. Qed.

(** The work light of an A1 is switched by two messages, [chamber_light]
    first and [work_light] second, on the request topic of the printer. *)
Example workLight_on_A1 :
  published (translate "03919A000000001" "A1 MINI"
         {| cmd_type := JStr "workLight"; cmd_on := JBool true; cmd_temp := JUndef;
            cmd_speed := JUndef; cmd_level := JUndef; cmd_slot := JUndef;
            cmd_trayId := JUndef; cmd_gcode := JUndef;
            cmd_calibrationType := JUndef; cmd_distance := JUndef;
            cmd_axis := JUndef; cmd_amsId := JUndef; cmd_trayType := JUndef;
            cmd_trayColor := JUndef; cmd_trayInfoIdx := JUndef;
            cmd_nozzleTempMin := JUndef; cmd_nozzleTempMax := JUndef |})
  = [PLedCtrl "chamber_light" true false; PLedCtrl "work_light" true false].
Proof. reflexivity. Qed.

(** A jog is three messages: relative mode, the move, absolute mode. *)
Example move_is_three_messages :
  length (published (translate "03919A000000001" "P1S" (stringCommand "move"))) = 3%nat.
Proof. reflexivity. Qed.

(** Removing a connected printer ends its client; the [close] event of
    that client finds the cached descriptor and schedules a reconnect,
    whose timer opens a new client for the removed printer. *)
Example removed_session_reconnects :
  let serial := serialNumber demoPrinter in
  let st := @run decimal_builtins
              [PrinterAdd demoPrinter; ClientConnect 0; PrinterRemove serial;
               ClientClose 0; TimerFire 0]%nat init in
  printers st !! serial = None
  /\ clients st !! 1%nat = Some {| c_printer := demoPrinter; c_phase := Connecting |}.
Proof. vm_compute. split; reflexivity. Qed.

(** An incomplete frame stays in the buffer until the rest arrives. *)
Example partial_frame_is_kept :
  let head := sampleNoise ++ JPEG_START ++ repeat Byte.x11 60 in
  let tail := repeat Byte.x11 60 ++ JPEG_END in
  let sd0 := {| buffer := []; lastFrame := None; frameCount := 0; sent := [] |} in
  match onJpegData head sd0 with
  | Some sd1 =>
      buffer sd1 = JPEG_START ++ repeat Byte.x11 60 /\ sent sd1 = []
      /\ (sent <$> onJpegData tail sd1) = Some [jpegSpan (repeat Byte.x11 120)]
  | None => False
  end.
Proof. vm_compute. repeat split; reflexivity. Qed.

(** * Further properties of the modelled code *)

(** ** The snapshot the merge produces *)

Lemma nullish_coalesce a b : nullish b = false -> nullish (a ?? b) = false.
Proof. intros Hb. destruct a; cbn; auto. Qed.

Lemma nullish_JInt z : nullish (JInt z) = false.
Proof. reflexivity. Qed.

Lemma js_or_empty_idem a : js_or (js_or a JEmpty) JEmpty = js_or a JEmpty.
Proof. unfold js_or. destruct (truthy a) eqn:E; rewrite ?E; reflexivity. Qed.

Lemma coalesce_defined a b : nullish a = false -> a ?? b = a.
Proof. intros Ha. unfold coalesce. now rewrite Ha. Qed.

Section MergeMore.
Context `{!JsBuiltins}.

Lemma nozzles_defined h prev p :
  nullish (nozzle1Temp (nozzles h prev p)) = false
  /\ nullish (nozzle1Target (nozzles h prev p)) = false.
Proof.
  unfold nozzles.
  destruct (device_extruder_info p) as [[| ? [| ? ?]] |];
    destruct (extruder_info p) as [[| ? [| ? ?]] |]; destruct h;
    cbn [nozzle1Temp nozzle1Target]; split;
    try reflexivity; repeat apply nullish_coalesce; reflexivity.
Qed.

Lemma status_complete data p h a sp prev : complete (status data p h a sp prev).
Proof.
  unfold complete. snapshot_simpl.
  destruct (nozzles_defined h prev p) as [Hn1 Hn2].
  repeat split; try reflexivity; try assumption;
    try (repeat apply nullish_coalesce; reflexivity).
  - apply js_or_empty_idem.
  - eauto.
Qed.

Lemma merge_status_complete s p sys :
  complete (merge s {| print := Some p; system := sys |}).
Proof. unfold merge. cbn [print]. cbv zeta. apply status_complete. Qed.

(** X1.  Whatever the previous entry and whatever the report, the entry
    the merge stores has every key of the status object that carries a
    default defined: it is online, and state, progress, remaining time,
    file name, layers, first nozzle, bed and chamber temperatures, error
    flag and code and the hazard list are never undefined or null. *)
Theorem merge_complete (s : Snapshot) (p : PrintReport) (sys : jsval) :
  complete (merge s {| print := Some p; system := sys |}).
Proof. apply merge_status_complete. Qed.

Lemma merge_empty_report t :
  complete t ->
  isIdle (gcodeState t) = false ->
  withoutDebug (merge t (printMessage emptyReport)) = withoutDebug t.
Proof.
  intros (Hon & Hg & Hpp & Hrt & Hcf & Hl & Htl & Hnt & Hntt & Hbt & Hbtt & Hct
          & Hpe & Hpec & Hh) Hidle.
  unfold merge, printMessage. cbn [print]. cbv zeta.
  unfold ctcUpdate. cbn [device_ctc_info_temp emptyReport nullish gcode_state].
  change (JUndef ?? gcodeState t) with (gcodeState t). rewrite Hidle, andb_false_r.
  unfold parseAms, parseExternalSpools.
  cbn [p_ams vir_slot vt_tray emptyReport].
  apply snapshot_ext; unfold withoutDebug; snapshot_simpl;
    cbn [emptyReport gcode_state mc_percent mc_remaining_time gcode_file
         subtask_name layer_num total_layer_num bed_temper bed_target_temper
         chamber_temper cooling_fan_speed big_fan1_speed big_fan2_speed
         lights_report spd_lvl spd_mag wifi_signal print_type print_error
         mc_print_error_code mc_print_stage p_hms info_temp];
    try reflexivity.
  all: try (change (JUndef ?? ?x) with x).
  all: rewrite ?(coalesce_defined _ _ Hg), ?(coalesce_defined _ _ Hpp),
         ?(coalesce_defined _ _ Hrt), ?(coalesce_defined _ _ Hl),
         ?(coalesce_defined _ _ Htl), ?(coalesce_defined _ _ Hbt),
         ?(coalesce_defined _ _ Hbtt), ?(coalesce_defined _ _ Hpe),
         ?(coalesce_defined _ _ Hpec); try reflexivity; try (symmetry; assumption).
  all: try (destruct (isH2 t); cbn; rewrite ?(coalesce_defined _ _ Hct);
            reflexivity).
  all: try (unfold nozzles; cbn [device_extruder_info extruder_info emptyReport
              nozzle_temper nozzle_target_temper nozzle_temper_2
              nozzle_target_temper_2 nozzle1Temp nozzle1Target nozzle2Temp
              nozzle2Target];
            destruct (isH2 t); cbn [nozzle1Temp nozzle1Target nozzle2Temp nozzle2Target];
            try (change (JUndef ?? ?x) with x);
            rewrite ?(coalesce_defined _ _ Hnt), ?(coalesce_defined _ _ Hntt);
            reflexivity).
  all: try (destruct Hh as [h ->]; reflexivity).
  exact Hcf.
Qed.

End MergeMore.

(** X2.  A report that carries no field leaves the telemetry of an entry
    produced by an earlier merge as it is, provided the lifecycle state
    is neither idle nor finished (in those states it clears the stale
    progress and targets). *)
Theorem quiet_report_keeps_telemetry `{!JsBuiltins}
    (s : Snapshot) (p : PrintReport) (sys : jsval) :
  let s' := merge s {| print := Some p; system := sys |} in
  isIdle (gcodeState s') = false ->
  withoutDebug (merge s' (printMessage emptyReport)) = withoutDebug s'.
Proof. intros s'. apply merge_empty_report, merge_status_complete. Qed.

Lemma quiet_report_keeps_telemetry_witness :
  let s' := @merge decimal_builtins printingSnapshot
              {| print := Some runningReport; system := JUndef |} in
  isIdle (gcodeState s') = false
  /\ withoutDebug (@merge decimal_builtins s' (printMessage emptyReport))
     = withoutDebug s'.
Proof.
  intros s'. split; [reflexivity |].
  exact (@quiet_report_keeps_telemetry decimal_builtins printingSnapshot
           runningReport JUndef eq_refl).
Defined.

(** ** The filament system *)

Section FeederFacts.
Context `{!JsBuiltins}.

Lemma trayData_carries i j tr :
  hasData tr = true ->
  carriesData (td_type (trayData i j tr)) (td_color (trayData i j tr)).
Proof.
  unfold hasData, carriesData, trayData. cbn [td_type td_color]. unfold js_or.
  destruct (truthy (tray_type tr)) eqn:Ht; [now left |].
  cbn. intros [Hc Hs]%andb_true_iff. right. rewrite Hc.
  split; [exact Hc |]. now apply negb_true_iff.
Qed.

(** The trays of one unit, with the slots counted from [j0]. *)
Lemma unit_trays_from i ts :
  forall j0,
    let l := omap (fun x => x)
               (imap (fun j (t : option Tray) =>
                        match t with
                        | Some tr => if hasData tr
                                     then Some (trayData i (j0 + j) tr) else None
                        | None => None
                        end) ts) in
    Forall (fun t => td_unitId t = i
                     /\ (j0 <= td_slot t < j0 + length ts)%nat
                     /\ td_id t = (i * 4 + td_slot t)%nat
                     /\ carriesData (td_type t) (td_color t)) l
    /\ NoDup (td_slot <$> l).
Proof.
  induction ts as [| t ts IH]; intros j0 l.
  - split; constructor.
  - subst l. rewrite imap_cons.
    assert (Hext : imap ((fun j (t : option Tray) =>
                            match t with
                            | Some tr => if hasData tr
                                         then Some (trayData i (j0 + j) tr) else None
                            | None => None
                            end) ∘ S) ts
                   = imap (fun j (t : option Tray) =>
                             match t with
                             | Some tr => if hasData tr
                                          then Some (trayData i (S j0 + j) tr) else None
                             | None => None
                             end) ts).
    { apply imap_ext. intros j x _. cbn. now rewrite Nat.add_succ_r. }
    rewrite Hext. destruct (IH (S j0)) as [Hall Hnd].
    assert (Hall' : Forall (fun t0 => td_unitId t0 = i
                     /\ (j0 <= td_slot t0 < j0 + length (t :: ts))%nat
                     /\ td_id t0 = (i * 4 + td_slot t0)%nat
                     /\ carriesData (td_type t0) (td_color t0))
               (omap (fun x => x)
                  (imap (fun j (t : option Tray) =>
                           match t with
                           | Some tr => if hasData tr
                                        then Some (trayData i (S j0 + j) tr) else None
                           | None => None
                           end) ts))).
    { eapply Forall_impl; [exact Hall |]. cbn. intros x (? & ? & ? & ?).
      repeat split; auto; lia. }
    cbn [omap list_omap].
    destruct t as [tr |]; [destruct (hasData tr) eqn:Hd |]; cbn [omap list_omap].
    + rewrite Nat.add_0_r. split.
      * constructor; [| exact Hall'].
        cbn [td_unitId td_slot td_id trayData length].
        repeat split; try lia. now apply trayData_carries.
      * rewrite fmap_cons. constructor; [| exact Hnd].
        cbn [td_slot trayData]. intros Hin.
        apply list_elem_of_fmap in Hin as (x & Hx & Hin).
        rewrite Forall_forall in Hall. destruct (Hall x Hin) as (_ & Hr & _). lia.
    + split; assumption.
    + split; assumption.
Qed.

Lemma unitTrays_facts i u :
  Forall (fun t => td_unitId t = i
                   /\ (td_slot t < match unit_tray u with
                                   | Some ts => length ts
                                   | None => 0
                                   end)%nat
                   /\ td_id t = (i * 4 + td_slot t)%nat
                   /\ carriesData (td_type t) (td_color t)) (unitTrays i u)
  /\ NoDup (td_slot <$> unitTrays i u).
Proof.
  unfold unitTrays. destruct (unit_tray u) as [ts |]; [| split; constructor].
  destruct (unit_trays_from i ts 0) as [Hall Hnd]. cbn [Nat.add] in Hall, Hnd.
  split; [| exact Hnd].
  eapply Forall_impl; [exact Hall |]. cbn. intros x (? & ? & ? & ?).
  repeat split; auto; lia.
Qed.

(** All trays of the units, with the units counted from [i0]. *)
Lemma all_trays_from us :
  forall i0,
    let l := concat (imap (fun i u => unitTrays (i0 + i) u) us) in
    Forall (fun t => (i0 <= td_unitId t < i0 + length us)%nat
                     /\ td_id t = (td_unitId t * 4 + td_slot t)%nat
                     /\ carriesData (td_type t) (td_color t)) l
    /\ ((forall u ts, u ∈ us -> unit_tray u = Some ts -> (length ts <= 4)%nat) ->
        Forall (fun t => (td_slot t < 4)%nat) l /\ NoDup (td_id <$> l)).
Proof.
  induction us as [| u us IH]; intros i0 l.
  - split; [constructor |]. intros _. split; constructor.
  - subst l. rewrite imap_cons.
    assert (Hext : imap ((fun i u => unitTrays (i0 + i) u) ∘ S) us
                   = imap (fun i u => unitTrays (S i0 + i) u) us).
    { apply imap_ext. intros j x _. cbn. now rewrite Nat.add_succ_r. }
    rewrite Hext. cbn [concat]. rewrite Nat.add_0_r.
    destruct (IH (S i0)) as [Hall Hrest].
    destruct (unitTrays_facts i0 u) as [Hu Hund]. split.
    + apply Forall_app. split.
      * eapply Forall_impl; [exact Hu |]. cbn. intros x (Hi & _ & Hid & Hc).
        rewrite Hi. repeat split; auto; lia.
      * eapply Forall_impl; [exact Hall |]. cbn. intros x (? & ? & ?).
        repeat split; auto; lia.
    + intros Hfour.
      assert (Hslots : Forall (fun t => (td_slot t < 4)%nat) (unitTrays i0 u)).
      { eapply Forall_impl; [exact Hu |]. cbn. intros x (_ & Hs & _).
        destruct (unit_tray u) as [ts |] eqn:Ets; [| lia].
        specialize (Hfour u ts (list_elem_of_here _ _) Ets). lia. }
      destruct Hrest as [Hrs Hrnd].
      { intros u' ts' Hin. apply Hfour. now apply list_elem_of_further. }
      split; [apply Forall_app; split; assumption |].
      rewrite fmap_app. apply NoDup_app. split; [| split; [| exact Hrnd]].
      * (* within one unit the identifiers differ as the slots do *)
        clear - Hu Hund. revert Hu Hund.
        induction (unitTrays i0 u) as [| x l IHl]; intros Hu Hund; [constructor |].
        rewrite fmap_cons in *. apply NoDup_cons in Hund as [Hx Hund].
        apply Forall_cons in Hu as [(Hxi & _ & Hxid & _) Hu].
        constructor; [| now apply IHl].
        intros Hin. apply Hx.
        apply list_elem_of_fmap in Hin as (y & Hy & Hin).
        apply list_elem_of_fmap. exists y. split; [| exact Hin].
        rewrite Forall_forall in Hu. destruct (Hu y Hin) as (Hyi & _ & Hyid & _).
        lia.
      * intros id Hin1 Hin2.
        apply list_elem_of_fmap in Hin1 as (x & -> & Hx).
        apply list_elem_of_fmap in Hin2 as (y & Hxy & Hy).
        rewrite Forall_forall in Hu, Hslots, Hall, Hrs.
        destruct (Hu x Hx) as (Hxi & _ & Hxid & _). specialize (Hslots x Hx).
        destruct (Hall y Hy) as (Hyi & Hyid & _). lia.
Qed.

End FeederFacts.

Section FeederTheorems.
Context `{!JsBuiltins}.

Lemma unit_ids_from us :
  forall i0, ud_id <$> imap (fun i u => unitData (i0 + i) u) us = seq i0 (length us).
Proof.
  induction us as [| u us IH]; intros i0; [reflexivity |].
  rewrite imap_cons, fmap_cons. cbn [length seq ud_id unitData].
  rewrite Nat.add_0_r. f_equal.
  rewrite <- (IH (S i0)). f_equal. apply imap_ext. intros j x _. cbn.
  now rewrite Nat.add_succ_r.
Qed.

(** X3.  When a report lists the feeder units, the parsed state has one
    unit record per listed unit, numbered in order from 0; every tray
    record belongs to a listed unit, carries a material type or a colour
    other than the all-zero one, and has the identifier [unitId * 4 +
    slot]; and when no unit has more than four slots the identifiers of
    the tray records are pairwise different. *)
Theorem feeder_trays (prev : Snapshot) (p : PrintReport) (a : AmsReport)
    (us : list AmsUnit) (st : AmsState) :
  p_ams p = Some a ->
  ams_units a = Some us ->
  parseAms prev p = Some st ->
  ud_id <$> units st = seq 0 (length us)
  /\ Forall (fun t => (td_unitId t < length us)%nat
                      /\ td_id t = (td_unitId t * 4 + td_slot t)%nat
                      /\ carriesData (td_type t) (td_color t)) (trays st)
  /\ (Forall fourSlots us -> NoDup (td_id <$> trays st)).
Proof.
  intros Ha Hus Hp. unfold parseAms in Hp. rewrite Ha, Hus in Hp.
  injection Hp as <-. cbn [units trays].
  split; [exact (unit_ids_from us 0) |].
  destruct (all_trays_from us 0) as [Hall Hnd]. cbn [Nat.add] in Hall, Hnd.
  split.
  - eapply Forall_impl; [exact Hall |]. cbn. intros x ([_ ?] & ? & ?). auto.
  - intros Hfour. apply Hnd. intros u ts Hin Hts.
    rewrite Forall_forall in Hfour. specialize (Hfour u Hin).
    unfold fourSlots in Hfour. now rewrite Hts in Hfour.
Qed.

Lemma spoolData_carries b t :
  spoolHasData t = true ->
  carriesData (sp_type (spoolData b t)) (sp_color (spoolData b t)).
Proof.
  unfold spoolHasData, carriesData, spoolData. cbn [sp_type sp_color].
  intros [Ht | [Hc Hs]%andb_true_iff]%orb_true_iff; [now left |].
  right. split; [exact Hc |]. now apply negb_true_iff.
Qed.

(** X4.  Every external spool record carries a material type or a colour
    other than the all-zero one.  A non-empty list of virtual slots
    decides the result alone: the records carry the slot identifier, and
    the single external tray of the report is not looked at, even when
    all the virtual slots are empty.  Without virtual slots there is at
    most one record, and it carries no identifier. *)
Theorem external_spools (p : PrintReport) :
  Forall (fun s => carriesData (sp_type s) (sp_color s)) (parseExternalSpools p)
  /\ (forall slot slots,
        vir_slot p = Some (slot :: slots) ->
        Forall (fun s => is_Some (sp_id s)) (parseExternalSpools p)
        /\ (length (parseExternalSpools p) <= length (slot :: slots))%nat
        /\ forall p', vir_slot p' = vir_slot p ->
                      parseExternalSpools p' = parseExternalSpools p)
  /\ (vir_slot p = None \/ vir_slot p = Some [] ->
      (length (parseExternalSpools p) <= 1)%nat
      /\ Forall (fun s => sp_id s = None) (parseExternalSpools p)).
Proof.
  assert (Hmap : forall l,
             Forall (fun s => carriesData (sp_type s) (sp_color s)
                              /\ is_Some (sp_id s))
               (map (spoolData true) (filter (fun t => spoolHasData t = true) l))
             /\ (length (map (spoolData true)
                           (filter (fun t => spoolHasData t = true) l))
                 <= length l)%nat).
  { intros l. split.
    - apply Forall_forall. intros s Hs.
      apply list_elem_of_fmap in Hs as (t & -> & Ht).
      apply list_elem_of_filter in Ht as [Ht _].
      split; [now apply spoolData_carries | cbn; eauto].
    - rewrite length_map. apply length_filter. }
  assert (Hone : Forall (fun s => carriesData (sp_type s) (sp_color s)
                                  /\ sp_id s = None)
                   (match vt_tray p with
                    | Some t => if spoolHasData t then [spoolData false t] else []
                    | None => []
                    end)
                 /\ (length (match vt_tray p with
                             | Some t => if spoolHasData t then [spoolData false t] else []
                             | None => []
                             end) <= 1)%nat).
  { destruct (vt_tray p) as [t |]; [| split; [constructor | cbn; lia]].
    destruct (spoolHasData t) eqn:Ht; [| split; [constructor | cbn; lia]].
    split; [| cbn; lia].
    constructor; [split; [now apply spoolData_carries | reflexivity] | constructor]. }
  unfold parseExternalSpools. split; [| split].
  - destruct (vir_slot p) as [[| slot slots] |].
    + eapply Forall_impl; [exact (proj1 Hone) |]. now intros ? [? _].
    + eapply Forall_impl; [exact (proj1 (Hmap _)) |]. now intros ? [? _].
    + eapply Forall_impl; [exact (proj1 Hone) |]. now intros ? [? _].
  - intros slot slots Hv. rewrite Hv. split; [| split].
    + eapply Forall_impl; [exact (proj1 (Hmap _)) |]. now intros ? [_ ?].
    + exact (proj2 (Hmap _)).
    + now intros p' ->.
  - intros [-> | ->]; (split; [exact (proj2 Hone) |]);
      (eapply Forall_impl; [exact (proj1 Hone) |]; now intros ? [_ ?]).
Qed.

Lemma externalSpool_ctcUpdate p s :
  externalSpool (ctcUpdate p s) = externalSpool s
  /\ externalSpools (ctcUpdate p s) = externalSpools s
  /\ ams (ctcUpdate p s) = ams s.
Proof. unfold ctcUpdate. destruct (nullish _); repeat split. Qed.

(** X5.  Filament data, once known, is never dropped: whatever a message
    reports, a printer entry that has a feeder state, an external spool or
    a list of external spools still has one after the merge.  A report
    without feeder data, or whose external slots are all empty, leaves
    the stored value exactly as it was, so none of the three fields
    becomes undefined again; a report whose feeder data are parsed, or
    which has an external slot with data, replaces the stored value by
    what it lists. *)
Theorem filament_data_sticks (s : Snapshot) (m : Message) :
  (is_Some (ams s) -> is_Some (ams (merge s m)))
  /\ (is_Some (externalSpool s) -> is_Some (externalSpool (merge s m)))
  /\ (is_Some (externalSpools s) -> is_Some (externalSpools (merge s m)))
  /\ (forall p, print m = Some p -> p_ams p = None -> ams (merge s m) = ams s)
  /\ (forall p, print m = Some p -> parseExternalSpools p = [] ->
        externalSpool (merge s m) = externalSpool s
        /\ externalSpools (merge s m) = externalSpools s)
  /\ (forall p a, print m = Some p -> parseAms (ctcUpdate p s) p = Some a ->
        ams (merge s m) = Some a)
  /\ (forall p sp sps, print m = Some p -> parseExternalSpools p = sp :: sps ->
        externalSpool (merge s m) = Some sp
        /\ externalSpools (merge s m) = Some (sp :: sps)).
Proof.
  unfold merge. destruct (print m) as [p |];
    [| split; [| split; [| split; [| split; [| split; [| split]]]]]; auto;
       intros; discriminate].
  destruct (externalSpool_ctcUpdate p s) as (He & Hes & Ha).
  set (c := ctcUpdate p s) in *.
  assert (Hk : forall b1 b2 : bool,
             let s1 := if b1 then staleFix p c else c in
             let s2 := if b2 then transitionReset s1 else s1 in
             ams s2 = ams s /\ externalSpool s2 = externalSpool s
             /\ externalSpools s2 = externalSpools s).
  { intros [] []; cbn; auto. }
  match goal with
  | |- context [if ?b then staleFix p c else c] => set (b1 := b)
  end.
  match goal with
  | |- context [if ?b then transitionReset _ else _] => set (b2 := b)
  end.
  destruct (Hk b1 b2) as (Hka & Hke & Hkes).
  unfold status. cbn [ams externalSpool externalSpools].
  rewrite Hka, Hke, Hkes.
  split; [| split; [| split; [| split; [| split; [| split]]]]].
  - destruct (parseAms c p); eauto.
  - destruct (parseExternalSpools p); eauto.
  - destruct (parseExternalSpools p); eauto.
  - intros p' [= <-] Hn. unfold parseAms. now rewrite Hn.
  - intros p' [= <-] ->. split; reflexivity.
  - intros p' a [= <-] Hparsed. change (parseAms c p = Some a) in Hparsed.
    now rewrite Hparsed.
  - intros p' sp sps [= <-] ->. split; reflexivity.
Qed.

End FeederTheorems.

Lemma feeder_trays_witness :
  p_ams amsReport = Some sampleAms
  /\ ams_units sampleAms = Some sampleUnits
  /\ Forall fourSlots sampleUnits
  /\ exists st, @parseAms decimal_builtins emptySnapshot amsReport = Some st
       /\ ud_id <$> units st = [0; 1]%nat
       /\ NoDup (td_id <$> trays st).
Proof.
  do 2 (split; [reflexivity |]).
  assert (Hfour : Forall fourSlots sampleUnits).
  { repeat constructor; unfold fourSlots; cbn; lia. }
  split; [exact Hfour |].
  eexists. split; [reflexivity |].
  destruct (@feeder_trays decimal_builtins emptySnapshot amsReport sampleAms
              sampleUnits _ eq_refl eq_refl eq_refl) as (Hids & _ & Hnd).
  split; [exact Hids | exact (Hnd Hfour)].
Defined.

Lemma filament_data_sticks_witness :
  let s := @merge decimal_builtins emptySnapshot (printMessage amsReport) in
  is_Some (externalSpool s)
  /\ @parseExternalSpools decimal_builtins unloadedReport = []
  /\ externalSpool (@merge decimal_builtins s (printMessage unloadedReport))
     = externalSpool s.
Proof.
  intros s. split; [cbn; eauto |]. split; [reflexivity |].
  exact (proj1 (proj1 (proj2 (proj2 (proj2 (proj2
           (@filament_data_sticks decimal_builtins s (printMessage unloadedReport))))))
           unloadedReport eq_refl eq_refl)).
Defined.

(** ** Commands on a registered session *)

Lemma sendLogs_traffic ms st :
  sameButTraffic st (sendLogs ms st)
  /\ outbox (sendLogs ms st) = outbox st
  /\ log (sendLogs ms st) = log st ++ ms.
Proof.
  unfold sendLogs. revert st. induction ms as [| m ms IH]; intros st; cbn [fold_left].
  - split; [apply sameButTraffic_refl |]. split; [reflexivity |].
    now rewrite app_nil_r.
  - destruct (IH (sendLog m st)) as (Hs & Ho & Hl). split; [| split].
    + eapply sameButTraffic_trans; [| exact Hs]. repeat split.
    + rewrite Ho. reflexivity.
    + rewrite Hl. cbn [log sendLog]. now rewrite <- app_assoc.
Qed.

(** A command publishes at most three messages, and every G-code line
    among them ends with a line feed. *)
Lemma translate_shape serial modelUpper command :
  (length (published (translate serial modelUpper command)) <= 3)%nat
  /\ Forall lineTerminated (published (translate serial modelUpper command)).
Proof.
  unfold translate. cbv zeta.
  repeat match goal with
         | |- context [if ?b then _ else _] => destruct b
         end;
    cbn [published omap list_omap length]; (split; [lia |]); repeat constructor.
Qed.

(** What a command leaves for later: the filament setting its debug timer
    and the callback of its message, any other command at most the
    callback of its last message. *)
Lemma translate_left serial modelUpper command c topic :
  let effs := translate serial modelUpper command in
  if is_str "amsFilamentSetting" (cmd_type command)
  then setsDebug effs = true
       /\ published effs
          = [PAmsFilamentSetting (cmd_amsId command) (cmd_trayId command)
               (filamentCode command) (cmd_trayColor command)
               (cmd_nozzleTempMin command) (cmd_nozzleTempMax command)
               (cmd_trayType command)]
       /\ leftBy c topic effs
          = [{| d_kind := DebugEnd; d_client := c; d_topic := topic;
                d_status := Pending |};
             {| d_kind := AmsAck; d_client := c; d_topic := topic;
                d_status := Pending |}]
  else setsDebug effs = false
       /\ (leftBy c topic effs = []
           \/ leftBy c topic effs
              = [{| d_kind := PublishAck (cmd_type command); d_client := c;
                    d_topic := topic; d_status := Pending |}]).
Proof.
  intros effs. subst effs.
  destruct (is_str "amsFilamentSetting" (cmd_type command)) eqn:Hams.
  - destruct (cmd_type command) as [| | | | ty] eqn:Hty; try discriminate.
    cbn [is_str] in Hams. apply String.eqb_eq in Hams. subst ty.
    unfold translate. rewrite Hty. cbn. auto.
  - unfold translate. cbv zeta. rewrite Hams.
    repeat match goal with
           | |- context [if ?b then _ else _] => destruct b
           end;
      cbn [setsDebug existsb leftBy omap list_omap orb]; (split; [reflexivity |]); auto.
Qed.

Lemma executeCommand_traffic (st : State) (serial : string) (command : Command)
    (c : nat) :
  mqttClients st !! serial = Some c ->
  let st' := executeCommand serial command st in
  sameButTraffic st st'
  /\ exists pls logs,
       (length pls <= 3)%nat
       /\ Forall lineTerminated pls
       /\ outbox st' = outbox st ++ ((fun pl => (c, requestTopic serial, pl)) <$> pls)
       /\ log st' = log st ++ LogExecuteCommand serial command :: logs.
Proof.
  intros Hreg st'. subst st'. unfold executeCommand. cbv zeta.
  cbn [mqttClients sendLog]. rewrite Hreg.
  set (st0 := sendLog (LogExecuteCommand serial command) st).
  set (effs := translate serial (modelUpperOf serial st0) command).
  destruct (translate_shape serial (modelUpperOf serial st0) command) as [Hlen Hterm].
  destruct (performs_traffic c (requestTopic serial) effs st0)
    as (Hs & Ho & Hl & _).
  split.
  - eapply sameButTraffic_trans; [| exact Hs]. repeat split.
  - exists (published effs), (logged effs).
    split; [exact Hlen |]. split; [exact Hterm |]. split; [exact Ho |].
    rewrite Hl. subst st0. cbn [log sendLog]. now rewrite <- app_assoc.
Qed.

(** X6.  A command for a serial with a registered session publishes at
    most three messages, all of them through that session and on the
    request topic of that serial, every G-code line among them ending
    with a line feed.  The maps, the client objects and the reconnect
    timers stay as they are; besides what is published and logged, the
    command leaves the callback of its last message, which only logs.
    The filament setting of a feeder slot does more: it publishes its one
    message, sets the debug flag of the client and leaves a timer that
    clears the flag again, and a callback which, when the message went
    out without an error, leaves a timer that publishes a request for a
    full report through the same client on the same topic; after an
    error nothing more is published. *)
Theorem executeCommand_session (st : State) (serial : string) (command : Command)
    (c : nat) (ok : bool) :
  mqttClients st !! serial = Some c ->
  let st' := executeCommand serial command st in
  let effs := translate serial (modelUpperOf serial st) command in
  let topic := requestTopic serial in
  let n := length (deferred st) in
  sameButTraffic st st'
  /\ (length (published effs) <= 3)%nat
  /\ Forall lineTerminated (published effs)
  /\ outbox st' = outbox st ++ ((fun pl => (c, topic, pl)) <$> published effs)
  /\ log st' = log st ++ LogExecuteCommand serial command :: logged effs
  /\ deferred st' = deferred st ++ leftBy c topic effs
  /\ (is_str "amsFilamentSetting" (cmd_type command) = false ->
      debugAmsCmd st' = debugAmsCmd st
      /\ (leftBy c topic effs = []
          \/ leftBy c topic effs
             = [{| d_kind := PublishAck (cmd_type command); d_client := c;
                   d_topic := topic; d_status := Pending |}])
      /\ outbox (onDeferred n ok st') = outbox st'
      /\ debugAmsCmd (onDeferred n ok st') = debugAmsCmd st')
  /\ (is_str "amsFilamentSetting" (cmd_type command) = true ->
      debugAmsCmd st' = {[c]} ∪ debugAmsCmd st
      /\ published effs
         = [PAmsFilamentSetting (cmd_amsId command) (cmd_trayId command)
              (filamentCode command) (cmd_trayColor command)
              (cmd_nozzleTempMin command) (cmd_nozzleTempMax command)
              (cmd_trayType command)]
      /\ d_kind <$> leftBy c topic effs = [DebugEnd; AmsAck]
      /\ debugAmsCmd (onDeferred n ok st') = debugAmsCmd st ∖ {[c]}
      /\ outbox (onDeferred n ok st') = outbox st'
      /\ outbox (onDeferred (n + 1) false st') = outbox st'
      /\ deferred (onDeferred (n + 1) false st')
         = <[(n + 1)%nat := {| d_kind := AmsAck; d_client := c; d_topic := topic;
                               d_status := Fired |}]> (deferred st')
      /\ outbox (onDeferred (n + 2) ok (onDeferred (n + 1) true st'))
         = outbox st' ++ [(c, topic, PPushAllPlain)]).
Proof.
  intros Hreg st' effs topic n.
  assert (Hst' : st' = fold_left (fun st e => perform c topic e st) effs
                         (sendLog (LogExecuteCommand serial command) st)).
  { subst st'. unfold executeCommand. cbv zeta. cbn [mqttClients sendLog].
    rewrite Hreg. reflexivity. }
  destruct (translate_shape serial (modelUpperOf serial st) command) as [Hlen Hterm].
  destruct (performs_traffic c topic effs (sendLog (LogExecuteCommand serial command) st))
    as (Hs & Ho & Hl & Hd & Hg).
  rewrite <- Hst' in Hs, Ho, Hl, Hd, Hg.
  cbn [outbox log deferred debugAmsCmd sendLog] in Ho, Hl, Hd, Hg.
  pose proof (translate_left serial (modelUpperOf serial st) command c topic) as Hleft.
  cbv zeta in Hleft. fold effs in Hleft.
  split; [eapply sameButTraffic_trans; [| exact Hs]; repeat split |].
  split; [exact Hlen |]. split; [exact Hterm |]. split; [exact Ho |].
  split; [rewrite Hl; now rewrite <- app_assoc |].
  split; [exact Hd |].
  split.
  - intros Hams. rewrite Hams in Hleft. destruct Hleft as (Hdbg & Hshape).
    rewrite Hdbg in Hg. split; [exact Hg |]. split; [exact Hshape |].
    unfold onDeferred. rewrite Hd.
    destruct Hshape as [-> | ->].
    + rewrite app_nil_r, lookup_ge_None_2 by (subst n; lia). auto.
    + rewrite lookup_app_r by (subst n; lia).
      replace (n - length (deferred st))%nat with 0%nat by (subst n; lia).
      cbn. auto.
  - intros Hams. rewrite Hams in Hleft. destruct Hleft as (Hdbg & Hpub & Hshape).
    rewrite Hdbg in Hg. split; [exact Hg |]. split; [exact Hpub |].
    split; [now rewrite Hshape |].
    assert (H0 : deferred st' !! n
                 = Some {| d_kind := DebugEnd; d_client := c; d_topic := topic;
                           d_status := Pending |}).
    { rewrite Hd, Hshape, lookup_app_r by (subst n; lia).
      now replace (n - length (deferred st))%nat with 0%nat by (subst n; lia). }
    assert (H1 : deferred st' !! (n + 1)%nat
                 = Some {| d_kind := AmsAck; d_client := c; d_topic := topic;
                           d_status := Pending |}).
    { rewrite Hd, Hshape, lookup_app_r by (subst n; lia).
      now replace (n + 1 - length (deferred st))%nat with 1%nat by (subst n; lia). }
    assert (Hlen' : length (deferred st') = (n + 2)%nat).
    { rewrite Hd, Hshape, length_app. reflexivity. }
    split.
    { unfold onDeferred. rewrite H0. cbn. rewrite Hg.
      apply leibniz_equiv. intros x. rewrite !elem_of_difference, !elem_of_union.
      rewrite elem_of_singleton. tauto. }
    split; [unfold onDeferred; rewrite H0; reflexivity |].
    split; [unfold onDeferred; rewrite H1; reflexivity |].
    split; [unfold onDeferred; rewrite H1; reflexivity |].
    set (st1 := onDeferred (n + 1) true st').
    assert (H2 : deferred st1 !! (n + 2)%nat
                 = Some {| d_kind := PushAllLater; d_client := c; d_topic := topic;
                           d_status := Pending |}).
    { subst st1. unfold onDeferred. rewrite H1. cbn.
      rewrite lookup_app_r; rewrite length_insert, Hlen'; [| lia].
      now rewrite Nat.sub_diag. }
    unfold onDeferred at 1. rewrite H2. cbn.
    subst st1. unfold onDeferred. rewrite H1. reflexivity.
Qed.

Lemma executeCommand_session_witness :
  let st := @run decimal_builtins [PrinterAdd demoPrinter; ClientConnect 0%nat] init in
  let c := {| cmd_type := JStr "amsFilamentSetting"; cmd_on := JUndef;
              cmd_temp := JUndef; cmd_speed := JUndef; cmd_level := JUndef;
              cmd_slot := JUndef; cmd_trayId := JInt 1; cmd_gcode := JUndef;
              cmd_calibrationType := JUndef; cmd_distance := JUndef;
              cmd_axis := JUndef; cmd_amsId := JInt 0;
              cmd_trayType := JStr "toString"; cmd_trayColor := JStr "FF0000FF";
              cmd_trayInfoIdx := JUndef; cmd_nozzleTempMin := JInt 190;
              cmd_nozzleTempMax := JInt 230 |} in
  let st' := executeCommand (serialNumber demoPrinter) c st in
  mqttClients st !! serialNumber demoPrinter = Some 0%nat
  /\ debugAmsCmd st' = {[0%nat]} ∪ debugAmsCmd st
  /\ published (translate (serialNumber demoPrinter)
                  (modelUpperOf (serialNumber demoPrinter) st) c)
     = [PAmsFilamentSetting (JInt 0) (JInt 1) (Method "toString") (JStr "FF0000FF")
          (JInt 190) (JInt 230) (JStr "toString")]
  /\ outbox (onDeferred 2 true (onDeferred 1 true st'))
     = outbox st' ++ [(0%nat, requestTopic (serialNumber demoPrinter), PPushAllPlain)].
Proof.
  intros st c st'.
  assert (Hreg : mqttClients st !! serialNumber demoPrinter = Some 0%nat)
    by (vm_compute; reflexivity).
  split; [exact Hreg |].
  destruct (executeCommand_session st (serialNumber demoPrinter) c 0%nat true Hreg)
    as (_ & _ & _ & _ & _ & _ & _ & Hams).
  destruct (Hams eq_refl) as (H1 & H2 & _ & _ & _ & _ & _ & H3).
  split; [exact H1 |]. split; [exact H2 |]. exact H3.
Defined.

(** ** Errors of a session *)

(** The [connect] handler deletes the time stamp of the serial. *)
Lemma onConnect_throttle `{!JsBuiltins} c cl st :
  clients st !! c = Some cl -> c_phase cl = Connecting ->
  mqttErrorThrottle (onConnect c st)
  = delete (serialNumber (c_printer cl)) (mqttErrorThrottle st).
Proof. intros Hc Hph. unfold onConnect. now rewrite Hc, Hph. Qed.

(** X7.  An error of a client is logged only when more than 60000 ms have
    passed since the time stamp of its serial: when an error is logged at
    time [now], the state changes in the log and the time stamp of the
    serial only, and as long as that stamp is in place an error of any
    client of the serial at most 60000 ms later changes nothing at all.
    The stamp does not outlive a connection: the [connect] handler of a
    client of the serial deletes it, and the next error of the serial is
    logged again, however soon it follows. *)
Theorem error_throttle `{!JsBuiltins} (st : State) (c : nat) (cl : Client)
    (now now' : Z) :
  clients st !! c = Some cl ->
  60000 < now - default 0 (mqttErrorThrottle st !! serialNumber (c_printer cl)) ->
  now' - now <= 60000 ->
  let st1 := handle (ClientError c now) st in
  st1 = setErrorThrottle
          (<[serialNumber (c_printer cl) := now]> (mqttErrorThrottle st))
          (sendLog (LogError (name (c_printer cl))) st)
  /\ (forall c' cl',
       clients st !! c' = Some cl' ->
       serialNumber (c_printer cl') = serialNumber (c_printer cl) ->
       handle (ClientError c' now') st1 = st1)
  /\ (forall c2 cl2,
       clients st !! c2 = Some cl2 -> c_phase cl2 = Connecting ->
       serialNumber (c_printer cl2) = serialNumber (c_printer cl) ->
       let st2 := handle (ClientConnect c2) st1 in
       mqttErrorThrottle st2 !! serialNumber (c_printer cl) = None
       /\ forall c3 cl3,
            clients st2 !! c3 = Some cl3 ->
            serialNumber (c_printer cl3) = serialNumber (c_printer cl) ->
            60000 < now' ->
            log (handle (ClientError c3 now') st2)
            = log st2 ++ [LogError (name (c_printer cl3))]).
Proof.
  intros Hc Hlate Hsoon st1.
  assert (Hst1 : st1 = setErrorThrottle
                         (<[serialNumber (c_printer cl) := now]> (mqttErrorThrottle st))
                         (sendLog (LogError (name (c_printer cl))) st)).
  { subst st1. cbn [handle]. unfold onError. rewrite Hc. cbv zeta.
    apply Z.ltb_lt in Hlate. now rewrite Hlate. }
  split; [exact Hst1 |]. split.
  - intros c' cl' Hc' Hs. rewrite Hst1.
    cbn [handle]. unfold onError at 1.
    cbn [clients mqttErrorThrottle setErrorThrottle sendLog]. rewrite Hc'. cbv zeta.
    rewrite Hs, lookup_insert_eq. cbn [default from_option id].
    assert (Hno : (60000 <? now' - now) = false) by (apply Z.ltb_ge; lia).
    now rewrite Hno.
  - intros c2 cl2 Hc2 Hph Hs st2.
    assert (Hc2' : clients st1 !! c2 = Some cl2) by (rewrite Hst1; exact Hc2).
    assert (Hnone : mqttErrorThrottle st2 !! serialNumber (c_printer cl) = None).
    { subst st2. cbn [handle]. rewrite (onConnect_throttle c2 cl2 st1 Hc2' Hph), Hs.
      apply lookup_delete_eq. }
    split; [exact Hnone |].
    intros c3 cl3 Hc3 Hs3 Hnow. cbn [handle]. unfold onError.
    rewrite Hc3. cbv zeta. rewrite Hs3, Hnone. cbn [default from_option id].
    rewrite Z.sub_0_r. apply Z.ltb_lt in Hnow. rewrite Hnow. reflexivity.
Qed.

Lemma error_throttle_witness :
  let st := @run decimal_builtins [PrinterAdd demoPrinter] init in
  let st1 := @handle decimal_builtins (ClientError 0%nat 1700000000000) st in
  let st2 := @handle decimal_builtins (ClientConnect 0%nat) st1 in
  log st1 = log st ++ [LogError (name demoPrinter)]
  /\ @handle decimal_builtins (ClientError 0%nat 1700000060000) st1 = st1
  /\ log (@handle decimal_builtins (ClientError 0%nat 1700000005000) st2)
     = log st2 ++ [LogError (name demoPrinter)].
Proof.
  intros st st1 st2.
  assert (Hc : clients st !! 0%nat
               = Some {| c_printer := demoPrinter; c_phase := Connecting |})
    by (vm_compute; reflexivity).
  assert (Hlate : 60000 < 1700000000000
                  - default 0 (mqttErrorThrottle st !! serialNumber demoPrinter))
    by (vm_compute; reflexivity).
  assert (Hsoon : 1700000060000 - 1700000000000 <= 60000) by lia.
  destruct (@error_throttle decimal_builtins st 0%nat _ 1700000000000 1700000060000
              Hc Hlate Hsoon) as (Hst1 & Hnext & _).
  assert (Hsoon' : 1700000005000 - 1700000000000 <= 60000) by lia.
  destruct (@error_throttle decimal_builtins st 0%nat _ 1700000000000 1700000005000
              Hc Hlate Hsoon') as (_ & _ & Hagain).
  split; [| split].
  - change st1 with (@handle decimal_builtins (ClientError 0%nat 1700000000000) st).
    rewrite Hst1. reflexivity.
  - exact (Hnext 0%nat _ Hc eq_refl).
  - destruct (Hagain 0%nat _ Hc eq_refl eq_refl) as [_ Hlog].
    apply (Hlog 0%nat {| c_printer := demoPrinter; c_phase := Connected |});
      [vm_compute; reflexivity | reflexivity | lia].
Defined.

(** ** Invariants of the reachable states *)

Lemma clearTimeout_fields t st :
  mqttClients (clearTimeout t st) = mqttClients st
  /\ printers (clearTimeout t st) = printers st
  /\ printerDataCache (clearTimeout t st) = printerDataCache st
  /\ printerReconnectTimers (clearTimeout t st) = printerReconnectTimers st
  /\ reconnectAttempts (clearTimeout t st) = reconnectAttempts st
  /\ mqttErrorThrottle (clearTimeout t st) = mqttErrorThrottle st
  /\ clients (clearTimeout t st) = clients st
  /\ outbox (clearTimeout t st) = outbox st
  /\ log (clearTimeout t st) = log st.
Proof.
  unfold clearTimeout. destruct (timers st !! t) as [tm |];
    [destruct (t_status tm) |]; repeat split.
Qed.

Ltac conjs := repeat match goal with |- _ /\ _ => split end.

(** The timers after [clearTimeout t]: timer [t] is cleared when it was
    pending, the others are as they were. *)
Lemma clearTimeout_timers t st t' tm :
  timers (clearTimeout t st) !! t' = Some tm ->
  exists tm0, timers st !! t' = Some tm0
              /\ t_serial tm = t_serial tm0 /\ t_cached tm = t_cached tm0
              /\ t_delay tm = t_delay tm0
              /\ (t' <> t -> tm = tm0)
              /\ (t_status tm = Pending -> t' <> t /\ tm = tm0).
Proof.
  unfold clearTimeout. destruct (timers st !! t) as [tm1 |] eqn:Ht.
  2:{ intros Hl. exists tm. conjs; auto. intros _. split; congruence. }
  destruct (t_status tm1) eqn:Hs.
  - cbn [timers setTimerStatus]. destruct (decide (t' = t)) as [-> | Hne].
    + rewrite list_lookup_alter_eq, Ht. cbn. intros [= <-]. exists tm1. cbn.
      conjs; auto; try congruence; discriminate.
    + rewrite list_lookup_alter_ne by congruence. intros Hl. exists tm.
      conjs; auto.
  - intros Hl. exists tm. conjs; auto. intros Hp. split; congruence.
  - intros Hl. exists tm. conjs; auto. intros Hp. split; congruence.
Qed.

(** The state after [connectPrinter] for a serial without a registered
    session. *)
Lemma connectPrinter_fields p st :
  mqttClients st !! serialNumber p = None ->
  let st0 := match printerReconnectTimers st !! serialNumber p with
             | Some t => clearTimeout t st
             | None => st
             end in
  mqttClients (connectPrinter p st) = mqttClients st
  /\ printers (connectPrinter p st) = printers st
  /\ printerDataCache (connectPrinter p st)
     = <[serialNumber p := p]> (printerDataCache st)
  /\ printerReconnectTimers (connectPrinter p st)
     = delete (serialNumber p) (printerReconnectTimers st)
  /\ reconnectAttempts (connectPrinter p st) = reconnectAttempts st
  /\ mqttErrorThrottle (connectPrinter p st) = mqttErrorThrottle st
  /\ clients (connectPrinter p st)
     = clients st ++ [{| c_printer := p; c_phase := Connecting |}]
  /\ timers (connectPrinter p st) = timers st0
  /\ outbox (connectPrinter p st) = outbox st
  /\ log (connectPrinter p st) = log st ++ [LogConnecting (name p)].
Proof.
  intros Hreg st0. unfold connectPrinter. cbv zeta. rewrite Hreg.
  cbn [mqttClients printers printerDataCache printerReconnectTimers
       reconnectAttempts mqttErrorThrottle clients timers outbox log sendLog].
  fold st0.
  assert (Hf : mqttClients st0 = mqttClients st /\ printers st0 = printers st
               /\ printerDataCache st0 = printerDataCache st
               /\ printerReconnectTimers st0 = printerReconnectTimers st
               /\ reconnectAttempts st0 = reconnectAttempts st
               /\ mqttErrorThrottle st0 = mqttErrorThrottle st
               /\ clients st0 = clients st /\ outbox st0 = outbox st
               /\ log st0 = log st).
  { subst st0. destruct (printerReconnectTimers st !! serialNumber p);
      [apply clearTimeout_fields | repeat split]. }
  destruct Hf as (-> & -> & -> & -> & -> & -> & -> & -> & ->).
  repeat split.
Qed.

(** The state after [scheduleReconnect] for a cached serial without a
    registered session. *)
Lemma scheduleReconnect_fields serial st cached :
  printerDataCache st !! serial = Some cached ->
  mqttClients st !! serial = None ->
  let attempts := default 0%nat (reconnectAttempts st !! serial) in
  let st' := scheduleReconnect serial st in
  mqttClients st' = mqttClients st
  /\ printers st' = printers st
  /\ printerDataCache st' = printerDataCache st
  /\ printerReconnectTimers st'
     = <[serial := length (timers st)]> (printerReconnectTimers st)
  /\ reconnectAttempts st' = <[serial := (attempts + 1)%nat]> (reconnectAttempts st)
  /\ mqttErrorThrottle st' = mqttErrorThrottle st
  /\ clients st' = clients st
  /\ timers st' = timers st ++ [{| t_serial := serial; t_cached := cached;
                                   t_delay := reconnectDelay attempts;
                                   t_status := Pending |}]
  /\ outbox st' = outbox st.
Proof.
  intros Hc Hreg attempts st'. subst st'. unfold scheduleReconnect.
  rewrite Hc, Hreg. cbv zeta. fold attempts.
  cbn [mqttClients printers printerDataCache printerReconnectTimers
       reconnectAttempts mqttErrorThrottle clients timers outbox].
  destruct ((attempts =? 0)%nat || (attempts mod 5 =? 0)%nat)%bool; repeat split.
Qed.

Lemma scheduleReconnect_coarse serial st :
  mqttClients (scheduleReconnect serial st) = mqttClients st
  /\ printers (scheduleReconnect serial st) = printers st
  /\ printerDataCache (scheduleReconnect serial st) = printerDataCache st
  /\ mqttErrorThrottle (scheduleReconnect serial st) = mqttErrorThrottle st
  /\ clients (scheduleReconnect serial st) = clients st
  /\ outbox (scheduleReconnect serial st) = outbox st.
Proof.
  destruct (printerDataCache st !! serial) as [cached |] eqn:Hc.
  2:{ unfold scheduleReconnect. rewrite Hc. conjs; reflexivity. }
  destruct (mqttClients st !! serial) as [c |] eqn:Hreg.
  { rewrite (scheduleReconnect_registered serial st c Hreg). conjs; reflexivity. }
  destruct (scheduleReconnect_fields serial st cached Hc Hreg)
    as (? & ? & ? & _ & _ & ? & ? & _ & ?).
  conjs; assumption.
Qed.

Lemma connectPrinter_coarse p st :
  mqttClients (connectPrinter p st) = mqttClients st
  /\ printers (connectPrinter p st) = printers st
  /\ reconnectAttempts (connectPrinter p st) = reconnectAttempts st
  /\ mqttErrorThrottle (connectPrinter p st) = mqttErrorThrottle st
  /\ outbox (connectPrinter p st) = outbox st.
Proof.
  destruct (mqttClients st !! serialNumber p) as [c |] eqn:Hreg.
  { rewrite (connectPrinter_registered p st c Hreg). conjs; reflexivity. }
  destruct (connectPrinter_fields p st Hreg)
    as (? & ? & _ & _ & ? & ? & _ & _ & ? & _).
  conjs; assumption.
Qed.

(** An invariant kept by logging and by [connectPrinter] is kept by the
    roster handlers. *)
Lemma roster_invariant `{!JsBuiltins} (P : State -> Prop) :
  (forall m st, P st -> P (sendLog m st)) ->
  (forall p st, P st -> P (connectPrinter p st)) ->
  (forall l st, P st -> P (onPrintersList l st))
  /\ (forall p st, P st -> P (onPrinterAdd p st)).
Proof.
  intros Hlog Hconn. split.
  - intros l st HP. unfold onPrintersList.
    assert (HP' : P (sendLog (LogListReceived (length l)) st)) by now apply Hlog.
    revert HP'. generalize (sendLog (LogListReceived (length l)) st). clear st HP.
    induction l as [| p l IH]; intros st HP; cbn [fold_left]; [exact HP |].
    apply IH. destruct (connectable p); [apply Hconn |]; now apply Hlog.
  - intros p st HP. unfold onPrinterAdd. cbv zeta.
    destruct (connectable p); [apply Hconn |]; now apply Hlog.
Qed.

(** *** Every client object has its descriptor cached *)

Lemma clientsCached_same st st' :
  clients st' = clients st -> printerDataCache st' = printerDataCache st ->
  clientsCached st -> clientsCached st'.
Proof. intros Hc Hd Hinv c cl. rewrite Hc, Hd. apply Hinv. Qed.

Lemma clientsCached_setPhase c ph st :
  clientsCached st -> clientsCached (setPhase c ph st).
Proof.
  intros Hinv c' cl'. cbn [clients printerDataCache setPhase].
  destruct (decide (c' = c)) as [-> | Hne].
  - rewrite list_lookup_alter_eq. destruct (clients st !! c) as [cl |] eqn:Hc;
      [| discriminate].
    cbn. intros [= <-]. cbn. exact (Hinv c cl Hc).
  - rewrite list_lookup_alter_ne by congruence. apply Hinv.
Qed.

Lemma clientsCached_connectPrinter p st :
  clientsCached st -> clientsCached (connectPrinter p st).
Proof.
  intros Hinv. destruct (mqttClients st !! serialNumber p) as [c |] eqn:Hreg.
  { now rewrite (connectPrinter_registered p st c Hreg). }
  destruct (connectPrinter_fields p st Hreg)
    as (_ & _ & Hd & _ & _ & _ & Hc & _).
  intros c cl. rewrite Hc, Hd. intros Hl.
  apply lookup_app_Some in Hl as [Hl | [_ Hl]].
  - apply lookup_insert_is_Some'. right. exact (Hinv c cl Hl).
  - apply list_lookup_singleton_Some in Hl as [_ <-]. cbn.
    rewrite lookup_insert_eq. eauto.
Qed.

Lemma clientsCached_executeCommand serial command st :
  clientsCached st -> clientsCached (executeCommand serial command st).
Proof.
  intros Hinv. destruct (mqttClients st !! serial) as [c |] eqn:Hreg.
  - destruct (executeCommand_traffic st serial command c Hreg)
      as [(_ & _ & Hd & _ & _ & _ & Hc & _) _].
    revert Hinv. now apply clientsCached_same.
  - unfold executeCommand. cbv zeta. cbn [mqttClients sendLog]. rewrite Hreg.
    revert Hinv. now apply clientsCached_same.
Qed.

Section CachedFacts.
Context `{!JsBuiltins}.

Lemma clientsCached_handle e st : clientsCached st -> clientsCached (handle e st).
Proof.
  intros Hinv.
  destruct (roster_invariant clientsCached) as [Hlist Hadd].
  { intros m s. now apply clientsCached_same. }
  { apply clientsCached_connectPrinter. }
  destruct e; cbn [handle].
  - now apply Hlist.
  - now apply Hadd.
  - unfold onPrinterRemove. cbv zeta. cbn [mqttClients sendLog].
    destruct (mqttClients st !! serial) as [c |];
      [| revert Hinv; now apply clientsCached_same].
    assert (Hlog : clientsCached (sendLog (LogPrinterRemoved serial) st))
      by (revert Hinv; now apply clientsCached_same).
    apply (clientsCached_same (endClient c (sendLog (LogPrinterRemoved serial) st)));
      [reflexivity .. |].
    unfold endClient. destruct (clients _ !! c) as [cl |]; [| exact Hlog].
    destruct (c_phase cl); try exact Hlog; now apply clientsCached_setPhase.
  - unfold onPrinterCommand. apply clientsCached_executeCommand.
    revert Hinv. now apply clientsCached_same.
  - unfold onConnect. destruct (clients st !! c) as [cl |]; [| exact Hinv].
    destruct (c_phase cl); try exact Hinv. cbv zeta.
    apply clientsCached_setPhase. revert Hinv. now apply clientsCached_same.
  - unfold onMessage. destruct (clients st !! c) as [cl |]; [| exact Hinv].
    destruct (c_phase cl); try exact Hinv. cbv zeta.
    destruct (decide (c ∈ debugAmsCmd st)), (truthy (system data)), (print data);
      revert Hinv; now apply clientsCached_same.
  - unfold onError. destruct (clients st !! c) as [cl |]; [| exact Hinv].
    cbv zeta. destruct (_ <? _); [| exact Hinv].
    revert Hinv. now apply clientsCached_same.
  - unfold onClose. destruct (clients st !! c) as [cl |]; [| exact Hinv].
    assert (Hph : clientsCached (setPhase c Closed st))
      by now apply clientsCached_setPhase.
    destruct (c_phase cl); try exact Hinv; cbv zeta.
    all: match goal with
         | |- clientsCached (scheduleReconnect ?s ?X) =>
             destruct (scheduleReconnect_coarse s X) as (_ & _ & Hd & _ & Hc & _);
             apply (clientsCached_same X); [exact Hc | exact Hd |]
         end.
    all: match goal with
         | |- context [printers ?X !! ?k] => destruct (printers X !! k)
         end; revert Hph; now apply clientsCached_same.
  - unfold onTimer. destruct (timers st !! t) as [tm |]; [| exact Hinv].
    destruct (t_status tm); try exact Hinv. cbv zeta.
    cbn [mqttClients setReconnectTimers setTimerStatus].
    destruct (mqttClients st !! t_serial tm).
    + revert Hinv. now apply clientsCached_same.
    + apply clientsCached_connectPrinter. revert Hinv. now apply clientsCached_same.
  - destruct (onDeferred_traffic k ok st) as (_ & _ & H3 & _ & _ & _ & H7 & _).
    revert Hinv. now apply clientsCached_same.
Qed.

Lemma clientsCached_run es st : clientsCached st -> clientsCached (run es st).
Proof.
  unfold run. revert st. induction es as [| e es IH]; intros st Hinv; cbn [fold_left].
  - exact Hinv.
  - apply IH. now apply clientsCached_handle.
Qed.

End CachedFacts.

Lemma clientsCached_init : clientsCached init.
Proof. intros c cl Hl. discriminate. Qed.

Lemma reconnectDelay_bounds n : 5000 <= reconnectDelay n <= 120000.
Proof.
  unfold reconnectDelay.
  assert (1 <= 2 ^ Z.of_nat n) by (apply (Z.pow_le_mono_r 2 0); lia). lia.
Qed.

(** The state after the [close] event of a client that is not closed and
    whose descriptor is cached. *)
Lemma onClose_fields `{!JsBuiltins} (st : State) (c : nat) (cl : Client)
    (cached : Descriptor) :
  clients st !! c = Some cl ->
  c_phase cl <> Closed ->
  let serial := serialNumber (c_printer cl) in
  printerDataCache st !! serial = Some cached ->
  let attempts := default 0%nat (reconnectAttempts st !! serial) in
  let st' := onClose c st in
  mqttClients st' = delete serial (mqttClients st)
  /\ printers st' !! serial = withOnline (JBool false) <$> printers st !! serial
  /\ printerDataCache st' = printerDataCache st
  /\ timers st' = timers st ++ [{| t_serial := serial; t_cached := cached;
                                   t_delay := reconnectDelay attempts;
                                   t_status := Pending |}]
  /\ printerReconnectTimers st'
     = <[serial := length (timers st)]> (printerReconnectTimers st)
  /\ reconnectAttempts st' = <[serial := (attempts + 1)%nat]> (reconnectAttempts st)
  /\ clients st'
     = alter (fun cl => {| c_printer := c_printer cl; c_phase := Closed |}) c
         (clients st).
Proof.
  intros Hc Hph serial Hcached attempts st'.
  set (st1 := setMqttClients (delete serial (mqttClients (setPhase c Closed st)))
                (setPhase c Closed st)).
  set (st2 := match printers st1 !! serial with
              | Some pr => setPrinters (<[serial := withOnline (JBool false) pr]>
                                          (printers st1)) st1
              | None => st1
              end).
  assert (Hst' : st' = scheduleReconnect serial st2).
  { subst st' st2 st1. unfold onClose. rewrite Hc.
    destruct (c_phase cl); try congruence; reflexivity. }
  assert (Hf2 : mqttClients st2 = delete serial (mqttClients st)
                /\ printerDataCache st2 = printerDataCache st
                /\ printerReconnectTimers st2 = printerReconnectTimers st
                /\ reconnectAttempts st2 = reconnectAttempts st
                /\ timers st2 = timers st
                /\ clients st2
                   = alter (fun cl => {| c_printer := c_printer cl;
                                         c_phase := Closed |}) c (clients st)
                /\ printers st2 !! serial
                   = withOnline (JBool false) <$> printers st !! serial).
  { subst st2 st1. cbn [printers setMqttClients setPhase].
    destruct (printers st !! serial) as [pr |] eqn:Hpr; conjs; try reflexivity.
    - cbn [printers setPrinters]. now rewrite lookup_insert_eq.
    - cbn [printers setMqttClients setPhase]. now rewrite Hpr. }
  destruct Hf2 as (Hm2 & Hd2 & Hr2 & Ha2 & Ht2 & Hcl2 & Hp2).
  assert (Hreg2 : mqttClients st2 !! serial = None)
    by (rewrite Hm2; apply lookup_delete_eq).
  assert (Hc2 : printerDataCache st2 !! serial = Some cached) by now rewrite Hd2.
  destruct (scheduleReconnect_fields serial st2 cached Hc2 Hreg2)
    as (Hm & Hp & Hd & Hr & Ha & _ & Hcl & Ht & _).
  rewrite <- Hst' in Hm, Hp, Hd, Hr, Ha, Hcl, Ht.
  rewrite Ha2, Ht2 in *. fold attempts in Ha, Ht.
  conjs; congruence.
Qed.

(** X8.  In every reachable state the end of a client object that is not
    yet closed, whatever ended it, leaves its serial without a registered
    session, marks the entry of the printer (if there is one) offline, and
    schedules a reconnect: a new pending timer of that serial with the
    cached descriptor is filed for the serial, its delay is the one of the
    attempts counted so far, between 5 s and 120 s, and the attempt is
    counted. *)
Theorem close_schedules_reconnect `{!JsBuiltins} (es : list Event) (c : nat)
    (cl : Client) :
  let st := run es init in
  clients st !! c = Some cl ->
  c_phase cl <> Closed ->
  let serial := serialNumber (c_printer cl) in
  let attempts := default 0%nat (reconnectAttempts st !! serial) in
  let st' := handle (ClientClose c) st in
  mqttClients st' !! serial = None
  /\ printers st' !! serial = withOnline (JBool false) <$> printers st !! serial
  /\ (exists cached,
        printerDataCache st !! serial = Some cached
        /\ serialNumber cached = serial
        /\ timers st' = timers st ++ [{| t_serial := serial; t_cached := cached;
                                         t_delay := reconnectDelay attempts;
                                         t_status := Pending |}])
  /\ printerReconnectTimers st' !! serial = Some (length (timers st))
  /\ reconnectAttempts st' !! serial = Some (attempts + 1)%nat
  /\ 5000 <= reconnectDelay attempts <= 120000.
Proof.
  intros st Hc Hph serial attempts st'.
  destruct (clientsCached_run es init clientsCached_init c cl Hc) as [cached Hcached].
  fold serial in Hcached.
  assert (Hkey : serialNumber cached = serial).
  { destruct (keyed_run es init keyed_init) as [Hk _]. exact (Hk _ _ Hcached). }
  destruct (onClose_fields st c cl cached Hc Hph Hcached)
    as (Hm & Hp & _ & Ht & Hr & Ha & _).
  fold serial attempts in Hm, Hp, Ht, Hr, Ha.
  change (onClose c st) with st' in Hm, Hp, Ht, Hr, Ha.
  split; [rewrite Hm; apply lookup_delete_eq |]. split; [exact Hp |].
  split; [exists cached; auto |].
  split; [rewrite Hr; apply lookup_insert_eq |].
  split; [rewrite Ha; apply lookup_insert_eq |].
  apply reconnectDelay_bounds.
Qed.

Lemma close_schedules_reconnect_witness :
  let st := @run decimal_builtins [PrinterAdd demoPrinter; ClientConnect 0%nat] init in
  let st' := @handle decimal_builtins (ClientClose 0%nat) st in
  clients st !! 0%nat = Some {| c_printer := demoPrinter; c_phase := Connected |}
  /\ mqttClients st' !! serialNumber demoPrinter = None
  /\ printerReconnectTimers st' !! serialNumber demoPrinter = Some 0%nat.
Proof.
  intros st st'.
  assert (Hc : clients st !! 0%nat
               = Some {| c_printer := demoPrinter; c_phase := Connected |})
    by (vm_compute; reflexivity).
  split; [exact Hc |].
  destruct (@close_schedules_reconnect decimal_builtins
              [PrinterAdd demoPrinter; ClientConnect 0%nat] 0%nat _ Hc
              ltac:(discriminate))
    as (Hm & _ & _ & Hr & _).
  split; [exact Hm | exact Hr].
Defined.

(** *** Everything published is addressed to the printer of its client *)

Lemma addressed_same st st' :
  outbox st' = outbox st -> clients st' = clients st ->
  addressed st -> addressed st'.
Proof. intros Ho Hc Hinv c topic pl. rewrite Ho, Hc. apply Hinv. Qed.

Lemma addressed_setPhase c ph st : addressed st -> addressed (setPhase c ph st).
Proof.
  intros Hinv c' topic pl. cbn [outbox clients setPhase]. intros Hin.
  destruct (Hinv c' topic pl Hin) as (cl & Hcl & Ht).
  destruct (decide (c' = c)) as [-> | Hne].
  - rewrite list_lookup_alter_eq, Hcl. cbn. eauto.
  - rewrite list_lookup_alter_ne by congruence. eauto.
Qed.

Lemma addressed_connectPrinter p st :
  addressed st -> addressed (connectPrinter p st).
Proof.
  intros Hinv. destruct (mqttClients st !! serialNumber p) as [c |] eqn:Hreg.
  { now rewrite (connectPrinter_registered p st c Hreg). }
  destruct (connectPrinter_fields p st Hreg)
    as (_ & _ & _ & _ & _ & _ & Hc & _ & Ho & _).
  intros c topic pl. rewrite Hc, Ho. intros Hin.
  destruct (Hinv c topic pl Hin) as (cl & Hcl & Ht).
  exists cl. split; [now apply lookup_app_l_Some | exact Ht].
Qed.

Lemma addressed_publish c topic pl cl st :
  clients st !! c = Some cl ->
  topic = requestTopic (serialNumber (c_printer cl)) ->
  addressed st -> addressed (publish c topic pl st).
Proof.
  intros Hcl Ht Hinv c' topic' pl'. cbn [outbox clients publish].
  intros [Hin | Hin]%elem_of_app; [exact (Hinv _ _ _ Hin) |].
  apply list_elem_of_singleton in Hin as [= -> -> ->]. eauto.
Qed.

Lemma addressed_executeCommand serial command st :
  registeredLive st -> addressed st ->
  addressed (executeCommand serial command st).
Proof.
  intros Hlive Hinv. destruct (mqttClients st !! serial) as [c |] eqn:Hreg.
  - destruct (executeCommand_traffic st serial command c Hreg)
      as [(_ & _ & _ & _ & _ & _ & Hc & _) (pls & logs & _ & _ & Ho & _)].
    destruct (Hlive serial c Hreg) as (cl & Hcl & _ & Hs).
    intros c' topic pl. rewrite Hc, Ho.
    intros [Hin | Hin]%elem_of_app; [exact (Hinv _ _ _ Hin) |].
    apply list_elem_of_fmap in Hin as (pl' & [= -> -> ->] & _).
    exists cl. split; [exact Hcl | now rewrite Hs].
  - unfold executeCommand. cbv zeta. cbn [mqttClients sendLog]. rewrite Hreg.
    revert Hinv. now apply addressed_same.
Qed.

(** The callbacks and timers of commands stay with what was published. *)
Lemma deferredPublished_same st st' :
  deferred st' = deferred st -> outbox st' = outbox st ->
  deferredPublished st -> deferredPublished st'.
Proof. intros Hd Ho Hinv k d. rewrite Hd, Ho. apply Hinv. Qed.

Lemma deferredPublished_grow st st' more :
  deferred st' = deferred st -> outbox st' = outbox st ++ more ->
  deferredPublished st -> deferredPublished st'.
Proof.
  intros Hd Ho Hinv k d. rewrite Hd, Ho. intros Hk.
  destruct (Hinv k d Hk) as [pl Hin]. exists pl. apply elem_of_app. now left.
Qed.

Lemma deferred_clearTimeout t st : deferred (clearTimeout t st) = deferred st.
Proof.
  unfold clearTimeout. destruct (timers st !! t) as [tm |]; [| reflexivity].
  now destruct (t_status tm).
Qed.

Lemma deferred_connectPrinter p st : deferred (connectPrinter p st) = deferred st.
Proof.
  unfold connectPrinter. cbv zeta.
  destruct (mqttClients st !! serialNumber p); [reflexivity |].
  cbn [deferred sendLog].
  destruct (printerReconnectTimers st !! serialNumber p); [| reflexivity].
  apply deferred_clearTimeout.
Qed.

Lemma deferred_scheduleReconnect serial st :
  deferred (scheduleReconnect serial st) = deferred st.
Proof.
  unfold scheduleReconnect.
  destruct (printerDataCache st !! serial); [| reflexivity].
  destruct (mqttClients st !! serial); [reflexivity |].
  cbv zeta. now destruct (_ || _)%bool.
Qed.

Lemma deferredPublished_connectPrinter p st :
  deferredPublished st -> deferredPublished (connectPrinter p st).
Proof.
  apply deferredPublished_same; [apply deferred_connectPrinter |].
  apply connectPrinter_coarse.
Qed.

(** A command that leaves something for later has published something. *)
Lemma translate_left_published serial modelUpper command c topic :
  leftBy c topic (translate serial modelUpper command) = []
  \/ published (translate serial modelUpper command) <> [].
Proof.
  unfold translate. cbv zeta.
  repeat match goal with
         | |- context [if ?b then _ else _] => destruct b
         end;
    cbn [leftBy published omap list_omap]; auto; right; discriminate.
Qed.

Lemma deferredPublished_executeCommand serial command st :
  deferredPublished st -> deferredPublished (executeCommand serial command st).
Proof.
  intros Hinv. unfold executeCommand. cbv zeta. cbn [mqttClients sendLog].
  destruct (mqttClients st !! serial) as [c |];
    [| revert Hinv; now apply deferredPublished_same].
  set (st0 := sendLog (LogExecuteCommand serial command) st).
  set (effs := translate serial (modelUpperOf serial st0) command).
  destruct (performs_traffic c (requestTopic serial) effs st0)
    as (_ & Ho & _ & Hd & _).
  intros k d. rewrite Hd, Ho. cbn [deferred outbox sendLog st0].
  intros [Hk | [_ Hk]]%lookup_app_Some.
  - destruct (Hinv k d Hk) as [pl Hin]. exists pl. apply elem_of_app. now left.
  - destruct (translate_left_published serial (modelUpperOf serial st0) command
                c (requestTopic serial)) as [Hnil | Hpub].
    + fold effs in Hnil. rewrite Hnil in Hk. discriminate.
    + fold effs in Hpub. destruct (published effs) as [| pl pls] eqn:E;
        [now contradict Hpub |].
      assert (Hd' : d_client d = c /\ d_topic d = requestTopic serial).
      { apply list_elem_of_lookup_2 in Hk. unfold leftBy in Hk.
        apply list_elem_of_omap in Hk as (e & _ & He).
        destruct e as [| ? [kind |] | | kind]; try discriminate;
          injection He as <-; auto. }
      destruct Hd' as [-> ->]. exists pl. apply elem_of_app. right.
      cbn [fmap list_fmap]. apply list_elem_of_here.
Qed.

Lemma deferredPublished_onDeferred k ok st :
  deferredPublished st -> deferredPublished (onDeferred k ok st).
Proof.
  intros Hinv. unfold onDeferred.
  destruct (deferred st !! k) as [d |] eqn:Hk; [| exact Hinv].
  destruct (d_status d); try exact Hinv. cbv zeta.
  destruct (Hinv k d Hk) as [pl0 Hin0].
  assert (Hins : forall k' d', <[k := {| d_kind := d_kind d; d_client := d_client d;
                                         d_topic := d_topic d; d_status := Fired |}]>
                                 (deferred st) !! k' = Some d' ->
                               exists pl, (d_client d', d_topic d', pl) ∈ outbox st).
  { intros k' d' [(-> & <- & _) | (_ & Hk')]%list_lookup_insert_Some; eauto. }
  destruct (d_kind d); [| destruct ok | |]; intros k' d';
    cbn [deferred outbox sendLog setDeferred setDebugAmsCmd defer publish].
  - exact (Hins k' d').
  - intros [Hk' | [_ Hk']]%lookup_app_Some; [exact (Hins k' d' Hk') |].
    apply list_lookup_singleton_Some in Hk' as [_ <-]. eauto.
  - exact (Hins k' d').
  - exact (Hins k' d').
  - intros Hk'. destruct (Hins k' d' Hk') as [pl Hin]. exists pl.
    apply elem_of_app. now left.
Qed.

Section AddressedFacts.
Context `{!JsBuiltins}.

Lemma deferredPublished_handle e st :
  deferredPublished st -> deferredPublished (handle e st).
Proof.
  intros Hinv.
  destruct (roster_invariant deferredPublished) as [Hlist Hadd].
  { intros m s. now apply deferredPublished_same. }
  { apply deferredPublished_connectPrinter. }
  destruct e; cbn [handle].
  - now apply Hlist.
  - now apply Hadd.
  - unfold onPrinterRemove. cbv zeta. cbn [mqttClients sendLog].
    destruct (mqttClients st !! serial) as [c |];
      [| revert Hinv; now apply deferredPublished_same].
    unfold endClient. cbn [clients sendLog].
    destruct (clients st !! c) as [cl |]; [destruct (c_phase cl) |];
      revert Hinv; now apply deferredPublished_same.
  - unfold onPrinterCommand. apply deferredPublished_executeCommand.
    revert Hinv. now apply deferredPublished_same.
  - unfold onConnect. destruct (clients st !! c) as [cl |]; [| exact Hinv].
    destruct (c_phase cl); try exact Hinv. cbv zeta.
    revert Hinv. apply (deferredPublished_grow _ _
      [(c, requestTopic (serialNumber (c_printer cl)), PGetVersion);
       (c, requestTopic (serialNumber (c_printer cl)), PPushAll)]); [reflexivity |].
    cbn [outbox setPhase publish resetReconnectCounter setPrinters setMqttClients sendLog].
    now rewrite <- app_assoc.
  - unfold onMessage. destruct (clients st !! c) as [cl |]; [| exact Hinv].
    destruct (c_phase cl); try exact Hinv. cbv zeta.
    destruct (decide (c ∈ debugAmsCmd st)), (truthy (system data)), (print data);
      revert Hinv; now apply deferredPublished_same.
  - unfold onError. destruct (clients st !! c) as [cl |]; [| exact Hinv].
    cbv zeta. destruct (_ <? _); [| exact Hinv].
    revert Hinv. now apply deferredPublished_same.
  - unfold onClose. destruct (clients st !! c) as [cl |]; [| exact Hinv].
    destruct (c_phase cl); try exact Hinv; cbv zeta.
    all: match goal with
         | |- deferredPublished (scheduleReconnect ?s ?X) =>
             destruct (scheduleReconnect_coarse s X) as (_ & _ & _ & _ & _ & Ho);
             apply (deferredPublished_same X);
               [apply deferred_scheduleReconnect | exact Ho |]
         end.
    all: match goal with
         | |- context [printers ?X !! ?k] => destruct (printers X !! k)
         end; revert Hinv; now apply deferredPublished_same.
  - unfold onTimer. destruct (timers st !! t) as [tm |]; [| exact Hinv].
    destruct (t_status tm); try exact Hinv. cbv zeta.
    cbn [mqttClients setReconnectTimers setTimerStatus].
    destruct (mqttClients st !! t_serial tm).
    + revert Hinv. now apply deferredPublished_same.
    + apply deferredPublished_connectPrinter. revert Hinv.
      now apply deferredPublished_same.
  - now apply deferredPublished_onDeferred.
Qed.

Lemma addressed_handle e st :
  registeredLive st -> deferredPublished st -> addressed st ->
  addressed (handle e st).
Proof.
  intros Hlive Hdef Hinv.
  destruct (roster_invariant addressed) as [Hlist Hadd].
  { intros m s. now apply addressed_same. }
  { apply addressed_connectPrinter. }
  destruct e; cbn [handle].
  - now apply Hlist.
  - now apply Hadd.
  - unfold onPrinterRemove. cbv zeta. cbn [mqttClients sendLog].
    destruct (mqttClients st !! serial) as [c |];
      [| revert Hinv; now apply addressed_same].
    assert (Hlog : addressed (sendLog (LogPrinterRemoved serial) st))
      by (revert Hinv; now apply addressed_same).
    apply (addressed_same (endClient c (sendLog (LogPrinterRemoved serial) st)));
      [reflexivity .. |].
    unfold endClient. destruct (clients _ !! c) as [cl |]; [| exact Hlog].
    destruct (c_phase cl); try exact Hlog; now apply addressed_setPhase.
  - unfold onPrinterCommand. apply addressed_executeCommand.
    + eapply registeredLive_sameSessions; [apply sameSessions_sendLog | exact Hlive].
    + revert Hinv. now apply addressed_same.
  - unfold onConnect. destruct (clients st !! c) as [cl |] eqn:Hc; [| exact Hinv].
    destruct (c_phase cl); try exact Hinv. cbv zeta.
    apply addressed_setPhase.
    eapply addressed_publish; [exact Hc | reflexivity |].
    eapply addressed_publish; [exact Hc | reflexivity |].
    revert Hinv. now apply addressed_same.
  - unfold onMessage. destruct (clients st !! c) as [cl |]; [| exact Hinv].
    destruct (c_phase cl); try exact Hinv. cbv zeta.
    destruct (decide (c ∈ debugAmsCmd st)), (truthy (system data)), (print data);
      revert Hinv; now apply addressed_same.
  - unfold onError. destruct (clients st !! c) as [cl |]; [| exact Hinv].
    cbv zeta. destruct (_ <? _); [| exact Hinv].
    revert Hinv. now apply addressed_same.
  - unfold onClose. destruct (clients st !! c) as [cl |]; [| exact Hinv].
    assert (Hph : addressed (setPhase c Closed st)) by now apply addressed_setPhase.
    destruct (c_phase cl); try exact Hinv; cbv zeta.
    all: match goal with
         | |- addressed (scheduleReconnect ?s ?X) =>
             destruct (scheduleReconnect_coarse s X) as (_ & _ & _ & _ & Hc & Ho);
             apply (addressed_same X); [exact Ho | exact Hc |]
         end.
    all: match goal with
         | |- context [printers ?X !! ?k] => destruct (printers X !! k)
         end; revert Hph; now apply addressed_same.
  - unfold onTimer. destruct (timers st !! t) as [tm |]; [| exact Hinv].
    destruct (t_status tm); try exact Hinv. cbv zeta.
    cbn [mqttClients setReconnectTimers setTimerStatus].
    destruct (mqttClients st !! t_serial tm).
    + revert Hinv. now apply addressed_same.
    + apply addressed_connectPrinter. revert Hinv. now apply addressed_same.
  - unfold onDeferred. destruct (deferred st !! k) as [d |] eqn:Hk; [| exact Hinv].
    destruct (d_status d); try exact Hinv. cbv zeta.
    destruct (d_kind d); [| destruct ok | |];
      try (revert Hinv; now apply addressed_same).
    destruct (Hdef k d Hk) as [pl0 Hin0].
    destruct (Hinv _ _ _ Hin0) as (cl & Hcl & Ht).
    apply (addressed_same (publish (d_client d) (d_topic d) PPushAllPlain st));
      [reflexivity .. |].
    now apply (addressed_publish _ _ _ cl).
Qed.

Lemma addressed_run es st :
  registeredLive st -> deferredPublished st -> addressed st -> addressed (run es st).
Proof.
  unfold run. revert st. induction es as [| e es IH]; intros st Hl Hd Hinv;
    cbn [fold_left]; [exact Hinv |].
  apply IH; [now apply registeredLive_handle | now apply deferredPublished_handle
            | now apply addressed_handle].
Qed.

End AddressedFacts.

(** X9.  In every reachable state each message that has been published
    went out through a client object of the printer whose request topic
    it was published on: no command or request reaches another printer
    than the one it is meant for. *)
Theorem outbox_addressed `{!JsBuiltins} (es : list Event) (c : nat)
    (topic : string) (pl : Payload) :
  (c, topic, pl) ∈ outbox (run es init) ->
  exists cl, clients (run es init) !! c = Some cl
             /\ topic = requestTopic (serialNumber (c_printer cl)).
Proof.
  apply addressed_run; [apply registeredLive_init | |].
  - intros k d Hk. discriminate Hk.
  - intros c' topic' pl' Hin. cbn in Hin. now apply elem_of_nil in Hin.
Qed.

Lemma outbox_addressed_witness :
  let st := @run decimal_builtins
              [PrinterAdd demoPrinter; ClientConnect 0%nat;
               PrinterCommand (serialNumber demoPrinter) (stringCommand "home")] init in
  (0%nat, requestTopic (serialNumber demoPrinter), PGcodeLine [Lit "G28"; Lit LF])
    ∈ outbox st
  /\ exists cl, clients st !! 0%nat = Some cl
                /\ requestTopic (serialNumber demoPrinter)
                   = requestTopic (serialNumber (c_printer cl)).
Proof.
  intros st.
  assert (Hin : (0%nat, requestTopic (serialNumber demoPrinter),
                 PGcodeLine [Lit "G28"; Lit LF]) ∈ outbox st).
  { vm_compute. do 2 apply list_elem_of_further. apply list_elem_of_here. }
  split; [exact Hin |].
  exact (@outbox_addressed decimal_builtins _ _ _ _ Hin).
Defined.

(** *** The timer filed for a serial is pending *)

Lemma timersRegistered_same st st' :
  printerReconnectTimers st' = printerReconnectTimers st -> timers st' = timers st ->
  timersRegistered st -> timersRegistered st'.
Proof. intros Hr Ht Hinv serial t. rewrite Hr, Ht. apply Hinv. Qed.

Lemma clearTimeout_other t st t' :
  t' <> t -> timers (clearTimeout t st) !! t' = timers st !! t'.
Proof.
  intros Hne. unfold clearTimeout. destruct (timers st !! t) as [tm |]; [| reflexivity].
  destruct (t_status tm); try reflexivity.
  cbn [timers setTimerStatus]. now rewrite list_lookup_alter_ne by congruence.
Qed.

Lemma timersRegistered_connectPrinter p st :
  timersRegistered st -> timersRegistered (connectPrinter p st).
Proof.
  intros Hinv. destruct (mqttClients st !! serialNumber p) as [c |] eqn:Hreg.
  { now rewrite (connectPrinter_registered p st c Hreg). }
  destruct (connectPrinter_fields p st Hreg)
    as (_ & _ & _ & Hr & _ & _ & _ & Ht & _).
  intros serial t. rewrite Hr, Ht. intros Hl.
  apply lookup_delete_Some in Hl as [Hne Hl].
  destruct (Hinv serial t Hl) as (tm & Htm & Hp & Hs).
  exists tm. split; [| auto].
  destruct (printerReconnectTimers st !! serialNumber p) as [t0 |] eqn:Hr0;
    [| exact Htm].
  rewrite clearTimeout_other; [exact Htm |]. intros ->.
  destruct (Hinv (serialNumber p) t0 Hr0) as (tm0 & Htm0 & _ & Hs0). congruence.
Qed.

Lemma timersRegistered_scheduleReconnect serial st :
  timersRegistered st -> timersRegistered (scheduleReconnect serial st).
Proof.
  intros Hinv. destruct (printerDataCache st !! serial) as [cached |] eqn:Hc.
  2:{ unfold scheduleReconnect. now rewrite Hc. }
  destruct (mqttClients st !! serial) as [c |] eqn:Hreg.
  { now rewrite (scheduleReconnect_registered serial st c Hreg). }
  destruct (scheduleReconnect_fields serial st cached Hc Hreg)
    as (_ & _ & _ & Hr & _ & _ & _ & Ht & _).
  intros serial' t. rewrite Hr, Ht.
  destruct (decide (serial = serial')) as [<- | Hne].
  - rewrite lookup_insert_eq. intros [= <-]. eexists. split; [| split].
    + rewrite lookup_app_r by lia. rewrite Nat.sub_diag. reflexivity.
    + reflexivity.
    + reflexivity.
  - rewrite lookup_insert_ne by exact Hne. intros Hl.
    destruct (Hinv serial' t Hl) as (tm & Htm & Hrest).
    exists tm. split; [now apply lookup_app_l_Some | exact Hrest].
Qed.

Lemma timersRegistered_executeCommand serial command st :
  timersRegistered st -> timersRegistered (executeCommand serial command st).
Proof.
  intros Hinv. destruct (mqttClients st !! serial) as [c |] eqn:Hreg.
  - destruct (executeCommand_traffic st serial command c Hreg)
      as [(_ & _ & _ & Hr & _ & _ & _ & Ht) _].
    revert Hinv. now apply timersRegistered_same.
  - unfold executeCommand. cbv zeta. cbn [mqttClients sendLog]. rewrite Hreg.
    revert Hinv. now apply timersRegistered_same.
Qed.

Section TimerFacts.
Context `{!JsBuiltins}.

Lemma timersRegistered_handle e st :
  timersRegistered st -> timersRegistered (handle e st).
Proof.
  intros Hinv.
  destruct (roster_invariant timersRegistered) as [Hlist Hadd].
  { intros m s. now apply timersRegistered_same. }
  { apply timersRegistered_connectPrinter. }
  destruct e; cbn [handle].
  - now apply Hlist.
  - now apply Hadd.
  - unfold onPrinterRemove. cbv zeta. cbn [mqttClients sendLog].
    destruct (mqttClients st !! serial) as [c |];
      [| revert Hinv; now apply timersRegistered_same].
    unfold endClient. cbn [clients sendLog].
    destruct (clients st !! c) as [cl |]; [destruct (c_phase cl) |];
      revert Hinv; now apply timersRegistered_same.
  - unfold onPrinterCommand. apply timersRegistered_executeCommand.
    revert Hinv. now apply timersRegistered_same.
  - unfold onConnect. destruct (clients st !! c) as [cl |]; [| exact Hinv].
    destruct (c_phase cl); exact Hinv.
  - unfold onMessage. destruct (clients st !! c) as [cl |]; [| exact Hinv].
    destruct (c_phase cl); try exact Hinv. cbv zeta.
    destruct (decide (c ∈ debugAmsCmd st)), (truthy (system data)), (print data);
      revert Hinv; now apply timersRegistered_same.
  - unfold onError. destruct (clients st !! c) as [cl |]; [| exact Hinv].
    cbv zeta. destruct (_ <? _); [| exact Hinv].
    revert Hinv. now apply timersRegistered_same.
  - unfold onClose. destruct (clients st !! c) as [cl |]; [| exact Hinv].
    destruct (c_phase cl); try exact Hinv; cbv zeta;
      apply timersRegistered_scheduleReconnect.
    all: match goal with
         | |- context [printers ?X !! ?k] => destruct (printers X !! k)
         end; revert Hinv; now apply timersRegistered_same.
  - unfold onTimer. destruct (timers st !! t) as [tm |] eqn:Htm; [| exact Hinv].
    destruct (t_status tm) eqn:Hst; try exact Hinv. cbv zeta.
    assert (Hinv' : timersRegistered
                      (setReconnectTimers
                         (delete (t_serial tm)
                            (printerReconnectTimers (setTimerStatus t Fired st)))
                         (setTimerStatus t Fired st))).
    { intros serial t'.
      cbn [printerReconnectTimers timers setReconnectTimers setTimerStatus].
      intros Hl. apply lookup_delete_Some in Hl as [Hne Hl].
      destruct (Hinv serial t' Hl) as (tm' & Htm' & Hp & Hs).
      exists tm'. split; [| auto].
      rewrite list_lookup_alter_ne; [exact Htm' |]. intros ->. congruence. }
    destruct (mqttClients _ !! t_serial tm); [exact Hinv' |].
    now apply timersRegistered_connectPrinter.
  - destruct (onDeferred_traffic k ok st) as (_ & _ & _ & H4 & _ & _ & _ & H8).
    revert Hinv. now apply timersRegistered_same.
Qed.

Lemma timersRegistered_run es st :
  timersRegistered st -> timersRegistered (run es st).
Proof.
  unfold run. revert st. induction es as [| e es IH]; intros st Hinv;
    cbn [fold_left]; [exact Hinv |].
  apply IH. now apply timersRegistered_handle.
Qed.

End TimerFacts.

(** X10.  In every reachable state the timer filed for a serial in the
    reconnect registry exists, is still pending, and is a timer of that
    serial holding a descriptor of that serial: what
    [connectPrinter] cancels is always a live timer of the printer it
    connects, and when the timer fires it connects that printer. *)
Theorem registered_timer_pending `{!JsBuiltins} (es : list Event)
    (serial : string) (t : nat) :
  printerReconnectTimers (run es init) !! serial = Some t ->
  exists tm, timers (run es init) !! t = Some tm
             /\ t_status tm = Pending
             /\ t_serial tm = serial
             /\ serialNumber (t_cached tm) = serial.
Proof.
  intros Hl.
  assert (Hinit : timersRegistered init).
  { intros s t' Hl'. cbn in Hl'. now rewrite lookup_empty in Hl'. }
  destruct (timersRegistered_run es init Hinit serial t Hl) as (tm & Htm & Hp & Hs).
  exists tm. conjs; auto.
  destruct (keyed_run es init keyed_init) as [_ Hk].
  rewrite (Hk _ _ Htm). exact Hs.
Qed.

Lemma registered_timer_pending_witness :
  let st := @run decimal_builtins failingSession init in
  printerReconnectTimers st !! serialNumber demoPrinter = Some 6%nat
  /\ exists tm, timers st !! 6%nat = Some tm /\ t_status tm = Pending
                /\ t_serial tm = serialNumber demoPrinter
                /\ serialNumber (t_cached tm) = serialNumber demoPrinter.
Proof.
  intros st.
  assert (Hl : printerReconnectTimers st !! serialNumber demoPrinter = Some 6%nat)
    by (vm_compute; reflexivity).
  split; [exact Hl |].
  exact (@registered_timer_pending decimal_builtins failingSession _ _ Hl).
Defined.

(** ** Every extracted frame is a marked span *)

Lemma startsWith_split pat :
  forall buf, startsWith pat buf = true -> buf = pat ++ drop (length pat) buf.
Proof.
  induction pat as [| a pat IH]; intros buf Hs; [reflexivity |].
  destruct buf as [| b buf]; [discriminate |]. cbn in Hs.
  apply andb_true_iff in Hs as [Hab Hs]. apply Byte.byte_dec_bl in Hab as ->.
  cbn. f_equal. now apply IH.
Qed.

Lemma startsWith_take pat :
  forall n buf, startsWith pat (take n buf) = true -> startsWith pat buf = true.
Proof.
  induction pat as [| a pat IH]; intros n buf Hs; [reflexivity |].
  destruct n as [| n], buf as [| b buf]; try discriminate. cbn in *.
  apply andb_true_iff in Hs as [-> Hs]. cbn. now apply (IH n).
Qed.

(** The first occurrence of a pattern splits the buffer. *)
Lemma indexOf_split pat :
  pat <> [] ->
  forall buf i, indexOf pat buf = Some i ->
    buf = take i buf ++ pat ++ drop (i + length pat) buf
    /\ indexOf pat (take i buf) = None.
Proof.
  intros Hpat. induction buf as [| x buf IH]; intros i Hi.
  - destruct pat; [congruence | discriminate].
  - cbn [indexOf] in Hi. destruct (startsWith pat (x :: buf)) eqn:Hs.
    + injection Hi as <-. split.
      * now apply startsWith_split.
      * destruct pat; [congruence | reflexivity].
    + destruct (indexOf pat buf) as [i' |] eqn:Hi'; [| discriminate].
      injection Hi as <-. destruct (IH i' eq_refl) as [Hsplit Hnone]. split.
      * cbn [take drop Nat.add app]. f_equal. exact Hsplit.
      * cbn [take indexOf].
        destruct (startsWith pat (x :: take i' buf)) eqn:Hs'.
        -- apply (startsWith_take pat (S i') (x :: buf)) in Hs'. congruence.
        -- now rewrite Hnone.
Qed.

Lemma indexOf_bound pat :
  pat <> [] ->
  forall buf i, indexOf pat buf = Some i -> (i < length buf)%nat.
Proof.
  intros Hpat buf i Hi.
  destruct (indexOf_split pat Hpat buf i Hi) as [Hsplit _].
  apply (f_equal length) in Hsplit. rewrite !length_app, length_take in Hsplit.
  destruct pat; [congruence |]. cbn [length] in Hsplit. lia.
Qed.

(** A buffer in which the loop finds a start and an end marker is noise,
    a span and a rest. *)
Lemma jpeg_shape buf startIdx endIdx :
  indexOf JPEG_START buf = Some startIdx ->
  indexOfFrom JPEG_END (drop startIdx buf) 2 = Some endIdx ->
  exists noise body rest,
    buf = noise ++ jpegSpan body ++ rest
    /\ indexOf JPEG_START noise = None
    /\ indexOf JPEG_END body = None
    /\ length noise = startIdx
    /\ rest = drop (endIdx + 2) (drop startIdx buf).
Proof.
  intros Hs He.
  destruct (indexOf_split JPEG_START ltac:(discriminate) buf startIdx Hs)
    as [Hsplit Hnone].
  assert (Hlen : length (take startIdx buf) = startIdx).
  { apply length_take_le.
    pose proof (indexOf_bound JPEG_START ltac:(discriminate) buf startIdx Hs). lia. }
  set (noise := take startIdx buf) in *.
  set (r1 := drop (startIdx + length JPEG_START) buf) in *.
  assert (Hdrop : drop startIdx buf = JPEG_START ++ r1).
  { rewrite Hsplit at 1. rewrite <- Hlen at 1. now rewrite drop_app_length. }
  rewrite Hdrop in He. unfold indexOfFrom in He.
  change (drop 2 (JPEG_START ++ r1)) with r1 in He.
  destruct (indexOf JPEG_END r1) as [j |] eqn:Hj; [| discriminate].
  injection He as <-.
  destruct (indexOf_split JPEG_END ltac:(discriminate) r1 j Hj) as [Hsplit2 Hnone2].
  exists noise, (take j r1), (drop (j + length JPEG_END) r1).
  split; [| split; [exact Hnone | split; [exact Hnone2 | split; [exact Hlen |]]]].
  - rewrite Hsplit at 1. unfold jpegSpan. rewrite <- !app_assoc.
    do 2 f_equal. exact Hsplit2.
  - rewrite Hdrop. change (length JPEG_END) with 2%nat.
    replace (2 + j + 2)%nat with (2 + (j + 2))%nat by lia.
    change (drop (2 + (j + 2)) (JPEG_START ++ r1)) with (drop (j + 2) r1).
    reflexivity.
Qed.

Lemma processLoop_frames fuel :
  forall sd, (length (buffer sd) < fuel)%nat ->
    exists bodies rest,
      processLoop fuel sd
      = Some {| buffer := rest;
                lastFrame := from_option Some (lastFrame sd)
                               (last (jpegSpan <$> bodies));
                frameCount := (frameCount sd + length bodies)%nat;
                sent := sent sd ++ (jpegSpan <$> bodies) |}
      /\ Forall (fun b => indexOf JPEG_END b = None
                          /\ (100 < length (jpegSpan b))%nat) bodies
      /\ (exists k, rest = drop k (buffer sd))
      /\ (rest = []
          \/ (startsWith JPEG_START rest = true
              /\ indexOfFrom JPEG_END rest 2 = None)).
Proof.
  induction fuel as [| fuel IH]; intros sd Hlen; [lia |].
  destruct (indexOf JPEG_START (buffer sd)) as [startIdx |] eqn:Hs.
  2:{ exists [], []. cbn [processLoop]. rewrite Hs. cbn. rewrite Nat.add_0_r, app_nil_r.
      split; [reflexivity |]. split; [constructor |]. split; [| now left].
      exists (length (buffer sd)). now rewrite drop_all. }
  destruct (indexOfFrom JPEG_END (drop startIdx (buffer sd)) 2) as [endIdx |] eqn:He.
  2:{ exists [], (drop startIdx (buffer sd)). cbn [processLoop]. rewrite Hs, He. cbn.
      rewrite Nat.add_0_r, app_nil_r.
      split; [reflexivity |]. split; [constructor |]. split; [eauto |]. right.
      split; [| reflexivity].
      destruct (indexOf_split JPEG_START ltac:(discriminate) _ _ Hs) as [Hsplit _].
      assert (Hl : length (take startIdx (buffer sd)) = startIdx).
      { apply length_take_le.
        pose proof (indexOf_bound JPEG_START ltac:(discriminate) _ _ Hs). lia. }
      rewrite Hsplit at 1. rewrite <- Hl at 1. now rewrite drop_app_length. }
  destruct (jpeg_shape _ _ _ Hs He)
    as (noise & body & rest0 & Hbuf & Hn & Hb & Hnl & Hrest0).
  rewrite (processLoop_span fuel sd noise body rest0 Hn Hb Hbuf).
  assert (Hlen0 : (length rest0 < fuel)%nat).
  { apply (f_equal length) in Hbuf. rewrite !length_app in Hbuf.
    unfold jpegSpan in Hbuf. rewrite !length_app in Hbuf. cbn in Hbuf. lia. }
  assert (Hk0 : rest0 = drop (length noise + length (jpegSpan body)) (buffer sd)).
  { rewrite Hbuf, app_assoc, <- length_app. now rewrite drop_app_length. }
  destruct (100 <? length (jpegSpan body))%nat eqn:Hbig.
  - destruct (IH (withBuffer rest0 (deliver (jpegSpan body) sd)) Hlen0)
      as (bodies & rest & Heq & Hall & [k Hk] & Hend).
    assert (Hlast : from_option Some (Some (jpegSpan body))
                      (last (jpegSpan <$> bodies))
                    = from_option Some (lastFrame sd)
                        (last (jpegSpan <$> body :: bodies))).
    { rewrite fmap_cons, last_cons. destruct (last (jpegSpan <$> bodies)); reflexivity. }
    exists (body :: bodies), rest. split; [| split; [| split]].
    + rewrite Heq. cbn [withBuffer deliver buffer lastFrame frameCount sent].
      rewrite Hlast.
      replace (frameCount sd + 1 + length bodies)%nat
        with (frameCount sd + length (body :: bodies))%nat by (cbn [length]; lia).
      rewrite fmap_cons, <- app_assoc. reflexivity.
    + constructor; [| exact Hall]. split; [exact Hb | now apply Nat.ltb_lt].
    + cbn [withBuffer buffer] in Hk. rewrite Hk, Hk0, drop_drop. eauto.
    + exact Hend.
  - destruct (IH (withBuffer rest0 sd) Hlen0)
      as (bodies & rest & Heq & Hall & [k Hk] & Hend).
    exists bodies, rest. split; [exact Heq |]. split; [exact Hall |].
    split; [| exact Hend].
    cbn [withBuffer buffer] in Hk. rewrite Hk, Hk0, drop_drop. eauto.
Qed.


(** X12.  A frame whose start marker is cut by the chunk boundary is
    lost: when a chunk ends with the first byte of the marker and the
    buffer holds no start marker, the buffer is emptied, that byte
    included, and the rest of the frame in the next chunk is discarded as
    noise; the same bytes in one chunk deliver the frame. *)
Theorem split_start_marker_loses_frame (sd : StreamData) (pre body : bytes) :
  indexOf JPEG_START (buffer sd ++ pre ++ [Byte.xff]) = None ->
  indexOf JPEG_START (Byte.xd8 :: body ++ JPEG_END) = None ->
  indexOf JPEG_END body = None ->
  (100 < length (jpegSpan body))%nat ->
  onJpegData (pre ++ [Byte.xff]) sd = Some (withBuffer [] sd)
  /\ onJpegData (Byte.xd8 :: body ++ JPEG_END) (withBuffer [] sd)
     = Some (withBuffer [] sd)
  /\ (indexOf JPEG_START (buffer sd ++ pre) = None ->
      onJpegData (pre ++ jpegSpan body) sd
      = Some (withBuffer [] (deliver (jpegSpan body) sd))).
Proof.
  intros Hn1 Hn2 Hb Hbig. split; [| split].
  - unfold onJpegData, processJpegBuffer.
    rewrite processLoop_no_start by exact Hn1. reflexivity.
  - unfold onJpegData, processJpegBuffer. cbn [buffer withBuffer app].
    rewrite processLoop_no_start by exact Hn2. reflexivity.
  - intros Hn. unfold onJpegData.
    rewrite (processJpegBuffer_span _ (buffer sd ++ pre) body [] Hn Hb)
      by (cbn [buffer]; now rewrite app_nil_r, app_assoc).
    apply Nat.ltb_lt in Hbig. rewrite Hbig.
    unfold processJpegBuffer. cbn [buffer withBuffer length].
    rewrite processLoop_no_start by reflexivity. reflexivity.
Qed.

Lemma split_start_marker_loses_frame_witness :
  onJpegData [Byte.xff] idleStream = Some idleStream
  /\ onJpegData (Byte.xd8 :: sampleBody1 ++ JPEG_END) idleStream = Some idleStream
  /\ onJpegData (jpegSpan sampleBody1) idleStream
     = Some (deliver (jpegSpan sampleBody1) idleStream).
Proof.
  assert (Hbig : (100 < length (jpegSpan sampleBody1))%nat) by (vm_compute; lia).
  destruct (split_start_marker_loses_frame idleStream [] sampleBody1
              eq_refl eq_refl eq_refl Hbig) as (H1 & H2 & H3).
  split; [exact H1 |]. split; [exact H2 |]. exact (H3 eq_refl).
Defined.

(** ** The camera of the A1 and P1 series *)

Lemma list_inserts_0 {A} (k : list A) :
  forall l, list_inserts 0 k l = take (length l) k ++ drop (length k) l.
Proof.
  induction k as [| y k IH]; intros l; [now destruct l |].
  destruct l as [| x l]; [now rewrite list_inserts_nil |].
  cbn [list_inserts]. rewrite list_inserts_cons, IH. reflexivity.
Qed.

(** X13.  The authentication packet exists for every access code and is
    80 bytes long; its first 48 bytes do not depend on the access code
    (the words [0x40] and [0x3000] in little-endian order, eight zero
    bytes, the user name [bblp], zero padding); the last 32 bytes are the
    access code, cut after 32 bytes and padded with zeros. *)
Theorem authPacket_layout (accessCode : string) :
  let code := list_byte_of_string accessCode in
  exists pkt,
    authPacket accessCode = Some pkt
    /\ length pkt = 80%nat
    /\ take 48 pkt = authHeader
    /\ drop 48 pkt = take 32 code ++ replicate (32 - length code) Byte.x00.
Proof.
  intros code.
  assert (Hpkt : authPacket accessCode
                 = Some (list_inserts 48 code (authHeader ++ replicate 32 Byte.x00)))
    by reflexivity.
  assert (Hins : list_inserts 48 code (authHeader ++ replicate 32 Byte.x00)
                 = authHeader ++ take 32 code
                   ++ replicate (32 - length code) Byte.x00).
  { change 48%nat with (length authHeader + 0)%nat.
    rewrite list_inserts_app_r, list_inserts_0, length_replicate, drop_replicate.
    reflexivity. }
  rewrite Hins in Hpkt. eexists. split; [exact Hpkt |].
  split; [| split].
  - rewrite !length_app, length_take, !length_replicate.
    change (length authHeader) with 48%nat. lia.
  - change 48%nat with (length authHeader). now rewrite take_app_length.
  - change 48%nat with (length authHeader). now rewrite drop_app_length.
Qed.

(** X14.  The delay before the camera socket is reconnected grows by
    half with every failed attempt, from 5 s to 25.3125 s at the fifth,
    and is 30 s from the sixth attempt on; the cap is reached before the
    bound 6 on the exponent can matter, and every delay is a whole number
    of microseconds. *)
Theorem cameraDelay_values :
  map cameraDelay [1; 2; 3; 4; 5]%nat
  = [5000000; 7500000; 11250000; 16875000; 25312500]
  /\ (forall n, (6 <= n)%nat -> cameraDelay n = 30000000)
  /\ (forall n m, (1 <= n <= m)%nat -> cameraDelay n <= cameraDelay m)
  /\ (forall n, (5000000 * 3 ^ Z.of_nat (Nat.min (n - 1) 6))
                mod 2 ^ Z.of_nat (Nat.min (n - 1) 6) = 0).
Proof.
  assert (Hcases : forall n, (n = 0 \/ n = 1 \/ n = 2 \/ n = 3 \/ n = 4 \/ n = 5
                              \/ 6 <= n)%nat) by lia.
  assert (Hcap : forall n, (6 <= n)%nat -> cameraDelay n = 30000000).
  { intros n Hn. unfold cameraDelay.
    destruct (Hcases (n - 1)%nat) as [H | [H | [H | [H | [H | [H | H]]]]]];
      try lia.
    - replace (Nat.min (n - 1) 6) with 5%nat by lia. reflexivity.
    - replace (Nat.min (n - 1) 6) with 6%nat by lia. reflexivity. }
  split; [reflexivity |]. split; [exact Hcap |]. split.
  - intros n m [Hn Hm].
    destruct (Hcases n) as [H | [H | [H | [H | [H | [H | H]]]]]]; try lia;
      destruct (Hcases m) as [H' | [H' | [H' | [H' | [H' | [H' | H']]]]]]; try lia;
      try (rewrite (Hcap m) by lia); try (rewrite (Hcap n) by lia);
      subst; try reflexivity; vm_compute; discriminate.
  - intros n.
    destruct (Hcases (n - 1)%nat) as [H | [H | [H | [H | [H | [H | H]]]]]].
    1-6: rewrite H; reflexivity.
    replace (Nat.min (n - 1) 6) with 6%nat by lia. reflexivity.
Qed.

(** *** A stopped stream stays stopped *)

Lemma fmap_alter_same {A B} (g : A -> B) (f : A -> A) (k : nat) (l : list A) :
  (forall x, g (f x) = g x) -> g <$> alter f k l = g <$> l.
Proof.
  intros Hf. revert k. induction l as [| x l IH]; intros k; [reflexivity |].
  destruct k as [| k]; cbn; [now rewrite Hf | now rewrite IH].
Qed.

Lemma sameNet_refl st : sameNet st st.
Proof. split; reflexivity. Qed.

Lemma sameNet_trans a b c : sameNet a b -> sameNet b c -> sameNet a c.
Proof. intros [H1 H2] [H3 H4]. split; congruence. Qed.

Lemma sameNet_updStream sid f st : sameNet st (updStream sid f st).
Proof. split; reflexivity. Qed.

Lemma sameNet_destroy k st : sameNet st (destroy k st).
Proof.
  split; [reflexivity |]. unfold socketSerials, destroy. cbn [sockets setSockets].
  apply fmap_alter_same. intros so. now destruct (so_status so).
Qed.

Lemma sameNet_clearInterval w st : sameNet st (clearInterval w st).
Proof. split; reflexivity. Qed.

Lemma sameNet_fold {A} (f : Cam -> A -> Cam) (l : list A) :
  (forall st x, sameNet st (f st x)) ->
  forall st, sameNet st (fold_left f l st).
Proof.
  intros Hf. induction l as [| x l IH]; intros st; cbn [fold_left].
  - apply sameNet_refl.
  - eapply sameNet_trans; [apply Hf | apply IH].
Qed.

Lemma sameNet_sendFrames frames cls st :
  sameNet st (fold_left (fun st frame =>
                           fold_left (fun st v => sendJpegFrame v frame st) cls st)
                        frames st).
Proof.
  apply sameNet_fold. intros s frame. apply sameNet_fold. intros s' v.
  split; reflexivity.
Qed.

Lemma connectJpegStream_net serial accessCode ip sid now st :
  jpegStreams (connectJpegStream serial accessCode ip sid now st) = jpegStreams st
  /\ socketSerials (connectJpegStream serial accessCode ip sid now st)
     = socketSerials st ++ [serial].
Proof.
  split; [reflexivity |]. unfold socketSerials, connectJpegStream. cbv zeta.
  cbn [sockets setSockets updStream setStreamObjs]. now rewrite fmap_app.
Qed.

Lemma stopJpegStream_net serial st :
  jpegStreams (stopJpegStream serial st) = delete serial (jpegStreams st)
  /\ socketSerials (stopJpegStream serial st) = socketSerials st.
Proof.
  unfold stopJpegStream. destruct (jpegStreams st !! serial) as [sid |] eqn:Hs.
  2:{ split; [| reflexivity]. symmetry. now apply delete_id. }
  cbv zeta.
  assert (Hn : sameNet st
                 (match streamObjs st !! sid with
                  | Some stream =>
                      fold_left (fun st v => endViewer v st) (cs_clients stream)
                        (match cs_socket stream with
                         | Some k =>
                             destroy k
                               (match cs_watchdogTimer stream with
                                | Some w => updStream sid (withWatchdogTimer None)
                                              (clearInterval w st)
                                | None => st
                                end)
                         | None =>
                             match cs_watchdogTimer stream with
                             | Some w => updStream sid (withWatchdogTimer None)
                                           (clearInterval w st)
                             | None => st
                             end
                         end)
                  | None => st
                  end)).
  { destruct (streamObjs st !! sid) as [stream |]; [| apply sameNet_refl].
    eapply sameNet_trans; [| apply sameNet_fold; intros s v; split; reflexivity].
    assert (Hw : sameNet st (match cs_watchdogTimer stream with
                             | Some w => updStream sid (withWatchdogTimer None)
                                           (clearInterval w st)
                             | None => st
                             end)).
    { destruct (cs_watchdogTimer stream); [| apply sameNet_refl]. split; reflexivity. }
    destruct (cs_socket stream); [| exact Hw].
    eapply sameNet_trans; [exact Hw | apply sameNet_destroy]. }
  destruct Hn as [Hj Hs']. cbn [jpegStreams sockets setJpegStreams socketSerials].
  unfold socketSerials in *. cbn [sockets setJpegStreams].
  split; [now rewrite Hj | exact Hs'].
Qed.

(** What an event does to the registered streams and to the sockets:
    only [startJpegStream] registers a serial, and a socket is only
    opened for a serial that is registered. *)
Lemma camHandle_net e st :
  (forall serial, jpegStreams (camHandle e st) !! serial = None ->
                  jpegStreams st !! serial = None \/ e = CamStop serial)
  /\ (forall serial, jpegStreams st !! serial = None ->
        (forall a i n, e <> CamStart serial a i n) ->
        jpegStreams (camHandle e st) !! serial = None)
  /\ exists new,
       socketSerials (camHandle e st) = socketSerials st ++ new
       /\ forall serial, serial ∈ new ->
            is_Some (jpegStreams (camHandle e st) !! serial).
Proof.
  assert (Hsame : forall st', sameNet st st' ->
            (forall serial, jpegStreams st' !! serial = None ->
                            jpegStreams st !! serial = None \/ e = CamStop serial)
            /\ (forall serial, jpegStreams st !! serial = None ->
                  (forall a i n, e <> CamStart serial a i n) ->
                  jpegStreams st' !! serial = None)
            /\ exists new,
                 socketSerials st' = socketSerials st ++ new
                 /\ forall serial, serial ∈ new -> is_Some (jpegStreams st' !! serial)).
  { intros st' [Hj Hs]. rewrite Hj, Hs. split; [auto |]. split; [auto |].
    exists []. split; [now rewrite app_nil_r |]. intros s Hin.
    now apply elem_of_nil in Hin. }
  assert (Hconn : forall serial accessCode ip sid now st0,
            sameNet st st0 -> is_Some (jpegStreams st !! serial) ->
            (forall s, jpegStreams (connectJpegStream serial accessCode ip sid now st0)
                       !! s = None ->
                       jpegStreams st !! s = None \/ e = CamStop s)
            /\ (forall s, jpegStreams st !! s = None ->
                  (forall a i n, e <> CamStart s a i n) ->
                  jpegStreams (connectJpegStream serial accessCode ip sid now st0)
                  !! s = None)
            /\ exists new,
                 socketSerials (connectJpegStream serial accessCode ip sid now st0)
                 = socketSerials st ++ new
                 /\ forall s, s ∈ new ->
                      is_Some (jpegStreams
                                 (connectJpegStream serial accessCode ip sid now st0)
                               !! s)).
  { intros serial accessCode ip sid now st0 [Hj Hs] Hreg.
    destruct (connectJpegStream_net serial accessCode ip sid now st0) as [Hj' Hs'].
    rewrite Hj', Hs', Hj, Hs. split; [auto |]. split; [auto |].
    exists [serial]. split; [reflexivity |].
    intros s Hin. apply list_elem_of_singleton in Hin as ->. exact Hreg. }
  destruct e as [serial code ip now | serial | k | k data now | k | k | t now
                 | w now | serial | v]; cbn [camHandle].
  - (* startJpegStream *)
    unfold startJpegStream.
    destruct (jpegStreams st !! serial) as [sid |] eqn:Hreg;
      [apply Hsame, sameNet_refl |].
    cbv zeta.
    match goal with
    | |- context [connectJpegStream serial code ip ?s now ?X] =>
        destruct (connectJpegStream_net serial code ip s now X) as [Hj Hs];
        set (st1 := connectJpegStream serial code ip s now X) in *
    end.
    cbn [jpegStreams setCameraUrls]. unfold socketSerials in *.
    cbn [sockets setCameraUrls]. rewrite Hj, Hs.
    cbn [jpegStreams sockets setWatchdogs setJpegStreams setStreamObjs].
    split; [| split].
    + intros s Hn. left. destruct (decide (serial = s)) as [<- | Hne].
      * now rewrite lookup_insert_eq in Hn.
      * now rewrite lookup_insert_ne in Hn.
    + intros s Hn Hne. rewrite lookup_insert_ne; [exact Hn |].
      intros <-. now apply (Hne code ip now).
    + exists [serial]. split; [reflexivity |]. intros s Hin.
      apply list_elem_of_singleton in Hin as ->. rewrite lookup_insert_eq. eauto.
  - (* stopJpegStream *)
    destruct (stopJpegStream_net serial st) as [Hj Hs]. rewrite Hj, Hs.
    split; [| split].
    + intros s Hn. destruct (decide (serial = s)) as [<- | Hne]; [now right |].
      left. now rewrite lookup_delete_ne in Hn.
    + intros s Hn _. apply lookup_delete_None. now right.
    + exists []. split; [now rewrite app_nil_r |]. intros s Hin.
      now apply elem_of_nil in Hin.
  - (* TLS handshake *)
    apply Hsame. unfold onSecure.
    destruct (sockets st !! k) as [so |]; [| apply sameNet_refl].
    destruct (so_status so), (so_secure so); try apply sameNet_refl.
    split; [reflexivity |]. unfold socketSerials.
    cbn [sockets setSockets updStream setStreamObjs].
    now apply fmap_alter_same.
  - (* data *)
    apply Hsame. unfold onData.
    destruct (sockets st !! k) as [so |]; [| apply sameNet_refl].
    destruct (so_status so), (so_secure so); try apply sameNet_refl.
    destruct (streamObjs st !! so_stream so) as [stream |]; [| apply sameNet_refl].
    destruct (onJpegData data (cs_data stream)) as [sd' |]; [| apply sameNet_refl].
    cbv zeta. eapply sameNet_trans; [| apply sameNet_sendFrames].
    apply sameNet_updStream.
  - apply Hsame, sameNet_refl.
  - (* close *)
    apply Hsame. unfold onSockClose.
    destruct (sockets st !! k) as [so |]; [| apply sameNet_refl].
    assert (Hc : sameNet st
                   (updStream (so_stream so) (withSocket None)
                      (setSockets
                         (alter (fun so =>
                                   {| so_serial := so_serial so;
                                      so_accessCode := so_accessCode so;
                                      so_ip := so_ip so; so_stream := so_stream so;
                                      so_status := SockClosed;
                                      so_secure := so_secure so;
                                      so_written := so_written so |}) k (sockets st))
                         st))).
    { split; [reflexivity |]. unfold socketSerials.
      cbn [sockets setSockets updStream setStreamObjs]. now apply fmap_alter_same. }
    destruct (so_status so); try apply sameNet_refl; cbv zeta.
    all: match goal with
         | |- context [jpegStreams ?X !! ?s] => destruct (jpegStreams X !! s)
         end; try exact Hc.
    all: eapply sameNet_trans; [exact Hc |]; split; reflexivity.
  - (* reconnect timer *)
    unfold onCamTimer.
    destruct (camTimers st !! t) as [tm |]; [| apply Hsame, sameNet_refl].
    destruct (ct_fired tm); [apply Hsame, sameNet_refl |]. cbv zeta.
    cbn [jpegStreams setCamTimers].
    destruct (jpegStreams st !! ct_serial tm) eqn:Hreg.
    + apply Hconn; [split; reflexivity | rewrite Hreg; eauto].
    + apply Hsame. split; reflexivity.
  - (* watchdog *)
    unfold onWatchdog.
    destruct (watchdogs st !! w) as [wd |]; [| apply Hsame, sameNet_refl].
    destruct (wd_cleared wd); [apply Hsame, sameNet_refl |].
    destruct (streamObjs st !! wd_stream wd) as [stream |];
      [| apply Hsame, sameNet_refl].
    destruct (jpegStreams st !! wd_serial wd) eqn:Hreg.
    2:{ apply Hsame. destruct (cs_watchdogTimer stream);
          [apply sameNet_clearInterval | apply sameNet_refl]. }
    assert (Hr : forall k,
              (forall s, jpegStreams (watchdogRestart wd k now st) !! s = None ->
                         jpegStreams st !! s = None
                         \/ WatchdogTick w now = CamStop s)
              /\ (forall s, jpegStreams st !! s = None ->
                    (forall a i n, WatchdogTick w now <> CamStart s a i n) ->
                    jpegStreams (watchdogRestart wd k now st) !! s = None)
              /\ exists new,
                   socketSerials (watchdogRestart wd k now st) = socketSerials st ++ new
                   /\ forall s, s ∈ new ->
                        is_Some (jpegStreams (watchdogRestart wd k now st) !! s)).
    { intros k. unfold watchdogRestart. cbv zeta.
      apply Hconn; [| rewrite Hreg; eauto].
      eapply sameNet_trans; [apply sameNet_destroy | apply sameNet_updStream]. }
    destruct (cs_socket stream) as [k |]; [| apply Hsame, sameNet_refl].
    destruct (_ && _)%bool; [apply Hr |].
    destruct (_ && _)%bool; [| apply Hsame, sameNet_refl].
    cbv zeta. destruct (30000 <? _); [apply Hr | apply Hsame, sameNet_refl].
  - (* viewer *)
    apply Hsame. unfold onViewerOpen.
    destruct (jpegStreams st !! serial) as [sid |]; [| apply sameNet_refl].
    destruct (streamObjs st !! sid) as [stream |]; [| apply sameNet_refl].
    cbv zeta. destruct (lastFrame (cs_data stream)); split; reflexivity.
  - apply Hsame. unfold onViewerClose.
    destruct (viewers st !! v); [split; reflexivity | apply sameNet_refl].
Qed.

(** X15.  A stopped stream stays stopped: after [stopJpegStream] for a
    serial, and as long as [startJpegStream] is not called for it again,
    the serial has no registered stream and no socket is opened for it,
    whatever the sockets, the reconnect timers, the watchdogs and the
    viewers do. *)
Theorem stopped_stream_stays_stopped (st : Cam) (serial : string)
    (es : list CamEvent) :
  Forall (fun e => forall a i n, e <> CamStart serial a i n) es ->
  let st0 := stopJpegStream serial st in
  let st' := camRun es st0 in
  jpegStreams st' !! serial = None
  /\ exists new, socketSerials st' = socketSerials st ++ new /\ serial ∉ new.
Proof.
  intros Hes st0 st'.
  assert (H0 : jpegStreams st0 !! serial = None).
  { subst st0. rewrite (proj1 (stopJpegStream_net serial st)). apply lookup_delete_eq. }
  assert (Hs0 : socketSerials st0 = socketSerials st)
    by apply (proj2 (stopJpegStream_net serial st)).
  rewrite <- Hs0. subst st'. clearbody st0. clear Hs0 st.
  unfold camRun. revert st0 H0.
  induction Hes as [| e es He Hes IH]; intros st0 H0; cbn [fold_left].
  - split; [exact H0 |]. exists []. split; [now rewrite app_nil_r |].
    apply not_elem_of_nil.
  - destruct (camHandle_net e st0) as (_ & Hkeep & new1 & Hs1 & Hreg1).
    pose proof (Hkeep serial H0 He) as H1.
    destruct (IH (camHandle e st0) H1) as (Hfin & new2 & Hs2 & Hnot).
    split; [exact Hfin |]. exists (new1 ++ new2). split.
    + rewrite Hs2, Hs1. now rewrite app_assoc.
    + intros [Hin | Hin]%elem_of_app; [| contradiction].
      destruct (Hreg1 serial Hin) as [x Hx]. congruence.
Qed.

Lemma stopped_stream_stays_stopped_witness :
  let serial := serialNumber demoPrinter in
  let es := [SockClose 0%nat; CamTimerFire 0%nat 9000; WatchdogTick 0%nat 100000;
             ViewerOpen serial] in
  Forall (fun e => forall a i n, e <> CamStart serial a i n) es
  /\ jpegStreams (camRun es (stopJpegStream serial demoCam)) !! serial = None.
Proof.
  intros serial es.
  assert (Hes : Forall (fun e => forall a i n, e <> CamStart serial a i n) es)
    by (repeat constructor; intros a i n; discriminate).
  split; [exact Hes |].
  exact (proj1 (stopped_stream_stays_stopped demoCam serial es Hes)).
Defined.

(** *** A watchdog restart *)

Lemma lookup_app_new {A} (l : list A) (x : A) : (l ++ [x]) !! length l = Some x.
Proof. rewrite lookup_app_r by lia. now rewrite Nat.sub_diag. Qed.

Lemma connectJpegStream_spec serial code ip sid now st s :
  streamObjs st !! sid = Some s ->
  let st' := connectJpegStream serial code ip sid now st in
  jpegStreams st' = jpegStreams st
  /\ camTimers st' = camTimers st
  /\ watchdogs st' = watchdogs st
  /\ viewers st' = viewers st
  /\ sockets st' = sockets st ++ [{| so_serial := serial; so_accessCode := code;
                                     so_ip := ip; so_stream := sid;
                                     so_status := SockOpen; so_secure := false;
                                     so_written := [] |}]
  /\ streamObjs st' !! sid
     = Some (withSocket (Some (length (sockets st)))
               (withReceivedData false (withConnectTime now s)))
  /\ forall j, j <> sid -> streamObjs st' !! j = streamObjs st !! j.
Proof.
  intros Hs st'. subst st'. unfold connectJpegStream, updStream. cbv zeta.
  cbn [jpegStreams camTimers watchdogs viewers sockets streamObjs setStreamObjs
       setSockets].
  conjs; try reflexivity.
  - rewrite !list_lookup_alter_eq, Hs. reflexivity.
  - intros j Hj. now rewrite !list_lookup_alter_ne by congruence.
Qed.

Lemma watchdogRestart_spec wd k now st stream so :
  streamObjs st !! wd_stream wd = Some stream ->
  sockets st !! k = Some so ->
  so_status so = SockOpen ->
  let st' := watchdogRestart wd k now st in
  jpegStreams st' = jpegStreams st
  /\ camTimers st' = camTimers st
  /\ length (sockets st') = S (length (sockets st))
  /\ (exists so', sockets st' !! k = Some so' /\ so_status so' = SockDestroyed
                  /\ so_serial so' = so_serial so /\ so_stream so' = so_stream so
                  /\ so_accessCode so' = so_accessCode so /\ so_ip so' = so_ip so)
  /\ sockets st' !! length (sockets st)
     = Some {| so_serial := wd_serial wd; so_accessCode := wd_accessCode wd;
               so_ip := wd_ip wd; so_stream := wd_stream wd;
               so_status := SockOpen; so_secure := false; so_written := [] |}
  /\ exists s', streamObjs st' !! wd_stream wd = Some s'
                /\ cs_reconnectAttempts s' = 0%nat
                /\ cs_socket s' = Some (length (sockets st)).
Proof.
  intros Hs Hso Hopen st'. subst st'. unfold watchdogRestart. cbv zeta.
  set (st0 := updStream (wd_stream wd) _ (destroy k st)).
  assert (Hs0 : is_Some (streamObjs st0 !! wd_stream wd)).
  { subst st0. unfold updStream, destroy. cbn [streamObjs setStreamObjs setSockets].
    rewrite list_lookup_alter_eq, Hs. cbn. eauto. }
  destruct Hs0 as [s0 Hs0].
  assert (Hatt0 : cs_reconnectAttempts s0 = 0%nat).
  { subst st0. unfold updStream, destroy in Hs0.
    cbn [streamObjs setStreamObjs setSockets] in Hs0.
    rewrite list_lookup_alter_eq, Hs in Hs0. now injection Hs0 as <-. }
  assert (Hsock0 : sockets st0
                   = alter (fun so =>
                              match so_status so with
                              | SockOpen =>
                                  {| so_serial := so_serial so;
                                     so_accessCode := so_accessCode so;
                                     so_ip := so_ip so; so_stream := so_stream so;
                                     so_status := SockDestroyed;
                                     so_secure := so_secure so;
                                     so_written := so_written so |}
                              | _ => so
                              end) k (sockets st)) by reflexivity.
  assert (Hlen0 : length (sockets st0) = length (sockets st))
    by (rewrite Hsock0; apply length_alter).
  destruct (connectJpegStream_spec (wd_serial wd) (wd_accessCode wd) (wd_ip wd)
              (wd_stream wd) now st0 s0 Hs0)
    as (Hj & Ht & _ & _ & Hsock & Hobj & _).
  assert (Hk : (k < length (sockets st))%nat) by (eapply lookup_lt_Some; eauto).
  conjs.
  - rewrite Hj. reflexivity.
  - rewrite Ht. reflexivity.
  - rewrite Hsock, length_app, Hlen0. cbn. lia.
  - eexists. rewrite Hsock, lookup_app_l by lia.
    rewrite Hsock0, list_lookup_alter_eq, Hso. cbn. rewrite Hopen.
    split; [reflexivity |]. repeat split.
  - rewrite Hsock, <- Hlen0. apply lookup_app_new.
  - eexists. split; [exact Hobj |].
    cbn [cs_reconnectAttempts cs_socket withSocket withReceivedData withConnectTime].
    rewrite Hlen0. split; [exact Hatt0 | reflexivity].
Qed.

Lemma onSockClose_spec k st so s sid0 :
  sockets st !! k = Some so ->
  so_status so <> SockClosed ->
  jpegStreams st !! so_serial so = Some sid0 ->
  streamObjs st !! so_stream so = Some s ->
  let st' := onSockClose k st in
  jpegStreams st' = jpegStreams st
  /\ camTimers st'
     = camTimers st ++ [{| ct_serial := so_serial so;
                           ct_accessCode := so_accessCode so; ct_ip := so_ip so;
                           ct_stream := so_stream so;
                           ct_delay := cameraDelay (S (cs_reconnectAttempts s));
                           ct_fired := false |}]
  /\ length (sockets st') = length (sockets st)
  /\ (forall j, j <> k -> sockets st' !! j = sockets st !! j)
  /\ streamObjs st' !! so_stream so
     = Some (withReconnectAttempts (S (cs_reconnectAttempts s)) (withSocket None s)).
Proof.
  intros Hso Hst Hreg Hs st'.
  assert (Heq : st' =
    let st1 := updStream (so_stream so) (withSocket None)
                 (setSockets
                    (alter (fun so =>
                              {| so_serial := so_serial so;
                                 so_accessCode := so_accessCode so;
                                 so_ip := so_ip so; so_stream := so_stream so;
                                 so_status := SockClosed; so_secure := so_secure so;
                                 so_written := so_written so |}) k (sockets st)) st) in
    let attempts := S (cs_reconnectAttempts s) in
    let st2 := updStream (so_stream so) (withReconnectAttempts attempts) st1 in
    setCamTimers (camTimers st2 ++
                  [{| ct_serial := so_serial so; ct_accessCode := so_accessCode so;
                      ct_ip := so_ip so; ct_stream := so_stream so;
                      ct_delay := cameraDelay attempts; ct_fired := false |}]) st2).
  { subst st'. unfold onSockClose. rewrite Hso. cbv zeta.
    cbn [jpegStreams updStream setStreamObjs setSockets streamObjs].
    rewrite Hreg, list_lookup_alter_eq, Hs.
    cbn [fmap option_fmap option_map from_option cs_reconnectAttempts withSocket].
    destruct (so_status so); try congruence; reflexivity. }
  rewrite Heq. cbv zeta. unfold updStream.
  cbn [jpegStreams camTimers sockets streamObjs setCamTimers setStreamObjs setSockets].
  conjs; try reflexivity.
  - apply length_alter.
  - intros j Hj. now rewrite list_lookup_alter_ne by congruence.
  - rewrite !list_lookup_alter_eq, Hs. reflexivity.
Qed.

Lemma onCamTimer_spec t now st tm s sid0 :
  camTimers st !! t = Some tm ->
  ct_fired tm = false ->
  jpegStreams st !! ct_serial tm = Some sid0 ->
  streamObjs st !! ct_stream tm = Some s ->
  let st' := onCamTimer t now st in
  jpegStreams st' = jpegStreams st
  /\ sockets st' = sockets st ++ [{| so_serial := ct_serial tm;
                                     so_accessCode := ct_accessCode tm;
                                     so_ip := ct_ip tm; so_stream := ct_stream tm;
                                     so_status := SockOpen; so_secure := false;
                                     so_written := [] |}]
  /\ streamObjs st' !! ct_stream tm
     = Some (withSocket (Some (length (sockets st)))
               (withReceivedData false (withConnectTime now s))).
Proof.
  intros Ht Hf Hreg Hs st'. subst st'. unfold onCamTimer. rewrite Ht, Hf. cbv zeta.
  cbn [jpegStreams setCamTimers]. rewrite Hreg.
  match goal with
  | |- context [connectJpegStream ?a ?b ?c ?d ?e ?X] =>
      destruct (connectJpegStream_spec a b c d e X s Hs) as (Hj & _ & _ & _ & Hsock & Hobj & _)
  end.
  split; [exact Hj |]. split; [exact Hsock | exact Hobj].
Qed.

Lemma endViewers_sockets cls st :
  sockets (fold_left (fun st v => endViewer v st) cls st) = sockets st.
Proof.
  revert st. induction cls as [| v cls IH]; intros st; cbn [fold_left]; [reflexivity |].
  now rewrite IH.
Qed.

(** [stopJpegStream] touches no socket but the one the stream refers to. *)
Lemma stopJpegStream_sockets serial st sid s :
  jpegStreams st !! serial = Some sid ->
  streamObjs st !! sid = Some s ->
  forall j, cs_socket s <> Some j ->
            sockets (stopJpegStream serial st) !! j = sockets st !! j.
Proof.
  intros Hreg Hs j Hj. unfold stopJpegStream. rewrite Hreg, Hs. cbv zeta.
  cbn [sockets setJpegStreams]. rewrite endViewers_sockets.
  assert (Hw : forall X, sockets (match cs_watchdogTimer s with
                                  | Some w => updStream sid (withWatchdogTimer None)
                                                (clearInterval w X)
                                  | None => X
                                  end) = sockets X)
    by (intros X; now destruct (cs_watchdogTimer s)).
  destruct (cs_socket s) as [k |]; [| apply (f_equal (fun l => l !! j)), Hw].
  unfold destroy. cbn [sockets setSockets].
  rewrite list_lookup_alter_ne by congruence. now rewrite Hw.
Qed.

(** X16.  When the watchdog restarts a stream whose last frame is older
    than 60 s, it destroys the socket and opens a new one at once; the
    [close] event of the destroyed socket then clears the socket
    reference of the stream and, the stream being registered, schedules
    one more reconnect.  When that timer has fired, two open sockets
    feed the same stream object, and the stream refers to the second one
    only, so that [stopJpegStream] leaves the first one open. *)
Theorem watchdog_restart_doubles (st : Cam) (w k : nat) (wd : Watchdog)
    (stream : CamStream) (so : Socket) (now now' : Z) :
  watchdogs st !! w = Some wd ->
  wd_cleared wd = false ->
  jpegStreams st !! wd_serial wd = Some (wd_stream wd) ->
  streamObjs st !! wd_stream wd = Some stream ->
  cs_socket stream = Some k ->
  sockets st !! k = Some so ->
  so_status so = SockOpen ->
  so_stream so = wd_stream wd ->
  so_serial so = wd_serial wd ->
  0 < cs_lastFrameTime stream ->
  60000 < now - cs_lastFrameTime stream ->
  let k1 := length (sockets st) in
  let t := length (camTimers st) in
  let st' := camRun [WatchdogTick w now; SockClose k; CamTimerFire t now'] st in
  (exists so1, sockets st' !! k1 = Some so1 /\ so_status so1 = SockOpen
               /\ so_stream so1 = wd_stream wd)
  /\ (exists so2, sockets st' !! S k1 = Some so2 /\ so_status so2 = SockOpen
                  /\ so_stream so2 = wd_stream wd)
  /\ cs_socket <$> streamObjs st' !! wd_stream wd = Some (Some (S k1))
  /\ so_status <$> sockets (stopJpegStream (wd_serial wd) st') !! k1 = Some SockOpen.
Proof.
  intros Hw Hlive Hreg Hstream Hsock Hso Hopen Hsid Hserial Hpos Hstale k1 t st'.
  assert (Hk : (k < length (sockets st))%nat) by (eapply lookup_lt_Some; eauto).
  subst st'. unfold camRun. cbn [fold_left camHandle].
  (* the tick *)
  assert (Htick : onWatchdog w now st = watchdogRestart wd k now st).
  { unfold onWatchdog. rewrite Hw, Hlive, Hstream, Hreg, Hsock.
    apply Z.ltb_lt in Hpos, Hstale. now rewrite Hpos, Hstale. }
  rewrite Htick.
  destruct (watchdogRestart_spec wd k now st stream so Hstream Hso Hopen)
    as (Hj1 & Ht1 & Hlen1 & (so' & Hso' & Hst' & Hser' & Hsid' & _) & Hnew1
        & s1 & Hobj1 & Hatt1 & _).
  set (st1 := watchdogRestart wd k now st) in *.
  (* the close event of the destroyed socket *)
  assert (Hreg1 : jpegStreams st1 !! so_serial so' = Some (wd_stream wd))
    by (rewrite Hj1, Hser', Hserial; exact Hreg).
  assert (Hobj1' : streamObjs st1 !! so_stream so' = Some s1)
    by (rewrite Hsid', Hsid; exact Hobj1).
  destruct (onSockClose_spec k st1 so' s1 _ Hso' ltac:(congruence) Hreg1 Hobj1')
    as (Hj2 & Ht2 & Hlen2 & Hother2 & Hobj2).
  set (st2 := onSockClose k st1) in *.
  (* the reconnect timer *)
  assert (Htm : camTimers st2 !! t
                = Some {| ct_serial := so_serial so';
                          ct_accessCode := so_accessCode so'; ct_ip := so_ip so';
                          ct_stream := so_stream so';
                          ct_delay := cameraDelay (S (cs_reconnectAttempts s1));
                          ct_fired := false |}).
  { rewrite Ht2, Ht1. apply lookup_app_new. }
  destruct (onCamTimer_spec t now' st2 _ _ (wd_stream wd) Htm eq_refl
              ltac:(cbn [ct_serial]; rewrite Hj2; exact Hreg1)
              ltac:(cbn [ct_stream]; exact Hobj2))
    as (Hj3 & Hs3 & Hobj3).
  set (st3 := onCamTimer t now' st2) in *.
  cbn [ct_serial ct_accessCode ct_ip ct_stream] in Hs3, Hobj3.
  assert (Hk1 : sockets st3 !! k1 = sockets st1 !! k1).
  { rewrite Hs3, lookup_app_l by (rewrite Hlen2, Hlen1; subst k1; lia).
    apply Hother2. subst k1. lia. }
  rewrite Hsid', Hsid in Hs3, Hobj3.
  split; [| split; [| split]].
  - eexists. split; [rewrite Hk1; exact Hnew1 |]. split; reflexivity.
  - assert (Hlast : sockets st3 !! S k1
                    = Some {| so_serial := so_serial so';
                              so_accessCode := so_accessCode so';
                              so_ip := so_ip so'; so_stream := wd_stream wd;
                              so_status := SockOpen; so_secure := false;
                              so_written := [] |}).
    { rewrite Hs3. replace (S k1) with (length (sockets st2))
      by (rewrite Hlen2, Hlen1; reflexivity).
      apply lookup_app_new. }
    eexists. split; [exact Hlast |]. split; reflexivity.
  - rewrite Hobj3. cbn. now rewrite Hlen2, Hlen1.
  - rewrite (stopJpegStream_sockets (wd_serial wd) st3 (wd_stream wd) _
               ltac:(rewrite Hj3, Hj2, Hj1; exact Hreg) Hobj3 k1).
    + rewrite Hk1. subst k1. rewrite Hnew1. reflexivity.
    + cbn. rewrite Hlen2, Hlen1. intros [= Heq]. subst k1. lia.
Qed.

Lemma watchdog_restart_doubles_witness :
  let st' := camRun [WatchdogTick 0%nat 100000; SockClose 0%nat;
                     CamTimerFire 0%nat 106000] streamingCam in
  so_status <$> sockets st' !! 1%nat = Some SockOpen
  /\ so_status <$> sockets st' !! 2%nat = Some SockOpen
  /\ cs_socket <$> streamObjs st' !! 0%nat = Some (Some 2%nat).
Proof.
  intros st'.
  set (wd := {| wd_serial := serialNumber demoPrinter;
                wd_accessCode := accessCode demoPrinter;
                wd_ip := ipAddress demoPrinter; wd_stream := 0%nat;
                wd_cleared := false |}).
  set (so := {| so_serial := serialNumber demoPrinter;
                so_accessCode := accessCode demoPrinter;
                so_ip := ipAddress demoPrinter; so_stream := 0%nat;
                so_status := SockOpen; so_secure := true;
                so_written := default [] ((fun p => [p]) <$> authPacket (accessCode demoPrinter)) |}).
  destruct (streamObjs streamingCam !! wd_stream wd) as [stream |] eqn:Hstream;
    [| vm_compute in Hstream; discriminate].
  assert (Hfields : cs_socket stream = Some 0%nat /\ cs_lastFrameTime stream = 2000).
  { vm_compute in Hstream. injection Hstream as <-. split; reflexivity. }
  destruct Hfields as [Hsock Htime].
  assert (Hw : watchdogs streamingCam !! 0%nat = Some wd) by (vm_compute; reflexivity).
  assert (Hreg : jpegStreams streamingCam !! wd_serial wd = Some (wd_stream wd))
    by (vm_compute; reflexivity).
  assert (Hso : sockets streamingCam !! 0%nat = Some so) by (vm_compute; reflexivity).
  destruct (watchdog_restart_doubles streamingCam 0%nat 0%nat wd stream so
              100000 106000 Hw eq_refl Hreg Hstream Hsock Hso eq_refl eq_refl eq_refl
              ltac:(rewrite Htime; lia) ltac:(rewrite Htime; lia))
    as ((so1 & Hso1 & Hopen1 & _) & (so2 & Hso2 & Hopen2 & _) & Hobj & _).
  change (length (sockets streamingCam)) with 1%nat in Hso1, Hso2, Hobj.
  change (length (camTimers streamingCam)) with 0%nat in Hso1, Hso2, Hobj.
  split; [| split].
  - subst st'. rewrite Hso1. cbn. now rewrite Hopen1.
  - subst st'. rewrite Hso2. cbn. now rewrite Hopen2.
  - exact Hobj.
Defined.

(** *** Attached viewers hold the cached frame *)

Lemma calm_refl st : calm st st.
Proof. split; [| split]; eauto 10. Qed.

Lemma calm_trans a b c : calm a b -> calm b c -> calm a c.
Proof.
  intros (A1 & A2 & A3) (B1 & B2 & B3). split; [| split].
  - intros v vw'' H. destruct (B1 v vw'' H) as (vw' & H' & E1 & E2 & E3).
    destruct (A1 v vw' H') as (vw & H0 & F1 & F2 & F3).
    exists vw. conjs; auto; congruence.
  - auto.
  - intros sid s'' v H Hin. destruct (B3 sid s'' v H Hin) as (s' & H' & Hin' & E).
    destruct (A3 sid s' v H' Hin') as (s & H0 & Hin0 & F).
    exists s. conjs; auto; congruence.
Qed.

Lemma calm_served st st' : calm st st' -> viewersServed st -> viewersServed st'.
Proof.
  intros (C1 & C2 & C3) Hinv sid s' v Hs' Hin.
  destruct (C3 sid s' v Hs' Hin) as (s & Hs & Hin0 & Hlast).
  destruct (Hinv sid s v Hs Hin0) as (vw & Hv & Hsid & Hserved).
  destruct (C2 v ltac:(eauto)) as [vw' Hv'].
  destruct (C1 v vw' Hv') as (vw0 & Hv0 & E1 & E2 & E3).
  assert (vw0 = vw) by congruence. subst vw0.
  exists vw'. conjs; [exact Hv' | congruence |].
  intros Hne f Hf. rewrite E2. apply Hserved; [auto | congruence].
Qed.

Lemma calm_same st st' :
  viewers st' = viewers st -> streamObjs st' = streamObjs st -> calm st st'.
Proof. intros Hv Hs. unfold calm. rewrite Hv, Hs. apply calm_refl. Qed.

Lemma calm_updStream sid f st :
  (forall s v, v ∈ cs_clients (f s) -> v ∈ cs_clients s) ->
  (forall s, lastFrame (cs_data (f s)) = lastFrame (cs_data s)) ->
  calm st (updStream sid f st).
Proof.
  intros Hc Hl. split; [| split].
  - intros v vw' H. exists vw'. auto.
  - auto.
  - intros sid' s' v. unfold updStream. cbn [streamObjs setStreamObjs].
    destruct (decide (sid' = sid)) as [-> | Hne].
    + rewrite list_lookup_alter_eq.
      destruct (streamObjs st !! sid) as [s |]; [| discriminate].
      cbn. intros [= <-] Hin. exists s. conjs; auto.
    + rewrite list_lookup_alter_ne by congruence. intros H Hin. exists s'. auto.
Qed.

Lemma calm_endViewer v st : calm st (endViewer v st).
Proof.
  split; [| split].
  - intros v' vw'. unfold endViewer. cbn [viewers setViewers].
    destruct (decide (v' = v)) as [-> | Hne].
    + rewrite list_lookup_alter_eq.
      destruct (viewers st !! v) as [vw |]; [| discriminate].
      cbn. intros [= <-]. exists vw. cbn. conjs; auto. discriminate.
    + rewrite list_lookup_alter_ne by congruence. intros H. exists vw'. auto.
  - intros v' [vw H]. unfold endViewer. cbn [viewers setViewers].
    destruct (decide (v' = v)) as [-> | Hne].
    + rewrite list_lookup_alter_eq, H. cbn. eauto.
    + rewrite list_lookup_alter_ne by congruence. eauto.
  - intros sid s' v' H Hin. exists s'. auto.
Qed.

Lemma calm_fold {A} (f : Cam -> A -> Cam) (l : list A) :
  (forall st x, calm st (f st x)) -> forall st, calm st (fold_left f l st).
Proof.
  intros Hf. induction l as [| x l IH]; intros st; cbn [fold_left].
  - apply calm_refl.
  - eapply calm_trans; [apply Hf | apply IH].
Qed.

Lemma calm_setJpegStreams m st : calm st (setJpegStreams m st).
Proof. now apply calm_same. Qed.

Lemma calm_setCameraUrls m st : calm st (setCameraUrls m st).
Proof. now apply calm_same. Qed.

Lemma calm_setSockets l st : calm st (setSockets l st).
Proof. now apply calm_same. Qed.

Lemma calm_setCamTimers l st : calm st (setCamTimers l st).
Proof. now apply calm_same. Qed.

Lemma calm_clearInterval w st : calm st (clearInterval w st).
Proof. now apply calm_same. Qed.

Lemma calm_connectJpegStream serial code ip sid now st :
  calm st (connectJpegStream serial code ip sid now st).
Proof.
  unfold connectJpegStream. cbv zeta.
  eapply calm_trans; [| apply (calm_updStream _ (withSocket _)); auto].
  eapply calm_trans; [| apply calm_setSockets].
  apply calm_updStream; auto.
Qed.

Lemma calm_destroy k st : calm st (destroy k st).
Proof. now apply calm_same. Qed.

Lemma calm_startJpegStream serial code ip now st :
  calm st (startJpegStream serial code ip now st).
Proof.
  unfold startJpegStream. destruct (jpegStreams st !! serial); [apply calm_refl |].
  cbv zeta.
  eapply calm_trans; [| apply calm_setCameraUrls].
  eapply calm_trans; [| apply calm_connectJpegStream].
  split; [| split].
  - intros v vw' H. exists vw'. auto.
  - auto.
  - intros sid s' v. cbn [streamObjs setWatchdogs setJpegStreams setStreamObjs].
    intros H Hin. apply lookup_app_Some in H as [H | [_ H]].
    + exists s'. auto.
    + apply list_lookup_singleton_Some in H as [_ <-]. cbn in Hin.
      now apply elem_of_nil in Hin.
Qed.

Lemma calm_stopJpegStream serial st : calm st (stopJpegStream serial st).
Proof.
  unfold stopJpegStream. destruct (jpegStreams st !! serial) as [sid |];
    [| apply calm_refl].
  cbv zeta. eapply calm_trans; [| apply calm_setJpegStreams].
  destruct (streamObjs st !! sid) as [stream |]; [| apply calm_refl].
  eapply calm_trans; [| apply calm_fold; intros s v; apply calm_endViewer].
  assert (Hw : calm st (match cs_watchdogTimer stream with
                        | Some w => updStream sid (withWatchdogTimer None)
                                      (clearInterval w st)
                        | None => st
                        end)).
  { destruct (cs_watchdogTimer stream); [| apply calm_refl].
    eapply calm_trans; [| apply (calm_updStream _ (withWatchdogTimer _)); auto].
    apply calm_clearInterval. }
  destruct (cs_socket stream); [| exact Hw].
  eapply calm_trans; [exact Hw | apply calm_destroy].
Qed.

Lemma calm_watchdogRestart wd k now st : calm st (watchdogRestart wd k now st).
Proof.
  unfold watchdogRestart. cbv zeta.
  eapply calm_trans; [| apply calm_connectJpegStream].
  eapply calm_trans; [| apply calm_updStream; auto].
  apply calm_destroy.
Qed.

(** What the viewers see of the frames written by a chunk. *)
Lemma sendJpegFrame_viewer v frame st v' :
  streamObjs (sendJpegFrame v frame st) = streamObjs st
  /\ viewers (sendJpegFrame v frame st) !! v'
     = (fun vw => if decide (v' = v)
                  then (if v_ended vw then vw
                        else {| v_stream := v_stream vw; v_ended := false;
                                v_frames := v_frames vw ++ [frame] |})
                  else vw) <$> viewers st !! v'.
Proof.
  split; [reflexivity |]. unfold sendJpegFrame. cbn [viewers setViewers].
  destruct (decide (v' = v)) as [-> | Hne].
  - rewrite list_lookup_alter_eq. now destruct (viewers st !! v).
  - rewrite list_lookup_alter_ne by congruence. now destruct (viewers st !! v').
Qed.

Lemma sendOne_viewer frame cls v' :
  forall st vw,
    viewers st !! v' = Some vw ->
    let st' := fold_left (fun st v => sendJpegFrame v frame st) cls st in
    streamObjs st' = streamObjs st
    /\ exists vw', viewers st' !! v' = Some vw'
                   /\ v_stream vw' = v_stream vw /\ v_ended vw' = v_ended vw
                   /\ (v' ∉ cls -> vw' = vw)
                   /\ (v_ended vw = false ->
                       v' ∈ cls \/ last (v_frames vw) = Some frame ->
                       last (v_frames vw') = Some frame).
Proof.
  induction cls as [| v cls IH]; intros st vw Hv st'; subst st'; cbn [fold_left].
  - split; [reflexivity |]. exists vw. conjs; auto.
    intros _ [Hin | Hl]; [now apply elem_of_nil in Hin | exact Hl].
  - destruct (sendJpegFrame_viewer v frame st v') as [Hs Hv1]. rewrite Hv in Hv1.
    cbn [fmap option_fmap option_map] in Hv1.
    destruct (IH _ _ Hv1) as (Hs2 & vw2 & Hv2 & E1 & E2 & E3 & E4).
    split; [congruence |]. exists vw2. split; [exact Hv2 |].
    destruct (decide (v' = v)) as [-> | Hne].
    + destruct (v_ended vw) eqn:Hend.
      * split; [exact E1 |]. split; [congruence |]. split.
        -- intros Hnin. exfalso. apply Hnin. apply list_elem_of_here.
        -- discriminate.
      * cbn in E1, E2, E4. split; [exact E1 |]. split; [exact E2 |]. split.
        -- intros Hnin. exfalso. apply Hnin. apply list_elem_of_here.
        -- intros _ _. apply E4; [reflexivity |]. right. apply last_snoc.
    + split; [exact E1 |]. split; [exact E2 |]. split.
      * intros Hnin. apply E3. intros Hin. apply Hnin. now apply list_elem_of_further.
      * intros Hend [Hin | Hl]; apply E4; auto.
        apply elem_of_cons in Hin as [-> | Hin]; [congruence | auto].
Qed.

Lemma sendAll_viewer cls v' frames :
  forall st vw,
    viewers st !! v' = Some vw ->
    streamObjs (sendAll frames cls st) = streamObjs st
    /\ exists vw', viewers (sendAll frames cls st) !! v' = Some vw'
                   /\ v_stream vw' = v_stream vw /\ v_ended vw' = v_ended vw
                   /\ (v' ∉ cls \/ frames = [] -> vw' = vw)
                   /\ (v_ended vw = false -> v' ∈ cls -> frames <> [] ->
                       last (v_frames vw') = last frames).
Proof.
  unfold sendAll. induction frames as [| f frames IH]; intros st vw Hv;
    cbn [fold_left].
  - split; [reflexivity |]. exists vw. conjs; auto. congruence.
  - destruct (sendOne_viewer f cls v' st vw Hv) as (Hs1 & vw1 & Hv1 & E1 & E2 & E3 & E4).
    destruct (IH _ _ Hv1) as (Hs2 & vw2 & Hv2 & F1 & F2 & F3 & F4).
    split; [congruence |]. exists vw2. split; [exact Hv2 |].
    conjs; try congruence.
    + intros [Hnin | ?]; [| discriminate].
      rewrite (F3 (or_introl Hnin)). now apply E3.
    + intros Hend Hin _. destruct frames as [| f' frames].
      * rewrite (F3 (or_intror eq_refl)). apply E4; auto.
      * rewrite F4 by (congruence || auto). reflexivity.
Qed.

Lemma sendAll_domain cls frames v st :
  viewers (sendAll frames cls st) !! v = None -> viewers st !! v = None.
Proof.
  intros Hn. destruct (viewers st !! v) as [vw |] eqn:Hv; [| reflexivity].
  destruct (sendAll_viewer cls v frames st vw Hv) as (_ & vw' & Hv' & _). congruence.
Qed.

Lemma onJpegData_frames data sd sd' :
  onJpegData data sd = Some sd' ->
  exists frames,
    drop (length (sent sd)) (sent sd') = frames
    /\ lastFrame sd' = from_option Some (lastFrame sd) (last frames).
Proof.
  unfold onJpegData, processJpegBuffer. intros Heq.
  match type of Heq with
  | processLoop ?n ?X = _ =>
      destruct (processLoop_frames n X ltac:(lia)) as (bodies & rest & Heq' & _)
  end.
  rewrite Heq' in Heq. injection Heq as <-. cbn [sent lastFrame].
  exists (jpegSpan <$> bodies). split; [| reflexivity].
  now rewrite drop_app_length.
Qed.

Lemma sendAll_streamObjs frames cls st :
  streamObjs (sendAll frames cls st) = streamObjs st.
Proof.
  unfold sendAll. revert st.
  induction frames as [| frame frames IH]; intros st; cbn [fold_left];
    [reflexivity |].
  rewrite IH. clear. revert st.
  induction cls as [| c cls IH]; intros st; cbn [fold_left]; [reflexivity |].
  now rewrite IH.
Qed.

Lemma viewersServed_onData k data now st :
  viewersServed st -> viewersServed (onData k data now st).
Proof.
  intros Hinv. unfold onData.
  destruct (sockets st !! k) as [so |]; [| exact Hinv].
  destruct (so_status so), (so_secure so); try exact Hinv.
  destruct (streamObjs st !! so_stream so) as [stream |] eqn:Hstream; [| exact Hinv].
  destruct (onJpegData data (cs_data stream)) as [sd' |] eqn:Hsd; [| exact Hinv].
  destruct (onJpegData_frames _ _ _ Hsd) as (frames & Hframes & Hlast).
  cbv zeta. rewrite Hframes.
  set (F := fun s => withData sd' (withReceivedData true
                       (match frames with
                        | [] => s
                        | _ :: _ => withLastFrameTime now s
                        end))).
  fold (sendAll frames (cs_clients stream) (updStream (so_stream so) F st)).
  set (st1 := updStream (so_stream so) F st).
  assert (Hv1 : viewers st1 = viewers st) by reflexivity.
  intros sid s' v Hs' Hin.
  assert (Hobj : streamObjs (sendAll frames (cs_clients stream) st1) = streamObjs st1)
    by apply sendAll_streamObjs.
  rewrite Hobj in Hs'. subst st1. unfold updStream in Hs'.
  cbn [streamObjs setStreamObjs] in Hs'.
  destruct (decide (sid = so_stream so)) as [-> | Hne].
  - (* a client of the stream that received the chunk *)
    rewrite list_lookup_alter_eq, Hstream in Hs'. injection Hs' as <-.
    assert (Hin0 : v ∈ cs_clients stream) by (destruct frames; exact Hin).
    destruct (Hinv _ _ _ Hstream Hin0) as (vw & Hv & Hsid & Hserved).
    destruct (sendAll_viewer (cs_clients stream) v frames
                (updStream (so_stream so) F st) vw Hv)
      as (_ & vw' & Hv' & E1 & E2 & E3 & E4).
    exists vw'. split; [exact Hv' |]. split; [congruence |].
    intros Hend f. unfold F. cbn [cs_data withData]. rewrite Hlast.
    destruct frames as [| f0 frames].
    + rewrite (E3 (or_intror eq_refl)). cbn. apply Hserved. congruence.
    + rewrite (E4 ltac:(congruence) Hin0 ltac:(discriminate)).
      destruct (last (f0 :: frames)) eqn:El; [now intros [= <-] |].
      apply last_None in El. discriminate.
  - (* a client of another stream *)
    rewrite list_lookup_alter_ne in Hs' by congruence.
    destruct (Hinv _ _ _ Hs' Hin) as (vw & Hv & Hsid & Hserved).
    destruct (sendAll_viewer (cs_clients stream) v frames
                (updStream (so_stream so) F st) vw Hv)
      as (_ & vw' & Hv' & E1 & E2 & E3 & E4).
    assert (Hnin : v ∉ cs_clients stream).
    { intros Hin'. destruct (Hinv _ _ _ Hstream Hin') as (vw0 & Hv0 & Hsid0 & _).
      congruence. }
    rewrite (E3 (or_introl Hnin)) in Hv'. exists vw. auto.
Qed.

Lemma viewersServed_onViewerOpen serial st :
  viewersServed st -> viewersServed (onViewerOpen serial st).
Proof.
  intros Hinv. unfold onViewerOpen.
  destruct (jpegStreams st !! serial) as [sid0 |]; [| exact Hinv].
  destruct (streamObjs st !! sid0) as [stream |] eqn:Hstream; [| exact Hinv].
  cbv zeta.
  set (vnew := {| v_stream := sid0; v_ended := false; v_frames := [] |}).
  set (st1 := updStream sid0 (withClients (cs_clients stream ++ [length (viewers st)]))
                (setViewers (viewers st ++ [vnew]) st)).
  assert (Hfresh : forall sid s v, streamObjs st !! sid = Some s -> v ∈ cs_clients s ->
                                   (v < length (viewers st))%nat).
  { intros sid s v Hs Hin. destruct (Hinv _ _ _ Hs Hin) as (vw & Hv & _).
    eapply lookup_lt_Some; eauto. }
  assert (Hgoal : forall st2,
            streamObjs st2 = streamObjs st1 ->
            (forall v, v <> length (viewers st) -> viewers st2 !! v = viewers st1 !! v) ->
            (exists vw, viewers st2 !! length (viewers st) = Some vw
                        /\ v_stream vw = sid0
                        /\ forall f, lastFrame (cs_data stream) = Some f ->
                                     last (v_frames vw) = Some f) ->
            viewersServed st2).
  { intros st2 Hobj Hold Hnew sid s' v Hs' Hin. rewrite Hobj in Hs'.
    subst st1. unfold updStream in Hs'.
    cbn [streamObjs setStreamObjs setViewers] in Hs'.
    assert (Hv1 : forall v0 vw, viewers st !! v0 = Some vw ->
                                viewers st2 !! v0 = Some vw).
    { intros v0 vw Hv0. rewrite Hold.
      - unfold updStream. cbn [viewers setStreamObjs setViewers].
        now apply lookup_app_l_Some.
      - apply lookup_lt_Some in Hv0. lia. }
    destruct (decide (sid = sid0)) as [-> | Hne].
    - rewrite list_lookup_alter_eq, Hstream in Hs'. injection Hs' as <-.
      cbn [cs_clients cs_data withClients] in *.
      apply elem_of_app in Hin as [Hin | Hin].
      + destruct (Hinv _ _ _ Hstream Hin) as (vw & Hv & Hrest).
        exists vw. split; [now apply Hv1 | exact Hrest].
      + apply list_elem_of_singleton in Hin as ->.
        destruct Hnew as (vw & Hv & Hsid & Hl). exists vw. auto.
    - rewrite list_lookup_alter_ne in Hs' by congruence.
      destruct (Hinv _ _ _ Hs' Hin) as (vw & Hv & Hrest).
      exists vw. split; [now apply Hv1 | exact Hrest]. }
  assert (Hnew1 : viewers st1 !! length (viewers st) = Some vnew).
  { subst st1. unfold updStream. cbn [viewers setStreamObjs setViewers].
    apply lookup_app_new. }
  destruct (lastFrame (cs_data stream)) as [frame |] eqn:Hlast.
  - apply Hgoal.
    + reflexivity.
    + intros v Hne.
      rewrite (proj2 (sendJpegFrame_viewer (length (viewers st)) frame st1 v)).
      destruct (decide (v = length (viewers st))); [congruence |].
      now destruct (viewers st1 !! v).
    + rewrite (proj2 (sendJpegFrame_viewer (length (viewers st)) frame st1 _)).
      rewrite Hnew1. destruct (decide _); [| congruence]. cbn.
      eexists. split; [reflexivity |]. split; [reflexivity |].
      now intros f [= <-].
  - apply Hgoal; [reflexivity | auto |].
    exists vnew. split; [exact Hnew1 |]. split; [reflexivity | discriminate].
Qed.

Lemma viewersServed_camHandle e st :
  viewersServed st -> viewersServed (camHandle e st).
Proof.
  intros Hinv.
  destruct e as [serial code ip now | serial | k | k data now | k | k | t now
                 | w now | serial | v]; cbn [camHandle].
  - revert Hinv. apply calm_served, calm_startJpegStream.
  - revert Hinv. apply calm_served, calm_stopJpegStream.
  - revert Hinv. apply calm_served. unfold onSecure.
    destruct (sockets st !! k) as [so |]; [| apply calm_refl].
    destruct (so_status so), (so_secure so); try apply calm_refl.
    eapply calm_trans; [| apply calm_setSockets]. apply calm_updStream; auto.
  - now apply viewersServed_onData.
  - exact Hinv.
  - revert Hinv. apply calm_served. unfold onSockClose.
    destruct (sockets st !! k) as [so |]; [| apply calm_refl].
    assert (Hc : forall l, calm st (updStream (so_stream so) (withSocket None)
                                      (setSockets l st))).
    { intros l. eapply calm_trans; [apply calm_setSockets |].
      apply calm_updStream; auto. }
    destruct (so_status so); try apply calm_refl; cbv zeta.
    all: match goal with
         | |- context [jpegStreams ?X !! ?s] => destruct (jpegStreams X !! s)
         end; try apply Hc.
    all: eapply calm_trans; [| apply calm_setCamTimers].
    all: eapply calm_trans; [| apply (calm_updStream _ (withReconnectAttempts _)); auto].
    all: apply Hc.
  - revert Hinv. apply calm_served. unfold onCamTimer.
    destruct (camTimers st !! t) as [tm |]; [| apply calm_refl].
    destruct (ct_fired tm); [apply calm_refl |]. cbv zeta.
    destruct (jpegStreams _ !! ct_serial tm); [| apply calm_setCamTimers].
    eapply calm_trans; [| apply calm_connectJpegStream]. apply calm_setCamTimers.
  - revert Hinv. apply calm_served. unfold onWatchdog.
    destruct (watchdogs st !! w) as [wd |]; [| apply calm_refl].
    destruct (wd_cleared wd); [apply calm_refl |].
    destruct (streamObjs st !! wd_stream wd) as [stream |]; [| apply calm_refl].
    destruct (jpegStreams st !! wd_serial wd).
    2:{ destruct (cs_watchdogTimer stream);
          [apply calm_clearInterval | apply calm_refl]. }
    destruct (cs_socket stream) as [k |]; [| apply calm_refl].
    destruct (_ && _)%bool; [apply calm_watchdogRestart |].
    destruct (_ && _)%bool; [| apply calm_refl].
    cbv zeta. destruct (30000 <? _); [apply calm_watchdogRestart | apply calm_refl].
  - now apply viewersServed_onViewerOpen.
  - revert Hinv. apply calm_served. unfold onViewerClose.
    destruct (viewers st !! v) as [vw |]; [| apply calm_refl].
    apply calm_updStream; [| auto].
    intros s x Hin. cbn [cs_clients withClients] in Hin.
    apply list_elem_of_In, filter_In in Hin as [Hin _]. now apply list_elem_of_In.
Qed.

(** *** No response is attached twice *)

Lemma thinned_refl st : thinned st st.
Proof. intros sid s' H. right. eauto. Qed.

Lemma thinned_trans a b c : thinned a b -> thinned b c -> thinned a c.
Proof.
  intros A B sid s'' H. destruct (B sid s'' H) as [E | (s' & H' & Hsub)]; [auto |].
  destruct (A sid s' H') as [E | (s & H0 & Hsub0)].
  - left. rewrite E in Hsub. now apply sublist_nil_r in Hsub.
  - right. exists s. split; [exact H0 | now transitivity (cs_clients s')].
Qed.

Lemma thinned_once st st' : thinned st st' -> clientsOnce st -> clientsOnce st'.
Proof.
  intros Ht Hinv sid s' H. destruct (Ht sid s' H) as [-> | (s & H0 & Hsub)].
  - constructor.
  - eapply sublist_NoDup; [exact (Hinv sid s H0) | exact Hsub].
Qed.

Lemma thinned_same st st' : streamObjs st' = streamObjs st -> thinned st st'.
Proof. intros Hs sid s' H. rewrite Hs in H. right. eauto. Qed.

Lemma thinned_updStream sid f st :
  (forall s, cs_clients (f s) `sublist_of` cs_clients s) ->
  thinned st (updStream sid f st).
Proof.
  intros Hc sid' s'. unfold updStream. cbn [streamObjs setStreamObjs].
  destruct (decide (sid' = sid)) as [-> | Hne].
  - rewrite list_lookup_alter_eq.
    destruct (streamObjs st !! sid) as [s |]; [| discriminate].
    cbn. intros [= <-]. right. eauto.
  - rewrite list_lookup_alter_ne by congruence. intros H. right. eauto.
Qed.

Lemma thinned_fold {A} (f : Cam -> A -> Cam) (l : list A) :
  (forall st x, thinned st (f st x)) -> forall st, thinned st (fold_left f l st).
Proof.
  intros Hf. induction l as [| x l IH]; intros st; cbn [fold_left].
  - apply thinned_refl.
  - eapply thinned_trans; [apply Hf | apply IH].
Qed.

Lemma thinned_setJpegStreams m st : thinned st (setJpegStreams m st).
Proof. now apply thinned_same. Qed.

Lemma thinned_setCameraUrls m st : thinned st (setCameraUrls m st).
Proof. now apply thinned_same. Qed.

Lemma thinned_setSockets l st : thinned st (setSockets l st).
Proof. now apply thinned_same. Qed.

Lemma thinned_setCamTimers l st : thinned st (setCamTimers l st).
Proof. now apply thinned_same. Qed.

Lemma thinned_clearInterval w st : thinned st (clearInterval w st).
Proof. now apply thinned_same. Qed.

Lemma thinned_destroy k st : thinned st (destroy k st).
Proof. now apply thinned_same. Qed.

Lemma thinned_endViewer v st : thinned st (endViewer v st).
Proof. now apply thinned_same. Qed.

Lemma thinned_sendAll frames cls st : thinned st (sendAll frames cls st).
Proof. apply thinned_same, sendAll_streamObjs. Qed.

Lemma thinned_connectJpegStream serial code ip sid now st :
  thinned st (connectJpegStream serial code ip sid now st).
Proof.
  unfold connectJpegStream. cbv zeta.
  eapply thinned_trans; [| apply (thinned_updStream _ (withSocket _)); reflexivity].
  eapply thinned_trans; [| apply thinned_setSockets].
  apply thinned_updStream; reflexivity.
Qed.

Lemma thinned_startJpegStream serial code ip now st :
  thinned st (startJpegStream serial code ip now st).
Proof.
  unfold startJpegStream. destruct (jpegStreams st !! serial); [apply thinned_refl |].
  cbv zeta.
  eapply thinned_trans; [| apply thinned_setCameraUrls].
  eapply thinned_trans; [| apply thinned_connectJpegStream].
  intros sid s'. cbn [streamObjs setWatchdogs setJpegStreams setStreamObjs].
  intros H. apply lookup_app_Some in H as [H | [_ H]].
  - right. eauto.
  - apply list_lookup_singleton_Some in H as [_ <-]. now left.
Qed.

Lemma thinned_stopJpegStream serial st : thinned st (stopJpegStream serial st).
Proof.
  unfold stopJpegStream. destruct (jpegStreams st !! serial) as [sid |];
    [| apply thinned_refl].
  cbv zeta. eapply thinned_trans; [| apply thinned_setJpegStreams].
  destruct (streamObjs st !! sid) as [stream |]; [| apply thinned_refl].
  eapply thinned_trans;
    [| apply thinned_fold; intros s v; apply thinned_endViewer].
  assert (Hw : thinned st (match cs_watchdogTimer stream with
                           | Some w => updStream sid (withWatchdogTimer None)
                                         (clearInterval w st)
                           | None => st
                           end)).
  { destruct (cs_watchdogTimer stream); [| apply thinned_refl].
    eapply thinned_trans;
      [| apply (thinned_updStream _ (withWatchdogTimer _)); reflexivity].
    apply thinned_clearInterval. }
  destruct (cs_socket stream); [| exact Hw].
  eapply thinned_trans; [exact Hw | apply thinned_destroy].
Qed.

Lemma thinned_watchdogRestart wd k now st : thinned st (watchdogRestart wd k now st).
Proof.
  unfold watchdogRestart. cbv zeta.
  eapply thinned_trans; [| apply thinned_connectJpegStream].
  eapply thinned_trans; [| apply thinned_updStream; reflexivity].
  apply thinned_destroy.
Qed.

Lemma filter_sublist {A} (f : A -> bool) (l : list A) : List.filter f l `sublist_of` l.
Proof.
  induction l as [| x l IH]; cbn; [constructor |].
  destruct (f x); now constructor.
Qed.

(** Every event but the opening of a viewer attaches no response. *)
Lemma thinned_camHandle e st :
  (forall serial, e <> ViewerOpen serial) -> thinned st (camHandle e st).
Proof.
  intros Hne.
  destruct e as [serial code ip now | serial | k | k data now | k | k | t now
                 | w now | serial | v]; cbn [camHandle].
  - apply thinned_startJpegStream.
  - apply thinned_stopJpegStream.
  - unfold onSecure.
    destruct (sockets st !! k) as [so |]; [| apply thinned_refl].
    destruct (so_status so), (so_secure so); try apply thinned_refl.
    eapply thinned_trans; [| apply thinned_setSockets].
    apply thinned_updStream; reflexivity.
  - unfold onData.
    destruct (sockets st !! k) as [so |]; [| apply thinned_refl].
    destruct (so_status so), (so_secure so); try apply thinned_refl.
    destruct (streamObjs st !! so_stream so) as [stream |]; [| apply thinned_refl].
    destruct (onJpegData data (cs_data stream)) as [sd' |]; [| apply thinned_refl].
    cbv zeta.
    match goal with
    | |- thinned st (fold_left _ ?frames (updStream ?sid ?F st)) =>
        fold (sendAll frames (cs_clients stream) (updStream sid F st));
        eapply thinned_trans; [| apply thinned_sendAll];
        apply thinned_updStream; intros s; now destruct frames
    end.
  - apply thinned_refl.
  - unfold onSockClose.
    destruct (sockets st !! k) as [so |]; [| apply thinned_refl].
    assert (Hc : forall l, thinned st (updStream (so_stream so) (withSocket None)
                                         (setSockets l st))).
    { intros l. eapply thinned_trans; [apply thinned_setSockets |].
      apply thinned_updStream; reflexivity. }
    destruct (so_status so); try apply thinned_refl; cbv zeta.
    all: match goal with
         | |- context [jpegStreams ?X !! ?s] => destruct (jpegStreams X !! s)
         end; try apply Hc.
    all: eapply thinned_trans; [| apply thinned_setCamTimers].
    all: eapply thinned_trans;
           [| apply (thinned_updStream _ (withReconnectAttempts _)); reflexivity].
    all: apply Hc.
  - unfold onCamTimer.
    destruct (camTimers st !! t) as [tm |]; [| apply thinned_refl].
    destruct (ct_fired tm); [apply thinned_refl |]. cbv zeta.
    destruct (jpegStreams _ !! ct_serial tm); [| apply thinned_setCamTimers].
    eapply thinned_trans; [| apply thinned_connectJpegStream].
    apply thinned_setCamTimers.
  - unfold onWatchdog.
    destruct (watchdogs st !! w) as [wd |]; [| apply thinned_refl].
    destruct (wd_cleared wd); [apply thinned_refl |].
    destruct (streamObjs st !! wd_stream wd) as [stream |]; [| apply thinned_refl].
    destruct (jpegStreams st !! wd_serial wd).
    2:{ destruct (cs_watchdogTimer stream);
          [apply thinned_clearInterval | apply thinned_refl]. }
    destruct (cs_socket stream) as [k |]; [| apply thinned_refl].
    destruct (_ && _)%bool; [apply thinned_watchdogRestart |].
    destruct (_ && _)%bool; [| apply thinned_refl].
    cbv zeta. destruct (30000 <? _); [apply thinned_watchdogRestart | apply thinned_refl].
  - exfalso. now apply (Hne serial).
  - unfold onViewerClose.
    destruct (viewers st !! v) as [vw |]; [| apply thinned_refl].
    apply thinned_updStream. intros s. cbn [cs_clients withClients].
    apply filter_sublist.
Qed.

(** What [GET /stream/:serial] does when the serial has a stream: the
    new response is attached last and gets the cached frame. *)
Lemma onViewerOpen_spec serial sid stream st :
  jpegStreams st !! serial = Some sid ->
  streamObjs st !! sid = Some stream ->
  let st' := onViewerOpen serial st in
  let v := length (viewers st) in
  viewers st' !! v
  = Some {| v_stream := sid; v_ended := false;
            v_frames := match lastFrame (cs_data stream) with
                        | Some f => [f]
                        | None => []
                        end |}
  /\ streamObjs st'
     = alter (withClients (cs_clients stream ++ [v])) sid (streamObjs st).
Proof.
  intros Hj Hs st' v. subst st' v. unfold onViewerOpen. rewrite Hj, Hs. cbv zeta.
  set (vnew := {| v_stream := sid; v_ended := false; v_frames := [] |}).
  set (st1 := updStream sid (withClients (cs_clients stream ++ [length (viewers st)]))
                (setViewers (viewers st ++ [vnew]) st)).
  assert (Hnew1 : viewers st1 !! length (viewers st) = Some vnew).
  { subst st1. unfold updStream. cbn [viewers setStreamObjs setViewers].
    apply lookup_app_new. }
  destruct (lastFrame (cs_data stream)) as [frame |].
  - destruct (sendJpegFrame_viewer (length (viewers st)) frame st1
                (length (viewers st))) as [-> ->].
    rewrite Hnew1. destruct (decide _); [| congruence]. split; reflexivity.
  - split; [exact Hnew1 | reflexivity].
Qed.

Lemma clientsOnce_camHandle e st :
  viewersServed st -> clientsOnce st -> clientsOnce (camHandle e st).
Proof.
  intros Hserved Hinv.
  assert (He : (exists serial, e = ViewerOpen serial)
               \/ forall serial, e <> ViewerOpen serial).
  { destruct e; try (right; discriminate). left. eauto. }
  destruct He as [[serial ->] | Hne].
  2:{ revert Hinv. now apply thinned_once, thinned_camHandle. }
  cbn [camHandle].
  destruct (jpegStreams st !! serial) as [sid |] eqn:Hj;
    [| unfold onViewerOpen; now rewrite Hj].
  destruct (streamObjs st !! sid) as [stream |] eqn:Hs;
    [| unfold onViewerOpen; now rewrite Hj, Hs].
  destruct (onViewerOpen_spec serial sid stream st Hj Hs) as [_ Hobj].
  intros sid' s'. rewrite Hobj.
  destruct (decide (sid' = sid)) as [-> | Hd].
  - rewrite list_lookup_alter_eq, Hs. cbn. intros [= <-].
    cbn [cs_clients withClients]. apply NoDup_app.
    split; [exact (Hinv sid stream Hs) |]. split; [| apply NoDup_singleton].
    intros x Hin ->%list_elem_of_singleton.
    destruct (Hserved _ _ _ Hs Hin) as (vw & Hv & _).
    apply lookup_lt_Some in Hv. lia.
  - rewrite list_lookup_alter_ne by congruence. apply Hinv.
Qed.

(** Every frame of a chunk reaches a response that is attached once and
    was not ended, in the order of the frames. *)
Lemma sendOne_frames frame cls v :
  forall st vw,
    NoDup cls -> v ∈ cls -> viewers st !! v = Some vw -> v_ended vw = false ->
    viewers (fold_left (fun st v => sendJpegFrame v frame st) cls st) !! v
    = Some {| v_stream := v_stream vw; v_ended := false;
              v_frames := v_frames vw ++ [frame] |}.
Proof.
  induction cls as [| c cls IH]; intros st vw Hnd Hin Hv Hend; cbn [fold_left];
    [now apply elem_of_nil in Hin |].
  apply NoDup_cons in Hnd as [Hc Hnd].
  destruct (sendJpegFrame_viewer c frame st v) as [_ Hv1]. rewrite Hv in Hv1.
  cbn [fmap option_fmap option_map] in Hv1.
  destruct (decide (v = c)) as [-> | Hne].
  - rewrite Hend in Hv1.
    destruct (sendOne_viewer frame cls c _ _ Hv1) as (_ & vw' & Hv' & _ & _ & E3 & _).
    now rewrite Hv', (E3 Hc).
  - apply elem_of_cons in Hin as [-> | Hin]; [congruence |].
    now apply IH.
Qed.

Lemma sendAll_frames frames cls v :
  forall st vw,
    NoDup cls -> v ∈ cls -> viewers st !! v = Some vw -> v_ended vw = false ->
    viewers (sendAll frames cls st) !! v
    = Some {| v_stream := v_stream vw; v_ended := false;
              v_frames := v_frames vw ++ frames |}.
Proof.
  unfold sendAll. induction frames as [| f frames IH]; intros st vw Hnd Hin Hv Hend;
    cbn [fold_left].
  - rewrite Hv, app_nil_r. f_equal. destruct vw; cbn in *. now subst.
  - rewrite (IH _ _ Hnd Hin (sendOne_frames f cls v st vw Hnd Hin Hv Hend) eq_refl).
    cbn [v_stream v_frames]. now rewrite <- app_assoc.
Qed.

Lemma onData_frames k so data now sid stream v vw st :
  clientsOnce st ->
  sockets st !! k = Some so -> so_status so = SockOpen -> so_secure so = true ->
  so_stream so = sid ->
  streamObjs st !! sid = Some stream -> v ∈ cs_clients stream ->
  viewers st !! v = Some vw -> v_ended vw = false ->
  viewers (onData k data now st) !! v
  = Some {| v_stream := v_stream vw; v_ended := false;
            v_frames := v_frames vw ++ extracted data (cs_data stream) |}.
Proof.
  intros Hinv Hk Hopen Hsec <- Hs Hin Hv Hend.
  unfold onData, extracted. rewrite Hk, Hopen, Hsec, Hs.
  destruct (onJpegData data (cs_data stream)) as [sd' |].
  - cbv zeta.
    match goal with
    | |- viewers (fold_left _ ?frames (updStream ?sid ?F st)) !! v = _ =>
        fold (sendAll frames (cs_clients stream) (updStream sid F st));
        apply sendAll_frames; auto
    end.
    exact (Hinv _ _ Hs).
  - rewrite Hv, app_nil_r. f_equal. destruct vw; cbn in *. now subst.
Qed.

Lemma camInvariants_run es :
  forall st, viewersServed st -> clientsOnce st ->
    viewersServed (camRun es st) /\ clientsOnce (camRun es st).
Proof.
  unfold camRun. induction es as [| e es IH]; intros st H1 H2; cbn [fold_left];
    [auto |].
  apply IH; [now apply viewersServed_camHandle | now apply clientsOnce_camHandle].
Qed.

(** X17.  In every state reached from the start, each response attached
    to a stream object belongs to that object, and unless it was ended
    the last frame written to it is the frame the stream has cached.  A
    chunk of data on the open socket of the stream writes every frame it
    completes to each such response, once and in the order of the
    frames; and a response that is opened for a serial with a stream is
    attached to it and gets the cached frame at once.  So a viewer gets
    the cached frame when it attaches and every frame extracted
    afterwards, whatever the sockets, timers and watchdogs do in
    between. *)
Theorem viewers_hold_cached_frame (ip : string) (es : list CamEvent) :
  let st := camRun es (initCam ip) in
  (forall sid stream v,
     streamObjs st !! sid = Some stream -> v ∈ cs_clients stream ->
     exists vw,
       viewers st !! v = Some vw
       /\ v_stream vw = sid
       /\ (v_ended vw = false ->
           (forall f, lastFrame (cs_data stream) = Some f ->
                      last (v_frames vw) = Some f)
           /\ forall k so data now,
                sockets st !! k = Some so -> so_status so = SockOpen ->
                so_secure so = true -> so_stream so = sid ->
                viewers (camHandle (SockData k data now) st) !! v
                = Some {| v_stream := sid; v_ended := false;
                          v_frames := v_frames vw
                                      ++ extracted data (cs_data stream) |}))
  /\ (forall serial sid stream,
        jpegStreams st !! serial = Some sid ->
        streamObjs st !! sid = Some stream ->
        let st' := camHandle (ViewerOpen serial) st in
        let v := length (viewers st) in
        viewers st' !! v
        = Some {| v_stream := sid; v_ended := false;
                  v_frames := match lastFrame (cs_data stream) with
                              | Some f => [f]
                              | None => []
                              end |}
        /\ exists stream', streamObjs st' !! sid = Some stream'
                           /\ cs_clients stream' = cs_clients stream ++ [v]).
Proof.
  intros st.
  destruct (camInvariants_run es (initCam ip)) as [Hserved Honce].
  { intros s x y Hs. discriminate. }
  { intros s x Hs. discriminate. }
  fold st in Hserved, Honce. split.
  - intros sid stream v Hs Hin.
    destruct (Hserved sid stream v Hs Hin) as (vw & Hv & Hsid & Hlast).
    exists vw. split; [exact Hv |]. split; [exact Hsid |].
    intros Hend. split; [now apply Hlast |].
    intros k so data now Hk Hopen Hsec Hstream. cbn [camHandle].
    rewrite (onData_frames k so data now sid stream v vw st Honce Hk Hopen Hsec
               Hstream Hs Hin Hv Hend).
    now rewrite Hsid.
  - intros serial sid stream Hj Hs st' v. subst st' v. cbn [camHandle].
    destruct (onViewerOpen_spec serial sid stream st Hj Hs) as [Hv Hobj].
    split; [exact Hv |]. rewrite Hobj, list_lookup_alter_eq, Hs. cbn. eauto.
Qed.

Lemma viewers_hold_cached_frame_witness :
  let st := camRun [CamStart (serialNumber demoPrinter) (accessCode demoPrinter)
                      (ipAddress demoPrinter) 1000;
                    SockSecure 0%nat; ViewerOpen (serialNumber demoPrinter);
                    SockData 0%nat (jpegSpan sampleBody1) 2000]
                   (initCam "192.168.1.2") in
  exists stream vw,
    streamObjs st !! 0%nat = Some stream
    /\ 0%nat ∈ cs_clients stream
    /\ viewers st !! 0%nat = Some vw
    /\ last (v_frames vw) = Some (jpegSpan sampleBody1).
Proof.
  intros st.
  destruct (streamObjs st !! 0%nat) as [stream |] eqn:Hstream;
    [| vm_compute in Hstream; discriminate].
  assert (Hfields : 0%nat ∈ cs_clients stream
                    /\ lastFrame (cs_data stream) = Some (jpegSpan sampleBody1)).
  { vm_compute in Hstream. injection Hstream as <-. split.
    - apply list_elem_of_here.
    - reflexivity. }
  destruct Hfields as [Hin Hlast].
  destruct (proj1 (viewers_hold_cached_frame "192.168.1.2" _) 0%nat stream 0%nat
              Hstream Hin) as (vw & Hv & _ & Hserved).
  exists stream, vw. split; [reflexivity |]. split; [exact Hin |].
  split; [exact Hv |]. apply Hserved; [| exact Hlast].
  fold st in Hv. vm_compute in Hv. now injection Hv as <-.
Defined.

(** *** Streams of the other models *)

Lemma startJpegStream_relay serial code ip now st :
  let st' := startJpegStream serial code ip now st in
  pendingStreams st' = pendingStreams st
  /\ go2rtcReady st' = go2rtcReady st
  /\ relayPuts st' = relayPuts st
  /\ cameraStreams st' = cameraStreams st
  /\ tunnelUrl st' = tunnelUrl st
  /\ localIp st' = localIp st
  /\ forall s, is_Some (cameraUrls st !! s) -> is_Some (cameraUrls st' !! s).
Proof.
  intros st'. subst st'. unfold startJpegStream.
  destruct (jpegStreams st !! serial); [conjs; auto |].
  cbv zeta. conjs; try reflexivity.
  intros s Hs. cbn [cameraUrls setCameraUrls].
  apply lookup_insert_is_Some'. right. exact Hs.
Qed.

(** One call of [addCameraStream], by the kind of the model and the state
    of the relay. *)
Lemma addCamera_relay now st s :
  let st' := addCamera now st s in
  go2rtcReady st' = go2rtcReady st
  /\ tunnelUrl st' = tunnelUrl st
  /\ localIp st' = localIp st
  /\ (forall x, is_Some (cameraUrls st !! x) -> is_Some (cameraUrls st' !! x))
  /\ (forall x, is_Some (cameraStreams st !! x) -> is_Some (cameraStreams st' !! x))
  /\ (go2rtcReady st = false ->
      pendingStreams st' = pendingStreams st ++ (if viaRelay s then [s] else [])
      /\ relayPuts st' = relayPuts st)
  /\ (go2rtcReady st = true ->
      pendingStreams st' = pendingStreams st
      /\ relayPuts st' = relayPuts st ++ (if viaRelay s then [relayPut s] else [])
      /\ (viaRelay s = true ->
          cameraStreams st' !! streamName (ps_serial s)
          = Some (rtspUrl (ps_accessCode s) (ps_ip s))
          /\ cameraUrls st' !! ps_serial s
             = Some (baseUrl st ++ "/api/stream.mjpeg?src="
                     ++ streamName (ps_serial s))%string)).
Proof.
  intros st'. subst st'. unfold addCamera, addCameraStream, viaRelay.
  destruct (isA1P1Model (ps_model s)) eqn:Hm; cbn [negb].
  - destruct (startJpegStream_relay (ps_serial s) (ps_accessCode s) (ps_ip s) now st)
      as (Hp & Hg & Hr & Hc & Ht & Hl & Hu).
    split; [exact Hg |]. split; [exact Ht |]. split; [exact Hl |].
    split; [exact Hu |]. split; [intros x Hx; now rewrite Hc |]. split.
    + intros Hoff. rewrite Hp, Hr, app_nil_r. split; reflexivity.
    + intros Hon. rewrite Hp, Hr, app_nil_r.
      split; [reflexivity |]. split; [reflexivity |]. discriminate.
  - destruct (go2rtcReady st) eqn:Hready; cbn [negb].
    + cbv zeta. conjs; try reflexivity; try discriminate; try exact Hready.
      * intros x Hx. cbn [cameraUrls setRelayPuts setCameraUrls setCameraStreams].
        apply lookup_insert_is_Some'. now right.
      * intros x Hx. cbn [cameraStreams setRelayPuts setCameraUrls setCameraStreams].
        apply lookup_insert_is_Some'. now right.
      * intros _. conjs; try reflexivity. intros _.
        cbn [cameraStreams cameraUrls setRelayPuts setCameraUrls setCameraStreams].
        rewrite !lookup_insert_eq. split; reflexivity.
    + conjs; try reflexivity; auto; try discriminate; try exact Hready.
      intros _. split; [| reflexivity]. now destruct s.
Qed.

Lemma addCameras_ready now calls :
  forall st,
    go2rtcReady st = true ->
    let st' := fold_left (addCamera now) calls st in
    go2rtcReady st' = true
    /\ pendingStreams st' = pendingStreams st
    /\ baseUrl st' = baseUrl st
    /\ relayPuts st' = relayPuts st ++ (relayPut <$> List.filter viaRelay calls)
    /\ (forall x, is_Some (cameraUrls st !! x) -> is_Some (cameraUrls st' !! x))
    /\ (forall x, is_Some (cameraStreams st !! x) -> is_Some (cameraStreams st' !! x))
    /\ forall s, s ∈ calls -> viaRelay s = true ->
         is_Some (cameraStreams st' !! streamName (ps_serial s))
         /\ is_Some (cameraUrls st' !! ps_serial s).
Proof.
  induction calls as [| c calls IH]; intros st Hready st'; subst st'; cbn [fold_left].
  - conjs; auto; [now rewrite app_nil_r |]. intros s Hin. now apply elem_of_nil in Hin.
  - destruct (addCamera_relay now st c) as (Hg & Ht & Hl & Hu & Hc & _ & Hon).
    destruct (Hon Hready) as (Hp & Hr & Hset).
    destruct (IH (addCamera now st c) ltac:(congruence))
      as (Hg' & Hp' & Hb' & Hr' & Hu' & Hc' & Hall').
    conjs; auto.
    + congruence.
    + rewrite Hb'. unfold baseUrl. now rewrite Ht, Hl.
    + rewrite Hr', Hr. cbn [List.filter].
      destruct (viaRelay c); cbn; now rewrite <- app_assoc.
    + intros s [-> | Hin]%elem_of_cons Hvia; [| now apply Hall'].
      destruct (Hset Hvia) as [Hcs Hcu].
      split; [apply Hc' | apply Hu']; eauto.
Qed.







(** X19.  When the tunnel reports its address, every printer of the
    registry gets its camera URL behind the tunnel, by the kind of its
    model, and the URLs of other serials stay; the URL is the one
    [addCameraStream] gives the printer from then on, so that a later
    reconnect of the printer does not change it. *)
Theorem tunnel_urls_agree (url : string) (prs : gmap string Snapshot) (st : Cam)
    (serial code ip : string) (pr : Snapshot) (now : Z) :
  url <> ""%string ->
  prs !! serial = Some pr ->
  let m := match descr pr with Some d => model d | None => None end in
  let st' := onTunnelUrl url prs st in
  cameraUrls st' !! serial = Some (tunnelCameraUrl url serial m)
  /\ (forall other, prs !! other = None ->
                    cameraUrls st' !! other = cameraUrls st !! other)
  /\ cameraUrls (addCameraStream serial code ip m now st') !! serial
     = Some (tunnelCameraUrl url serial m).
Proof.
  intros Hurl Hpr m st'.
  assert (Hset : cameraUrls st' !! serial = Some (tunnelCameraUrl url serial m)).
  { subst st'. unfold onTunnelUrl. cbv zeta. cbn [cameraUrls setCameraUrls].
    apply lookup_union_Some_l. rewrite map_lookup_imap, Hpr. reflexivity. }
  assert (Hbase : baseUrl st' = url).
  { subst st'. unfold baseUrl, onTunnelUrl. cbv zeta. cbn [tunnelUrl setCameraUrls setTunnelUrl].
    destruct (String.eqb_spec url ""); congruence. }
  split; [exact Hset |]. split.
  - intros other Hother. subst st'. unfold onTunnelUrl. cbv zeta.
    cbn [cameraUrls setCameraUrls setTunnelUrl].
    apply lookup_union_r. now rewrite map_lookup_imap, Hother.
  - unfold addCameraStream, tunnelCameraUrl in *.
    destruct (isA1P1Model m) eqn:Hm.
    + unfold startJpegStream.
      destruct (jpegStreams st' !! serial); [exact Hset |]. cbv zeta.
      cbn [cameraUrls setCameraUrls]. rewrite lookup_insert_eq.
      match goal with
      | |- context [baseUrl ?X] => change (baseUrl X) with (baseUrl st')
      end.
      now rewrite Hbase.
    + destruct (go2rtcReady st'); cbn [negb]; [| exact Hset].
      cbv zeta. cbn [cameraUrls setRelayPuts setCameraUrls].
      rewrite lookup_insert_eq.
      match goal with
      | |- context [baseUrl ?X] => change (baseUrl X) with (baseUrl st')
      end.
      rewrite Hbase. reflexivity.
Qed.

Lemma tunnel_urls_agree_witness :
  let url := "https://vafrum-demo.trycloudflare.com"%string in
  let serial := serialNumber demoPrinter in
  let st' := onTunnelUrl url {[ serial := printingSnapshot ]} (initCam "192.168.1.2") in
  cameraUrls st' !! serial
  = Some "https://vafrum-demo.trycloudflare.com/stream/01P00A123456789"%string
  /\ cameraUrls (addCameraStream serial (accessCode demoPrinter)
                   (ipAddress demoPrinter) (model demoPrinter) 5000 st') !! serial
     = cameraUrls st' !! serial.
Proof.
  intros url serial st'.
  assert (Hpr : ({[ serial := printingSnapshot ]} : gmap string Snapshot) !! serial
                = Some printingSnapshot) by apply lookup_singleton_eq.
  destruct (tunnel_urls_agree url _ (initCam "192.168.1.2") serial
              (accessCode demoPrinter) (ipAddress demoPrinter) printingSnapshot 5000
              ltac:(discriminate) Hpr) as (H1 & _ & H2).
  split; [exact H1 |]. fold st' in H1. rewrite H1. exact H2.
Defined.

(** ** The window *)

Lemma trimLog_drop fuel :
  forall l, (length l - 100 < fuel)%nat ->
    trimLog fuel l = Some (drop (length l - 100) l).
Proof.
  induction fuel as [| fuel IH]; intros l Hlen; [lia |].
  cbn [trimLog]. destruct (100 <? length l)%nat eqn:Hbig.
  - apply Nat.ltb_lt in Hbig. destruct l as [| x l]; [cbn in Hbig; lia |].
    cbn [tail length] in *. rewrite IH by lia.
    replace (S (length l) - 100)%nat with (S (length l - 100)) by lia.
    reflexivity.
  - apply Nat.ltb_ge in Hbig. replace (length l - 100)%nat with 0%nat by lia.
    reflexivity.
Qed.

Lemma addLog_drop time msg type l :
  addLog time msg type l
  = Some (drop (length l + 1 - 100)
            (l ++ [{| le_time := time; le_msg := msg; le_type := type |}])).
Proof.
  unfold addLog. cbv zeta. rewrite trimLog_drop by lia.
  now rewrite length_app.
Qed.

(** X20.  [addLog] always returns, and the log area shows the most
    recent lines only: after any number of calls it holds the last 100 of
    all lines written, in the order written (all of them while there are
    at most 100). *)
Theorem addLog_keeps_last_100 (entries : list LogEntry) (l0 : list LogEntry) :
  fold_left (fun acc e => acc ≫= addLog (le_time e) (le_msg e) (le_type e))
            entries (Some l0)
  = Some (if entries is [] then l0
          else drop (length (l0 ++ entries) - 100) (l0 ++ entries)).
Proof.
  revert l0. induction entries as [| e entries IH]; intros l0; [reflexivity |].
  cbn [fold_left mbind option_bind]. rewrite addLog_drop.
  assert (He : {| le_time := le_time e; le_msg := le_msg e; le_type := le_type e |} = e)
    by now destruct e.
  rewrite He, IH. f_equal.
  destruct entries as [| e' entries].
  - now rewrite length_app.
  - set (rest := e' :: entries).
    change (l0 ++ e :: rest) with (l0 ++ [e] ++ rest).
    rewrite (app_assoc l0 [e] rest).
    set (l := l0 ++ [e]).
    replace (length l0 + 1)%nat with (length l) by (subst l; now rewrite length_app).
    set (d := (length l - 100)%nat).
    assert (Hd : drop d (l ++ rest) = drop d l ++ rest) by (apply drop_app_le; lia).
    rewrite <- Hd, drop_drop. f_equal.
    rewrite length_drop, !length_app. lia.
Qed.

(** The buttons of a card are those of the five commands. *)
Lemma shownButtons_known (p : Snapshot) (cmd : string) :
  cmd ∈ shownButtons p ->
  cmd = "pause"%string \/ cmd = "resume"%string \/ cmd = "stop"%string
  \/ cmd = "light"%string \/ cmd = "home"%string.
Proof.
  intros Hin. unfold shownButtons in Hin. cbv zeta in Hin.
  apply elem_of_app in Hin as [Hin | Hin].
  - destruct (_ || _)%bool; [| now apply elem_of_nil in Hin].
    apply elem_of_app in Hin as [Hin | Hin].
    + destruct (is_str "RUNNING" _); [| now apply elem_of_nil in Hin].
      apply list_elem_of_singleton in Hin. auto.
    + apply elem_of_app in Hin as [Hin | Hin].
      * destruct (is_str "PAUSE" _); [| now apply elem_of_nil in Hin].
        apply list_elem_of_singleton in Hin. auto.
      * apply list_elem_of_singleton in Hin. auto.
  - destruct (truthy _); [| now apply elem_of_nil in Hin].
    apply elem_of_cons in Hin as [Hin | Hin]; [auto |].
    apply list_elem_of_singleton in Hin. auto 10.
Qed.

(** X21.  Every button shown on the card of a printer sends a command
    the main process knows: the click handler builds a command for it,
    and when a session is registered for the serial [executeCommand]
    publishes exactly one message for it, through that session and on
    the request topic of the printer, whatever the model and the state of
    the light switch.  When no session is registered, nothing is
    published; the card of a printer that is offline while its state is
    RUNNING still shows the buttons for pause and stop. *)
Theorem shown_buttons_publish (p : Snapshot) (st : State) (serial cmd : string)
    (lit : bool) :
  cmd ∈ shownButtons p ->
  (exists c,
     buttonCommand cmd lit = Some c
     /\ (forall client, mqttClients st !! serial = Some client ->
           exists pl, outbox (executeCommand serial c st)
                      = outbox st ++ [(client, requestTopic serial, pl)]
                      /\ lineTerminated pl)
     /\ (mqttClients st !! serial = None ->
         outbox (executeCommand serial c st) = outbox st))
  /\ (truthy (online p) = false -> is_str "RUNNING" (gcodeState p) = true ->
      shownButtons p = ["pause"; "stop"]%string).
Proof.
  intros Hin. split.
  - assert (Hone : exists c pl,
               buttonCommand cmd lit = Some c
               /\ lineTerminated pl
               /\ forall m, published (translate serial m c) = [pl]).
    { destruct (shownButtons_known p cmd Hin) as [-> | [-> | [-> | [-> | ->]]]];
        eexists _, _; (split; [reflexivity |]);
        (split; [| intros m; reflexivity]); cbn; auto. }
    destruct Hone as (c & pl & Hc & Hterm & Hpub). exists c.
    split; [exact Hc |]. split.
    + intros client Hreg. exists pl. split; [| exact Hterm].
      unfold executeCommand. cbv zeta. cbn [mqttClients sendLog]. rewrite Hreg.
      match goal with
      | |- outbox (fold_left _ ?effs ?st0) = _ =>
          destruct (performs_traffic client (requestTopic serial) effs st0)
            as (_ & Ho & _)
      end.
      rewrite Ho, Hpub. reflexivity.
    + intros Hreg. unfold executeCommand. cbv zeta. cbn [mqttClients sendLog].
      rewrite Hreg. reflexivity.
  - intros Hoff Hrun. unfold shownButtons. cbv zeta. rewrite Hoff, Hrun.
    destruct (gcodeState p) as [| | | | g]; try discriminate.
    cbn [is_str] in Hrun. apply String.eqb_eq in Hrun. subst g. reflexivity.
Qed.

Lemma shown_buttons_publish_witness :
  let st := @run decimal_builtins [PrinterAdd demoPrinter; ClientConnect 0%nat] init in
  "pause"%string ∈ shownButtons printingSnapshot
  /\ exists c,
       buttonCommand "pause" false = Some c
       /\ exists pl, outbox (executeCommand (serialNumber demoPrinter) c st)
                     = outbox st ++ [(0%nat, requestTopic (serialNumber demoPrinter), pl)]
                     /\ lineTerminated pl.
Proof.
  intros st.
  assert (Hin : "pause"%string ∈ shownButtons printingSnapshot)
    by apply list_elem_of_here.
  split; [exact Hin |].
  destruct (shown_buttons_publish printingSnapshot st (serialNumber demoPrinter)
              "pause" false Hin) as [(c & Hc & Hyes & _) _].
  exists c. split; [exact Hc |].
  apply Hyes. vm_compute. reflexivity.
Defined.

(** ** Leaving the cloud *)

Lemma endAll_spec (st : State) (m : gmap string nat) :
  let r := map_fold (fun _ c st => endClient c st) st m in
  endedOnly st r
  /\ forall c cl, clients st !! c = Some cl ->
       exists cl', clients r !! c = Some cl'
                   /\ (cl' = cl
                       \/ (c_phase cl <> Closed
                           /\ cl' = {| c_printer := c_printer cl; c_phase := Ending |}))
                   /\ ((exists s, m !! s = Some c) -> c_phase cl <> Closed ->
                       cl' = {| c_printer := c_printer cl; c_phase := Ending |}).
Proof.
  cbv zeta.
  apply (map_fold_weak_ind
           (fun r m =>
              endedOnly st r
              /\ forall c cl, clients st !! c = Some cl ->
                   exists cl', clients r !! c = Some cl'
                               /\ (cl' = cl
                                   \/ (c_phase cl <> Closed
                                       /\ cl' = {| c_printer := c_printer cl;
                                                   c_phase := Ending |}))
                               /\ ((exists s, m !! s = Some c) ->
                                   c_phase cl <> Closed ->
                                   cl' = {| c_printer := c_printer cl;
                                            c_phase := Ending |}))).
  - split; [unfold endedOnly; conjs; reflexivity |].
    intros c cl Hc. exists cl. conjs; auto.
    intros [s Hs]. now rewrite lookup_empty in Hs.
  - intros i x m' r Hi [Hsame IH]. split.
    + unfold endClient. destruct (clients r !! x) as [clx |]; [| exact Hsame].
      destruct (c_phase clx); try exact Hsame;
        destruct Hsame as (? & ? & ? & ? & ? & ? & ? & ? & ? & Hlen);
        unfold endedOnly; cbn [mqttClients printers printerDataCache
                               printerReconnectTimers reconnectAttempts
                               mqttErrorThrottle timers outbox log clients setPhase];
        rewrite ?length_alter; conjs; assumption.
    + intros c cl Hc. destruct (IH c cl Hc) as (cl' & Hcl' & Hor & Himp).
      destruct (decide (c = x)) as [-> | Hne].
      * unfold endClient. rewrite Hcl'.
        destruct (c_phase cl') eqn:Hph'.
        1-3: cbn [clients setPhase]; rewrite list_lookup_alter_eq, Hcl'; cbn;
          eexists; split; [reflexivity |];
          assert (Hp : c_phase cl <> Closed)
            by (destruct Hor as [-> | [? _]]; congruence);
          assert (He : c_printer cl' = c_printer cl)
            by (destruct Hor as [-> | [_ ->]]; reflexivity);
          rewrite He; split; [right; auto | auto].
        exists cl'. split; [exact Hcl' |].
        assert (Heq : cl' = cl) by (destruct Hor as [-> | [_ ->]]; [reflexivity | discriminate]).
        subst cl'. split; [now left |]. intros _ Hp. congruence.
      * assert (Hsame' : clients (endClient x r) !! c = clients r !! c).
        { unfold endClient. destruct (clients r !! x) as [clx |]; [| reflexivity].
          destruct (c_phase clx); try reflexivity; cbn [clients setPhase];
            now rewrite list_lookup_alter_ne by congruence. }
        exists cl'. rewrite Hsame'. split; [exact Hcl' |]. split; [exact Hor |].
        intros [s Hs]. apply Himp. exists s.
        destruct (decide (i = s)) as [-> | Hns].
        -- rewrite lookup_insert_eq in Hs. congruence.
        -- now rewrite lookup_insert_ne in Hs.
Qed.

(** X22.  Leaving the cloud does not end the sessions for good: in every
    reachable state [disconnectApi] ends the registered clients and
    empties the session registry and the printer registry, but keeps the
    cached descriptors; so when an ended client closes, a reconnect is
    scheduled for its serial as after any loss, and when that timer
    fires a new connection attempt is made with the cached descriptor. *)
Theorem disconnect_does_not_stop_reconnect `{!JsBuiltins} (es : list Event)
    (serial : string) (c : nat) :
  let st := run es init in
  mqttClients st !! serial = Some c ->
  let st1 := disconnectApi st in
  let st2 := handle (ClientClose c) st1 in
  let t := length (timers st) in
  let st3 := handle (TimerFire t) st2 in
  mqttClients st1 = ∅
  /\ printers st1 = ∅
  /\ printerDataCache st1 = printerDataCache st
  /\ c_phase <$> clients st1 !! c = Some Ending
  /\ printerReconnectTimers st2 !! serial = Some t
  /\ t_status <$> timers st2 !! t = Some Pending
  /\ exists cached,
       printerDataCache st !! serial = Some cached
       /\ clients st3 = clients st2 ++ [{| c_printer := cached; c_phase := Connecting |}].
Proof.
  intros st Hreg st1 st2 t st3.
  destruct (registeredLive_run es init registeredLive_init serial c Hreg)
    as (cl & Hcl & Hph & Hs).
  destruct (clientsCached_run es init clientsCached_init c cl Hcl) as [cached Hcached].
  rewrite Hs in Hcached.
  assert (Hkey : serialNumber cached = serial).
  { destruct (keyed_run es init keyed_init) as [Hk _]. exact (Hk _ _ Hcached). }
  destruct (endAll_spec st (mqttClients st))
    as ((_ & _ & Hd & Hr & Ha & _ & Ht & _) & Hcls).
  set (r := map_fold (fun _ c st => endClient c st) st (mqttClients st)) in *.
  destruct (Hcls c cl Hcl) as (cl' & Hcl' & _ & Hend).
  specialize (Hend ltac:(eauto) ltac:(congruence)). subst cl'.
  assert (Hcl1 : clients st1 !! c = Some {| c_printer := c_printer cl; c_phase := Ending |})
    by exact Hcl'.
  assert (Hd1 : printerDataCache st1 = printerDataCache st) by exact Hd.
  assert (Ht1 : timers st1 = timers st) by exact Ht.
  assert (Hr1 : printerReconnectTimers st1 = printerReconnectTimers st) by exact Hr.
  assert (Hm1 : mqttClients st1 = ∅) by reflexivity.
  split; [exact Hm1 |]. split; [reflexivity |]. split; [exact Hd1 |].
  split; [now rewrite Hcl1 |].
  destruct (onClose_fields st1 c _ cached Hcl1 ltac:(discriminate)
              ltac:(cbn [c_printer]; rewrite Hs, Hd1; exact Hcached))
    as (Hm2 & _ & Hd2 & Ht2 & Hr2 & _ & Hcl2).
  cbn [c_printer] in Hm2, Ht2, Hr2. rewrite Hs in Hm2, Ht2, Hr2.
  change (onClose c st1) with st2 in Hm2, Hd2, Ht2, Hr2, Hcl2.
  rewrite Ht1 in Ht2, Hr2. fold t in Hr2.
  split; [rewrite Hr2; apply lookup_insert_eq |].
  assert (Htm : timers st2 !! t
                = Some {| t_serial := serial; t_cached := cached;
                          t_delay := reconnectDelay
                                       (default 0%nat (reconnectAttempts st1 !! serial));
                          t_status := Pending |})
    by (rewrite Ht2; apply lookup_app_new).
  split; [now rewrite Htm |].
  exists cached. split; [exact Hcached |].
  subst st3. cbn [handle]. unfold onTimer. rewrite Htm. cbv zeta.
  cbn [t_status t_serial t_cached mqttClients setReconnectTimers setTimerStatus].
  assert (Hnone : mqttClients st2 !! serial = None).
  { rewrite Hm2, Hm1. apply lookup_delete_None. right. apply lookup_empty. }
  rewrite Hnone, clients_connectPrinter.
  cbn [mqttClients clients setReconnectTimers setTimerStatus].
  now rewrite Hkey, Hnone.
Qed.

Lemma disconnect_does_not_stop_reconnect_witness :
  let st := @run decimal_builtins [PrinterAdd demoPrinter; ClientConnect 0%nat] init in
  let st1 := disconnectApi st in
  let st3 := @run decimal_builtins [ClientClose 0%nat; TimerFire 0%nat] st1 in
  mqttClients st !! serialNumber demoPrinter = Some 0%nat
  /\ mqttClients st1 = ∅
  /\ clients st3 = clients (@handle decimal_builtins (ClientClose 0%nat) st1)
                   ++ [{| c_printer := demoPrinter; c_phase := Connecting |}].
Proof.
  intros st st1 st3.
  assert (Hreg : mqttClients st !! serialNumber demoPrinter = Some 0%nat)
    by (vm_compute; reflexivity).
  split; [exact Hreg |].
  destruct (@disconnect_does_not_stop_reconnect decimal_builtins
              [PrinterAdd demoPrinter; ClientConnect 0%nat] _ _ Hreg)
    as (Hm & _ & _ & _ & _ & _ & cached & Hcached & Hcl).
  split; [exact Hm |].
  assert (Hc : cached = demoPrinter).
  { fold st in Hcached. vm_compute in Hcached. now injection Hcached as <-. }
  rewrite Hc in Hcl. exact Hcl.
Defined.

(** ** Further instances *)

Lemma external_spools_witness :
  vir_slot amsReport = Some [blankTray; plaTray; colourTray]
  /\ Forall (fun s => is_Some (sp_id s)) (@parseExternalSpools decimal_builtins amsReport)
  /\ (length (@parseExternalSpools decimal_builtins amsReport) <= 3)%nat.
Proof.
  split; [reflexivity |].
  destruct (proj1 (proj2 (@external_spools decimal_builtins amsReport))
              blankTray [plaTray; colourTray] eq_refl) as (Hid & Hlen & _).
  split; [exact Hid | exact Hlen].
Defined.

Lemma cameraDelay_values_witness :
  (6 <= 9)%nat /\ cameraDelay 9 = 30000000 /\ cameraDelay 2 <= cameraDelay 9.
Proof.
  split; [lia |]. split.
  - apply (proj1 (proj2 cameraDelay_values)). lia.
  - apply (proj1 (proj2 (proj2 cameraDelay_values))). lia.
Defined.

(** ** A printer removed while its stream waits for the relay *)

Lemma endViewers_relay cls st :
  pendingStreams (fold_left (fun st v => endViewer v st) cls st) = pendingStreams st
  /\ cameraUrls (fold_left (fun st v => endViewer v st) cls st) = cameraUrls st
  /\ cameraStreams (fold_left (fun st v => endViewer v st) cls st) = cameraStreams st.
Proof.
  revert st. induction cls as [| v cls IH]; intros st; cbn [fold_left];
    [conjs; reflexivity |].
  destruct (IH (endViewer v st)) as (-> & -> & ->). conjs; reflexivity.
Qed.

Lemma stopJpegStream_relay serial st :
  pendingStreams (stopJpegStream serial st) = pendingStreams st
  /\ cameraUrls (stopJpegStream serial st) = cameraUrls st
  /\ cameraStreams (stopJpegStream serial st) = cameraStreams st.
Proof.
  unfold stopJpegStream. destruct (jpegStreams st !! serial) as [sid |];
    [| conjs; reflexivity].
  cbv zeta. cbn [pendingStreams cameraUrls cameraStreams setJpegStreams].
  destruct (streamObjs st !! sid) as [stream |]; [| conjs; reflexivity].
  match goal with
  | |- context [fold_left _ (cs_clients stream) ?X] =>
      destruct (endViewers_relay (cs_clients stream) X) as (-> & -> & ->)
  end.
  destruct (cs_socket stream), (cs_watchdogTimer stream); conjs; reflexivity.
Qed.

(** X23.  The camera part of [printer:remove] deletes the camera URL, the
    relay entry and the stream of the serial, but not a stream of the
    serial that waits in the queue of the relay: when the relay becomes
    ready, the removed printer gets its relay entry and its camera URL
    back. *)
Theorem queued_stream_survives_removal (st : Cam) (s : PendingStream) (now : Z) :
  s ∈ pendingStreams st ->
  viaRelay s = true ->
  let st1 := removeCamera (ps_serial s) st in
  let st2 := onRelayReady now st1 in
  cameraUrls st1 !! ps_serial s = None
  /\ cameraStreams st1 !! streamName (ps_serial s) = None
  /\ jpegStreams st1 !! ps_serial s = None
  /\ s ∈ pendingStreams st1
  /\ is_Some (cameraStreams st2 !! streamName (ps_serial s))
  /\ is_Some (cameraUrls st2 !! ps_serial s).
Proof.
  intros Hin Hvia st1 st2.
  set (st0 := setCameraStreams (delete (streamName (ps_serial s)) (cameraStreams st))
                (setCameraUrls (delete (ps_serial s) (cameraUrls st)) st)).
  assert (Hst1 : st1 = stopJpegStream (ps_serial s) st0) by reflexivity.
  destruct (stopJpegStream_relay (ps_serial s) st0) as (Hp & Hu & Hc).
  destruct (stopJpegStream_net (ps_serial s) st0) as [Hj _].
  rewrite <- Hst1 in Hp, Hu, Hc, Hj.
  assert (Hin1 : s ∈ pendingStreams st1) by (rewrite Hp; exact Hin).
  split; [rewrite Hu; apply lookup_delete_eq |].
  split; [rewrite Hc; apply lookup_delete_eq |].
  split; [rewrite Hj; apply lookup_delete_eq |].
  split; [exact Hin1 |].
  subst st2. unfold onRelayReady. cbv zeta. cbn [pendingStreams setGo2rtcReady].
  destruct (pendingStreams st1) as [| c cs] eqn:Hpend;
    [now apply elem_of_nil in Hin1 |].
  destruct (addCameras_ready now (c :: cs) (setGo2rtcReady true st1) eq_refl)
    as (_ & _ & _ & _ & _ & _ & Hall).
  exact (Hall s Hin1 Hvia).
Qed.

Lemma queued_stream_survives_removal_witness :
  let st := addCamera 1000 (initCam "192.168.1.2") x1Camera in
  let st1 := removeCamera (ps_serial x1Camera) st in
  x1Camera ∈ pendingStreams st
  /\ cameraUrls st1 !! ps_serial x1Camera = None
  /\ is_Some (cameraUrls (onRelayReady 3000 st1) !! ps_serial x1Camera).
Proof.
  intros st st1.
  assert (Hin : x1Camera ∈ pendingStreams st) by apply list_elem_of_here.
  split; [exact Hin |].
  destruct (queued_stream_survives_removal st x1Camera 3000 Hin eq_refl)
    as (H1 & _ & _ & _ & _ & H2).
  split; [exact H1 | exact H2].
Defined.

(** ** Restart of the tunnel *)

(** X24.  The delay before the tunnel is started again doubles with
    every close in a row, from 5 s to 160 s, and is 300 s from the
    seventh close on (the comment above the formula names 5, 15, 30 and
    60 s); the closes of a row get the delays of the counter values in
    order. *)
Theorem tunnel_restart_delays (n attempts : nat) :
  tunnelCloses n attempts = tunnelDelay <$> seq attempts n
  /\ tunnelCloses 7 0 = [5000; 10000; 20000; 40000; 80000; 160000; 300000]
  /\ ((6 <= attempts)%nat -> tunnelDelay attempts = 300000)
  /\ 5000 <= tunnelDelay attempts <= 300000.
Proof.
  assert (Hpow : 1 <= 2 ^ Z.of_nat attempts) by (apply (Z.pow_le_mono_r 2 0); lia).
  split; [| split; [reflexivity | split]].
  - revert attempts Hpow. induction n as [| n IH]; intros attempts _; [reflexivity |].
    cbn [tunnelCloses onTunnelClose seq fmap list_fmap]. f_equal.
    apply IH. apply (Z.pow_le_mono_r 2 0); lia.
  - intros Hn. unfold tunnelDelay. apply Z.min_r.
    replace attempts with (6 + (attempts - 6))%nat by lia.
    rewrite Nat2Z.inj_add, Z.pow_add_r by lia.
    change (2 ^ Z.of_nat 6) with 64.
    assert (1 <= 2 ^ Z.of_nat (attempts - 6)) by (apply (Z.pow_le_mono_r 2 0); lia).
    nia.
  - unfold tunnelDelay. lia.
Qed.

Lemma tunnel_restart_delays_witness :
  (6 <= 8)%nat /\ tunnelDelay 8 = 300000.
Proof.
  split; [lia |]. apply (proj1 (proj2 (proj2 (tunnel_restart_delays 0 8)))). lia.
Defined.

(** ** The supervisor of the relay *)

Ltac relay_simpl :=
  cbn [rl_cam go2rtcProcess go2rtcIntentionalKill go2rtcWatchdogTimer
       go2rtcRestartTimer isQuitting relayProcs relayTimers
       setRlCam setGo2rtcProcess setGo2rtcIntentionalKill setGo2rtcWatchdogTimer
       setGo2rtcRestartTimer setIsQuitting setRelayProcs setRelayTimers
       spawn kill relaySetTimeout relayClearTimeout] in *.

Lemma quietTimers_app l kind :
  quietTimers l -> kind = RestartTimer \/ kind = SpawnTimer ->
  quietTimers (l ++ [{| rt_kind := kind; rt_status := Pending |}]).
Proof.
  intros Hq Hk. apply Forall_app. split; [exact Hq |].
  constructor; [| constructor]. intros _. exact Hk.
Qed.

Lemma quietTimers_clear (l : list RelayTimer) (i : nat) :
  quietTimers l ->
  quietTimers (alter (fun t => match rt_status t with
                               | Pending => withTimerStatus Cleared t
                               | _ => t
                               end) i l).
Proof.
  intros Hq. apply Forall_alter; [exact Hq |].
  intros t _ Ht. destruct (rt_status t) eqn:E; [| now rewrite E | now rewrite E].
  cbn. discriminate.
Qed.

Lemma quietTimers_fire (l : list RelayTimer) (i : nat) t :
  quietTimers l -> quietTimers (<[i := withTimerStatus Fired t]> l).
Proof.
  intros Hq. apply Forall_insert; [exact Hq |]. cbn. discriminate.
Qed.

Lemma supervisedAt_spawn p l :
  supervisedAt p l ->
  supervisedAt p (l ++ [{| pr_supervised := false; pr_status := ProcRunning |}]).
Proof.
  intros Hs q pr Hq Hsup Hst.
  apply lookup_app_Some in Hq as [Hq | [_ Hq]]; [exact (Hs _ _ Hq Hsup Hst) |].
  apply list_lookup_singleton_Some in Hq as [_ <-]. discriminate.
Qed.

Lemma supervisedAt_kill p (l : list RelayProc) (k : nat) :
  supervisedAt p l ->
  supervisedAt p (alter (fun pr => match pr_status pr with
                                   | ProcRunning => withProcStatus ProcKilled pr
                                   | _ => pr
                                   end) k l).
Proof.
  intros Hs q pr Hq Hsup Hst.
  destruct (decide (q = k)) as [-> | Hne].
  - destruct (l !! k) as [pr0 |] eqn:E.
    + rewrite list_lookup_alter_eq, E in Hq. cbn in Hq. injection Hq as <-.
      apply (Hs k pr0 E).
      * destruct (pr_status pr0); exact Hsup.
      * destruct (pr_status pr0) eqn:E1; cbn in Hst; try discriminate.
        rewrite E1 in Hst. exact Hst.
    + rewrite list_lookup_alter_eq, E in Hq. discriminate.
  - rewrite list_lookup_alter_ne in Hq by auto. exact (Hs _ _ Hq Hsup Hst).
Qed.

Lemma supervisedAt_close p (l : list RelayProc) (k : nat) pr :
  supervisedAt p l -> supervisedAt p (<[k := withProcStatus ProcClosed pr]> l).
Proof.
  intros Hs q pr' Hq Hsup Hst.
  apply list_lookup_insert_Some in Hq as [(-> & <- & _) | (_ & Hq)].
  - now contradict Hst.
  - exact (Hs _ _ Hq Hsup Hst).
Qed.

(** Closing the one supervised process that is left leaves none. *)
Lemma supervisedAt_close_last (p : nat) (l : list RelayProc) pr :
  supervisedAt (Some p) l ->
  supervisedAt None (<[p := withProcStatus ProcClosed pr]> l).
Proof.
  intros Hs q pr' Hq Hsup Hst.
  apply list_lookup_insert_Some in Hq as [(-> & <- & _) | (Hne & Hq)].
  - now contradict Hst.
  - specialize (Hs _ _ Hq Hsup Hst). congruence.
Qed.

Lemma kill_lookup (l : list RelayProc) (k p : nat) pr :
  l !! p = Some pr -> pr_supervised pr = true -> pr_status pr <> ProcClosed ->
  exists pr', alter (fun pr => match pr_status pr with
                               | ProcRunning => withProcStatus ProcKilled pr
                               | _ => pr
                               end) k l !! p = Some pr'
              /\ pr_supervised pr' = true /\ pr_status pr' <> ProcClosed.
Proof.
  intros Hp Hsup Hst.
  destruct (decide (p = k)) as [-> | Hne].
  - rewrite list_lookup_alter_eq, Hp. cbn.
    destruct (pr_status pr) eqn:E; eexists; (split; [reflexivity |]); cbn;
      split; auto; try discriminate; now rewrite E.
  - rewrite list_lookup_alter_ne by auto. now exists pr.
Qed.

Lemma endViewers_ready cls st :
  go2rtcReady (fold_left (fun st v => endViewer v st) cls st) = go2rtcReady st
  /\ relayPuts (fold_left (fun st v => endViewer v st) cls st) = relayPuts st.
Proof.
  revert st. induction cls as [| v cls IH]; intros st; cbn [fold_left];
    [conjs; reflexivity |].
  destruct (IH (endViewer v st)) as (-> & ->). conjs; reflexivity.
Qed.

Lemma removeCamera_ready serial st :
  go2rtcReady (removeCamera serial st) = go2rtcReady st
  /\ relayPuts (removeCamera serial st) = relayPuts st
  /\ pendingStreams (removeCamera serial st) = pendingStreams st.
Proof.
  unfold removeCamera. cbv zeta.
  destruct (stopJpegStream_relay serial
              (setCameraStreams (delete (streamName serial) (cameraStreams st))
                 (setCameraUrls (delete serial (cameraUrls st)) st))) as (Hp & _ & _).
  split; [| split; [| exact Hp]].
  - unfold stopJpegStream.
    match goal with |- context [jpegStreams ?X !! serial] => set (st0 := X) end.
    destruct (jpegStreams st0 !! serial) as [sid |]; [| reflexivity].
    cbv zeta. cbn [go2rtcReady setJpegStreams].
    destruct (streamObjs st0 !! sid) as [stream |]; [| reflexivity].
    match goal with
    | |- context [fold_left _ (cs_clients stream) ?X] =>
        destruct (endViewers_ready (cs_clients stream) X) as (-> & _)
    end.
    destruct (cs_socket stream), (cs_watchdogTimer stream); reflexivity.
  - unfold stopJpegStream.
    match goal with |- context [jpegStreams ?X !! serial] => set (st0 := X) end.
    destruct (jpegStreams st0 !! serial) as [sid |]; [| reflexivity].
    cbv zeta. cbn [relayPuts setJpegStreams].
    destruct (streamObjs st0 !! sid) as [stream |]; [| reflexivity].
    match goal with
    | |- context [fold_left _ (cs_clients stream) ?X] =>
        destruct (endViewers_ready (cs_clients stream) X) as (_ & ->)
    end.
    destruct (cs_socket stream), (cs_watchdogTimer stream); reflexivity.
Qed.

(** What one event does once the relay is abandoned. *)
Lemma abandoned_step e st :
  abandoned st ->
  abandoned (relayHandle e st)
  /\ relayPuts (rl_cam (relayHandle e st)) = relayPuts (rl_cam st)
  /\ pendingStreams (rl_cam (relayHandle e st))
     = pendingStreams (rl_cam st) ++ List.filter viaRelay (asked [e]).
Proof.
  intros (Hready & Htimers & Hprocs). unfold abandoned, noStart, onlySupervised in *.
  destruct e as [p | i found writeOk now | | s now | serial |]; cbn [relayHandle asked omap list_omap List.filter];
    rewrite ?app_nil_r.
  - unfold onRelayClose. destruct (relayProcs st !! p) as [pr |] eqn:Hp; [| auto].
    destruct (pr_supervised pr) eqn:Hsup.
    + destruct (pr_status pr) eqn:Hst; [| | auto];
        (assert (None = Some p) as Habs
           by (apply (Hprocs p pr Hp Hsup); rewrite Hst; discriminate); discriminate).
    + destruct (pr_status pr) eqn:Hst; [| | auto]; cbv zeta; cbn [negb]; relay_simpl;
        (split; [split; [exact Hready | split; [exact Htimers |]] | auto]);
        now apply supervisedAt_close.
  - unfold onRelayTimer. destruct (relayTimers st !! i) as [t |] eqn:Hi; [| auto].
    destruct (rt_status t) eqn:Hst; [| auto | auto].
    assert (Hkind : rt_kind t = RestartTimer \/ rt_kind t = SpawnTimer).
    { unfold quietTimers in Htimers. rewrite Forall_lookup in Htimers.
      exact (Htimers i t Hi Hst). }
    cbv zeta.
    destruct Hkind as [-> | ->].
    + unfold restartGo2rtcWithAllStreams. destruct writeOk; cbn [negb]; cbv zeta; relay_simpl.
      * destruct (go2rtcProcess st) as [p |]; relay_simpl;
          (split; [split; [exact Hready | split] | auto]);
          try (apply quietTimers_app; [now apply quietTimers_fire | now right]);
          try exact Hprocs.
        now apply supervisedAt_kill.
      * split; [split; [exact Hready | split; [now apply quietTimers_fire | exact Hprocs]]
               | auto].
    + unfold startGo2rtcWithConfig. destruct found; cbn [negb]; cbv zeta; relay_simpl.
      * split; [split; [exact Hready | split; [now apply quietTimers_fire |]] | auto].
        now apply supervisedAt_spawn.
      * split; [split; [exact Hready | split; [now apply quietTimers_fire | exact Hprocs]]
               | auto].
  - unfold onPutFailed. cbv zeta.
    destruct (go2rtcRestartTimer st) as [i |]; relay_simpl;
      (split; [split; [exact Hready | split; [| exact Hprocs]] | auto]);
      apply quietTimers_app; auto. now apply quietTimers_clear.
  - relay_simpl.
    destruct (addCamera_relay now (rl_cam st) s) as (Hg & _ & _ & _ & _ & Hoff & _).
    destruct (Hoff Hready) as (Hp & Hr).
    split; [split; [congruence | split; [exact Htimers | exact Hprocs]] |].
    split; [exact Hr |]. rewrite Hp. now destruct (viaRelay s).
  - relay_simpl.
    destruct (removeCamera_ready serial (rl_cam st)) as (Hg & Hr & Hp).
    split; [split; [congruence | split; [exact Htimers | exact Hprocs]] |].
    split; [exact Hr | exact Hp].
  - unfold onRelayQuit. cbv zeta. relay_simpl.
    destruct (go2rtcWatchdogTimer st) as [w |]; relay_simpl;
      destruct (go2rtcProcess st) as [p |]; relay_simpl;
      (split; [split; [exact Hready | split] | auto]);
      try exact Htimers; try exact Hprocs;
      try (now apply quietTimers_clear); now apply supervisedAt_kill.
Qed.

Lemma abandoned_run es :
  forall st, abandoned st ->
    abandoned (relayRun es st)
    /\ relayPuts (rl_cam (relayRun es st)) = relayPuts (rl_cam st)
    /\ pendingStreams (rl_cam (relayRun es st))
       = pendingStreams (rl_cam st) ++ List.filter viaRelay (asked es).
Proof.
  induction es as [| e es IH]; intros st Hab.
  - cbn. rewrite app_nil_r. auto.
  - destruct (abandoned_step e st Hab) as (Hab1 & Hr1 & Hp1).
    destruct (IH _ Hab1) as (Hab2 & Hr2 & Hp2).
    change (relayRun (e :: es) st) with (relayRun es (relayHandle e st)).
    split; [exact Hab2 |]. split; [congruence |].
    rewrite Hp2, Hp1, <- app_assoc. f_equal.
    change (e :: es) with ([e] ++ es). unfold asked.
    now rewrite omap_app, List.filter_app.
Qed.

(** Before the doomed process closes, an event keeps it doomed, or is
    its close. *)
Lemma doomed_step e p st :
  doomed p st -> doomed p (relayHandle e st) \/ abandoned (relayHandle e st).
Proof.
  intros (Hflag & Htimers & Hprocs & pr & Hp & Hsup & Hst).
  unfold doomed, abandoned, noStart, onlySupervised in *.
  destruct e as [q | i found writeOk now | | s now | serial |]; cbn [relayHandle].
  - unfold onRelayClose. destruct (relayProcs st !! q) as [pq |] eqn:Hq;
      [| left; eauto 10].
    destruct (pr_status pq) eqn:Hstq; [| | left; eauto 10].
    all: destruct (pr_supervised pq) eqn:Hsupq; cbv zeta; cbn [negb]; relay_simpl.
    all: try (assert (q = p) as ->
                by (assert (Some p = Some q) as [= ->]
                      by (apply (Hprocs q pq Hq Hsupq); rewrite Hstq; discriminate);
                    reflexivity);
              rewrite Hflag; relay_simpl; right;
              split; [reflexivity | split; [exact Htimers |]];
              now apply supervisedAt_close_last).
    all: left; split; [exact Hflag | split; [exact Htimers | split;
           [now apply supervisedAt_close |]]];
         exists pr; split; [| auto];
         rewrite list_lookup_insert_ne; [exact Hp | congruence].
  - unfold onRelayTimer. destruct (relayTimers st !! i) as [t |] eqn:Hi;
      [| left; eauto 10].
    destruct (rt_status t) eqn:Hstt; [| left; eauto 10 | left; eauto 10].
    assert (Hkind : rt_kind t = RestartTimer \/ rt_kind t = SpawnTimer).
    { unfold quietTimers in Htimers. rewrite Forall_lookup in Htimers.
      exact (Htimers i t Hi Hstt). }
    cbv zeta. left.
    destruct Hkind as [-> | ->].
    + unfold restartGo2rtcWithAllStreams. destruct writeOk; cbn [negb]; cbv zeta; relay_simpl.
      * destruct (go2rtcProcess st) as [k |]; relay_simpl.
        -- split; [reflexivity |].
           split; [apply quietTimers_app; [now apply quietTimers_fire | now right] |].
           split; [now apply supervisedAt_kill |].
           now apply (kill_lookup _ k p pr).
        -- split; [reflexivity |].
           split; [apply quietTimers_app; [now apply quietTimers_fire | now right] |].
           split; [exact Hprocs | eauto].
      * split; [exact Hflag | split; [now apply quietTimers_fire | split; eauto]].
    + unfold startGo2rtcWithConfig. destruct found; cbn [negb]; cbv zeta; relay_simpl.
      * split; [exact Hflag | split; [now apply quietTimers_fire |]].
        split; [now apply supervisedAt_spawn |].
        exists pr. split; [| auto]. apply lookup_app_l_Some. exact Hp.
      * split; [exact Hflag | split; [now apply quietTimers_fire | split; eauto]].
  - left. unfold onPutFailed. cbv zeta.
    destruct (go2rtcRestartTimer st) as [i |]; relay_simpl;
      (split; [exact Hflag | split; [| split; eauto]]);
      apply quietTimers_app; auto. now apply quietTimers_clear.
  - left. relay_simpl. eauto 10.
  - left. relay_simpl. eauto 10.
  - left. unfold onRelayQuit. cbv zeta. relay_simpl.
    destruct (go2rtcWatchdogTimer st) as [w |]; relay_simpl;
      destruct (go2rtcProcess st) as [k |]; relay_simpl;
      (split; [exact Hflag | split; [| split]]);
      try exact Htimers; try exact Hprocs; eauto;
      try (now apply quietTimers_clear); try (now apply supervisedAt_kill);
      try (now apply (kill_lookup _ k p pr)).
Qed.

Lemma doomed_close p st :
  doomed p st -> abandoned (relayHandle (RelayClose p) st).
Proof.
  intros (Hflag & Htimers & Hprocs & pr & Hp & Hsup & Hst).
  unfold abandoned, noStart, onlySupervised in *.
  cbn [relayHandle]. unfold onRelayClose. rewrite Hp.
  destruct (pr_status pr) eqn:E; [| | now contradict Hst];
    rewrite Hsup; cbv zeta; cbn [negb]; relay_simpl; rewrite Hflag; relay_simpl;
    (split; [reflexivity | split; [exact Htimers |]]);
    now apply supervisedAt_close_last.
Qed.

Lemma doomed_run es p :
  forall st, doomed p st \/ abandoned st ->
    doomed p (relayRun es st) \/ abandoned (relayRun es st).
Proof.
  induction es as [| e es IH]; intros st H; [exact H |].
  change (relayRun (e :: es) st) with (relayRun es (relayHandle e st)).
  apply IH. destruct H as [H | H].
  - now apply doomed_step.
  - right. now apply abandoned_step.
Qed.

(** X25.  The restart of the relay with all streams in its configuration
    leaves the relay marked as not ready for good: once the restart ran
    and the process started by [startGo2rtc] has closed, whatever happens
    in between and afterwards, the relay is never marked as ready again,
    no request is sent to it any more, and every stream of a printer
    outside the A1 and P1 series that is asked for from then on is put
    on the queue and stays there.  This is for a restart timer that
    fires while the process started by [startGo2rtc] is the only one
    with a [close] handler that has not closed, and while no watchdog or
    ready timer is pending ([onlySupervised], [noStart]); a ready timer
    that is still pending when the restart runs would mark the relay as
    ready once more. *)
Theorem fallback_restart_abandons_relay
    (st : Relay) (i p : nat) (pr : RelayProc) (found : bool) (now : Z)
    (es1 es2 : list RelayEvent) :
  relayTimers st !! i = Some {| rt_kind := RestartTimer; rt_status := Pending |} ->
  relayProcs st !! p = Some pr ->
  pr_supervised pr = true ->
  pr_status pr <> ProcClosed ->
  onlySupervised (Some p) st ->
  noStart st ->
  let st1 := relayRun (RelayTimerFire i found true now :: es1 ++ [RelayClose p]) st in
  let st2 := relayRun es2 st1 in
  go2rtcReady (rl_cam st2) = false
  /\ relayPuts (rl_cam st2) = relayPuts (rl_cam st1)
  /\ pendingStreams (rl_cam st2)
     = pendingStreams (rl_cam st1) ++ List.filter viaRelay (asked es2).
Proof.
  intros Hi Hp Hsup Hst Hprocs Htimers st1 st2.
  assert (Hd : doomed p (relayHandle (RelayTimerFire i found true now) st)).
  { cbn [relayHandle]. unfold onRelayTimer. rewrite Hi. cbn [rt_status rt_kind].
    cbv zeta. unfold restartGo2rtcWithAllStreams. cbn [negb]. cbv zeta.
    unfold doomed, noStart, onlySupervised in *. relay_simpl.
    destruct (go2rtcProcess st) as [k |]; relay_simpl.
    - split; [reflexivity |].
      split; [apply quietTimers_app; [now apply quietTimers_fire | now right] |].
      split; [now apply supervisedAt_kill |].
      now apply (kill_lookup _ k p pr).
    - split; [reflexivity |].
      split; [apply quietTimers_app; [now apply quietTimers_fire | now right] |].
      split; [exact Hprocs | eauto]. }
  assert (Hab : abandoned st1).
  { subst st1.
    change (relayRun (RelayTimerFire i found true now :: es1 ++ [RelayClose p]) st)
      with (relayRun (es1 ++ [RelayClose p])
              (relayHandle (RelayTimerFire i found true now) st)).
    unfold relayRun. rewrite fold_left_app. cbn [fold_left].
    destruct (doomed_run es1 p _ (or_introl Hd)) as [H | H].
    - now apply doomed_close.
    - now apply abandoned_step. }
  destruct (abandoned_run es2 st1 Hab) as ((Hready & _) & Hr & Hq).
  split; [exact Hready | split; [exact Hr | exact Hq]].
Qed.

Lemma fallback_restart_abandons_relay_witness :
  let st1 := relayRun [RelayTimerFire 1 true true 4500;
                       RelayTimerFire 2 true true 5000; RelayClose 0] failedPutRelay in
  let st2 := relayRun [RelayAddCamera x1Camera 9000] st1 in
  go2rtcReady (rl_cam failedPutRelay) = true
  /\ go2rtcReady (rl_cam st2) = false
  /\ pendingStreams (rl_cam st2) = pendingStreams (rl_cam st1) ++ [x1Camera].
Proof.
  intros st1 st2. split; [reflexivity |].
  assert (Hs : onlySupervised (Some 0%nat) failedPutRelay).
  { intros q pr Hq _ _. destruct q as [| q]; [reflexivity | discriminate Hq]. }
  assert (Ht : noStart failedPutRelay).
  { repeat constructor; cbn; try discriminate; auto. }
  destruct (fallback_restart_abandons_relay failedPutRelay 1 0
              {| pr_supervised := true; pr_status := ProcRunning |} true 4500
              [RelayTimerFire 2 true true 5000] [RelayAddCamera x1Camera 9000]
              eq_refl eq_refl eq_refl ltac:(discriminate) Hs Ht) as (H1 & _ & H2).
  split; [exact H1 | exact H2].
Defined.




